(** * vk_timeline_semaphore: the batch scheduler and its timeline clock

    A shallow embedding of the host-side scheduling code of
    [timeline_semaphore_main.cpp] and [compute.cpp]:
    [computeDrawCommandsTwoQueues], [computeDrawCommandsGctOnly],
    [makeDebugColors], [computeCmdFillChunkBatch], [computeReplaceEquation],
    [setupMcubesImagePipeline] and the body of the frame loop of [main];
    and of the part of [gui.cpp] that feeds it: [Gui::charCallbackImpl],
    [Gui::setEquation] and [Gui::getMcubesJobs].

    The program's file-scope variables are the fields of [Globals].  Calls
    into Vulkan are appended to a call trace ([vk_calls]); a queue submission
    carries the commands that were recorded into its command buffer.
    Fixed-width unsigned arithmetic is done on [Z] with the wrap-around
    written out.  [assert], an access outside an array and a division by
    zero stop the computation with a [Fault]. *)

From Stdlib Require Import ZArith Lia Bool Ascii String.
From Stdlib Require Import Floats.SpecFloat.
From stdpp Require Import base numbers list relations.

Local Open Scope Z_scope.

(** ** Machine integers *)

Definition to_uint32 (z : Z) : Z := z mod 2 ^ 32.
Definition to_uint64 (z : Z) : Z := z mod 2 ^ 64.

(** [int32_t(z)], in two's complement. *)
Definition to_int32 (z : Z) : Z := (z + 2 ^ 31) mod 2 ^ 32 - 2 ^ 31.

(** [glm::clamp(x, minVal, maxVal)] is [min(max(x, minVal), maxVal)]. *)
Definition glm_clamp (x minVal maxVal : Z) : Z := Z.min (Z.max x minVal) maxVal.

(** ** Constants of mcubes_chunk.hpp and gui.hpp *)

Definition MCUBES_MAX_CHUNKS_PER_BATCH : Z := 6.
Definition MCUBES_CHUNK_COUNT : Z := 12.

Definition chunkDebugViewOff : Z := 0.
Definition chunkDebugViewBounds : Z := 1.
Definition chunkDebugViewBatch : Z := 2.
Definition chunkDebugViewChunkIndex : Z := 3.

(** ** Faults and the error monad *)

Inductive Fault : Set :=
| AssertionFailure
| OutOfBounds
| UninitializedRead
| DivisionByZero.

Inductive Outcome (A : Type) : Type :=
| Ok (a : A)
| Abort (f : Fault).

Arguments Ok {A} a.
Arguments Abort {A} f.

Definition bind {A B : Type} (m : Outcome A) (k : A -> Outcome B) : Outcome B :=
  match m with
  | Ok a => k a
  | Abort f => Abort f
  end.

Notation "x <- m ;; k" := (bind m (fun x => k))
  (at level 100, m at next level, right associativity).

Definition assert (b : bool) : Outcome unit :=
  if b then Ok tt else Abort AssertionFailure.

(** Unsigned division; the divisor of the source is a run-time value. *)
Definition udiv (a b : Z) : Outcome Z :=
  if b =? 0 then Abort DivisionByZero else Ok (a / b).

(** [for (i = lo; i < hi; ++i) body] with the loop state threaded through. *)
Fixpoint for_loop {T : Type} (n : nat) (i : Z) (body : Z -> T -> Outcome T) (s : T)
  : Outcome T :=
  match n with
  | O => Ok s
  | S n' => s' <- body i s ;; for_loop n' (i + 1) body s'
  end.

Definition for_range {T : Type} (lo hi : Z) (body : Z -> T -> Outcome T) (s : T)
  : Outcome T :=
  for_loop (Z.to_nat (hi - lo)) lo body s.

(** ** Arrays *)

(** A C array of fixed capacity whose cells start uninitialised. *)
Abbreviation CArray A := (list (option A)) (only parsing).

Definition newCArray {A : Type} (capacity : Z) : CArray A :=
  replicate (Z.to_nat capacity) None.

Definition carray_write {A : Type} (a : CArray A) (i : Z) (v : A) : Outcome (CArray A) :=
  if (0 <=? i) && (i <? Z.of_nat (length a))
  then Ok (<[Z.to_nat i := Some v]> a)
  else Abort OutOfBounds.

Definition carray_read {A : Type} (a : CArray A) (i : Z) : Outcome A :=
  if 0 <=? i
  then match a !! Z.to_nat i with
       | Some (Some v) => Ok v
       | Some None => Abort UninitializedRead
       | None => Abort OutOfBounds
       end
  else Abort OutOfBounds.

(** The first [count] cells, as a callee that is handed the array reads them. *)
Fixpoint carray_prefix {A : Type} (a : CArray A) (count : nat) (i : Z) : Outcome (list A) :=
  match count with
  | O => Ok []
  | S c =>
      v <- carray_read a i ;;
      vs <- carray_prefix a c (i + 1) ;;
      Ok (v :: vs)
  end.

(** The two-element per-frame arrays, indexed by [g_frameNumber & 1u]. *)
Definition at2 {A : Type} (p : A * A) (i : Z) : A :=
  if i =? 0 then fst p else snd p.

Definition upd2 {A : Type} (p : A * A) (i : Z) (v : A) : A * A :=
  if i =? 0 then (v, snd p) else (fst p, v).

(** [std::vector] element range [&v[start] .. &v[start + count)]. *)
Definition vector_range {A : Type} (v : list A) (start count : Z) : Outcome (list A) :=
  if (0 <=? start) && (0 <=? count) && (start + count <=? Z.of_nat (length v))
  then Ok (take (Z.to_nat count) (drop (Z.to_nat start) v))
  else Abort OutOfBounds.

(** ** Vulkan objects *)

Definition VkCommandBuffer : Set := Z.
Definition VkPipeline : Set := Z.
Definition VkShaderModule : Set := Z.
Definition VK_NULL_HANDLE : Z := 0.

Inductive VkQueue : Set := g_gctQueue | g_computeQueue.

Inductive VkSemaphore : Set :=
| s_computeDoneTimelineSemaphore
| s_graphicsDoneTimelineSemaphore.

Inductive VkCommandPool : Set :=
| s_frameComputePools (i : Z)
| s_frameGraphicsPools (i : Z).

Inductive VkFence : Set :=
| s_frameGraphicsPoolFences (i : Z).

(** What [makeDebugColors] derives a colour from: the floating-point colour is
    a function of these integers and is not computed here. *)
Inductive McubesDebugViewPushConstant : Set :=
| BatchColor (batchMod5 batchDiv5Mod8 : Z)
| ChunkColor (relMod5 relDiv5 : Z).

Section Scheduler.

(** A job descriptor (offset, t, size); the scheduler never looks inside. *)
Context {McubesParams : Type}.

(** Commands recorded into a command buffer.  [CmdFillChunkBatch] stands for
    the barriers and dispatches of [computeCmdFillChunkBatch]: the image
    pipeline it binds, and the chunks and parameters it reads. *)
Inductive Cmd : Type :=
| CmdPrepareFrame
| CmdFillChunkBatch (imagePipeline : VkPipeline) (chunks : list Z)
    (params : list McubesParams)
| CmdPipelineBarrier
| CmdDrawMcubesGeometryBatch (chunks : list Z)
    (debugBoxes : option (list McubesParams))
    (debugColors : option (list McubesDebugViewPushConstant))
| CmdDrawImGui.

(** [VkSubmitInfo] with its [VkTimelineSemaphoreSubmitInfo]: at most one
    semaphore to wait for and one to signal, each with its timeline value. *)
Record VkSubmitInfo : Type := {
  waitSemaphore : option (VkSemaphore * Z);
  commandBuffer : VkCommandBuffer;
  commands : list Cmd;
  signalSemaphore : option (VkSemaphore * Z)
}.

Inductive VkCall : Type :=
| vkWaitSemaphoresKHR (computeDoneValue graphicsDoneValue : Z)
| vkWaitForFences (fence : VkFence)
| vkResetFences (fence : VkFence)
| vkResetCommandPool (pool : VkCommandPool)
| vkAllocateCommandBuffers (pool : VkCommandPool) (cmdBuf : VkCommandBuffer)
| vkQueueSubmit (queue : VkQueue) (submit : VkSubmitInfo) (fence : option VkFence)
| vkDeviceWaitIdle
| createShaderModule (prepend : string)
| vkDestroyPipeline (pipeline : VkPipeline)
| vkCreateComputePipelines (module : VkShaderModule) (pipeline : VkPipeline).

(** ** Program state *)

(** The fields of [Gui] that the frame loop reads or writes. *)
Record Gui : Type := {
  m_wantComputeQueue : bool;
  m_compileFailure : bool;
  m_wantSetEquation : bool;
  m_equationInput : string;
  m_batchSize : Z;
  m_chunkDebugViewMode : Z
}.

(** The file-scope variables.  [g_mcubesChunkArray] keeps each chunk's
    [timelineValue]; [vk_nextHandle] is the next handle the driver hands out
    and [vk_calls] is the trace of calls made so far. *)
Record Globals : Type := {
  g_frameNumber : Z;
  s_frameComputePoolWaitTimelineValues : Z * Z;
  s_frameGraphicsPoolWaitTimelineValues : Z * Z;
  s_frameComputeCmdBufs : list VkCommandBuffer * list VkCommandBuffer;
  s_frameGraphicsCmdBufs : list VkCommandBuffer * list VkCommandBuffer;
  s_upcomingTimelineValue : Z;
  s_mcubesChunkIndex : Z;
  s_useComputeQueue : bool;
  g_mcubesChunkArray : list Z;
  s_mcubesImagePipeline : VkPipeline;
  vk_nextHandle : Z;
  vk_calls : list VkCall
}.

Definition set_frameNumber (v : Z) (g : Globals) : Globals :=
  {| g_frameNumber := v;
     s_frameComputePoolWaitTimelineValues := s_frameComputePoolWaitTimelineValues g;
     s_frameGraphicsPoolWaitTimelineValues := s_frameGraphicsPoolWaitTimelineValues g;
     s_frameComputeCmdBufs := s_frameComputeCmdBufs g;
     s_frameGraphicsCmdBufs := s_frameGraphicsCmdBufs g;
     s_upcomingTimelineValue := s_upcomingTimelineValue g;
     s_mcubesChunkIndex := s_mcubesChunkIndex g;
     s_useComputeQueue := s_useComputeQueue g;
     g_mcubesChunkArray := g_mcubesChunkArray g;
     s_mcubesImagePipeline := s_mcubesImagePipeline g;
     vk_nextHandle := vk_nextHandle g;
     vk_calls := vk_calls g |}.

Definition set_computePoolWaits (v : Z * Z) (g : Globals) : Globals :=
  {| g_frameNumber := g_frameNumber g;
     s_frameComputePoolWaitTimelineValues := v;
     s_frameGraphicsPoolWaitTimelineValues := s_frameGraphicsPoolWaitTimelineValues g;
     s_frameComputeCmdBufs := s_frameComputeCmdBufs g;
     s_frameGraphicsCmdBufs := s_frameGraphicsCmdBufs g;
     s_upcomingTimelineValue := s_upcomingTimelineValue g;
     s_mcubesChunkIndex := s_mcubesChunkIndex g;
     s_useComputeQueue := s_useComputeQueue g;
     g_mcubesChunkArray := g_mcubesChunkArray g;
     s_mcubesImagePipeline := s_mcubesImagePipeline g;
     vk_nextHandle := vk_nextHandle g;
     vk_calls := vk_calls g |}.

Definition set_graphicsPoolWaits (v : Z * Z) (g : Globals) : Globals :=
  {| g_frameNumber := g_frameNumber g;
     s_frameComputePoolWaitTimelineValues := s_frameComputePoolWaitTimelineValues g;
     s_frameGraphicsPoolWaitTimelineValues := v;
     s_frameComputeCmdBufs := s_frameComputeCmdBufs g;
     s_frameGraphicsCmdBufs := s_frameGraphicsCmdBufs g;
     s_upcomingTimelineValue := s_upcomingTimelineValue g;
     s_mcubesChunkIndex := s_mcubesChunkIndex g;
     s_useComputeQueue := s_useComputeQueue g;
     g_mcubesChunkArray := g_mcubesChunkArray g;
     s_mcubesImagePipeline := s_mcubesImagePipeline g;
     vk_nextHandle := vk_nextHandle g;
     vk_calls := vk_calls g |}.

Definition set_computeCmdBufs (v : list VkCommandBuffer * list VkCommandBuffer)
  (g : Globals) : Globals :=
  {| g_frameNumber := g_frameNumber g;
     s_frameComputePoolWaitTimelineValues := s_frameComputePoolWaitTimelineValues g;
     s_frameGraphicsPoolWaitTimelineValues := s_frameGraphicsPoolWaitTimelineValues g;
     s_frameComputeCmdBufs := v;
     s_frameGraphicsCmdBufs := s_frameGraphicsCmdBufs g;
     s_upcomingTimelineValue := s_upcomingTimelineValue g;
     s_mcubesChunkIndex := s_mcubesChunkIndex g;
     s_useComputeQueue := s_useComputeQueue g;
     g_mcubesChunkArray := g_mcubesChunkArray g;
     s_mcubesImagePipeline := s_mcubesImagePipeline g;
     vk_nextHandle := vk_nextHandle g;
     vk_calls := vk_calls g |}.

Definition set_graphicsCmdBufs (v : list VkCommandBuffer * list VkCommandBuffer)
  (g : Globals) : Globals :=
  {| g_frameNumber := g_frameNumber g;
     s_frameComputePoolWaitTimelineValues := s_frameComputePoolWaitTimelineValues g;
     s_frameGraphicsPoolWaitTimelineValues := s_frameGraphicsPoolWaitTimelineValues g;
     s_frameComputeCmdBufs := s_frameComputeCmdBufs g;
     s_frameGraphicsCmdBufs := v;
     s_upcomingTimelineValue := s_upcomingTimelineValue g;
     s_mcubesChunkIndex := s_mcubesChunkIndex g;
     s_useComputeQueue := s_useComputeQueue g;
     g_mcubesChunkArray := g_mcubesChunkArray g;
     s_mcubesImagePipeline := s_mcubesImagePipeline g;
     vk_nextHandle := vk_nextHandle g;
     vk_calls := vk_calls g |}.

Definition set_upcomingTimelineValue (v : Z) (g : Globals) : Globals :=
  {| g_frameNumber := g_frameNumber g;
     s_frameComputePoolWaitTimelineValues := s_frameComputePoolWaitTimelineValues g;
     s_frameGraphicsPoolWaitTimelineValues := s_frameGraphicsPoolWaitTimelineValues g;
     s_frameComputeCmdBufs := s_frameComputeCmdBufs g;
     s_frameGraphicsCmdBufs := s_frameGraphicsCmdBufs g;
     s_upcomingTimelineValue := v;
     s_mcubesChunkIndex := s_mcubesChunkIndex g;
     s_useComputeQueue := s_useComputeQueue g;
     g_mcubesChunkArray := g_mcubesChunkArray g;
     s_mcubesImagePipeline := s_mcubesImagePipeline g;
     vk_nextHandle := vk_nextHandle g;
     vk_calls := vk_calls g |}.

Definition set_mcubesChunkIndex (v : Z) (g : Globals) : Globals :=
  {| g_frameNumber := g_frameNumber g;
     s_frameComputePoolWaitTimelineValues := s_frameComputePoolWaitTimelineValues g;
     s_frameGraphicsPoolWaitTimelineValues := s_frameGraphicsPoolWaitTimelineValues g;
     s_frameComputeCmdBufs := s_frameComputeCmdBufs g;
     s_frameGraphicsCmdBufs := s_frameGraphicsCmdBufs g;
     s_upcomingTimelineValue := s_upcomingTimelineValue g;
     s_mcubesChunkIndex := v;
     s_useComputeQueue := s_useComputeQueue g;
     g_mcubesChunkArray := g_mcubesChunkArray g;
     s_mcubesImagePipeline := s_mcubesImagePipeline g;
     vk_nextHandle := vk_nextHandle g;
     vk_calls := vk_calls g |}.

Definition set_useComputeQueue (v : bool) (g : Globals) : Globals :=
  {| g_frameNumber := g_frameNumber g;
     s_frameComputePoolWaitTimelineValues := s_frameComputePoolWaitTimelineValues g;
     s_frameGraphicsPoolWaitTimelineValues := s_frameGraphicsPoolWaitTimelineValues g;
     s_frameComputeCmdBufs := s_frameComputeCmdBufs g;
     s_frameGraphicsCmdBufs := s_frameGraphicsCmdBufs g;
     s_upcomingTimelineValue := s_upcomingTimelineValue g;
     s_mcubesChunkIndex := s_mcubesChunkIndex g;
     s_useComputeQueue := v;
     g_mcubesChunkArray := g_mcubesChunkArray g;
     s_mcubesImagePipeline := s_mcubesImagePipeline g;
     vk_nextHandle := vk_nextHandle g;
     vk_calls := vk_calls g |}.

Definition set_mcubesChunkArray (v : list Z) (g : Globals) : Globals :=
  {| g_frameNumber := g_frameNumber g;
     s_frameComputePoolWaitTimelineValues := s_frameComputePoolWaitTimelineValues g;
     s_frameGraphicsPoolWaitTimelineValues := s_frameGraphicsPoolWaitTimelineValues g;
     s_frameComputeCmdBufs := s_frameComputeCmdBufs g;
     s_frameGraphicsCmdBufs := s_frameGraphicsCmdBufs g;
     s_upcomingTimelineValue := s_upcomingTimelineValue g;
     s_mcubesChunkIndex := s_mcubesChunkIndex g;
     s_useComputeQueue := s_useComputeQueue g;
     g_mcubesChunkArray := v;
     s_mcubesImagePipeline := s_mcubesImagePipeline g;
     vk_nextHandle := vk_nextHandle g;
     vk_calls := vk_calls g |}.

Definition set_mcubesImagePipeline (v : VkPipeline) (g : Globals) : Globals :=
  {| g_frameNumber := g_frameNumber g;
     s_frameComputePoolWaitTimelineValues := s_frameComputePoolWaitTimelineValues g;
     s_frameGraphicsPoolWaitTimelineValues := s_frameGraphicsPoolWaitTimelineValues g;
     s_frameComputeCmdBufs := s_frameComputeCmdBufs g;
     s_frameGraphicsCmdBufs := s_frameGraphicsCmdBufs g;
     s_upcomingTimelineValue := s_upcomingTimelineValue g;
     s_mcubesChunkIndex := s_mcubesChunkIndex g;
     s_useComputeQueue := s_useComputeQueue g;
     g_mcubesChunkArray := g_mcubesChunkArray g;
     s_mcubesImagePipeline := v;
     vk_nextHandle := vk_nextHandle g;
     vk_calls := vk_calls g |}.

Definition set_nextHandle (v : Z) (g : Globals) : Globals :=
  {| g_frameNumber := g_frameNumber g;
     s_frameComputePoolWaitTimelineValues := s_frameComputePoolWaitTimelineValues g;
     s_frameGraphicsPoolWaitTimelineValues := s_frameGraphicsPoolWaitTimelineValues g;
     s_frameComputeCmdBufs := s_frameComputeCmdBufs g;
     s_frameGraphicsCmdBufs := s_frameGraphicsCmdBufs g;
     s_upcomingTimelineValue := s_upcomingTimelineValue g;
     s_mcubesChunkIndex := s_mcubesChunkIndex g;
     s_useComputeQueue := s_useComputeQueue g;
     g_mcubesChunkArray := g_mcubesChunkArray g;
     s_mcubesImagePipeline := s_mcubesImagePipeline g;
     vk_nextHandle := v;
     vk_calls := vk_calls g |}.

Definition set_calls (v : list VkCall) (g : Globals) : Globals :=
  {| g_frameNumber := g_frameNumber g;
     s_frameComputePoolWaitTimelineValues := s_frameComputePoolWaitTimelineValues g;
     s_frameGraphicsPoolWaitTimelineValues := s_frameGraphicsPoolWaitTimelineValues g;
     s_frameComputeCmdBufs := s_frameComputeCmdBufs g;
     s_frameGraphicsCmdBufs := s_frameGraphicsCmdBufs g;
     s_upcomingTimelineValue := s_upcomingTimelineValue g;
     s_mcubesChunkIndex := s_mcubesChunkIndex g;
     s_useComputeQueue := s_useComputeQueue g;
     g_mcubesChunkArray := g_mcubesChunkArray g;
     s_mcubesImagePipeline := s_mcubesImagePipeline g;
     vk_nextHandle := vk_nextHandle g;
     vk_calls := v |}.

(** A Vulkan call is made: it is appended to the trace. *)
Definition call (c : VkCall) (g : Globals) : Globals :=
  set_calls (vk_calls g ++ [c]) g.

(** ** compute.cpp *)

Definition newline : ascii := "010"%char.

(** [for(char& c : prepend) if(c == '\n') c = ' ';] *)
Fixpoint replaceNewlines (s : string) : string :=
  match s with
  | EmptyString => EmptyString
  | String c s' =>
      String (if Ascii.eqb c newline then " "%char else c) (replaceNewlines s')
  end.

(** The shader compiler ([g_pShaderCompiler]) is outside the program: it is a
    function from the text prepended to the shader to the module it hands
    back, [VK_NULL_HANDLE] when the compilation fails. *)
Definition ShaderCompiler : Type := string -> VkShaderModule.

Definition setupMcubesImagePipeline (compiler : ShaderCompiler) (prepend : string)
  (st : Globals) : bool * Globals :=
  let prepend := (replaceNewlines prepend ++ String newline EmptyString)%string in
  let st := call (createShaderModule prepend) st in
  let module := compiler prepend in
  if module =? VK_NULL_HANDLE then (false, st)
  else
    let st := call (vkDestroyPipeline (s_mcubesImagePipeline st)) st in
    (* makeComputePipeline(module, ..., &s_mcubesImagePipeline, ...) *)
    let pipeline := vk_nextHandle st in
    let st := set_nextHandle (pipeline + 1) st in
    let st := call (vkCreateComputePipelines module pipeline) st in
    (true, set_mcubesImagePipeline pipeline st).

Definition computeReplaceEquation (compiler : ShaderCompiler) (pEquation : string)
  (st : Globals) : bool * Globals :=
  setupMcubesImagePipeline compiler
    ("#define EQUATION(x, y, z, t) " ++ pEquation)%string st.

Definition computeCmdFillChunkBatch (st : Globals) (count : Z) (ppChunks : CArray Z)
  (paramsList : list McubesParams) (start : Z) : Outcome (list Cmd) :=
  _ <- assert (count <=? MCUBES_MAX_CHUNKS_PER_BATCH) ;;
  chunks <- carray_prefix ppChunks (Z.to_nat count) 0 ;;
  params <- vector_range paramsList start count ;;
  Ok [CmdFillChunkBatch (s_mcubesImagePipeline st) chunks params].

(** ** graphics.cpp *)

Definition graphicsCmdDrawMcubesGeometryBatch (count : Z) (ppChunks : CArray Z)
  (pDebugChunkBounds : option (list McubesParams))
  (pDebugViewColors : option (list McubesDebugViewPushConstant)) : Outcome (list Cmd) :=
  chunks <- carray_prefix ppChunks (Z.to_nat count) 0 ;;
  Ok [CmdDrawMcubesGeometryBatch chunks pDebugChunkBounds pDebugViewColors].

(** ** timeline_semaphore_main.cpp *)

Definition read_local {A : Type} (v : option A) : Outcome A :=
  match v with
  | Some a => Ok a
  | None => Abort UninitializedRead
  end.

(** [relativeChunkIndex] is an [int32_t]: both operands of the subtraction
    are converted with [int32_t()], and the result is kept in 32 bits. *)
Definition makeDebugColors (chunkDebugViewMode batchNumber firstChunkUsed chunkCount : Z)
  (chunkPointerArray : CArray Z) : Outcome (list McubesDebugViewPushConstant) :=
  if chunkDebugViewMode =? chunkDebugViewBatch then
    Ok (replicate (Z.to_nat chunkCount)
          (BatchColor (batchNumber mod 5) ((batchNumber / 5) mod 8)))
  else if chunkDebugViewMode =? chunkDebugViewChunkIndex then
    for_range 0 chunkCount
      (fun i result =>
         chunkIndex <- carray_read chunkPointerArray i ;;
         _ <- assert (chunkIndex <? MCUBES_CHUNK_COUNT) ;;
         let relativeChunkIndex :=
           to_int32 (to_int32 chunkIndex - to_int32 firstChunkUsed) in
         let relativeChunkIndex :=
           to_int32 (relativeChunkIndex
                     + (if relativeChunkIndex <? 0 then MCUBES_CHUNK_COUNT else 0)) in
         Ok (result ++ [ChunkColor (Z.rem relativeChunkIndex 5)
                                   (Z.quot relativeChunkIndex 5)]))
      []
  else Ok [].

(** [chunkPointerArray[localIndex]->timelineValue], read and written through a
    pointer into [g_mcubesChunkArray]. *)
Definition chunk_timelineValue (st : Globals) (pChunk : Z) : Outcome Z :=
  if 0 <=? pChunk
  then match g_mcubesChunkArray st !! Z.to_nat pChunk with
       | Some v => Ok v
       | None => Abort OutOfBounds
       end
  else Abort OutOfBounds.

Definition set_chunk_timelineValue (pChunk v : Z) (st : Globals) : Outcome Globals :=
  if (0 <=? pChunk) && (pChunk <? Z.of_nat (length (g_mcubesChunkArray st)))
  then Ok (set_mcubesChunkArray (<[Z.to_nat pChunk := v]> (g_mcubesChunkArray st)) st)
  else Abort OutOfBounds.

(** Allocate or recycle the command buffer number [nextCmdBufIndex] of a
    per-frame list. *)
Definition acquireCommandBuffer (pool : VkCommandPool) (cmdBufs : list VkCommandBuffer)
  (nextCmdBufIndex : Z) (st : Globals)
  : VkCommandBuffer * list VkCommandBuffer * Globals :=
  if nextCmdBufIndex <? Z.of_nat (length cmdBufs)
  then (default VK_NULL_HANDLE (cmdBufs !! Z.to_nat nextCmdBufIndex), cmdBufs, st)
  else
    let cmdBuf := vk_nextHandle st in
    let st := set_nextHandle (cmdBuf + 1) st in
    let st := call (vkAllocateCommandBuffers pool cmdBuf) st in
    (cmdBuf, cmdBufs ++ [cmdBuf], st).

(** One turn of the loop that selects the next [McubesChunk] of the ring
    buffer (the same loop in both schedulers). *)
Definition selectNextChunk (batch batchStart paramIndex : Z)
  (s : CArray Z * option Z * Globals) : Outcome (CArray Z * option Z * Globals) :=
  let '(chunkPointerArray, firstChunkUsed, st) := s in
  let localIndex := paramIndex - batchStart in
  let index := to_uint32 (s_mcubesChunkIndex st + 1) in
  let index := if index >=? MCUBES_CHUNK_COUNT then 0 else index in
  let st := set_mcubesChunkIndex index st in
  chunkPointerArray <- carray_write chunkPointerArray localIndex index ;;
  let firstChunkUsed :=
    if (localIndex =? 0) && (batch =? 0) then Some index else firstChunkUsed in
  Ok (chunkPointerArray, firstChunkUsed, st).

(** Locals of [computeDrawCommandsTwoQueues] that live across batches. *)
Record TwoQueuesLocals : Type := {
  nextCmdBufIndex : Z;
  computeWaitTimelineValue : Z;
  computeSignalTimelineValue : Z;
  graphicsWaitTimelineValue : Z;
  graphicsSignalTimelineValue : Z;
  firstChunkUsed : option Z
}.

Definition effectiveBatchSize (pGui : Gui) : Z :=
  glm_clamp (to_uint32 (m_batchSize pGui)) 1 MCUBES_MAX_CHUNKS_PER_BATCH.

Definition computeBatchCount (paramsList : list McubesParams) (batchSize : Z) : Outcome Z :=
  udiv (to_uint32 (to_uint64 (Z.of_nat (length paramsList) + batchSize - 1))) batchSize.

Definition batchStartOf (batch batchSize : Z) : Z := to_uint32 (batch * batchSize).

Definition batchEndOf (paramsList : list McubesParams) (batchStart batchSize : Z) : Z :=
  Z.min (to_uint32 (batchStart + batchSize)) (to_uint32 (Z.of_nat (length paramsList))).

Definition twoQueuesBatch (pGui : Gui) (paramsList : list McubesParams)
  (batchSize batchCount batch : Z) (s : TwoQueuesLocals * Globals)
  : Outcome (TwoQueuesLocals * Globals) :=
  let '(loc, st) := s in
  let frame := Z.land (g_frameNumber st) 1 in
  (* Allocate or recycle command buffers for batch. *)
  let '(batchComputeCmdBuf, ourComputeCmdBufs, st) :=
    acquireCommandBuffer (s_frameComputePools frame)
      (at2 (s_frameComputeCmdBufs st) frame) (nextCmdBufIndex loc) st in
  let st := set_computeCmdBufs (upd2 (s_frameComputeCmdBufs st) frame ourComputeCmdBufs) st in
  let '(batchGraphicsCmdBuf, ourGraphicsCmdBufs, st) :=
    acquireCommandBuffer (s_frameGraphicsPools frame)
      (at2 (s_frameGraphicsCmdBufs st) frame) (nextCmdBufIndex loc) st in
  let st := set_graphicsCmdBufs (upd2 (s_frameGraphicsCmdBufs st) frame ourGraphicsCmdBufs) st in
  let nextCmdBufIndex' := to_uint32 (nextCmdBufIndex loc + 1) in
  (* Start-of-frame commands. *)
  let graphicsCmds := if batch =? 0 then [CmdPrepareFrame] else [] in
  (* Record compute and draw commands for batch. *)
  let batchStart := batchStartOf batch batchSize in
  let batchEnd := batchEndOf paramsList batchStart batchSize in
  sel <- for_range batchStart batchEnd (selectNextChunk batch batchStart)
           (newCArray MCUBES_MAX_CHUNKS_PER_BATCH, firstChunkUsed loc, st) ;;
  let '(chunkPointerArray, firstChunkUsed', st) := sel in
  (* The value of s_graphicsDoneTimelineSemaphore to wait on. *)
  computeWaitTimelineValue' <-
    for_range batchStart batchEnd
      (fun paramIndex wait =>
         pChunk <- carray_read chunkPointerArray (paramIndex - batchStart) ;;
         timelineValue <- chunk_timelineValue st pChunk ;;
         Ok (Z.max wait timelineValue))
      (computeWaitTimelineValue loc) ;;
  computeCmds <- computeCmdFillChunkBatch st (to_uint32 (batchEnd - batchStart))
                   chunkPointerArray paramsList batchStart ;;
  let graphicsCmds := graphicsCmds ++ [CmdPipelineBarrier] in
  (* Graphics commands. *)
  st <- for_range batchStart batchEnd
          (fun paramIndex st =>
             pChunk <- carray_read chunkPointerArray (paramIndex - batchStart) ;;
             set_chunk_timelineValue pChunk (s_upcomingTimelineValue st) st)
          st ;;
  firstChunkUsedArg <- read_local firstChunkUsed' ;;
  debugColors <- makeDebugColors (m_chunkDebugViewMode pGui) batch firstChunkUsedArg
                   (to_uint32 (batchEnd - batchStart)) chunkPointerArray ;;
  let drawChunkBounds := negb (m_chunkDebugViewMode pGui =? chunkDebugViewOff) in
  pDebugBoxes <-
    (if drawChunkBounds
     then boxes <- vector_range paramsList batchStart (to_uint32 (batchEnd - batchStart)) ;;
          Ok (Some boxes)
     else Ok None) ;;
  draw <- graphicsCmdDrawMcubesGeometryBatch (to_uint32 (batchEnd - batchStart))
            chunkPointerArray pDebugBoxes
            (match debugColors with [] => None | _ => Some debugColors end) ;;
  let graphicsCmds := graphicsCmds ++ draw in
  let graphicsCmds :=
    if batch =? to_uint32 (batchCount - 1) then graphicsCmds ++ [CmdDrawImGui]
    else graphicsCmds in
  (* Circular dependency check. *)
  _ <- assert (computeWaitTimelineValue' <? s_upcomingTimelineValue st) ;;
  (* Compute submit. *)
  let computeSignalTimelineValue' := s_upcomingTimelineValue st in
  let st :=
    call (vkQueueSubmit g_computeQueue
            {| waitSemaphore := Some (s_graphicsDoneTimelineSemaphore, computeWaitTimelineValue');
               commandBuffer := batchComputeCmdBuf;
               commands := computeCmds;
               signalSemaphore := Some (s_computeDoneTimelineSemaphore, computeSignalTimelineValue') |}
            None) st in
  (* Graphics submit. *)
  let graphicsWaitTimelineValue' := s_upcomingTimelineValue st in
  let graphicsSignalTimelineValue' := s_upcomingTimelineValue st in
  let st :=
    call (vkQueueSubmit g_gctQueue
            {| waitSemaphore := Some (s_computeDoneTimelineSemaphore, graphicsWaitTimelineValue');
               commandBuffer := batchGraphicsCmdBuf;
               commands := graphicsCmds;
               signalSemaphore := Some (s_graphicsDoneTimelineSemaphore, graphicsSignalTimelineValue') |}
            None) st in
  (* For the last batch, remember when the command pools can be reset. *)
  let st :=
    if batch =? to_uint32 (batchCount - 1)
    then
      let st := set_computePoolWaits
                  (upd2 (s_frameComputePoolWaitTimelineValues st) frame
                     computeSignalTimelineValue') st in
      set_graphicsPoolWaits
        (upd2 (s_frameGraphicsPoolWaitTimelineValues st) frame
           graphicsSignalTimelineValue') st
    else st in
  let st := set_upcomingTimelineValue (to_uint64 (s_upcomingTimelineValue st + 1)) st in
  Ok ({| nextCmdBufIndex := nextCmdBufIndex';
         computeWaitTimelineValue := computeWaitTimelineValue';
         computeSignalTimelineValue := computeSignalTimelineValue';
         graphicsWaitTimelineValue := graphicsWaitTimelineValue';
         graphicsSignalTimelineValue := graphicsSignalTimelineValue';
         firstChunkUsed := firstChunkUsed' |}, st).

(** [paramsList] is the result of [pGui->getMcubesJobs()]. *)
Definition computeDrawCommandsTwoQueues (pGui : Gui) (paramsList : list McubesParams)
  (st : Globals) : Outcome Globals :=
  let frame := Z.land (g_frameNumber st) 1 in
  let st := call (vkWaitSemaphoresKHR (at2 (s_frameComputePoolWaitTimelineValues st) frame)
                    (at2 (s_frameGraphicsPoolWaitTimelineValues st) frame)) st in
  (* Reset command pools. *)
  let st := call (vkResetCommandPool (s_frameComputePools frame)) st in
  let st := call (vkResetCommandPool (s_frameGraphicsPools frame)) st in
  let loc := {| nextCmdBufIndex := 0;
                computeWaitTimelineValue := 0;
                computeSignalTimelineValue := 0;
                graphicsWaitTimelineValue := 0;
                graphicsSignalTimelineValue := 0;
                firstChunkUsed := None |} in
  (* Split the list of jobs into batches of up to batchSize McubesChunk jobs. *)
  let batchSize := effectiveBatchSize pGui in
  batchCount <- computeBatchCount paramsList batchSize ;;
  r <- for_range 0 batchCount (twoQueuesBatch pGui paramsList batchSize batchCount)
         (loc, st) ;;
  Ok (snd r).

Definition gctOnlyBatch (pGui : Gui) (paramsList : list McubesParams)
  (batchSize batchCount batch : Z) (s : Z * option Z * Globals)
  : Outcome (Z * option Z * Globals) :=
  let '(nextCmdBufIndex, firstChunkUsed, st) := s in
  let frame := Z.land (g_frameNumber st) 1 in
  (* Allocate or recycle new command buffer. *)
  let '(gctBatchCmdBuf, ourGraphicsCmdBufs, st) :=
    acquireCommandBuffer (s_frameGraphicsPools frame)
      (at2 (s_frameGraphicsCmdBufs st) frame) nextCmdBufIndex st in
  let st := set_graphicsCmdBufs (upd2 (s_frameGraphicsCmdBufs st) frame ourGraphicsCmdBufs) st in
  let nextCmdBufIndex := to_uint32 (nextCmdBufIndex + 1) in
  let cmds := if batch =? 0 then [CmdPrepareFrame] else [] in
  (* Record compute and draw commands for batch. *)
  let batchStart := batchStartOf batch batchSize in
  let batchEnd := batchEndOf paramsList batchStart batchSize in
  sel <- for_range batchStart batchEnd (selectNextChunk batch batchStart)
           (newCArray MCUBES_MAX_CHUNKS_PER_BATCH, firstChunkUsed, st) ;;
  let '(chunkPointerArray, firstChunkUsed, st) := sel in
  fill <- computeCmdFillChunkBatch st (to_uint32 (batchEnd - batchStart))
            chunkPointerArray paramsList batchStart ;;
  let cmds := cmds ++ fill ++ [CmdPipelineBarrier] in
  (* Graphics commands. *)
  firstChunkUsedArg <- read_local firstChunkUsed ;;
  debugColors <- makeDebugColors (m_chunkDebugViewMode pGui) batch firstChunkUsedArg
                   (to_uint32 (batchEnd - batchStart)) chunkPointerArray ;;
  let drawChunkBounds := negb (m_chunkDebugViewMode pGui =? chunkDebugViewOff) in
  pDebugBoxes <-
    (if drawChunkBounds
     then boxes <- vector_range paramsList batchStart (to_uint32 (batchEnd - batchStart)) ;;
          Ok (Some boxes)
     else Ok None) ;;
  draw <- graphicsCmdDrawMcubesGeometryBatch (to_uint32 (batchEnd - batchStart))
            chunkPointerArray pDebugBoxes
            (match debugColors with [] => None | _ => Some debugColors end) ;;
  let cmds := cmds ++ draw in
  (* A chunk filled in this batch must not be recycled for the next batch. *)
  _ <- assert (batchSize <=? MCUBES_CHUNK_COUNT / 2) ;;
  let cmds := if batch =? to_uint32 (batchCount - 1) then cmds ++ [CmdDrawImGui] else cmds in
  (* Last command buffer signals the fence. *)
  let gctSignalFence :=
    if batch =? to_uint32 (batchCount - 1) then Some (s_frameGraphicsPoolFences frame)
    else None in
  (* Submit command buffer. *)
  let st :=
    call (vkQueueSubmit g_gctQueue
            {| waitSemaphore := None;
               commandBuffer := gctBatchCmdBuf;
               commands := cmds;
               signalSemaphore := None |}
            gctSignalFence) st in
  Ok (nextCmdBufIndex, firstChunkUsed, st).

Definition computeDrawCommandsGctOnly (pGui : Gui) (paramsList : list McubesParams)
  (st : Globals) : Outcome Globals :=
  let frame := Z.land (g_frameNumber st) 1 in
  (* Pick and reset the graphics command pool; wait on protecting fence. *)
  let st := call (vkWaitForFences (s_frameGraphicsPoolFences frame)) st in
  let st := call (vkResetFences (s_frameGraphicsPoolFences frame)) st in
  let st := call (vkResetCommandPool (s_frameGraphicsPools frame)) st in
  let batchSize := effectiveBatchSize pGui in
  batchCount <- computeBatchCount paramsList batchSize ;;
  r <- for_range 0 batchCount (gctOnlyBatch pGui paramsList batchSize batchCount)
         (0, None, st) ;;
  Ok (snd r).

(** ** The frame loop of [main] *)

(** What one turn of the loop takes from outside: the [Gui] as
    [pGui->doFrame()] leaves it, the jobs [pGui->getMcubesJobs()] returns
    for it, and the shader compiler. *)
Record FrameInput : Type := {
  fi_gui : Gui;
  fi_jobs : list McubesParams;
  fi_compiler : ShaderCompiler
}.

Definition set_equationResult (compileFailure : bool) (g : Gui) : Gui :=
  {| m_wantComputeQueue := m_wantComputeQueue g;
     m_compileFailure := compileFailure;
     m_wantSetEquation := false;
     m_equationInput := m_equationInput g;
     m_batchSize := m_batchSize g;
     m_chunkDebugViewMode := m_chunkDebugViewMode g |}.

(** The body of [while(!glfwWindowShouldClose(g_window))] up to the call of
    the scheduler.  The calls of the window and of the swap chain are left
    out, and so is [submitFrame()], which ends each turn of the loop: it
    waits for and resets one of [s_submitFrameFences], and submits, to
    [g_gctQueue] and with that fence, a command buffer of [g_gctPool] that
    copies the image to the swap chain.  The call trace therefore holds the
    calls of the two schedulers and of the GUI events that precede them, and
    not the one submission each frame that presents the image. *)
Definition mainLoopBody (input : FrameInput) (st : Globals) : Outcome (Gui * Globals) :=
  let st := set_frameNumber (to_uint64 (g_frameNumber st + 1)) st in
  let pGui := fi_gui input in
  (* Respond to GUI events *)
  let st :=
    if negb (Bool.eqb (m_wantComputeQueue pGui) (s_useComputeQueue st))
    then set_useComputeQueue (m_wantComputeQueue pGui) (call vkDeviceWaitIdle st)
    else st in
  let '(pGui, st) :=
    if m_wantSetEquation pGui
    then
      let st := call vkDeviceWaitIdle st in
      let '(success, st) :=
        computeReplaceEquation (fi_compiler input) (m_equationInput pGui) st in
      (set_equationResult (negb success) pGui, st)
    else (pGui, st) in
  st <- (if s_useComputeQueue st
         then computeDrawCommandsTwoQueues pGui (fi_jobs input) st
         else computeDrawCommandsGctOnly pGui (fi_jobs input) st) ;;
  Ok (pGui, st).

Fixpoint runFrames (inputs : list FrameInput) (st : Globals) : Outcome Globals :=
  match inputs with
  | [] => Ok st
  | input :: rest =>
      r <- mainLoopBody input st ;;
      runFrames rest (snd r)
  end.

(** The state when [main] enters the loop: the initialisers of the file-scope
    variables, [s_useComputeQueue] as [main] copies it from the new [Gui]
    (whose [m_wantComputeQueue] is [true]), and the image pipeline that
    [setupCompute] created. *)
Definition initialGlobals (imagePipeline : VkPipeline) : Globals :=
  {| g_frameNumber := 0;
     s_frameComputePoolWaitTimelineValues := (0, 0);
     s_frameGraphicsPoolWaitTimelineValues := (0, 0);
     s_frameComputeCmdBufs := ([], []);
     s_frameGraphicsCmdBufs := ([], []);
     s_upcomingTimelineValue := 1;
     s_mcubesChunkIndex := 0;
     s_useComputeQueue := true;
     g_mcubesChunkArray := replicate (Z.to_nat MCUBES_CHUNK_COUNT) 0;
     s_mcubesImagePipeline := imagePipeline;
     vk_nextHandle := imagePipeline + 1;
     vk_calls := [] |}.

End Scheduler.

Arguments Cmd : clear implicits.
Arguments VkSubmitInfo : clear implicits.
Arguments VkCall : clear implicits.
Arguments Globals : clear implicits.
Arguments FrameInput : clear implicits.

(** ** gui.cpp

    The part of [Gui] that the keyboard and the job list depend on.  [int]
    is 32 bits wide; an overflow of signed arithmetic, a conversion from
    [float] to [int] that does not fit and the length of a null string are
    undefined: the functions then return [None].  [float] is the IEEE 754
    binary32 format. *)

Module GuiCpp.

Definition INT_MIN : Z := - 2 ^ 31.
Definition INT_MAX : Z := 2 ^ 31 - 1.

Definition in_int (z : Z) : option Z :=
  if (INT_MIN <=? z) && (z <=? INT_MAX) then Some z else None.

Definition int_add (a b : Z) : option Z := in_int (a + b).
Definition int_sub (a b : Z) : option Z := in_int (a - b).

Definition float : Set := spec_float.
Definition prec : Z := 24.
Definition emax : Z := 128.

Definition fadd : float -> float -> float := SFadd prec emax.
Definition fsub : float -> float -> float := SFsub prec emax.
Definition fmul : float -> float -> float := SFmul prec emax.
Definition fdiv : float -> float -> float := SFdiv prec emax.

(** Conversion of an [int] to [float]. *)
Definition float_of_int (z : Z) : float := binary_normalize prec emax z 0 false.

(** Conversion of a [float] to [int]: the fraction is discarded. *)
Definition int_of_float (x : float) : option Z :=
  match x with
  | S754_zero _ => Some 0
  | S754_finite s m e =>
      let n := if 0 <=? e then Z.pos m * 2 ^ e else Z.pos m / 2 ^ (- e) in
      in_int (if s then - n else n)
  | _ => None
  end.

(** [roundf]: the nearest integer, halfway cases away from zero. *)
Definition roundf (x : float) : float :=
  match x with
  | S754_finite s m e =>
      if 0 <=? e then x
      else
        let d := 2 ^ (- e) in
        let q := Z.pos m / d in
        let r := Z.pos m mod d in
        let n := if 2 * r >=? d then q + 1 else q in
        binary_normalize prec emax (if s then - n else n) 0 s
  | _ => x
  end.

Definition f_0_0 : float := S754_zero false.
Definition f_0_5 : float := Eval vm_compute in fdiv (float_of_int 1) (float_of_int 2).
Definition f_1_0 : float := Eval vm_compute in float_of_int 1.
Definition f_2_0 : float := Eval vm_compute in float_of_int 2.
Definition f_minus_2_0 : float := Eval vm_compute in float_of_int (-2).

(** [glm::vec3] and [glm::ivec3], with the operations of glm that work on
    each component. *)
Definition vec3 : Set := float * float * float.
Definition ivec3 : Set := Z * Z * Z.

Definition vec3_map2 (f : float -> float -> float) (a b : vec3) : vec3 :=
  let '(ax, ay, az) := a in
  let '(bx, by_, bz) := b in
  (f ax bx, f ay by_, f az bz).

Definition vec3_add : vec3 -> vec3 -> vec3 := vec3_map2 fadd.
Definition vec3_sub : vec3 -> vec3 -> vec3 := vec3_map2 fsub.
Definition vec3_mul : vec3 -> vec3 -> vec3 := vec3_map2 fmul.
Definition vec3_div : vec3 -> vec3 -> vec3 := vec3_map2 fdiv.

Definition vec3_scale (a : vec3) (k : float) : vec3 :=
  let '(ax, ay, az) := a in (fmul ax k, fmul ay k, fmul az k).

Definition vec3_of_ints (x y z : Z) : vec3 :=
  (float_of_int x, float_of_int y, float_of_int z).

(** mcubes_params.h *)
Definition MCUBES_CHUNK_EDGE_LENGTH_TEXELS : Z := 128.
Definition MCUBES_CHUNK_EDGE_LENGTH_CELLS : Z := MCUBES_CHUNK_EDGE_LENGTH_TEXELS - 1.

Record McubesParams : Set := {
  offset : vec3;
  t : float;
  size : vec3
}.

Definition tModeManual : Z := 0.
Definition tModeSawtooth : Z := 1.
Definition tModeTriangle : Z := 2.
Definition tModeSin : Z := 3.
Definition tMode_0_to_2pi : Z := 4.
Definition tModeCount : Z := 5.

Definition chunkDebugViewModeCount : Z := 4.

Definition pDefaultEquation : string :=
  "sqrt(square(fract(y) - 0.5) + square(abs(r - 1))) - 0.15 - 0.25*square(cos(t+(floor(y) + 3)*theta))".

(** What was asked of the camera manipulator, which is not part of the
    program. *)
Inductive CameraCall : Set :=
| setLookat (eye ctr up : vec3).

(** The terminator of a C string, and a C string read from a buffer: the
    characters before the first terminator. *)
Definition NUL : ascii := "000"%char.

Fixpoint c_str (buf : list ascii) : list ascii :=
  match buf with
  | [] => []
  | c :: rest => if Ascii.eqb c NUL then [] else c :: c_str rest
  end.

(** [strlen] of the string that starts at the head of [mem]; there is none
    when no terminator follows. *)
Fixpoint strlen (mem : list ascii) : option nat :=
  match mem with
  | [] => None
  | c :: rest => if Ascii.eqb c NUL then Some O else S <$> strlen rest
  end.

(** [std::vector<char>::resize]. *)
Definition vector_resize (v : list ascii) (n : nat) : list ascii :=
  take n v ++ replicate (n - length v) NUL.

Record Gui : Type := {
  m_colorByNormalAmount : float;
  m_t : float;
  m_tMode : Z;
  m_wantOpenEquationHeader : bool;
  m_wantFocusEquation : bool;
  m_wantFocusT : bool;
  m_wantFocusBoundingBox : bool;
  m_bboxLow : vec3;
  m_bboxHigh : vec3;
  m_targetCellCounts : ivec3;
  m_didTargetCellCountWarning : bool;
  m_cameraManipulator : list CameraCall;
  m_vsync : bool;
  m_guiVisible : bool;
  m_wantComputeQueue : bool;
  m_compileFailure : bool;
  m_wantSetEquation : bool;
  m_equationInput : list ascii;
  m_batchSize : Z;
  m_chunkDebugViewMode : Z
}.

Definition set_colorByNormalAmount (v : float) (g : Gui) : Gui :=
  {| m_colorByNormalAmount := v;
     m_t := m_t g;
     m_tMode := m_tMode g;
     m_wantOpenEquationHeader := m_wantOpenEquationHeader g;
     m_wantFocusEquation := m_wantFocusEquation g;
     m_wantFocusT := m_wantFocusT g;
     m_wantFocusBoundingBox := m_wantFocusBoundingBox g;
     m_bboxLow := m_bboxLow g;
     m_bboxHigh := m_bboxHigh g;
     m_targetCellCounts := m_targetCellCounts g;
     m_didTargetCellCountWarning := m_didTargetCellCountWarning g;
     m_cameraManipulator := m_cameraManipulator g;
     m_vsync := m_vsync g;
     m_guiVisible := m_guiVisible g;
     m_wantComputeQueue := m_wantComputeQueue g;
     m_compileFailure := m_compileFailure g;
     m_wantSetEquation := m_wantSetEquation g;
     m_equationInput := m_equationInput g;
     m_batchSize := m_batchSize g;
     m_chunkDebugViewMode := m_chunkDebugViewMode g |}.

Definition set_tMode (v : Z) (g : Gui) : Gui :=
  {| m_colorByNormalAmount := m_colorByNormalAmount g;
     m_t := m_t g;
     m_tMode := v;
     m_wantOpenEquationHeader := m_wantOpenEquationHeader g;
     m_wantFocusEquation := m_wantFocusEquation g;
     m_wantFocusT := m_wantFocusT g;
     m_wantFocusBoundingBox := m_wantFocusBoundingBox g;
     m_bboxLow := m_bboxLow g;
     m_bboxHigh := m_bboxHigh g;
     m_targetCellCounts := m_targetCellCounts g;
     m_didTargetCellCountWarning := m_didTargetCellCountWarning g;
     m_cameraManipulator := m_cameraManipulator g;
     m_vsync := m_vsync g;
     m_guiVisible := m_guiVisible g;
     m_wantComputeQueue := m_wantComputeQueue g;
     m_compileFailure := m_compileFailure g;
     m_wantSetEquation := m_wantSetEquation g;
     m_equationInput := m_equationInput g;
     m_batchSize := m_batchSize g;
     m_chunkDebugViewMode := m_chunkDebugViewMode g |}.

Definition set_wantOpenEquationHeader (v : bool) (g : Gui) : Gui :=
  {| m_colorByNormalAmount := m_colorByNormalAmount g;
     m_t := m_t g;
     m_tMode := m_tMode g;
     m_wantOpenEquationHeader := v;
     m_wantFocusEquation := m_wantFocusEquation g;
     m_wantFocusT := m_wantFocusT g;
     m_wantFocusBoundingBox := m_wantFocusBoundingBox g;
     m_bboxLow := m_bboxLow g;
     m_bboxHigh := m_bboxHigh g;
     m_targetCellCounts := m_targetCellCounts g;
     m_didTargetCellCountWarning := m_didTargetCellCountWarning g;
     m_cameraManipulator := m_cameraManipulator g;
     m_vsync := m_vsync g;
     m_guiVisible := m_guiVisible g;
     m_wantComputeQueue := m_wantComputeQueue g;
     m_compileFailure := m_compileFailure g;
     m_wantSetEquation := m_wantSetEquation g;
     m_equationInput := m_equationInput g;
     m_batchSize := m_batchSize g;
     m_chunkDebugViewMode := m_chunkDebugViewMode g |}.

Definition set_wantFocusEquation (v : bool) (g : Gui) : Gui :=
  {| m_colorByNormalAmount := m_colorByNormalAmount g;
     m_t := m_t g;
     m_tMode := m_tMode g;
     m_wantOpenEquationHeader := m_wantOpenEquationHeader g;
     m_wantFocusEquation := v;
     m_wantFocusT := m_wantFocusT g;
     m_wantFocusBoundingBox := m_wantFocusBoundingBox g;
     m_bboxLow := m_bboxLow g;
     m_bboxHigh := m_bboxHigh g;
     m_targetCellCounts := m_targetCellCounts g;
     m_didTargetCellCountWarning := m_didTargetCellCountWarning g;
     m_cameraManipulator := m_cameraManipulator g;
     m_vsync := m_vsync g;
     m_guiVisible := m_guiVisible g;
     m_wantComputeQueue := m_wantComputeQueue g;
     m_compileFailure := m_compileFailure g;
     m_wantSetEquation := m_wantSetEquation g;
     m_equationInput := m_equationInput g;
     m_batchSize := m_batchSize g;
     m_chunkDebugViewMode := m_chunkDebugViewMode g |}.

Definition set_wantFocusT (v : bool) (g : Gui) : Gui :=
  {| m_colorByNormalAmount := m_colorByNormalAmount g;
     m_t := m_t g;
     m_tMode := m_tMode g;
     m_wantOpenEquationHeader := m_wantOpenEquationHeader g;
     m_wantFocusEquation := m_wantFocusEquation g;
     m_wantFocusT := v;
     m_wantFocusBoundingBox := m_wantFocusBoundingBox g;
     m_bboxLow := m_bboxLow g;
     m_bboxHigh := m_bboxHigh g;
     m_targetCellCounts := m_targetCellCounts g;
     m_didTargetCellCountWarning := m_didTargetCellCountWarning g;
     m_cameraManipulator := m_cameraManipulator g;
     m_vsync := m_vsync g;
     m_guiVisible := m_guiVisible g;
     m_wantComputeQueue := m_wantComputeQueue g;
     m_compileFailure := m_compileFailure g;
     m_wantSetEquation := m_wantSetEquation g;
     m_equationInput := m_equationInput g;
     m_batchSize := m_batchSize g;
     m_chunkDebugViewMode := m_chunkDebugViewMode g |}.

Definition set_wantFocusBoundingBox (v : bool) (g : Gui) : Gui :=
  {| m_colorByNormalAmount := m_colorByNormalAmount g;
     m_t := m_t g;
     m_tMode := m_tMode g;
     m_wantOpenEquationHeader := m_wantOpenEquationHeader g;
     m_wantFocusEquation := m_wantFocusEquation g;
     m_wantFocusT := m_wantFocusT g;
     m_wantFocusBoundingBox := v;
     m_bboxLow := m_bboxLow g;
     m_bboxHigh := m_bboxHigh g;
     m_targetCellCounts := m_targetCellCounts g;
     m_didTargetCellCountWarning := m_didTargetCellCountWarning g;
     m_cameraManipulator := m_cameraManipulator g;
     m_vsync := m_vsync g;
     m_guiVisible := m_guiVisible g;
     m_wantComputeQueue := m_wantComputeQueue g;
     m_compileFailure := m_compileFailure g;
     m_wantSetEquation := m_wantSetEquation g;
     m_equationInput := m_equationInput g;
     m_batchSize := m_batchSize g;
     m_chunkDebugViewMode := m_chunkDebugViewMode g |}.

Definition set_targetCellCounts (v : ivec3) (g : Gui) : Gui :=
  {| m_colorByNormalAmount := m_colorByNormalAmount g;
     m_t := m_t g;
     m_tMode := m_tMode g;
     m_wantOpenEquationHeader := m_wantOpenEquationHeader g;
     m_wantFocusEquation := m_wantFocusEquation g;
     m_wantFocusT := m_wantFocusT g;
     m_wantFocusBoundingBox := m_wantFocusBoundingBox g;
     m_bboxLow := m_bboxLow g;
     m_bboxHigh := m_bboxHigh g;
     m_targetCellCounts := v;
     m_didTargetCellCountWarning := m_didTargetCellCountWarning g;
     m_cameraManipulator := m_cameraManipulator g;
     m_vsync := m_vsync g;
     m_guiVisible := m_guiVisible g;
     m_wantComputeQueue := m_wantComputeQueue g;
     m_compileFailure := m_compileFailure g;
     m_wantSetEquation := m_wantSetEquation g;
     m_equationInput := m_equationInput g;
     m_batchSize := m_batchSize g;
     m_chunkDebugViewMode := m_chunkDebugViewMode g |}.

Definition set_didTargetCellCountWarning (v : bool) (g : Gui) : Gui :=
  {| m_colorByNormalAmount := m_colorByNormalAmount g;
     m_t := m_t g;
     m_tMode := m_tMode g;
     m_wantOpenEquationHeader := m_wantOpenEquationHeader g;
     m_wantFocusEquation := m_wantFocusEquation g;
     m_wantFocusT := m_wantFocusT g;
     m_wantFocusBoundingBox := m_wantFocusBoundingBox g;
     m_bboxLow := m_bboxLow g;
     m_bboxHigh := m_bboxHigh g;
     m_targetCellCounts := m_targetCellCounts g;
     m_didTargetCellCountWarning := v;
     m_cameraManipulator := m_cameraManipulator g;
     m_vsync := m_vsync g;
     m_guiVisible := m_guiVisible g;
     m_wantComputeQueue := m_wantComputeQueue g;
     m_compileFailure := m_compileFailure g;
     m_wantSetEquation := m_wantSetEquation g;
     m_equationInput := m_equationInput g;
     m_batchSize := m_batchSize g;
     m_chunkDebugViewMode := m_chunkDebugViewMode g |}.

Definition set_cameraManipulator (v : list CameraCall) (g : Gui) : Gui :=
  {| m_colorByNormalAmount := m_colorByNormalAmount g;
     m_t := m_t g;
     m_tMode := m_tMode g;
     m_wantOpenEquationHeader := m_wantOpenEquationHeader g;
     m_wantFocusEquation := m_wantFocusEquation g;
     m_wantFocusT := m_wantFocusT g;
     m_wantFocusBoundingBox := m_wantFocusBoundingBox g;
     m_bboxLow := m_bboxLow g;
     m_bboxHigh := m_bboxHigh g;
     m_targetCellCounts := m_targetCellCounts g;
     m_didTargetCellCountWarning := m_didTargetCellCountWarning g;
     m_cameraManipulator := v;
     m_vsync := m_vsync g;
     m_guiVisible := m_guiVisible g;
     m_wantComputeQueue := m_wantComputeQueue g;
     m_compileFailure := m_compileFailure g;
     m_wantSetEquation := m_wantSetEquation g;
     m_equationInput := m_equationInput g;
     m_batchSize := m_batchSize g;
     m_chunkDebugViewMode := m_chunkDebugViewMode g |}.

Definition set_vsync (v : bool) (g : Gui) : Gui :=
  {| m_colorByNormalAmount := m_colorByNormalAmount g;
     m_t := m_t g;
     m_tMode := m_tMode g;
     m_wantOpenEquationHeader := m_wantOpenEquationHeader g;
     m_wantFocusEquation := m_wantFocusEquation g;
     m_wantFocusT := m_wantFocusT g;
     m_wantFocusBoundingBox := m_wantFocusBoundingBox g;
     m_bboxLow := m_bboxLow g;
     m_bboxHigh := m_bboxHigh g;
     m_targetCellCounts := m_targetCellCounts g;
     m_didTargetCellCountWarning := m_didTargetCellCountWarning g;
     m_cameraManipulator := m_cameraManipulator g;
     m_vsync := v;
     m_guiVisible := m_guiVisible g;
     m_wantComputeQueue := m_wantComputeQueue g;
     m_compileFailure := m_compileFailure g;
     m_wantSetEquation := m_wantSetEquation g;
     m_equationInput := m_equationInput g;
     m_batchSize := m_batchSize g;
     m_chunkDebugViewMode := m_chunkDebugViewMode g |}.

Definition set_guiVisible (v : bool) (g : Gui) : Gui :=
  {| m_colorByNormalAmount := m_colorByNormalAmount g;
     m_t := m_t g;
     m_tMode := m_tMode g;
     m_wantOpenEquationHeader := m_wantOpenEquationHeader g;
     m_wantFocusEquation := m_wantFocusEquation g;
     m_wantFocusT := m_wantFocusT g;
     m_wantFocusBoundingBox := m_wantFocusBoundingBox g;
     m_bboxLow := m_bboxLow g;
     m_bboxHigh := m_bboxHigh g;
     m_targetCellCounts := m_targetCellCounts g;
     m_didTargetCellCountWarning := m_didTargetCellCountWarning g;
     m_cameraManipulator := m_cameraManipulator g;
     m_vsync := m_vsync g;
     m_guiVisible := v;
     m_wantComputeQueue := m_wantComputeQueue g;
     m_compileFailure := m_compileFailure g;
     m_wantSetEquation := m_wantSetEquation g;
     m_equationInput := m_equationInput g;
     m_batchSize := m_batchSize g;
     m_chunkDebugViewMode := m_chunkDebugViewMode g |}.

Definition set_wantComputeQueue (v : bool) (g : Gui) : Gui :=
  {| m_colorByNormalAmount := m_colorByNormalAmount g;
     m_t := m_t g;
     m_tMode := m_tMode g;
     m_wantOpenEquationHeader := m_wantOpenEquationHeader g;
     m_wantFocusEquation := m_wantFocusEquation g;
     m_wantFocusT := m_wantFocusT g;
     m_wantFocusBoundingBox := m_wantFocusBoundingBox g;
     m_bboxLow := m_bboxLow g;
     m_bboxHigh := m_bboxHigh g;
     m_targetCellCounts := m_targetCellCounts g;
     m_didTargetCellCountWarning := m_didTargetCellCountWarning g;
     m_cameraManipulator := m_cameraManipulator g;
     m_vsync := m_vsync g;
     m_guiVisible := m_guiVisible g;
     m_wantComputeQueue := v;
     m_compileFailure := m_compileFailure g;
     m_wantSetEquation := m_wantSetEquation g;
     m_equationInput := m_equationInput g;
     m_batchSize := m_batchSize g;
     m_chunkDebugViewMode := m_chunkDebugViewMode g |}.

Definition set_wantSetEquation (v : bool) (g : Gui) : Gui :=
  {| m_colorByNormalAmount := m_colorByNormalAmount g;
     m_t := m_t g;
     m_tMode := m_tMode g;
     m_wantOpenEquationHeader := m_wantOpenEquationHeader g;
     m_wantFocusEquation := m_wantFocusEquation g;
     m_wantFocusT := m_wantFocusT g;
     m_wantFocusBoundingBox := m_wantFocusBoundingBox g;
     m_bboxLow := m_bboxLow g;
     m_bboxHigh := m_bboxHigh g;
     m_targetCellCounts := m_targetCellCounts g;
     m_didTargetCellCountWarning := m_didTargetCellCountWarning g;
     m_cameraManipulator := m_cameraManipulator g;
     m_vsync := m_vsync g;
     m_guiVisible := m_guiVisible g;
     m_wantComputeQueue := m_wantComputeQueue g;
     m_compileFailure := m_compileFailure g;
     m_wantSetEquation := v;
     m_equationInput := m_equationInput g;
     m_batchSize := m_batchSize g;
     m_chunkDebugViewMode := m_chunkDebugViewMode g |}.

Definition set_equationInput (v : list ascii) (g : Gui) : Gui :=
  {| m_colorByNormalAmount := m_colorByNormalAmount g;
     m_t := m_t g;
     m_tMode := m_tMode g;
     m_wantOpenEquationHeader := m_wantOpenEquationHeader g;
     m_wantFocusEquation := m_wantFocusEquation g;
     m_wantFocusT := m_wantFocusT g;
     m_wantFocusBoundingBox := m_wantFocusBoundingBox g;
     m_bboxLow := m_bboxLow g;
     m_bboxHigh := m_bboxHigh g;
     m_targetCellCounts := m_targetCellCounts g;
     m_didTargetCellCountWarning := m_didTargetCellCountWarning g;
     m_cameraManipulator := m_cameraManipulator g;
     m_vsync := m_vsync g;
     m_guiVisible := m_guiVisible g;
     m_wantComputeQueue := m_wantComputeQueue g;
     m_compileFailure := m_compileFailure g;
     m_wantSetEquation := m_wantSetEquation g;
     m_equationInput := v;
     m_batchSize := m_batchSize g;
     m_chunkDebugViewMode := m_chunkDebugViewMode g |}.

Definition set_batchSize (v : Z) (g : Gui) : Gui :=
  {| m_colorByNormalAmount := m_colorByNormalAmount g;
     m_t := m_t g;
     m_tMode := m_tMode g;
     m_wantOpenEquationHeader := m_wantOpenEquationHeader g;
     m_wantFocusEquation := m_wantFocusEquation g;
     m_wantFocusT := m_wantFocusT g;
     m_wantFocusBoundingBox := m_wantFocusBoundingBox g;
     m_bboxLow := m_bboxLow g;
     m_bboxHigh := m_bboxHigh g;
     m_targetCellCounts := m_targetCellCounts g;
     m_didTargetCellCountWarning := m_didTargetCellCountWarning g;
     m_cameraManipulator := m_cameraManipulator g;
     m_vsync := m_vsync g;
     m_guiVisible := m_guiVisible g;
     m_wantComputeQueue := m_wantComputeQueue g;
     m_compileFailure := m_compileFailure g;
     m_wantSetEquation := m_wantSetEquation g;
     m_equationInput := m_equationInput g;
     m_batchSize := v;
     m_chunkDebugViewMode := m_chunkDebugViewMode g |}.

Definition set_chunkDebugViewMode (v : Z) (g : Gui) : Gui :=
  {| m_colorByNormalAmount := m_colorByNormalAmount g;
     m_t := m_t g;
     m_tMode := m_tMode g;
     m_wantOpenEquationHeader := m_wantOpenEquationHeader g;
     m_wantFocusEquation := m_wantFocusEquation g;
     m_wantFocusT := m_wantFocusT g;
     m_wantFocusBoundingBox := m_wantFocusBoundingBox g;
     m_bboxLow := m_bboxLow g;
     m_bboxHigh := m_bboxHigh g;
     m_targetCellCounts := m_targetCellCounts g;
     m_didTargetCellCountWarning := m_didTargetCellCountWarning g;
     m_cameraManipulator := m_cameraManipulator g;
     m_vsync := m_vsync g;
     m_guiVisible := m_guiVisible g;
     m_wantComputeQueue := m_wantComputeQueue g;
     m_compileFailure := m_compileFailure g;
     m_wantSetEquation := m_wantSetEquation g;
     m_equationInput := m_equationInput g;
     m_batchSize := m_batchSize g;
     m_chunkDebugViewMode := v |}.
(** [Gui::Gui()] with the member initialisers of gui.hpp. *)
Definition Gui_new : Gui :=
  {| m_colorByNormalAmount := f_0_5;
     m_t := f_0_0;
     m_tMode := tMode_0_to_2pi;
     m_wantOpenEquationHeader := false;
     m_wantFocusEquation := false;
     m_wantFocusT := false;
     m_wantFocusBoundingBox := false;
     m_bboxLow := (f_minus_2_0, f_minus_2_0, f_minus_2_0);
     m_bboxHigh := (f_2_0, f_2_0, f_2_0);
     m_targetCellCounts := (508, 508, 508);
     m_didTargetCellCountWarning := false;
     m_cameraManipulator := [];
     m_vsync := false;
     m_guiVisible := true;
     m_wantComputeQueue := true;
     m_compileFailure := false;
     m_wantSetEquation := false;
     m_equationInput := list_ascii_of_string pDefaultEquation ++ [NUL];
     m_batchSize := MCUBES_MAX_CHUNKS_PER_BATCH;
     m_chunkDebugViewMode := 0 |}.

Definition getT (g : Gui) : float := m_t g.

(** [std::max(int(roundf(float(count) / MCUBES_CHUNK_EDGE_LENGTH_CELLS)), 1)] *)
Definition jobsAlong (count : Z) : option Z :=
  n ← int_of_float
         (roundf (fdiv (float_of_int count) (float_of_int MCUBES_CHUNK_EDGE_LENGTH_CELLS)));
  Some (Z.max n 1).

(** The job at position [(x, y, z)] of the grid. *)
Definition mcubesJob (g : Gui) (jobCounts : vec3) (x y z : Z) : McubesParams :=
  let wholeSize := vec3_sub (m_bboxHigh g) (m_bboxLow g) in
  let low :=
    vec3_add (m_bboxLow g) (vec3_mul wholeSize (vec3_div (vec3_of_ints x y z) jobCounts)) in
  let high :=
    vec3_add (m_bboxLow g)
      (vec3_mul wholeSize (vec3_div (vec3_of_ints (x + 1) (y + 1) (z + 1)) jobCounts)) in
  {| offset := low; t := m_t g; size := vec3_sub high low |}.

(** [Gui::getMcubesJobs]: the jobs, and the [Gui] with the flag of the
    warning, which is [mutable]. *)
Definition getMcubesJobs (g : Gui) : option (list McubesParams * Gui) :=
  let '(cx, cy, cz) := m_targetCellCounts g in
  let targetCellCounts := (glm_clamp cx 0 1024, glm_clamp cy 0 1024, glm_clamp cz 0 1024) in
  let differs :=
    negb ((glm_clamp cx 0 1024 =? cx) && (glm_clamp cy 0 1024 =? cy)
          && (glm_clamp cz 0 1024 =? cz)) in
  let g' :=
    if differs && negb (m_didTargetCellCountWarning g)
    then set_didTargetCellCountWarning true g
    else g in
  xJobs ← jobsAlong (glm_clamp cx 0 1024);
  yJobs ← jobsAlong (glm_clamp cy 0 1024);
  zJobs ← jobsAlong (glm_clamp cz 0 1024);
  let jobCounts := vec3_of_ints xJobs yJobs zJobs in
  Some (z ← seqZ 0 zJobs; y ← seqZ 0 yJobs; x ← seqZ 0 xJobs; [mcubesJob g jobCounts x y z],
        g').

Definition resetCamera (g : Gui) : Gui :=
  let bboxHigh := m_bboxHigh g in
  let bboxLow := m_bboxLow g in
  set_cameraManipulator
    (m_cameraManipulator g
     ++ [setLookat bboxHigh (vec3_scale (vec3_add bboxLow bboxHigh) f_0_5)
           (f_0_0, f_1_0, f_0_0)])
    g.

(** [pEquation] is the memory the pointer points to. *)
Definition setEquation (pEquation : list ascii) (g : Gui) : option Gui :=
  len ← strlen pEquation;
  let bytes := S len in
  let buf := m_equationInput g in
  let buf := if (length buf <=? bytes)%nat then vector_resize buf bytes else buf in
  (* memcpy(m_equationInput.data(), pEquation, bytes) *)
  let buf := take bytes pEquation ++ drop bytes buf in
  Some (set_wantSetEquation true (set_equationInput buf g)).

Definition key (c : ascii) : Z := Z.of_nat (nat_of_ascii c).

(** [Gui::charCallbackImpl]; [clipboard] is what [glfwGetClipboardString]
    returns, a null pointer when the clipboard holds no text. *)
Definition charCallbackImpl (chr : Z) (clipboard : option (list ascii)) (g : Gui)
  : option Gui :=
  if chr =? key "b" then
    Some (set_wantFocusBoundingBox true (set_wantOpenEquationHeader true g))
  else if chr =? key "c" then
    Some (set_wantComputeQueue (xorb (m_wantComputeQueue g) true) g)
  else if chr =? key "D" then
    mode ← int_sub (m_chunkDebugViewMode g) 1;
    Some (set_chunkDebugViewMode
            (if mode <? 0 then chunkDebugViewModeCount - 1 else mode) g)
  else if chr =? key "d" then
    mode ← int_add (m_chunkDebugViewMode g) 1;
    Some (set_chunkDebugViewMode
            (if mode >=? chunkDebugViewModeCount then 0 else mode) g)
  else if chr =? key "e" then
    Some (set_wantFocusEquation true (set_wantOpenEquationHeader true g))
  else if chr =? key "M" then
    let g := set_wantOpenEquationHeader true g in
    if m_tMode g <=? 0 then Some (set_tMode (tModeCount - 1) g)
    else mode ← int_sub (m_tMode g) 1; Some (set_tMode mode g)
  else if chr =? key "m" then
    let g := set_wantOpenEquationHeader true g in
    mode ← int_add (m_tMode g) 1;
    Some (set_tMode (if mode >=? tModeCount then 0 else mode) g)
  else if chr =? key "n" then
    if SFeqb (m_colorByNormalAmount g) f_1_0 then Some (set_colorByNormalAmount f_0_0 g)
    else if SFeqb (m_colorByNormalAmount g) f_0_0
         then Some (set_colorByNormalAmount f_0_5 g)
         else Some (set_colorByNormalAmount f_1_0 g)
  else if chr =? key "p" then
    pEquation ← clipboard; setEquation pEquation g
  else if chr =? key "r" then
    Some (resetCamera g)
  else if chr =? key "t" then
    Some (set_wantFocusT true (set_tMode tModeManual (set_wantOpenEquationHeader true g)))
  else if chr =? key "u" then
    Some (set_guiVisible (xorb (m_guiVisible g) true) g)
  else if chr =? key "v" then
    Some (set_vsync (xorb (m_vsync g) true) g)
  else if chr =? key "x" then
    let g := set_wantOpenEquationHeader true g in
    let '(cx, cy, cz) := m_targetCellCounts g in
    cx ← int_add cx MCUBES_CHUNK_EDGE_LENGTH_CELLS;
    Some (set_targetCellCounts (cx, cy, cz) g)
  else if chr =? key "y" then
    let g := set_wantOpenEquationHeader true g in
    let '(cx, cy, cz) := m_targetCellCounts g in
    cy ← int_add cy MCUBES_CHUNK_EDGE_LENGTH_CELLS;
    Some (set_targetCellCounts (cx, cy, cz) g)
  else if chr =? key "z" then
    let g := set_wantOpenEquationHeader true g in
    let '(cx, cy, cz) := m_targetCellCounts g in
    cz ← int_add cz MCUBES_CHUNK_EDGE_LENGTH_CELLS;
    Some (set_targetCellCounts (cx, cy, cz) g)
  else if chr =? key "X" then
    let g := set_wantOpenEquationHeader true g in
    let '(cx, cy, cz) := m_targetCellCounts g in
    if cx >? MCUBES_CHUNK_EDGE_LENGTH_CELLS
    then cx ← int_sub cx MCUBES_CHUNK_EDGE_LENGTH_CELLS;
         Some (set_targetCellCounts (cx, cy, cz) g)
    else Some g
  else if chr =? key "Y" then
    let g := set_wantOpenEquationHeader true g in
    let '(cx, cy, cz) := m_targetCellCounts g in
    if cy >? MCUBES_CHUNK_EDGE_LENGTH_CELLS
    then cy ← int_sub cy MCUBES_CHUNK_EDGE_LENGTH_CELLS;
         Some (set_targetCellCounts (cx, cy, cz) g)
    else Some g
  else if chr =? key "Z" then
    let g := set_wantOpenEquationHeader true g in
    let '(cx, cy, cz) := m_targetCellCounts g in
    if cz >? MCUBES_CHUNK_EDGE_LENGTH_CELLS
    then cz ← int_sub cz MCUBES_CHUNK_EDGE_LENGTH_CELLS;
         Some (set_targetCellCounts (cx, cy, cz) g)
    else Some g
  else if (chr =? key "+") || (chr =? key "=") then
    size ← int_add (m_batchSize g) 1;
    Some (set_batchSize (if size >? MCUBES_MAX_CHUNKS_PER_BATCH then 1 else size) g)
  else if chr =? key "-" then
    size ← int_sub (m_batchSize g) 1;
    Some (set_batchSize (if size <? 1 then MCUBES_MAX_CHUNKS_PER_BATCH else size) g)
  else Some g.

End GuiCpp.

(** What the frame loop reads of a [Gui]: [main] hands
    [m_equationInput.data()] on as a C string. *)
Definition frameGui (g : GuiCpp.Gui) : Gui :=
  {| m_wantComputeQueue := GuiCpp.m_wantComputeQueue g;
     m_compileFailure := GuiCpp.m_compileFailure g;
     m_wantSetEquation := GuiCpp.m_wantSetEquation g;
     m_equationInput := string_of_list_ascii (GuiCpp.c_str (GuiCpp.m_equationInput g));
     m_batchSize := GuiCpp.m_batchSize g;
     m_chunkDebugViewMode := GuiCpp.m_chunkDebugViewMode g |}.

(** * Vocabulary of the properties

    The definitions below are not part of the program: they name what the
    lemmas and theorems talk about. *)

(** The cursor after one more chunk has been selected: the value
    [selectNextChunk] gives [s_mcubesChunkIndex]. *)
Definition nextChunkIndex (c : Z) : Z :=
  let index := to_uint32 (c + 1) in
  if index >=? MCUBES_CHUNK_COUNT then 0 else index.

(** The cursor after [n] selections that start with the cursor at [c]. *)
Definition ring_cursor (c : Z) (n : nat) : Z := Nat.iter n nextChunkIndex c.

(** The [n] slots selected one after the other when the cursor starts at [c]. *)
Definition ring_slots (c : Z) (n : nat) : list Z :=
  map (fun j => ring_cursor c (S j)) (seq 0 n).

(** Monadic fold over the values a loop reads from an array. *)
Fixpoint foldM {A T : Type} (f : A -> T -> Outcome T) (l : list A) (s : T) : Outcome T :=
  match l with
  | [] => Ok s
  | a :: l' => s' <- f a s ;; foldM f l' s'
  end.

Section Vocabulary.

Context {McubesParams : Type}.
Local Abbreviation State := (Globals McubesParams).

(** The number of jobs in batch number [batch] of a list of [size] jobs,
    [batchEnd - batchStart]. *)
Definition batchItems (batchSize size batch : Z) : nat :=
  Z.to_nat (Z.min batchSize (size - batch * batchSize)).

(** The call is a [vkAllocateCommandBuffers]. *)
Definition isAllocate (c : VkCall McubesParams) : Prop :=
  match c with
  | vkAllocateCommandBuffers _ _ => True
  | _ => False
  end.

(** The fields that only the schedulers and [main] write. *)
Definition same_scheduler_state (a b : State) : Prop :=
  g_frameNumber a = g_frameNumber b
  /\ s_frameComputePoolWaitTimelineValues a = s_frameComputePoolWaitTimelineValues b
  /\ s_frameGraphicsPoolWaitTimelineValues a = s_frameGraphicsPoolWaitTimelineValues b
  /\ s_upcomingTimelineValue a = s_upcomingTimelineValue b
  /\ s_mcubesChunkIndex a = s_mcubesChunkIndex b
  /\ s_useComputeQueue a = s_useComputeQueue b
  /\ g_mcubesChunkArray a = g_mcubesChunkArray b
  /\ s_mcubesImagePipeline a = s_mcubesImagePipeline b.

(** The [timelineValue] of the chunk [pChunk] points to. *)
Definition slotValue (chunks : list Z) (pChunk : Z) : Z :=
  default 0 (chunks !! Z.to_nat pChunk).

(** [std::max] of [wait] and the [timelineValue] of every chunk in [slots]. *)
Definition maxTimelineValue (wait : Z) (chunks slots : list Z) : Z :=
  foldl (fun w p => Z.max w (slotValue chunks p)) wait slots.

(** Every chunk in [slots] gets [timelineValue := v]. *)
Definition markSlots (v : Z) (chunks slots : list Z) : list Z :=
  foldl (fun a p => <[Z.to_nat p := v]> a) chunks slots.

(** What a batch of the two-queue scheduler submits to the compute queue. *)
Definition computeSubmitInfo (wait signal : Z) (cmdBuf : VkCommandBuffer)
  (pipeline : VkPipeline) (slots : list Z) (params : list McubesParams)
  : VkSubmitInfo McubesParams :=
  {| waitSemaphore := Some (s_graphicsDoneTimelineSemaphore, wait);
     commandBuffer := cmdBuf;
     commands := [CmdFillChunkBatch pipeline slots params];
     signalSemaphore := Some (s_computeDoneTimelineSemaphore, signal) |}.

(** What a batch of the two-queue scheduler submits to the graphics queue;
    [first] and [last] tell whether the batch is the first or the last of its
    frame. *)
Definition graphicsSubmitInfo (signal : Z) (cmdBuf : VkCommandBuffer)
  (first last : bool) (slots : list Z) (boxes : option (list McubesParams))
  (colors : option (list McubesDebugViewPushConstant)) : VkSubmitInfo McubesParams :=
  {| waitSemaphore := Some (s_computeDoneTimelineSemaphore, signal);
     commandBuffer := cmdBuf;
     commands :=
       (if first then [CmdPrepareFrame] else [])
       ++ [CmdPipelineBarrier; CmdDrawMcubesGeometryBatch slots boxes colors]
       ++ (if last then [CmdDrawImGui] else []);
     signalSemaphore := Some (s_graphicsDoneTimelineSemaphore, signal) |}.

(** The jobs of batch number [batch]: those with indices from [batch * B] up
    to, not including, [min ((batch + 1) * B) (length paramsList)]. *)
Definition jobsOfBatch (paramsList : list McubesParams) (B batch : Z) : list McubesParams :=
  take (batchItems B (Z.of_nat (length paramsList)) batch)
       (drop (Z.to_nat (batch * B)) paramsList).

(** The effect of [twoQueuesBatch] on the locals and on the state, from
    [(loc, st)] to [(loc', st')]. *)
Definition TwoQueuesBatchEffect (paramsList : list McubesParams) (B bc batch : Z)
  (loc : TwoQueuesLocals) (st : State) (loc' : TwoQueuesLocals) (st' : State) : Prop :=
  let n := batchItems B (Z.of_nat (length paramsList)) batch in
  let slots := ring_slots (s_mcubesChunkIndex st) n in
  let wait := maxTimelineValue (computeWaitTimelineValue loc) (g_mcubesChunkArray st) slots in
  let signal := s_upcomingTimelineValue st in
  let frame := Z.land (g_frameNumber st) 1 in
  let last := batch =? to_uint32 (bc - 1) in
  s_mcubesChunkIndex st' = ring_cursor (s_mcubesChunkIndex st) n
  /\ g_mcubesChunkArray st' = markSlots signal (g_mcubesChunkArray st) slots
  /\ s_upcomingTimelineValue st' = to_uint64 (signal + 1)
  /\ g_frameNumber st' = g_frameNumber st
  /\ s_useComputeQueue st' = s_useComputeQueue st
  /\ s_mcubesImagePipeline st' = s_mcubesImagePipeline st
  /\ s_frameComputePoolWaitTimelineValues st'
     = (if last then upd2 (s_frameComputePoolWaitTimelineValues st) frame signal
        else s_frameComputePoolWaitTimelineValues st)
  /\ s_frameGraphicsPoolWaitTimelineValues st'
     = (if last then upd2 (s_frameGraphicsPoolWaitTimelineValues st) frame signal
        else s_frameGraphicsPoolWaitTimelineValues st)
  /\ (exists allocs hC hG boxes colors,
        Forall isAllocate allocs
        /\ vk_calls st'
           = vk_calls st ++ allocs
             ++ [vkQueueSubmit g_computeQueue
                   (computeSubmitInfo wait signal hC (s_mcubesImagePipeline st) slots
                      (jobsOfBatch paramsList B batch)) None;
                 vkQueueSubmit g_gctQueue
                   (graphicsSubmitInfo signal hG (batch =? 0) last slots boxes colors)
                   None])
  /\ nextCmdBufIndex loc' = to_uint32 (nextCmdBufIndex loc + 1)
  /\ computeWaitTimelineValue loc' = wait
  /\ is_Some (firstChunkUsed loc').

(** What a batch of the single-queue scheduler submits. *)
Definition gctSubmitInfo (cmdBuf : VkCommandBuffer) (pipeline : VkPipeline)
  (first last : bool) (slots : list Z) (params : list McubesParams)
  (boxes : option (list McubesParams))
  (colors : option (list McubesDebugViewPushConstant)) : VkSubmitInfo McubesParams :=
  {| waitSemaphore := None;
     commandBuffer := cmdBuf;
     commands :=
       (if first then [CmdPrepareFrame] else [])
       ++ [CmdFillChunkBatch pipeline slots params; CmdPipelineBarrier;
           CmdDrawMcubesGeometryBatch slots boxes colors]
       ++ (if last then [CmdDrawImGui] else []);
     signalSemaphore := None |}.

(** The effect of [gctOnlyBatch], from [s] to [s']. *)
Definition GctOnlyBatchEffect (paramsList : list McubesParams) (B bc batch : Z)
  (s s' : Z * option Z * State) : Prop :=
  let st := snd s in
  let st' := snd s' in
  let n := batchItems B (Z.of_nat (length paramsList)) batch in
  let slots := ring_slots (s_mcubesChunkIndex st) n in
  let frame := Z.land (g_frameNumber st) 1 in
  let last := batch =? to_uint32 (bc - 1) in
  s_mcubesChunkIndex st' = ring_cursor (s_mcubesChunkIndex st) n
  /\ g_mcubesChunkArray st' = g_mcubesChunkArray st
  /\ s_upcomingTimelineValue st' = s_upcomingTimelineValue st
  /\ g_frameNumber st' = g_frameNumber st
  /\ s_useComputeQueue st' = s_useComputeQueue st
  /\ s_mcubesImagePipeline st' = s_mcubesImagePipeline st
  /\ s_frameComputePoolWaitTimelineValues st' = s_frameComputePoolWaitTimelineValues st
  /\ s_frameGraphicsPoolWaitTimelineValues st' = s_frameGraphicsPoolWaitTimelineValues st
  /\ s_frameComputeCmdBufs st' = s_frameComputeCmdBufs st
  /\ (exists allocs hG boxes colors,
        Forall isAllocate allocs
        /\ vk_calls st'
           = vk_calls st ++ allocs
             ++ [vkQueueSubmit g_gctQueue
                   (gctSubmitInfo hG (s_mcubesImagePipeline st) (batch =? 0) last slots
                      (jobsOfBatch paramsList B batch) boxes colors)
                   (if last then Some (s_frameGraphicsPoolFences frame) else None)])
  /\ is_Some (snd (fst s')).

(** Every chunk's [timelineValue] is a value that was already handed out:
    it is below [s_upcomingTimelineValue], which has not wrapped around. *)
Definition Core (st : State) : Prop :=
  length (g_mcubesChunkArray st) = 12%nat
  /\ 1 <= s_upcomingTimelineValue st < 2 ^ 64
  /\ Forall (fun v => 0 <= v < s_upcomingTimelineValue st) (g_mcubesChunkArray st).

(** A call that neither submits work nor touches the shader compiler. *)
Definition isPlainCall (c : VkCall McubesParams) : Prop :=
  match c with
  | vkQueueSubmit _ _ _ => False
  | createShaderModule _ => False
  | _ => True
  end.

(** The steps a frame is made of.  A host step leaves the clock, the cursor,
    the chunks and the pipeline alone; replacing the equation is
    [computeReplaceEquation] after a [vkDeviceWaitIdle]; a batch of either
    scheduler has the effect stated above. *)
Inductive sched_step : State -> State -> Prop :=
| step_host (st st' : State) (calls : list (VkCall McubesParams)) :
    s_upcomingTimelineValue st' = s_upcomingTimelineValue st ->
    s_mcubesChunkIndex st' = s_mcubesChunkIndex st ->
    g_mcubesChunkArray st' = g_mcubesChunkArray st ->
    s_mcubesImagePipeline st' = s_mcubesImagePipeline st ->
    vk_calls st' = vk_calls st ++ calls ->
    Forall isPlainCall calls ->
    sched_step st st'
| step_replaceEquation (st : State) (compiler : ShaderCompiler) (pEquation : string) :
    sched_step st
      (snd (computeReplaceEquation compiler pEquation (call vkDeviceWaitIdle st)))
| step_twoQueuesBatch (st st' : State) (paramsList : list McubesParams)
    (B bc batch : Z) (loc loc' : TwoQueuesLocals) :
    Core st ->
    s_upcomingTimelineValue st + 1 < 2 ^ 64 ->
    0 <= computeWaitTimelineValue loc < s_upcomingTimelineValue st ->
    TwoQueuesBatchEffect paramsList B bc batch loc st loc' st' ->
    sched_step st st'
| step_gctOnlyBatch (s s' : Z * option Z * State) (paramsList : list McubesParams)
    (B bc batch : Z) :
    GctOnlyBatchEffect paramsList B bc batch s s' ->
    sched_step (snd s) (snd s').

(** The number of batches, [batchCount], when nothing wraps around. *)
Definition batchCountOf (paramsList : list McubesParams) (B : Z) : Z :=
  (Z.of_nat (length paramsList) + B - 1) / B.

(** The state after the calls a two-queue frame starts with. *)
Definition twoQueuesBegin (st : State) : State :=
  let frame := Z.land (g_frameNumber st) 1 in
  call (vkResetCommandPool (s_frameGraphicsPools frame))
    (call (vkResetCommandPool (s_frameComputePools frame))
       (call (vkWaitSemaphoresKHR (at2 (s_frameComputePoolWaitTimelineValues st) frame)
                (at2 (s_frameGraphicsPoolWaitTimelineValues st) frame)) st)).

(** The state after the calls a single-queue frame starts with. *)
Definition gctOnlyBegin (st : State) : State :=
  let frame := Z.land (g_frameNumber st) 1 in
  call (vkResetCommandPool (s_frameGraphicsPools frame))
    (call (vkResetFences (s_frameGraphicsPoolFences frame))
       (call (vkWaitForFences (s_frameGraphicsPoolFences frame)) st)).

(** The number of timeline values a frame uses up: one per batch when it is
    scheduled on two queues, none otherwise. *)
Definition frameTicks (input : FrameInput McubesParams) : Z :=
  if m_wantComputeQueue (fi_gui input)
  then batchCountOf (fi_jobs input) (effectiveBatchSize (fi_gui input))
  else 0.

(** The number of two-queue batches of a run. *)
Definition runTicks (inputs : list (FrameInput McubesParams)) : Z :=
  foldr (fun input acc => frameTicks input + acc) 0 inputs.

(** The job list is short enough for the 32-bit batch arithmetic. *)
Definition jobsFit (input : FrameInput McubesParams) : Prop :=
  Z.of_nat (length (fi_jobs input)) + 6 <= 2 ^ 32.

(** The chunks a command buffer fills, in the order it fills them. *)
Definition filledChunks (cmd : Cmd McubesParams) : list Z :=
  match cmd with
  | CmdFillChunkBatch _ chunks _ => chunks
  | _ => []
  end.

(** The chunks a command buffer draws. *)
Definition drawnChunks (cmd : Cmd McubesParams) : list Z :=
  match cmd with
  | CmdDrawMcubesGeometryBatch chunks _ _ => chunks
  | _ => []
  end.

(** The jobs a command buffer fills chunks for. *)
Definition filledJobs (cmd : Cmd McubesParams) : list (list McubesParams) :=
  match cmd with
  | CmdFillChunkBatch _ _ params => [params]
  | _ => []
  end.

(** The ring-buffer slots in the order the schedulers assigned them. *)
Definition assignedSlots (calls : list (VkCall McubesParams)) : list Z :=
  flat_map
    (fun c => match c with
              | vkQueueSubmit _ submit _ => flat_map filledChunks (commands submit)
              | _ => []
              end)
    calls.

(** The jobs of each batch, one list per batch, in submission order. *)
Definition batchJobs (calls : list (VkCall McubesParams)) : list (list McubesParams) :=
  flat_map
    (fun c => match c with
              | vkQueueSubmit _ submit _ => flat_map filledJobs (commands submit)
              | _ => []
              end)
    calls.

Definition semaphore_eqb (a b : VkSemaphore) : bool :=
  match a, b with
  | s_computeDoneTimelineSemaphore, s_computeDoneTimelineSemaphore => true
  | s_graphicsDoneTimelineSemaphore, s_graphicsDoneTimelineSemaphore => true
  | _, _ => false
  end.

(** The values a timeline semaphore is told to reach, in submission order. *)
Definition signalValues (sem : VkSemaphore) (calls : list (VkCall McubesParams)) : list Z :=
  flat_map
    (fun c => match c with
              | vkQueueSubmit _ submit _ =>
                  match signalSemaphore submit with
                  | Some (s, v) => if semaphore_eqb s sem then [v] else []
                  | None => []
                  end
              | _ => []
              end)
    calls.

(** For each submission to the compute queue: the value it waits for and the
    value it signals. *)
Definition computeWaitSignal (calls : list (VkCall McubesParams)) : list (Z * Z) :=
  flat_map
    (fun c => match c with
              | vkQueueSubmit g_computeQueue submit _ =>
                  match waitSemaphore submit, signalSemaphore submit with
                  | Some (_, w), Some (_, v) => [(w, v)]
                  | _, _ => []
                  end
              | _ => []
              end)
    calls.

(** The values signalled on [s_graphicsDoneTimelineSemaphore] by the batches
    that drew chunk [p]. *)
Definition drawSignals (p : Z) (calls : list (VkCall McubesParams)) : list Z :=
  flat_map
    (fun c => match c with
              | vkQueueSubmit _ submit _ =>
                  match signalSemaphore submit with
                  | Some (s_graphicsDoneTimelineSemaphore, v) =>
                      if existsb (Z.eqb p) (flat_map drawnChunks (commands submit))
                      then [v] else []
                  | _ => []
                  end
              | _ => []
              end)
    calls.

(** Every [createShaderModule] comes right after a [vkDeviceWaitIdle]. *)
Definition replacementsGuarded (calls : list (VkCall McubesParams)) : Prop :=
  forall (i : nat) (prepend : string),
    calls !! i = Some (createShaderModule prepend) ->
    exists j, i = S j /\ calls !! j = Some vkDeviceWaitIdle.

(** Later elements are larger. *)
Definition strictly_increasing (l : list Z) : Prop :=
  forall (i j : nat) (a b : Z),
    (i < j)%nat -> l !! i = Some a -> l !! j = Some b -> a < b.

(** Each slot is the successor, modulo the pool size, of the slot before it. *)
Definition round_robin (l : list Z) : Prop :=
  forall (i : nat) (a b : Z),
    l !! i = Some a -> l !! S i = Some b -> b = (a + 1) mod MCUBES_CHUNK_COUNT.

(** The clock counts the batches: both semaphores have been told to reach
    1, 2, ..., [s_upcomingTimelineValue - 1], in this order. *)
Definition ClockInv (st : State) : Prop :=
  1 <= s_upcomingTimelineValue st
  /\ signalValues s_computeDoneTimelineSemaphore (vk_calls st)
     = seqZ 1 (s_upcomingTimelineValue st - 1)
  /\ signalValues s_graphicsDoneTimelineSemaphore (vk_calls st)
     = seqZ 1 (s_upcomingTimelineValue st - 1).

(** The slots handed out so far are the first slots of the ring after slot
    0, and the cursor is on the last of them. *)
Definition SlotsInv (st : State) : Prop :=
  exists k : nat,
    assignedSlots (vk_calls st) = ring_slots 0 k
    /\ s_mcubesChunkIndex st = ring_cursor 0 k.

(** No submission to the compute queue waits for the value it signals or for a
    later one. *)
Definition WaitInv (st : State) : Prop :=
  Forall (fun ws => fst ws < snd ws) (computeWaitSignal (vk_calls st)).

(** Each chunk's [timelineValue] is the value signalled by the last two-queue
    batch that drew it, and 0 when no such batch has drawn it. *)
Definition ReadyInv (st : State) : Prop :=
  length (g_mcubesChunkArray st) = 12%nat
  /\ forall p, 0 <= p < MCUBES_CHUNK_COUNT ->
       g_mcubesChunkArray st !! Z.to_nat p
       = Some (default 0 (last (drawSignals p (vk_calls st)))).

(** The device was idle at every call of the shader compiler so far. *)
Definition GuardInv (st : State) : Prop := replacementsGuarded (vk_calls st).

End Vocabulary.

(** Inputs for the worked examples: [jobCount] jobs, numbered from 0, a GUI
    batch size and the queue mode; the shader compiler is not called. *)
Definition exampleGui (batchSize : Z) (wantComputeQueue : bool) : Gui :=
  {| m_wantComputeQueue := wantComputeQueue;
     m_compileFailure := false;
     m_wantSetEquation := false;
     m_equationInput := "x*x + y*y + z*z - t";
     m_batchSize := batchSize;
     m_chunkDebugViewMode := chunkDebugViewOff |}.

(** A frame of [jobCount] jobs in which the equation is left alone. *)
Definition exampleFrame (jobCount : nat) (batchSize : Z) (wantComputeQueue : bool)
  : FrameInput nat :=
  {| fi_gui := exampleGui batchSize wantComputeQueue;
     fi_jobs := seq 0 jobCount;
     fi_compiler := fun _ => VK_NULL_HANDLE |}.

(** A frame in which the GUI asks for a new equation. *)
Definition exampleReplaceFrame (jobCount : nat) (compiler : ShaderCompiler)
  : FrameInput nat :=
  {| fi_gui :=
       {| m_wantComputeQueue := true;
          m_compileFailure := false;
          m_wantSetEquation := true;
          m_equationInput := "x +";
          m_batchSize := 6;
          m_chunkDebugViewMode := chunkDebugViewOff |};
     fi_jobs := seq 0 jobCount;
     fi_compiler := compiler |}.

(** An equation with a carriage return and a backslash in it. *)
Definition exampleCarriageReturnEquation : string :=
  String "x" (String "013"%char (String "\"%char "y")).

(** A frame in which the GUI asks for an equation of two lines. *)
Definition exampleTwoLineFrame (compiler : ShaderCompiler) : FrameInput nat :=
  {| fi_gui :=
       {| m_wantComputeQueue := true;
          m_compileFailure := false;
          m_wantSetEquation := true;
          m_equationInput := String "x" (String newline "+ y");
          m_batchSize := 6;
          m_chunkDebugViewMode := chunkDebugViewOff |};
     fi_jobs := seq 0 3;
     fi_compiler := compiler |}.

(** A state between two frames in which the lists of the odd frames hold one
    command buffer of the compute pool and three of the graphics pool. *)
Definition exampleRecycleState : Globals nat :=
  set_frameNumber 1
    (set_nextHandle 30
       (set_graphicsCmdBufs ([], [20; 21; 22])
          (set_computeCmdBufs ([], [10]) (initialGlobals 1)))).

(** A GUI that shows the debug view that colours by chunk index, with
    batches of three jobs, and a state between two frames with the ring
    cursor on slot 10. *)
Definition exampleDebugViewGui : Gui :=
  {| m_wantComputeQueue := true;
     m_compileFailure := false;
     m_wantSetEquation := false;
     m_equationInput := "x*x + y*y + z*z - t";
     m_batchSize := 3;
     m_chunkDebugViewMode := chunkDebugViewChunkIndex |}.

Definition exampleDebugViewState : Globals nat :=
  set_mcubesChunkIndex 10 (initialGlobals 1).

(** For each submission to the compute queue: the value it waits for, the
    value it signals and the chunks it fills. *)
Definition computeSubmissions {McubesParams : Type} (calls : list (VkCall McubesParams))
  : list (Z * Z * list Z) :=
  flat_map
    (fun c => match c with
              | vkQueueSubmit g_computeQueue submit _ =>
                  match waitSemaphore submit, signalSemaphore submit with
                  | Some (_, w), Some (_, v) =>
                      [(w, v, flat_map filledChunks (commands submit))]
                  | _, _ => []
                  end
              | _ => []
              end)
    calls.

(** ** The frame loop in steps

    A finer transition system than [sched_step]: its host steps are the ones
    the loop of [main] takes, and a batch step says which job list and batch
    size the batch belongs to and which queue mode the program is in. *)

Section FrameSteps.

Context {McubesParams : Type}.
Local Abbreviation State := (Globals McubesParams).

Inductive frame_step : State -> State -> Prop :=
| fs_nextFrame (st : State) :
    frame_step st (set_frameNumber (to_uint64 (g_frameNumber st + 1)) st)
| fs_switchQueue (st : State) (want : bool) :
    frame_step st (set_useComputeQueue want (call vkDeviceWaitIdle st))
| fs_replaceEquation (st : State) (compiler : ShaderCompiler) (pEquation : string) :
    frame_step st
      (snd (computeReplaceEquation compiler pEquation (call vkDeviceWaitIdle st)))
| fs_twoQueuesBegin (st : State) :
    s_useComputeQueue st = true ->
    frame_step st (twoQueuesBegin st)
| fs_gctOnlyBegin (st : State) :
    s_useComputeQueue st = false ->
    frame_step st (gctOnlyBegin st)
| fs_twoQueuesBatch (st st' : State) (paramsList : list McubesParams)
    (B batch : Z) (loc loc' : TwoQueuesLocals) :
    Core st ->
    s_upcomingTimelineValue st + 1 < 2 ^ 64 ->
    0 <= computeWaitTimelineValue loc < s_upcomingTimelineValue st ->
    1 <= B <= MCUBES_MAX_CHUNKS_PER_BATCH ->
    Z.of_nat (length paramsList) + 6 <= 2 ^ 32 ->
    0 <= batch < batchCountOf paramsList B ->
    s_useComputeQueue st = true ->
    TwoQueuesBatchEffect paramsList B (batchCountOf paramsList B) batch loc st loc' st' ->
    frame_step st st'
| fs_gctOnlyBatch (s s' : Z * option Z * State) (paramsList : list McubesParams)
    (B batch : Z) :
    1 <= B <= MCUBES_MAX_CHUNKS_PER_BATCH ->
    Z.of_nat (length paramsList) + 6 <= 2 ^ 32 ->
    0 <= batch < batchCountOf paramsList B ->
    s_useComputeQueue (snd s) = false ->
    GctOnlyBatchEffect paramsList B (batchCountOf paramsList B) batch s s' ->
    frame_step (snd s) (snd s').

(** ** What the call trace of a run shows *)

(** Every submission to the compute queue is followed at once by a submission
    to the graphics queue that waits for the value the compute submission
    signals and draws the chunks it fills. *)
Definition graphicsFollowsCompute (calls : list (VkCall McubesParams)) : Prop :=
  forall (i : nat) (submit : VkSubmitInfo McubesParams) (fence : option VkFence),
    calls !! i = Some (vkQueueSubmit g_computeQueue submit fence) ->
    exists (gsubmit : VkSubmitInfo McubesParams) (v : Z),
      calls !! S i = Some (vkQueueSubmit g_gctQueue gsubmit None)
      /\ signalSemaphore submit = Some (s_computeDoneTimelineSemaphore, v)
      /\ waitSemaphore gsubmit = Some (s_computeDoneTimelineSemaphore, v)
      /\ flat_map drawnChunks (commands gsubmit)
         = flat_map filledChunks (commands submit).

(** A submission to the compute queue that fills chunk [p] waits until
    [s_graphicsDoneTimelineSemaphore] has reached the value signalled by
    every earlier submission that drew [p]. *)
Definition fillsWaitForDraws (calls : list (VkCall McubesParams)) : Prop :=
  forall (i j : nat) (q : VkQueue) (gsubmit csubmit : VkSubmitInfo McubesParams)
         (gfence cfence : option VkFence) (v p : Z),
    (i < j)%nat ->
    calls !! i = Some (vkQueueSubmit q gsubmit gfence) ->
    signalSemaphore gsubmit = Some (s_graphicsDoneTimelineSemaphore, v) ->
    p ∈ flat_map drawnChunks (commands gsubmit) ->
    calls !! j = Some (vkQueueSubmit g_computeQueue csubmit cfence) ->
    p ∈ flat_map filledChunks (commands csubmit) ->
    exists w,
      waitSemaphore csubmit = Some (s_graphicsDoneTimelineSemaphore, w) /\ v <= w.

(** A chunk's [timelineValue] is at least the value signalled by any
    submission that drew the chunk. *)
Definition DrawnInv (st : State) : Prop :=
  forall (i : nat) (q : VkQueue) (submit : VkSubmitInfo McubesParams)
         (fence : option VkFence) (v p : Z),
    vk_calls st !! i = Some (vkQueueSubmit q submit fence) ->
    signalSemaphore submit = Some (s_graphicsDoneTimelineSemaphore, v) ->
    p ∈ flat_map drawnChunks (commands submit) ->
    v <= slotValue (g_mcubesChunkArray st) p.

(** [Q pre x] holds of every call [x] of the trace, [pre] being the calls
    made before it. *)
Definition eachCall (Q : list (VkCall McubesParams) -> VkCall McubesParams -> Prop)
  (calls : list (VkCall McubesParams)) : Prop :=
  forall (i : nat) (x : VkCall McubesParams), calls !! i = Some x -> Q (take i calls) x.



(** The host waits for timeline values that submissions made earlier signal,
    or for 0, the value the semaphores start with. *)
Definition waitsForSignalled (pre : list (VkCall McubesParams))
  (x : VkCall McubesParams) : Prop :=
  match x with
  | vkWaitSemaphoresKHR c g =>
      (c = 0 \/ c ∈ signalValues s_computeDoneTimelineSemaphore pre)
      /\ (g = 0 \/ g ∈ signalValues s_graphicsDoneTimelineSemaphore pre)
  | _ => True
  end.

(** The values to wait for before a command pool is reset are values that
    were handed out already. *)
Definition PoolInv (st : State) : Prop :=
  forall i : Z,
    0 <= at2 (s_frameComputePoolWaitTimelineValues st) i < s_upcomingTimelineValue st
    /\ 0 <= at2 (s_frameGraphicsPoolWaitTimelineValues st) i < s_upcomingTimelineValue st.

(** Whether a submission belongs to the two-queue scheduler, whose
    submissions signal a timeline semaphore. *)
Definition usesTimeline (submit : VkSubmitInfo McubesParams) : bool :=
  match signalSemaphore submit with
  | Some _ => true
  | None => false
  end.

(** Between a submission of one scheduler and a later submission of the other
    one the host has waited for the device to be idle. *)
Definition modeSwitchesGuarded (calls : list (VkCall McubesParams)) : Prop :=
  forall (i j : nat) (q1 q2 : VkQueue) (s1 s2 : VkSubmitInfo McubesParams)
         (f1 f2 : option VkFence),
    (i < j)%nat ->
    calls !! i = Some (vkQueueSubmit q1 s1 f1) ->
    calls !! j = Some (vkQueueSubmit q2 s2 f2) ->
    usesTimeline s1 <> usesTimeline s2 ->
    exists k : nat, (i < k < j)%nat /\ calls !! k = Some vkDeviceWaitIdle.

(** A submission made since the device was last idle belongs to the
    scheduler in use. *)
Definition ModeInv (st : State) : Prop :=
  forall (j : nat) (q : VkQueue) (s : VkSubmitInfo McubesParams) (f : option VkFence),
    vk_calls st !! j = Some (vkQueueSubmit q s f) ->
    usesTimeline s = s_useComputeQueue st
    \/ exists k : nat, (j < k)%nat /\ vk_calls st !! k = Some vkDeviceWaitIdle.

(** The chunks of each batch, one list per batch, in submission order. *)
Definition batchChunks (calls : list (VkCall McubesParams)) : list (list Z) :=
  flat_map
    (fun c => match c with
              | vkQueueSubmit _ submit _ =>
                  flat_map (fun cmd => match cmd with
                                       | CmdFillChunkBatch _ chunks _ => [chunks]
                                       | _ => []
                                       end) (commands submit)
              | _ => []
              end)
    calls.

(** Two batches submitted one after the other share no chunk. *)
Definition consecutiveBatchesDisjoint (calls : list (VkCall McubesParams)) : Prop :=
  forall (i : nat) (a b : list Z),
    batchChunks calls !! i = Some a ->
    batchChunks calls !! S i = Some b ->
    NoDup (a ++ b).

(** The batches so far, and where the cursor of the ring is after the last
    of them. *)
Definition BatchInv (st : State) : Prop :=
  Forall (fun a => (1 <= length a <= 6)%nat /\ NoDup a) (batchChunks (vk_calls st))
  /\ consecutiveBatchesDisjoint (vk_calls st)
  /\ forall a, last (batchChunks (vk_calls st)) = Some a ->
       exists c, a = ring_slots c (length a)
                 /\ s_mcubesChunkIndex st = ring_cursor c (length a).

(** The fence of each submission, in submission order. *)
Definition submitFences (calls : list (VkCall McubesParams)) : list (option VkFence) :=
  flat_map (fun c => match c with
                     | vkQueueSubmit _ _ fence => [fence]
                     | _ => []
                     end) calls.

(** The commands submitted to the graphics queue, in submission order. *)
Definition graphicsQueueCommands (calls : list (VkCall McubesParams))
  : list (Cmd McubesParams) :=
  flat_map (fun c => match c with
                     | vkQueueSubmit g_gctQueue submit _ => commands submit
                     | _ => []
                     end) calls.

(** A command that fills or draws chunks, or the barrier between the two. *)
Definition isBatchCmd (cmd : Cmd McubesParams) : Prop :=
  match cmd with
  | CmdPrepareFrame | CmdDrawImGui => False
  | _ => True
  end.

(** The text that [computeReplaceEquation] puts before the equation. *)
Definition equationDefine : string := "#define EQUATION(x, y, z, t) ".

(** [text] is the define of [EQUATION], a body that holds no line feed, and
    one line feed: the only line feed of [text] is its last character. *)
Definition endsWithOnlyLineFeed (text : string) : Prop :=
  exists body : string,
    text = (equationDefine ++ body ++ String newline EmptyString)%string
    /\ newline ∉ list_ascii_of_string body.

(** A call that hands a text to the shader compiler hands it such a text. *)
Definition compilesDefine (c : VkCall McubesParams) : Prop :=
  match c with
  | createShaderModule text => endsWithOnlyLineFeed text
  | _ => True
  end.

(** [body] is [equation] with each line feed replaced by a space: it has
    the same length, and holds at each position the character of
    [equation], or a space where [equation] has a line feed. *)
Definition lineFeedsReplaced (equation body : string) : Prop :=
  String.length body = String.length equation
  /\ forall (i : nat) (c : ascii),
       String.get i equation = Some c ->
       String.get i body = Some (if Ascii.eqb c newline then " "%char else c).

(** ** Command buffers *)

(** The queue for whose family [setupStatics] creates a pool. *)
Definition poolQueue (pool : VkCommandPool) : VkQueue :=
  match pool with
  | s_frameComputePools _ => g_computeQueue
  | s_frameGraphicsPools _ => g_gctQueue
  end.

Definition VkCommandPool_eqb (a b : VkCommandPool) : bool :=
  match a, b with
  | s_frameComputePools i, s_frameComputePools j => i =? j
  | s_frameGraphicsPools i, s_frameGraphicsPools j => i =? j
  | _, _ => false
  end.

(** The command buffers that were submitted since [pool] was last reset. *)
Definition submittedSinceReset (pool : VkCommandPool) (calls : list (VkCall McubesParams))
  : list VkCommandBuffer :=
  foldl (fun acc c =>
           match c with
           | vkResetCommandPool p => if VkCommandPool_eqb p pool then [] else acc
           | vkQueueSubmit _ submit _ => acc ++ [commandBuffer submit]
           | _ => acc
           end) [] calls.

(** The rule of the command buffers.  An allocation hands out a handle that
    no earlier allocation handed out.  A submission submits a command buffer
    that was allocated from a pool of the queue it is submitted to and that
    has not been submitted since this pool was last reset: what was recorded
    into it was recorded after the reset. *)
Definition submitsResetBuffer (pre : list (VkCall McubesParams))
  (x : VkCall McubesParams) : Prop :=
  match x with
  | vkAllocateCommandBuffers _ cmdBuf =>
      forall pool, vkAllocateCommandBuffers pool cmdBuf ∉ pre
  | vkQueueSubmit queue submit _ =>
      exists pool,
        vkAllocateCommandBuffers pool (commandBuffer submit) ∈ pre
        /\ poolQueue pool = queue
        /\ commandBuffer submit ∉ submittedSinceReset pool pre
  | _ => True
  end.

(** One of the four per-frame pools. *)
Definition framePool (pool : VkCommandPool) : Prop :=
  match pool with
  | s_frameComputePools i | s_frameGraphicsPools i => i = 0 \/ i = 1
  end.

(** The list of the command buffers that were allocated from [pool]. *)
Definition poolCmdBufs (st : State) (pool : VkCommandPool) : list VkCommandBuffer :=
  match pool with
  | s_frameComputePools i => at2 (s_frameComputeCmdBufs st) i
  | s_frameGraphicsPools i => at2 (s_frameGraphicsCmdBufs st) i
  end.

Definition set_poolCmdBufs (pool : VkCommandPool) (cmdBufs : list VkCommandBuffer)
  (st : State) : State :=
  match pool with
  | s_frameComputePools i =>
      set_computeCmdBufs (upd2 (s_frameComputeCmdBufs st) i cmdBufs) st
  | s_frameGraphicsPools i =>
      set_graphicsCmdBufs (upd2 (s_frameGraphicsCmdBufs st) i cmdBufs) st
  end.

(** The per-frame lists hold the command buffers that were allocated, each
    in the list of its pool and once. *)
Definition CmdBufInv (st : State) : Prop :=
  eachCall submitsResetBuffer (vk_calls st)
  /\ (forall pool h,
         vkAllocateCommandBuffers pool h ∈ vk_calls st ->
         framePool pool /\ h ∈ poolCmdBufs st pool /\ h < vk_nextHandle st)
  /\ (forall pool h,
         framePool pool -> h ∈ poolCmdBufs st pool ->
         vkAllocateCommandBuffers pool h ∈ vk_calls st)
  /\ (forall pool, framePool pool -> NoDup (poolCmdBufs st pool)).

(** Inside a frame that has reset [pools]: of each of these pools the
    first [idx pool] command buffers have been taken, and no other command
    buffer was submitted since the reset. *)
Definition InFrame (pools : list VkCommandPool) (idx : VkCommandPool -> Z)
  (st : State) : Prop :=
  CmdBufInv st
  /\ (forall pool, pool ∈ pools ->
        framePool pool /\ 0 <= idx pool <= Z.of_nat (length (poolCmdBufs st pool)))
  /\ (forall pool h,
         pool ∈ pools -> h ∈ submittedSinceReset pool (vk_calls st) ->
         exists pool', pool' ∈ pools
                       /\ h ∈ take (Z.to_nat (idx pool')) (poolCmdBufs st pool')).

(** The states agree on the calls made, on the handles handed out and on
    the per-frame lists of command buffers. *)
Definition sameCmdBufs (a b : State) : Prop :=
  vk_calls a = vk_calls b
  /\ vk_nextHandle a = vk_nextHandle b
  /\ s_frameComputeCmdBufs a = s_frameComputeCmdBufs b
  /\ s_frameGraphicsCmdBufs a = s_frameGraphicsCmdBufs b
  /\ g_frameNumber a = g_frameNumber b.

(** The handles that [calls] allocate from [pool], in order. *)
Definition allocatedFrom (pool : VkCommandPool) (calls : list (VkCall McubesParams))
  : list VkCommandBuffer :=
  flat_map (fun c => match c with
                     | vkAllocateCommandBuffers p cmdBuf =>
                         if VkCommandPool_eqb p pool then [cmdBuf] else []
                     | _ => []
                     end) calls.

Definition VkQueue_eqb (a b : VkQueue) : bool :=
  match a, b with
  | g_gctQueue, g_gctQueue | g_computeQueue, g_computeQueue => true
  | _, _ => false
  end.

(** The command buffers that [calls] submit to [queue], in order. *)
Definition submittedTo (queue : VkQueue) (calls : list (VkCall McubesParams))
  : list VkCommandBuffer :=
  flat_map (fun c => match c with
                     | vkQueueSubmit q submit _ =>
                         if VkQueue_eqb q queue then [commandBuffer submit] else []
                     | _ => []
                     end) calls.

(** A frame of [batchCount] batches that makes the calls [calls] from [st]
    to [st'] recycles the command buffers of [pool]: its batches submit the
    first [batchCount] command buffers of the list of the pool, in the order
    of the list; the list is as before, with the command buffers at its end
    that the frame allocates; and the frame allocates only the command buffers
    that the list is short of. *)
Definition recyclesCmdBufs (pool : VkCommandPool) (batchCount : Z) (st st' : State)
  (calls : list (VkCall McubesParams)) : Prop :=
  poolCmdBufs st' pool = poolCmdBufs st pool ++ allocatedFrom pool calls
  /\ Z.of_nat (length (poolCmdBufs st' pool))
     = Z.max (Z.of_nat (length (poolCmdBufs st pool))) batchCount
  /\ submittedTo (poolQueue pool) calls = take (Z.to_nat batchCount) (poolCmdBufs st' pool).

(** ** Resetting a command pool *)

(** The timeline value that [submit] signals is at most the value the host
    waits for on the same semaphore. *)
Definition signalAtMost (submit : VkSubmitInfo McubesParams)
  (computeDoneValue graphicsDoneValue : Z) : Prop :=
  match signalSemaphore submit with
  | Some (s_computeDoneTimelineSemaphore, v) => v <= computeDoneValue
  | Some (s_graphicsDoneTimelineSemaphore, v) => v <= graphicsDoneValue
  | None => False
  end.

(** After the submission number [j] of [calls], which submits [submit] to
    [queue], the host has waited for it: for the device to be idle; for its
    semaphore to reach a value that is at least the value it signals (the
    values signalled on a semaphore grow from submission to submission); or
    for a fence that this or a later submission to the same queue signals,
    the fence not having been reset in between. *)
Definition hostWaitedFor (calls : list (VkCall McubesParams)) (j : nat) (queue : VkQueue)
  (submit : VkSubmitInfo McubesParams) : Prop :=
  exists (k : nat) (x : VkCall McubesParams),
    (j < k)%nat /\ calls !! k = Some x
    /\ match x with
       | vkDeviceWaitIdle => True
       | vkWaitSemaphoresKHR c g => signalAtMost submit c g
       | vkWaitForFences fence =>
           exists (m : nat) (submit' : VkSubmitInfo McubesParams),
             (j <= m < k)%nat
             /\ calls !! m = Some (vkQueueSubmit queue submit' (Some fence))
             /\ forall n, (m < n < k)%nat -> calls !! n <> Some (vkResetFences fence)
       | _ => False
       end.

(** A command pool is reset only when the host has waited for every
    submission of a command buffer of this pool. *)
Definition resetsRetiredPool (pre : list (VkCall McubesParams))
  (x : VkCall McubesParams) : Prop :=
  match x with
  | vkResetCommandPool pool =>
      forall j queue submit fence,
        pre !! j = Some (vkQueueSubmit queue submit fence) ->
        vkAllocateCommandBuffers pool (commandBuffer submit) ∈ pre ->
        hostWaitedFor pre j queue submit
  | _ => True
  end.

(** The value kept for the pool in [s_frameComputePoolWaitTimelineValues] or
    [s_frameGraphicsPoolWaitTimelineValues] is at least the value that
    [submit] signals on the semaphore of the pool. *)
Definition storedCovers (st : State) (pool : VkCommandPool)
  (submit : VkSubmitInfo McubesParams) : Prop :=
  s_useComputeQueue st = true
  /\ match pool, signalSemaphore submit with
     | s_frameComputePools i, Some (s_computeDoneTimelineSemaphore, v) =>
         v <= at2 (s_frameComputePoolWaitTimelineValues st) i
     | s_frameGraphicsPools i, Some (s_graphicsDoneTimelineSemaphore, v) =>
         v <= at2 (s_frameGraphicsPoolWaitTimelineValues st) i
     | _, _ => False
     end.

(** The fence of the pool is signalled by the submission number [j] or a
    later one, and has not been reset since. *)
Definition fenceCovers (st : State) (j : nat) (queue : VkQueue) (pool : VkCommandPool)
  : Prop :=
  s_useComputeQueue st = false
  /\ queue = g_gctQueue
  /\ match pool with
     | s_frameGraphicsPools i =>
         exists (m : nat) (submit' : VkSubmitInfo McubesParams),
           (j <= m)%nat
           /\ vk_calls st !! m
              = Some (vkQueueSubmit g_gctQueue submit' (Some (s_frameGraphicsPoolFences i)))
           /\ forall n, (m < n)%nat ->
                        vk_calls st !! n <> Some (vkResetFences (s_frameGraphicsPoolFences i))
     | _ => False
     end.

(** Every submission has been waited for, or will have been when the frame
    that resets the pool of its command buffer starts; [pending] holds of the
    submissions of the frame that is being recorded. *)
Definition Retire (pending : VkCommandPool -> VkQueue -> VkSubmitInfo McubesParams -> Prop)
  (st : State) : Prop :=
  forall j queue submit fence pool,
    vk_calls st !! j = Some (vkQueueSubmit queue submit fence) ->
    vkAllocateCommandBuffers pool (commandBuffer submit) ∈ vk_calls st ->
    hostWaitedFor (vk_calls st) j queue submit
    \/ storedCovers st pool submit
    \/ fenceCovers st j queue pool
    \/ pending pool queue submit.

(** The values kept for the pools are values that were handed out. *)
Definition storedBelowClock (st : State) : Prop :=
  forall i,
    at2 (s_frameComputePoolWaitTimelineValues st) i < s_upcomingTimelineValue st
    /\ at2 (s_frameGraphicsPoolWaitTimelineValues st) i < s_upcomingTimelineValue st.

Definition RetireInv (st : State) : Prop :=
  CmdBufInv st
  /\ eachCall resetsRetiredPool (vk_calls st)
  /\ Retire (fun _ _ _ => False) st
  /\ storedBelowClock st.

(** The submissions of the two-queue frame that is being recorded: they
    signal values that the clock has handed out, on the semaphore of their
    queue. *)
Definition pendingTwoQueues (frame upcoming : Z) (pool : VkCommandPool) (queue : VkQueue)
  (submit : VkSubmitInfo McubesParams) : Prop :=
  match pool, signalSemaphore submit with
  | s_frameComputePools i, Some (s_computeDoneTimelineSemaphore, v) =>
      i = frame /\ v < upcoming
  | s_frameGraphicsPools i, Some (s_graphicsDoneTimelineSemaphore, v) =>
      i = frame /\ v < upcoming
  | _, _ => False
  end.

(** The submissions of the single-queue frame that is being recorded. *)
Definition pendingGctOnly (frame : Z) (pool : VkCommandPool) (queue : VkQueue)
  (submit : VkSubmitInfo McubesParams) : Prop :=
  pool = s_frameGraphicsPools frame /\ queue = g_gctQueue.

(** The states agree on the clock, on the values kept for the pools and on
    the scheduler in use. *)
Definition sameClock (a b : State) : Prop :=
  s_upcomingTimelineValue a = s_upcomingTimelineValue b
  /\ s_frameComputePoolWaitTimelineValues a = s_frameComputePoolWaitTimelineValues b
  /\ s_frameGraphicsPoolWaitTimelineValues a = s_frameGraphicsPoolWaitTimelineValues b
  /\ s_useComputeQueue a = s_useComputeQueue b.

End FrameSteps.

(** ** Key presses *)

(** The keys of [keys] typed one after the other, [charCallbackImpl] run on
    each, the clipboard holding the same text throughout. *)
Fixpoint typeKeys (keys : list Z) (clipboard : option (list ascii)) (g : GuiCpp.Gui)
  : option GuiCpp.Gui :=
  match keys with
  | [] => Some g
  | chr :: rest =>
      g' ← GuiCpp.charCallbackImpl chr clipboard g; typeKeys rest clipboard g'
  end.

(** ** The jobs of a frame *)

(** The number of jobs along an axis with [count] target cells: [count] is
    clamped to 0..1024, divided by 127 and rounded to the nearest integer
    (halves up), and is at least 1. *)
Definition jobsAlongAxis (count : Z) : Z :=
  Z.max ((2 * glm_clamp count 0 1024 + 127) / 254) 1.

(** The jobs [getMcubesJobs] returns. *)
Definition guiJobs (g : GuiCpp.Gui) : list GuiCpp.McubesParams :=
  match GuiCpp.getMcubesJobs g with
  | Some (jobs, _) => jobs
  | None => []
  end.

(** What a turn of the frame loop takes from a [Gui] and a shader compiler. *)
Definition guiFrame (f : GuiCpp.Gui * ShaderCompiler) : FrameInput GuiCpp.McubesParams :=
  {| fi_gui := frameGui (fst f);
     fi_jobs := guiJobs (fst f);
     fi_compiler := snd f |}.

(** ** Debug colours *)

(** The colour of chunk [pChunk] in the view that colours by chunk index,
    [firstChunkUsed] being the first chunk of the frame: the exponents of 0.5
    that give red and blue, and green. *)
Definition chunkColor (firstChunkUsed pChunk : Z) : McubesDebugViewPushConstant :=
  let relativeChunkIndex := (pChunk - firstChunkUsed) mod MCUBES_CHUNK_COUNT in
  ChunkColor (relativeChunkIndex mod 5) (relativeChunkIndex / 5).

(** ** The debug view of a frame *)

Section DebugView.

Context {McubesParams : Type}.

(** What a draw command of a batch carries: the chunks, the boxes and the
    colours. *)
Definition Draw : Type :=
  list Z * option (list McubesParams) * option (list McubesDebugViewPushConstant).

Definition drawsOfCmds (cmds : list (Cmd McubesParams)) : list Draw :=
  flat_map (fun c => match c with
                     | CmdDrawMcubesGeometryBatch chunks debugBoxes debugColors =>
                         [(chunks, debugBoxes, debugColors)]
                     | _ => []
                     end) cmds.

(** The draw commands in the command buffers that a list of calls submits,
    in the order of submission. *)
Definition drawsOf (calls : list (VkCall McubesParams)) : list Draw :=
  flat_map (fun x => match x with
                     | vkQueueSubmit _ submit _ => drawsOfCmds (commands submit)
                     | _ => []
                     end) calls.

(** The boxes of batch number [batch] in a debug view mode: the jobs of the
    batch unless the view is off. *)
Definition debugBoxesOf (chunkDebugViewMode : Z) (paramsList : list McubesParams)
  (batchSize batch : Z) : option (list McubesParams) :=
  if chunkDebugViewMode =? chunkDebugViewOff then None
  else Some (jobsOfBatch paramsList batchSize batch).

(** The colours of the chunks of batch number [batchNumber] in a debug view
    mode, [firstChunkUsed] being the first chunk of the frame: one colour of
    the batch per chunk, or the colour of each chunk, or none. *)
Definition debugColorsOf (chunkDebugViewMode batchNumber firstChunkUsed : Z)
  (chunks : list Z) : option (list McubesDebugViewPushConstant) :=
  if chunkDebugViewMode =? chunkDebugViewBatch then
    Some (replicate (length chunks)
            (BatchColor (batchNumber mod 5) ((batchNumber / 5) mod 8)))
  else if chunkDebugViewMode =? chunkDebugViewChunkIndex then
    Some (chunkColor firstChunkUsed <$> chunks)
  else None.

(** The draw commands of a frame show the debug view of the [Gui]: the draw
    command number [k] draws the chunks of batch [k], as many as the batch has
    jobs, with the boxes and the colours of the view; the first chunk of the
    first of them is [first]. *)
Definition showsDebugView (pGui : Gui) (paramsList : list McubesParams) (first : Z)
  (draws : list Draw) : Prop :=
  forall (k : nat) chunks boxes colors,
    draws !! k = Some (chunks, boxes, colors) ->
    length chunks = length (jobsOfBatch paramsList (effectiveBatchSize pGui) (Z.of_nat k))
    /\ chunks <> []
    /\ Forall (fun p => 0 <= p < MCUBES_CHUNK_COUNT) chunks
    /\ (k = 0%nat -> head chunks = Some first)
    /\ boxes = debugBoxesOf (m_chunkDebugViewMode pGui) paramsList
                 (effectiveBatchSize pGui) (Z.of_nat k)
    /\ colors = debugColorsOf (m_chunkDebugViewMode pGui) (Z.of_nat k) first chunks.

End DebugView.

(** ** The batches of a frame *)

Section WholeFrames.

Context {McubesParams : Type}.

(** For each submission that signals [s_graphicsDoneTimelineSemaphore], in
    submission order: the value it signals and the chunks it draws. *)
Definition graphicsDraws (calls : list (VkCall McubesParams)) : list (Z * list Z) :=
  flat_map
    (fun c => match c with
              | vkQueueSubmit _ submit _ =>
                  match signalSemaphore submit with
                  | Some (s_graphicsDoneTimelineSemaphore, v) =>
                      [(v, flat_map drawnChunks (commands submit))]
                  | _ => []
                  end
              | _ => []
              end)
    calls.

(** The jobs of a run: the job lists of its frames, one after the other. *)
Definition runJobs (inputs : list (FrameInput McubesParams)) : list McubesParams :=
  flat_map fi_jobs inputs.

(** The slots of batch number [batch] in a frame of [jobCount] jobs that
    starts with the cursor at [c]: the slots after the cursor, one per job,
    cut into batches as the jobs are. *)
Definition slotsOfBatch (c : Z) (jobCount : nat) (B batch : Z) : list Z :=
  jobsOfBatch (ring_slots c jobCount) B batch.

(** The states agree on the clock, the cursor and the chunks; the second
    has made calls that fill no chunk and signal no semaphore. *)
Definition quietlyAfter (st s : Globals McubesParams) : Prop :=
  s_upcomingTimelineValue s = s_upcomingTimelineValue st
  /\ s_mcubesChunkIndex s = s_mcubesChunkIndex st
  /\ g_mcubesChunkArray s = g_mcubesChunkArray st
  /\ exists calls,
       vk_calls s = vk_calls st ++ calls
       /\ batchChunks calls = []
       /\ graphicsDraws calls = [].

End WholeFrames.

(** * Properties *)

(** ** The ring-buffer cursor *)

Lemma nextChunkIndex_range c : 0 <= nextChunkIndex c < MCUBES_CHUNK_COUNT.
Proof.
  unfold nextChunkIndex, to_uint32, MCUBES_CHUNK_COUNT.
  pose proof (Z.mod_pos_bound (c + 1) (2 ^ 32) ltac:(lia)).
  destruct (Z.geb_spec ((c + 1) mod 2 ^ 32) 12); lia.
Qed.

Lemma nextChunkIndex_mod c :
  0 <= c < MCUBES_CHUNK_COUNT -> nextChunkIndex c = (c + 1) mod MCUBES_CHUNK_COUNT.
Proof.
  unfold nextChunkIndex, to_uint32, MCUBES_CHUNK_COUNT. intros Hc.
  rewrite (Z.mod_small (c + 1) (2 ^ 32)) by lia.
  destruct (Z.geb_spec (c + 1) 12).
  - replace c with 11 by lia. reflexivity.
  - rewrite Z.mod_small by lia. reflexivity.
Qed.

Lemma ring_cursor_S c n : ring_cursor c (S n) = nextChunkIndex (ring_cursor c n).
Proof. reflexivity. Qed.

Lemma ring_cursor_range c n :
  0 <= c < MCUBES_CHUNK_COUNT -> 0 <= ring_cursor c n < MCUBES_CHUNK_COUNT.
Proof.
  intros Hc. destruct n as [|n]; [exact Hc|].
  rewrite ring_cursor_S. apply nextChunkIndex_range.
Qed.

Lemma ring_cursor_mod c n :
  0 <= c < MCUBES_CHUNK_COUNT ->
  ring_cursor c n = (c + Z.of_nat n) mod MCUBES_CHUNK_COUNT.
Proof.
  intros Hc. induction n as [|n IH].
  - simpl. rewrite Z.add_0_r, Z.mod_small; [reflexivity | exact Hc].
  - rewrite ring_cursor_S, nextChunkIndex_mod by (apply ring_cursor_range; exact Hc).
    rewrite IH. unfold MCUBES_CHUNK_COUNT.
    rewrite Zplus_mod_idemp_l. f_equal. lia.
Qed.

Lemma ring_cursor_add c n m :
  ring_cursor c (n + m) = ring_cursor (ring_cursor c n) m.
Proof.
  unfold ring_cursor. rewrite Nat.add_comm. apply Nat.iter_add.
Qed.

Lemma ring_slots_S c n :
  ring_slots c (S n) = ring_slots c n ++ [ring_cursor c (S n)].
Proof. unfold ring_slots. rewrite seq_S, map_app. reflexivity. Qed.

Lemma ring_slots_length c n : length (ring_slots c n) = n.
Proof. unfold ring_slots. rewrite length_map, length_seq. reflexivity. Qed.

Lemma ring_slots_lookup c n (i : nat) :
  (i < n)%nat -> ring_slots c n !! i = Some (ring_cursor c (S i)).
Proof.
  intros Hi. unfold ring_slots.
  change (map ?f ?l) with (f <$> l).
  rewrite list_lookup_fmap.
  assert (seq 0 n !! i = Some i) as ->; [| reflexivity].
  apply lookup_seq. split; [reflexivity | exact Hi].
Qed.

Lemma ring_slots_range c n :
  Forall (fun p => 0 <= p < MCUBES_CHUNK_COUNT) (ring_slots c n).
Proof.
  unfold ring_slots. apply Forall_forall. intros p Hp.
  apply list_elem_of_In, in_map_iff in Hp. destruct Hp as [j [<- _]].
  rewrite ring_cursor_S. apply nextChunkIndex_range.
Qed.

Lemma ring_slots_app c n m :
  ring_slots c (n + m) = ring_slots c n ++ ring_slots (ring_cursor c n) m.
Proof.
  induction m as [|m IH].
  - rewrite Nat.add_0_r. simpl. rewrite app_nil_r. reflexivity.
  - rewrite Nat.add_succ_r, !ring_slots_S, IH, <- app_assoc.
    rewrite <- ring_cursor_add, Nat.add_succ_r. reflexivity.
Qed.

(** ** Loops *)

Lemma for_loop_snoc {T : Type} (body : Z -> T -> Outcome T) n : forall i s,
  for_loop (S n) i body s
  = (s' <- for_loop n i body s ;; body (i + Z.of_nat n) s').
Proof.
  induction n as [|n IH]; intros i s.
  - simpl. rewrite Z.add_0_r. destruct (body i s); reflexivity.
  - change (for_loop (S (S n)) i body s)
      with (s' <- body i s ;; for_loop (S n) (i + 1) body s').
    change (for_loop (S n) i body s)
      with (s' <- body i s ;; for_loop n (i + 1) body s').
    destruct (body i s) as [s1|f]; cbn [bind]; [| reflexivity].
    rewrite IH. replace (i + 1 + Z.of_nat n) with (i + Z.of_nat (S n)) by lia.
    reflexivity.
Qed.

Lemma carray_read_prefix {A : Type} (a : CArray A) (l : list A) (i : nat) (v : A) :
  take (length l) a = Some <$> l ->
  l !! i = Some v ->
  carray_read a (Z.of_nat i) = Ok v.
Proof.
  intros Htake Hv. unfold carray_read.
  destruct (Z.leb_spec 0 (Z.of_nat i)); [| lia].
  rewrite Nat2Z.id.
  rewrite <- (lookup_take_lt a (length l) i) by (eapply lookup_lt_Some; exact Hv).
  rewrite Htake, list_lookup_fmap, Hv. reflexivity.
Qed.

Lemma for_loop_read {A T : Type} (a : CArray A) (g : A -> T -> Outcome T)
  (body : Z -> T -> Outcome T) (base : Z) (l : list A) :
  take (length l) a = Some <$> l ->
  (forall p s, body p s = (x <- carray_read a (p - base) ;; g x s)) ->
  forall l2 l1 s,
    l = l1 ++ l2 ->
    for_loop (length l2) (base + Z.of_nat (length l1)) body s = foldM g l2 s.
Proof.
  intros Htake Hbody. induction l2 as [|x l2 IH]; intros l1 s Hl; [reflexivity|].
  cbn [length for_loop foldM]. rewrite Hbody.
  replace (base + Z.of_nat (length l1) - base) with (Z.of_nat (length l1)) by lia.
  rewrite (carray_read_prefix a l (length l1) x Htake)
    by (rewrite Hl; apply list_lookup_middle; reflexivity).
  cbn [bind]. destruct (g x s) as [s'|f]; cbn [bind]; [| reflexivity].
  specialize (IH (l1 ++ [x]) s'). rewrite length_app in IH. cbn [length] in IH.
  replace (base + Z.of_nat (length l1) + 1)
    with (base + Z.of_nat (length l1 + 1)) by lia.
  apply IH. rewrite Hl, <- app_assoc. reflexivity.
Qed.

Lemma carray_prefix_read {A : Type} (a : CArray A) (l : list A) :
  take (length l) a = Some <$> l ->
  forall l2 l1,
    l = l1 ++ l2 ->
    carray_prefix a (length l2) (Z.of_nat (length l1)) = Ok l2.
Proof.
  intros Htake. induction l2 as [|x l2 IH]; intros l1 Hl; [reflexivity|].
  cbn [length carray_prefix].
  rewrite (carray_read_prefix a l (length l1) x Htake)
    by (rewrite Hl; apply list_lookup_middle; reflexivity).
  cbn [bind]. specialize (IH (l1 ++ [x])). rewrite length_app in IH.
  cbn [length] in IH.
  replace (Z.of_nat (length l1) + 1) with (Z.of_nat (length l1 + 1)) by lia.
  rewrite IH by (rewrite Hl, <- app_assoc; reflexivity).
  reflexivity.
Qed.

Lemma foldM_Ok {A T : Type} (f : A -> T -> Outcome T) (h : A -> T -> T)
  (P : A -> Prop) (l : list A) :
  (forall a s, P a -> f a s = Ok (h a s)) ->
  Forall P l ->
  forall s, foldM f l s = Ok (foldl (fun s a => h a s) s l).
Proof.
  intros Hf Hl. induction Hl as [|a l Ha _ IH]; intros s; [reflexivity|].
  cbn [foldM foldl]. rewrite (Hf a s Ha). cbn [bind]. apply IH.
Qed.

Section StepLemmas.

Context {McubesParams : Type}.
Local Abbreviation State := (Globals McubesParams).

Lemma set_mcubesChunkIndex_same (st : State) :
  set_mcubesChunkIndex (s_mcubesChunkIndex st) st = st.
Proof. destruct st; reflexivity. Qed.

(** The selection loop fills the first [n] cells of the pointer array with the
    next [n] slots of the ring and leaves the cursor on the last of them. *)
Lemma selectLoop_spec (batch batchStart : Z) (fcu : option Z) (st : State) (n : nat) :
  (n <= 6)%nat ->
  exists arr,
    for_loop n batchStart (selectNextChunk batch batchStart)
      (newCArray MCUBES_MAX_CHUNKS_PER_BATCH, fcu, st)
    = Ok (arr,
          (if (batch =? 0) && negb (Nat.eqb n 0)
           then Some (nextChunkIndex (s_mcubesChunkIndex st)) else fcu),
          set_mcubesChunkIndex (ring_cursor (s_mcubesChunkIndex st) n) st)
    /\ length arr = 6%nat
    /\ take n arr = Some <$> ring_slots (s_mcubesChunkIndex st) n.
Proof.
  induction n as [|n IH]; intros Hn.
  - exists (newCArray MCUBES_MAX_CHUNKS_PER_BATCH). cbn [for_loop].
    change (ring_cursor (s_mcubesChunkIndex st) 0) with (s_mcubesChunkIndex st).
    rewrite set_mcubesChunkIndex_same, andb_false_r. repeat split.
  - destruct IH as [arr [Hloop [Hlen Htake]]]; [lia|].
    rewrite for_loop_snoc, Hloop. cbn [bind].
    exists (<[n := Some (ring_cursor (s_mcubesChunkIndex st) (S n))]> arr).
    split; [| split].
    + unfold selectNextChunk.
      replace (batchStart + Z.of_nat n - batchStart) with (Z.of_nat n) by lia.
      unfold carray_write. rewrite Hlen.
      destruct (Z.leb_spec 0 (Z.of_nat n)); [| lia].
      destruct (Z.ltb_spec (Z.of_nat n) (Z.of_nat 6)); [| lia].
      cbn [andb bind]. rewrite Nat2Z.id.
      change (s_mcubesChunkIndex (set_mcubesChunkIndex ?v ?s)) with v.
      change (to_uint32 (?c + 1)) with (to_uint32 (c + 1)).
      fold (nextChunkIndex (ring_cursor (s_mcubesChunkIndex st) n)).
      rewrite <- ring_cursor_S.
      f_equal. f_equal. f_equal.
      destruct n as [|n'].
      * cbn [Z.of_nat Z.eqb Nat.eqb negb andb]. rewrite andb_true_r.
        destruct (batch =? 0); reflexivity.
      * replace (Z.of_nat (S n') =? 0) with false by (symmetry; apply Z.eqb_neq; lia).
        cbn [andb Nat.eqb negb]. reflexivity.
    + rewrite length_insert. exact Hlen.
    + rewrite ring_slots_S, fmap_app. cbn [fmap list_fmap].
      rewrite (take_S_r _ n (Some (ring_cursor (s_mcubesChunkIndex st) (S n))))
        by (apply list_lookup_insert_eq; lia).
      rewrite take_insert_ge by lia. rewrite Htake. reflexivity.
Qed.

(** *** Batch geometry *)

Lemma effectiveBatchSize_range (pGui : Gui) :
  1 <= effectiveBatchSize pGui <= MCUBES_MAX_CHUNKS_PER_BATCH.
Proof.
  unfold effectiveBatchSize, glm_clamp, MCUBES_MAX_CHUNKS_PER_BATCH. lia.
Qed.

Lemma computeBatchCount_spec (paramsList : list McubesParams) (B : Z) :
  1 <= B <= MCUBES_MAX_CHUNKS_PER_BATCH ->
  Z.of_nat (length paramsList) + 6 <= 2 ^ 32 ->
  computeBatchCount paramsList B = Ok ((Z.of_nat (length paramsList) + B - 1) / B).
Proof.
  unfold computeBatchCount, udiv, to_uint32, to_uint64, MCUBES_MAX_CHUNKS_PER_BATCH.
  intros HB HM.
  destruct (Z.eqb_spec B 0); [lia|].
  rewrite (Z.mod_small _ (2 ^ 64)) by lia.
  rewrite (Z.mod_small _ (2 ^ 32)) by lia.
  reflexivity.
Qed.

Lemma batch_lt_count (M B batch : Z) :
  1 <= B -> 0 <= M -> 0 <= batch ->
  batch < (M + B - 1) / B <-> batch * B < M.
Proof.
  intros HB HM Hb. split; intros H.
  - assert (batch + 1 <= (M + B - 1) / B) as H1 by lia.
    pose proof (Z.mul_div_le (M + B - 1) B ltac:(lia)).
    nia.
  - assert (batch + 1 <= (M + B - 1) / B)
      by (apply Z.div_le_lower_bound; [lia | nia]).
    lia.
Qed.

Lemma batchCount_bounds (M B : Z) :
  1 <= B -> 0 <= M -> 0 <= (M + B - 1) / B <= M.
Proof.
  intros HB HM. split.
  - apply Z.div_pos; lia.
  - destruct (Z.eq_dec M 0) as [-> | Hne].
    + rewrite Z.div_small; lia.
    + apply Z.lt_succ_r. apply Z.div_lt_upper_bound; nia.
Qed.

Lemma batch_geometry (paramsList : list McubesParams) (B batch : Z) :
  1 <= B <= MCUBES_MAX_CHUNKS_PER_BATCH ->
  Z.of_nat (length paramsList) + 6 <= 2 ^ 32 ->
  0 <= batch ->
  batch * B < Z.of_nat (length paramsList) ->
  let n := batchItems B (Z.of_nat (length paramsList)) batch in
  batchStartOf batch B = batch * B
  /\ batchEndOf paramsList (batch * B) B = batch * B + Z.of_nat n
  /\ (1 <= n <= 6)%nat
  /\ Z.of_nat n <= B.
Proof.
  unfold batchStartOf, batchEndOf, batchItems, to_uint32, MCUBES_MAX_CHUNKS_PER_BATCH.
  intros HB HM Hb Hlt. cbv zeta.
  assert (0 <= batch * B) by nia.
  rewrite !Z.mod_small by lia.
  repeat split; lia.
Qed.

(** *** Allocating or recycling a command buffer *)

Lemma acquireCommandBuffer_spec pool bufs i (st : State) h bufs' st' :
  acquireCommandBuffer pool bufs i st = (h, bufs', st') ->
  same_scheduler_state st st'
  /\ s_frameComputeCmdBufs st' = s_frameComputeCmdBufs st
  /\ s_frameGraphicsCmdBufs st' = s_frameGraphicsCmdBufs st
  /\ exists allocs, vk_calls st' = vk_calls st ++ allocs /\ Forall isAllocate allocs.
Proof.
  unfold acquireCommandBuffer, same_scheduler_state.
  destruct (i <? Z.of_nat (length bufs)); intros H; inversion H; subst; clear H.
  - repeat split. exists []. rewrite app_nil_r. split; [reflexivity | constructor].
  - repeat split. eexists. split; [reflexivity|].
    constructor; [exact I | constructor].
Qed.

(** *** The loops over the chunks of a batch *)

Lemma markSlots_length v slots : forall chunks,
  length (markSlots v chunks slots) = length chunks.
Proof.
  induction slots as [|p slots IH]; intros chunks; [reflexivity|].
  cbn. unfold markSlots in IH. rewrite IH, length_insert. reflexivity.
Qed.

Lemma for_range_read {A T : Type} (a : CArray A) (g : A -> T -> Outcome T)
  (body : Z -> T -> Outcome T) (base : Z) (l : list A) (n : nat) (s : T) :
  n = length l ->
  take (length l) a = Some <$> l ->
  (forall p s, body p s = (x <- carray_read a (p - base) ;; g x s)) ->
  for_loop n base body s = foldM g l s.
Proof.
  intros -> Htake Hbody.
  pose proof (for_loop_read a g body base l Htake Hbody l [] s eq_refl) as H.
  cbn [length Z.of_nat] in H. rewrite Z.add_0_r in H. exact H.
Qed.

Lemma waitLoop_spec (st : State) (arr : CArray Z) (base wait : Z) (slots : list Z) (n : nat) :
  n = length slots ->
  take (length slots) arr = Some <$> slots ->
  Forall (fun p => 0 <= p < MCUBES_CHUNK_COUNT) slots ->
  length (g_mcubesChunkArray st) = 12%nat ->
  for_loop n base
    (fun paramIndex wait =>
       pChunk <- carray_read arr (paramIndex - base) ;;
       timelineValue <- chunk_timelineValue st pChunk ;;
       Ok (Z.max wait timelineValue))
    wait
  = Ok (maxTimelineValue wait (g_mcubesChunkArray st) slots).
Proof.
  intros Hn Htake Hrange Hlen.
  rewrite (for_range_read arr
             (fun pChunk wait =>
                timelineValue <- chunk_timelineValue st pChunk ;;
                Ok (Z.max wait timelineValue))
             _ base slots n wait Hn Htake) by reflexivity.
  apply (foldM_Ok _ (fun p w => Z.max w (slotValue (g_mcubesChunkArray st) p)) _ _)
    with (2 := Hrange).
  intros p w Hp. unfold chunk_timelineValue, slotValue, MCUBES_CHUNK_COUNT in *.
  destruct (Z.leb_spec 0 p); [| lia].
  destruct (g_mcubesChunkArray st !! Z.to_nat p) eqn:E; [reflexivity|].
  apply lookup_ge_None in E. lia.
Qed.

Lemma markLoop_spec (arr : CArray Z) (base : Z) (slots : list Z) (n : nat) (st : State) :
  n = length slots ->
  take (length slots) arr = Some <$> slots ->
  Forall (fun p => 0 <= p < MCUBES_CHUNK_COUNT) slots ->
  length (g_mcubesChunkArray st) = 12%nat ->
  for_loop n base
    (fun paramIndex st =>
       pChunk <- carray_read arr (paramIndex - base) ;;
       set_chunk_timelineValue pChunk (s_upcomingTimelineValue st) st)
    st
  = Ok (set_mcubesChunkArray
          (markSlots (s_upcomingTimelineValue st) (g_mcubesChunkArray st) slots) st).
Proof.
  intros Hn Htake Hrange Hlen.
  rewrite (for_range_read arr
             (fun pChunk st => set_chunk_timelineValue pChunk (s_upcomingTimelineValue st) st)
             _ base slots n st Hn Htake) by reflexivity.
  clear Hn Htake. revert st Hlen.
  induction Hrange as [|p slots Hp _ IH]; intros st Hlen.
  - cbn. destruct st; reflexivity.
  - cbn [foldM]. unfold set_chunk_timelineValue at 1. rewrite Hlen.
    unfold MCUBES_CHUNK_COUNT in Hp.
    destruct (Z.leb_spec 0 p); [| lia].
    destruct (Z.ltb_spec p (Z.of_nat 12)); [| lia].
    cbn [andb bind]. rewrite IH by (cbn; rewrite length_insert; exact Hlen).
    reflexivity.
Qed.

Lemma makeDebugColors_ok (mode batch first count : Z) (arr : CArray Z) (slots : list Z) :
  count = Z.of_nat (length slots) ->
  take (length slots) arr = Some <$> slots ->
  Forall (fun p => 0 <= p < MCUBES_CHUNK_COUNT) slots ->
  exists colors, makeDebugColors mode batch first count arr = Ok colors.
Proof.
  intros Hc Htake Hrange. unfold makeDebugColors.
  destruct (mode =? chunkDebugViewBatch); [eexists; reflexivity|].
  destruct (mode =? chunkDebugViewChunkIndex); [| eexists; reflexivity].
  unfold for_range.
  erewrite (for_range_read arr
              (fun chunkIndex result =>
                 _ <- assert (chunkIndex <? MCUBES_CHUNK_COUNT) ;;
                 let relativeChunkIndex :=
                   to_int32 (to_int32 chunkIndex - to_int32 first) in
                 let relativeChunkIndex :=
                   to_int32 (relativeChunkIndex
                             + (if relativeChunkIndex <? 0 then MCUBES_CHUNK_COUNT else 0)) in
                 Ok (result ++ [ChunkColor (Z.rem relativeChunkIndex 5)
                                           (Z.quot relativeChunkIndex 5)]))
              _ 0 slots).
  - erewrite foldM_Ok with (P := fun p => 0 <= p < MCUBES_CHUNK_COUNT);
      [eexists; reflexivity | | exact Hrange].
    intros p r Hp. cbv beta.
    destruct (Z.ltb_spec p MCUBES_CHUNK_COUNT); [| lia].
    cbn [assert bind]. reflexivity.
  - lia.
  - exact Htake.
  - intros p r. rewrite Z.sub_0_r. reflexivity.
Qed.

(** *** One batch of the two-queue scheduler *)

Lemma twoQueuesBatch_spec (pGui : Gui) (paramsList : list McubesParams) (B bc batch : Z)
  (loc : TwoQueuesLocals) (st : State) :
  1 <= B <= MCUBES_MAX_CHUNKS_PER_BATCH ->
  Z.of_nat (length paramsList) + 6 <= 2 ^ 32 ->
  0 <= batch ->
  batch * B < Z.of_nat (length paramsList) ->
  length (g_mcubesChunkArray st) = 12%nat ->
  (batch = 0 \/ is_Some (firstChunkUsed loc)) ->
  maxTimelineValue (computeWaitTimelineValue loc) (g_mcubesChunkArray st)
    (ring_slots (s_mcubesChunkIndex st) (batchItems B (Z.of_nat (length paramsList)) batch))
  < s_upcomingTimelineValue st ->
  exists loc' st',
    twoQueuesBatch pGui paramsList B bc batch (loc, st) = Ok (loc', st')
    /\ TwoQueuesBatchEffect paramsList B bc batch loc st loc' st'.
Proof.
  intros HB HM Hb Hlt Hlen Hfirst Hwait.
  destruct (batch_geometry paramsList B batch HB HM Hb Hlt) as [Hbs [Hbe [Hn HnB]]].
  set (n := batchItems B (Z.of_nat (length paramsList)) batch) in *.
  unfold twoQueuesBatch.
  destruct (acquireCommandBuffer (s_frameComputePools _) _ _ st)
    as [[hC bufsC] st1] eqn:E1.
  apply acquireCommandBuffer_spec in E1.
  destruct E1 as [S1 [_ [_ [allocs1 [Hcalls1 Hallocs1]]]]].
  match goal with
  | |- context [acquireCommandBuffer ?p ?b ?i ?s] =>
      destruct (acquireCommandBuffer p b i s) as [[hG bufsG] st2] eqn:E2
  end.
  apply acquireCommandBuffer_spec in E2.
  destruct E2 as [S2 [_ [_ [allocs2 [Hcalls2 Hallocs2]]]]].
  match goal with
  | |- context [set_graphicsCmdBufs ?v st2] => set (st2' := set_graphicsCmdBufs v st2)
  end.
  assert (same_scheduler_state st st2') as S.
  { unfold same_scheduler_state in *. cbn in S2.
    destruct S1 as (?&?&?&?&?&?&?&?), S2 as (?&?&?&?&?&?&?&?).
    subst st2'. cbn. repeat split; congruence. }
  assert (vk_calls st2' = vk_calls st ++ allocs1 ++ allocs2) as Hcalls.
  { subst st2'. cbn. rewrite Hcalls2. cbn. rewrite Hcalls1, <- app_assoc. reflexivity. }
  clearbody st2'. clear S1 S2 Hcalls1 Hcalls2 st1 st2.
  destruct S as (Sfn & Scw & Sgw & Sup & Sci & Suq & Sca & Spl).
  rewrite Hbs, Hbe. unfold for_range.
  replace (batch * B + Z.of_nat n - batch * B) with (Z.of_nat n) by lia.
  rewrite Nat2Z.id.
  destruct (selectLoop_spec batch (batch * B) (firstChunkUsed loc) st2' n ltac:(lia))
    as [arr [Hsel [Harr Htake]]].
  rewrite Hsel. cbn [bind]. clear Hsel.
  rewrite <- Sci in *.
  set (slots := ring_slots (s_mcubesChunkIndex st) n) in *.
  assert (length slots = n) as Hslots by apply ring_slots_length.
  assert (Forall (fun p => 0 <= p < MCUBES_CHUNK_COUNT) slots) as Hrange
    by apply ring_slots_range.
  rewrite <- Hslots in Htake.
  rewrite (waitLoop_spec _ arr (batch * B) _ slots n)
    by (cbn; congruence || assumption).
  cbn [bind g_mcubesChunkArray set_mcubesChunkIndex].
  (* computeCmdFillChunkBatch *)
  unfold computeCmdFillChunkBatch.
  assert (to_uint32 (Z.of_nat n) = Z.of_nat n) as Hcount
    by (unfold to_uint32; apply Z.mod_small; lia).
  rewrite Hcount, Nat2Z.id.
  destruct (Z.leb_spec (Z.of_nat n) MCUBES_MAX_CHUNKS_PER_BATCH);
    [| unfold MCUBES_MAX_CHUNKS_PER_BATCH in *; lia].
  cbn [assert bind].
  pose proof (carray_prefix_read arr slots Htake slots [] eq_refl) as Hprefix.
  change (Z.of_nat (@length Z [])) with 0 in Hprefix. rewrite Hslots in Hprefix.
  rewrite Hprefix. cbn [bind].
  assert (vector_range paramsList (batch * B) (Z.of_nat n)
          = Ok (jobsOfBatch paramsList B batch)) as Hvr.
  { unfold vector_range, jobsOfBatch. fold n.
    destruct (Z.leb_spec 0 (batch * B)); [| nia].
    destruct (Z.leb_spec 0 (Z.of_nat n)); [| lia].
    destruct (Z.leb_spec (batch * B + Z.of_nat n) (Z.of_nat (length paramsList))).
    - cbn [andb]. rewrite Nat2Z.id. reflexivity.
    - subst n. unfold batchItems in *. lia. }
  rewrite Hvr. cbn [bind].
  (* marking the chunks *)
  rewrite (markLoop_spec arr (batch * B) slots n)
    by (cbn; congruence || assumption).
  cbn [bind].
  (* firstChunkUsed *)
  assert (exists f,
            (if (batch =? 0) && negb (Nat.eqb n 0)
             then Some (nextChunkIndex (s_mcubesChunkIndex st))
             else firstChunkUsed loc) = Some f) as [f Hf].
  { destruct (Z.eqb_spec batch 0) as [-> | Hne].
    - destruct n; [lia|]. eexists; reflexivity.
    - cbn [andb]. destruct Hfirst as [? | [f Hf]]; [contradiction | eauto]. }
  rewrite Hf. cbn [read_local bind].
  destruct (makeDebugColors_ok (m_chunkDebugViewMode pGui) batch f (Z.of_nat n) arr slots
              ltac:(lia) Htake Hrange) as [colors Hcolors].
  rewrite Hcolors. cbn [bind].
  unfold graphicsCmdDrawMcubesGeometryBatch. rewrite Nat2Z.id, Hprefix.
  cbn [s_upcomingTimelineValue g_mcubesChunkArray s_mcubesImagePipeline
       set_mcubesChunkArray set_mcubesChunkIndex call set_calls].
  rewrite <- Sca, <- Sup, <- Spl.
  destruct (Z.ltb_spec (maxTimelineValue (computeWaitTimelineValue loc)
                          (g_mcubesChunkArray st) slots)
                       (s_upcomingTimelineValue st)); [| lia].
  destruct (negb (m_chunkDebugViewMode pGui =? chunkDebugViewOff));
    cbn [bind assert].
  all: eexists; eexists; (split; [reflexivity|]).
  all: unfold TwoQueuesBatchEffect; fold n; fold slots.
  all: destruct (batch =? to_uint32 (bc - 1)), (batch =? 0); cbn.
  all: rewrite <- ?Sfn, <- ?Scw, <- ?Sgw, <- ?Suq, <- ?Sup, <- ?Spl, ?Hcalls.
  all: repeat (split; [reflexivity|]).
  all: (split; [| repeat split; eauto]).
  all: exists (allocs1 ++ allocs2); do 4 eexists.
  all: (split; [apply Forall_app; split; assumption|]).
  all: rewrite <- !app_assoc; reflexivity.
Qed.

(** *** One batch of the single-queue scheduler *)

Lemma gctOnlyBatch_spec (pGui : Gui) (paramsList : list McubesParams) (B bc batch : Z)
  (s : Z * option Z * State) :
  1 <= B <= MCUBES_MAX_CHUNKS_PER_BATCH ->
  Z.of_nat (length paramsList) + 6 <= 2 ^ 32 ->
  0 <= batch ->
  batch * B < Z.of_nat (length paramsList) ->
  (batch = 0 \/ is_Some (snd (fst s))) ->
  exists s',
    gctOnlyBatch pGui paramsList B bc batch s = Ok s'
    /\ GctOnlyBatchEffect paramsList B bc batch s s'.
Proof.
  intros HB HM Hb Hlt Hfirst. destruct s as [[nci fcu] st]. cbn [fst snd] in Hfirst.
  destruct (batch_geometry paramsList B batch HB HM Hb Hlt) as [Hbs [Hbe [Hn HnB]]].
  set (n := batchItems B (Z.of_nat (length paramsList)) batch) in *.
  unfold gctOnlyBatch.
  destruct (acquireCommandBuffer (s_frameGraphicsPools _) _ _ st)
    as [[hG bufsG] st1] eqn:E1.
  apply acquireCommandBuffer_spec in E1.
  destruct E1 as [S1 [Scb [_ [allocs1 [Hcalls1 Hallocs1]]]]].
  match goal with
  | |- context [set_graphicsCmdBufs ?v st1] => set (st1' := set_graphicsCmdBufs v st1)
  end.
  assert (same_scheduler_state st st1') as S by exact S1.
  assert (vk_calls st1' = vk_calls st ++ allocs1) as Hcalls by exact Hcalls1.
  assert (s_frameComputeCmdBufs st1' = s_frameComputeCmdBufs st) as Scb' by exact Scb.
  clearbody st1'. clear S1 Hcalls1 Scb st1.
  destruct S as (Sfn & Scw & Sgw & Sup & Sci & Suq & Sca & Spl).
  rewrite Hbs, Hbe. unfold for_range.
  replace (batch * B + Z.of_nat n - batch * B) with (Z.of_nat n) by lia.
  rewrite Nat2Z.id.
  destruct (selectLoop_spec batch (batch * B) fcu st1' n ltac:(lia))
    as [arr [Hsel [Harr Htake]]].
  rewrite Hsel. cbn [bind]. clear Hsel.
  rewrite <- Sci in *.
  set (slots := ring_slots (s_mcubesChunkIndex st) n) in *.
  assert (length slots = n) as Hslots by apply ring_slots_length.
  assert (Forall (fun p => 0 <= p < MCUBES_CHUNK_COUNT) slots) as Hrange
    by apply ring_slots_range.
  rewrite <- Hslots in Htake.
  unfold computeCmdFillChunkBatch.
  assert (to_uint32 (Z.of_nat n) = Z.of_nat n) as Hcount
    by (unfold to_uint32; apply Z.mod_small; lia).
  rewrite Hcount, Nat2Z.id.
  destruct (Z.leb_spec (Z.of_nat n) MCUBES_MAX_CHUNKS_PER_BATCH);
    [| unfold MCUBES_MAX_CHUNKS_PER_BATCH in *; lia].
  cbn [assert bind].
  pose proof (carray_prefix_read arr slots Htake slots [] eq_refl) as Hprefix.
  change (Z.of_nat (@length Z [])) with 0 in Hprefix. rewrite Hslots in Hprefix.
  rewrite Hprefix. cbn [bind].
  assert (vector_range paramsList (batch * B) (Z.of_nat n)
          = Ok (jobsOfBatch paramsList B batch)) as Hvr.
  { unfold vector_range, jobsOfBatch. fold n.
    destruct (Z.leb_spec 0 (batch * B)); [| nia].
    destruct (Z.leb_spec 0 (Z.of_nat n)); [| lia].
    destruct (Z.leb_spec (batch * B + Z.of_nat n) (Z.of_nat (length paramsList))).
    - cbn [andb]. rewrite Nat2Z.id. reflexivity.
    - subst n. unfold batchItems in *. lia. }
  rewrite Hvr. cbn [bind].
  assert (exists f,
            (if (batch =? 0) && negb (Nat.eqb n 0)
             then Some (nextChunkIndex (s_mcubesChunkIndex st))
             else fcu) = Some f) as [f Hf].
  { destruct (Z.eqb_spec batch 0) as [-> | Hne].
    - destruct n; [lia|]. eexists; reflexivity.
    - cbn [andb]. destruct Hfirst as [? | [f Hf]]; [contradiction | eauto]. }
  rewrite Hf. cbn [read_local bind].
  destruct (makeDebugColors_ok (m_chunkDebugViewMode pGui) batch f (Z.of_nat n) arr slots
              ltac:(lia) Htake Hrange) as [colors Hcolors].
  rewrite Hcolors. cbn [bind].
  unfold graphicsCmdDrawMcubesGeometryBatch. rewrite Nat2Z.id, Hprefix.
  destruct (Z.leb_spec B (MCUBES_CHUNK_COUNT / 2));
    [| unfold MCUBES_CHUNK_COUNT, MCUBES_MAX_CHUNKS_PER_BATCH in *;
       change (12 / 2) with 6 in *; lia].
  destruct (negb (m_chunkDebugViewMode pGui =? chunkDebugViewOff));
    cbn [bind assert].
  all: eexists; (split; [reflexivity|]).
  all: unfold GctOnlyBatchEffect; cbn [fst snd]; fold n; fold slots.
  all: destruct (batch =? to_uint32 (bc - 1)), (batch =? 0); cbn.
  all: rewrite <- ?Sfn, <- ?Scw, <- ?Sgw, <- ?Suq, <- ?Sup, <- ?Spl, <- ?Sca, ?Hcalls, ?Scb'.
  all: repeat (split; [reflexivity|]).
  all: (split; [| eauto]).
  all: exists allocs1; do 3 eexists.
  all: (split; [assumption|]).
  all: rewrite <- !app_assoc; reflexivity.
Qed.

(** ** The invariant of the timeline clock *)

Lemma slotValue_bound (chunks : list Z) (up p : Z) :
  1 <= up ->
  Forall (fun v => 0 <= v < up) chunks ->
  0 <= slotValue chunks p < up.
Proof.
  intros Hup Hall. unfold slotValue.
  destruct (chunks !! Z.to_nat p) as [v|] eqn:E; cbn [default]; [| lia].
  exact (proj1 (Forall_lookup _ _) Hall _ _ E).
Qed.

Lemma maxTimelineValue_bound (chunks slots : list Z) (up : Z) :
  1 <= up ->
  Forall (fun v => 0 <= v < up) chunks ->
  forall wait, 0 <= wait < up -> 0 <= maxTimelineValue wait chunks slots < up.
Proof.
  intros Hup Hall. unfold maxTimelineValue.
  induction slots as [|p slots IH]; intros wait Hw; [exact Hw|].
  cbn [foldl]. apply IH.
  pose proof (slotValue_bound chunks up p Hup Hall). lia.
Qed.

Lemma maxTimelineValue_ge_wait (chunks slots : list Z) :
  forall wait, wait <= maxTimelineValue wait chunks slots.
Proof.
  unfold maxTimelineValue.
  induction slots as [|p slots IH]; intros wait; [reflexivity|].
  cbn [foldl]. etransitivity; [| apply IH]. lia.
Qed.

Lemma maxTimelineValue_ge_slot (chunks slots : list Z) :
  forall wait p, p ∈ slots -> slotValue chunks p <= maxTimelineValue wait chunks slots.
Proof.
  unfold maxTimelineValue.
  induction slots as [|q slots IH]; intros wait p Hp; [inversion Hp|].
  cbn [foldl]. apply elem_of_cons in Hp as [-> | Hp].
  - etransitivity; [| apply (maxTimelineValue_ge_wait chunks slots)]. lia.
  - apply IH, Hp.
Qed.

Lemma markSlots_Forall (P : Z -> Prop) (v : Z) (slots : list Z) :
  P v -> forall chunks, Forall P chunks -> Forall P (markSlots v chunks slots).
Proof.
  intros Hv. unfold markSlots.
  induction slots as [|p slots IH]; intros chunks Hall; [exact Hall|].
  cbn [foldl]. apply IH. apply Forall_insert; assumption.
Qed.

Lemma markSlots_lookup_in (v : Z) (slots : list Z) (p : Z) :
  forall chunks,
    0 <= p -> (Z.to_nat p < length chunks)%nat ->
    Forall (fun q => 0 <= q) slots ->
    p ∈ slots ->
    markSlots v chunks slots !! Z.to_nat p = Some v.
Proof.
  unfold markSlots.
  induction slots as [|q slots IH] using rev_ind; intros chunks Hp Hlen Hpos Hin.
  - inversion Hin.
  - rewrite foldl_app. cbn [foldl].
    apply Forall_app in Hpos. destruct Hpos as [Hpos Hq].
    inversion Hq as [|? ? Hq0 _]; subst.
    destruct (Z.eq_dec q p) as [-> | Hne].
    + apply list_lookup_insert_eq.
      fold (markSlots v chunks slots). rewrite markSlots_length. exact Hlen.
    + rewrite list_lookup_insert_ne by lia.
      apply IH; try assumption.
      apply elem_of_app in Hin. destruct Hin as [Hin | Hin]; [exact Hin|].
      apply list_elem_of_singleton in Hin. congruence.
Qed.

Lemma markSlots_lookup_notin (v : Z) (slots : list Z) (p : Z) :
  forall chunks,
    0 <= p ->
    Forall (fun q => 0 <= q) slots ->
    p ∉ slots ->
    markSlots v chunks slots !! Z.to_nat p = chunks !! Z.to_nat p.
Proof.
  unfold markSlots.
  induction slots as [|q slots IH]; intros chunks Hp Hpos Hnin; [reflexivity|].
  cbn [foldl]. inversion Hpos as [|? ? Hq Hpos']; subst.
  apply not_elem_of_cons in Hnin. destruct Hnin as [Hne Hnin].
  rewrite IH by assumption.
  apply list_lookup_insert_ne. lia.
Qed.

Lemma twoQueuesBatch_Core (paramsList : list McubesParams) (B bc batch : Z)
  (loc loc' : TwoQueuesLocals) (st st' : State) :
  Core st ->
  s_upcomingTimelineValue st + 1 < 2 ^ 64 ->
  0 <= computeWaitTimelineValue loc < s_upcomingTimelineValue st ->
  TwoQueuesBatchEffect paramsList B bc batch loc st loc' st' ->
  Core st'
  /\ s_upcomingTimelineValue st' = s_upcomingTimelineValue st + 1
  /\ 0 <= computeWaitTimelineValue loc' < s_upcomingTimelineValue st.
Proof.
  intros (Hlen & Hup & Hall) Hwrap Hw E. unfold TwoQueuesBatchEffect in E.
  destruct E as (_ & Hca & Hup' & _ & _ & _ & _ & _ & _ & _ & Hw' & _).
  assert (s_upcomingTimelineValue st' = s_upcomingTimelineValue st + 1) as Hup1.
  { rewrite Hup'. unfold to_uint64. apply Z.mod_small. lia. }
  split; [| split].
  - unfold Core. rewrite Hca, Hup1, markSlots_length. split; [exact Hlen|].
    split; [lia|].
    apply markSlots_Forall; [lia|].
    eapply Forall_impl; [exact Hall|]. cbv beta. intros; lia.
  - exact Hup1.
  - rewrite Hw'. apply maxTimelineValue_bound; [lia | exact Hall | exact Hw].
Qed.

Lemma gctOnlyBatch_Core (paramsList : list McubesParams) (B bc batch : Z)
  (s s' : Z * option Z * State) :
  Core (snd s) -> GctOnlyBatchEffect paramsList B bc batch s s' -> Core (snd s').
Proof.
  intros (Hlen & Hup & Hall) E. unfold GctOnlyBatchEffect in E.
  destruct E as (_ & Hca & Hup' & _).
  unfold Core. rewrite Hca, Hup'. auto.
Qed.

(** ** The scheduler as a transition system *)

Lemma isAllocate_plain (calls : list (VkCall McubesParams)) :
  Forall isAllocate calls -> Forall isPlainCall calls.
Proof.
  intros H. eapply Forall_impl; [exact H|].
  intros c. destruct c; cbn; tauto.
Qed.

Lemma for_loop_rule {T : Type} (I : Z -> T -> Prop) (body : Z -> T -> Outcome T) (n : nat) :
  forall lo s,
    I lo s ->
    (forall i s, lo <= i < lo + Z.of_nat n -> I i s ->
                 exists s', body i s = Ok s' /\ I (i + 1) s') ->
    exists s', for_loop n lo body s = Ok s' /\ I (lo + Z.of_nat n) s'.
Proof.
  induction n as [|n IH]; intros lo s HI Hstep.
  - exists s. cbn. rewrite Z.add_0_r. auto.
  - destruct (Hstep lo s ltac:(lia) HI) as [s1 [Hb HI1]].
    cbn [for_loop]. rewrite Hb. cbn [bind].
    destruct (IH (lo + 1) s1 HI1) as [s' [Hloop HI']].
    + intros i s2 Hi. apply Hstep. lia.
    + exists s'. split; [exact Hloop|].
      replace (lo + Z.of_nat (S n)) with (lo + 1 + Z.of_nat n) by lia. exact HI'.
Qed.

(** ** Whole frames *)

Lemma twoQueuesBegin_step (st : State) : sched_step st (twoQueuesBegin st).
Proof.
  eapply step_host; try reflexivity.
  - cbn. rewrite <- !app_assoc. reflexivity.
  - repeat constructor.
Qed.

Lemma gctOnlyBegin_step (st : State) : sched_step st (gctOnlyBegin st).
Proof.
  eapply step_host; try reflexivity.
  - cbn. rewrite <- !app_assoc. reflexivity.
  - repeat constructor.
Qed.

Lemma computeDrawCommandsTwoQueues_spec (J : Z -> State -> Prop) (pGui : Gui)
  (paramsList : list McubesParams) (st : State) :
  let B := effectiveBatchSize pGui in
  let bc := batchCountOf paramsList B in
  Core st ->
  Z.of_nat (length paramsList) + 6 <= 2 ^ 32 ->
  s_upcomingTimelineValue st + bc < 2 ^ 64 ->
  J 0 (twoQueuesBegin st) ->
  (forall batch loc s loc' s',
      0 <= batch < bc -> J batch s ->
      TwoQueuesBatchEffect paramsList B bc batch loc s loc' s' ->
      J (batch + 1) s') ->
  exists st',
    computeDrawCommandsTwoQueues pGui paramsList st = Ok st'
    /\ rtc sched_step st st'
    /\ Core st'
    /\ s_upcomingTimelineValue st' = s_upcomingTimelineValue st + bc
    /\ J bc st'.
Proof.
  intros B bc HCore HM Hwrap HJ0 HJ.
  pose proof (effectiveBatchSize_range pGui) as HB. fold B in HB.
  assert (0 <= bc <= Z.of_nat (length paramsList)) as Hbc
    by (apply batchCount_bounds; lia).
  unfold computeDrawCommandsTwoQueues. fold B.
  rewrite (computeBatchCount_spec paramsList B HB HM). fold (batchCountOf paramsList B).
  fold bc. cbn [bind]. fold (twoQueuesBegin st).
  unfold for_range. rewrite Z.sub_0_r.
  set (I := fun (i : Z) (ls : TwoQueuesLocals * State) =>
              rtc sched_step st (snd ls)
              /\ Core (snd ls)
              /\ s_upcomingTimelineValue (snd ls) = s_upcomingTimelineValue st + i
              /\ 0 <= computeWaitTimelineValue (fst ls) < s_upcomingTimelineValue (snd ls)
              /\ (i = 0 \/ is_Some (firstChunkUsed (fst ls)))
              /\ J i (snd ls)).
  match goal with
  | |- context [for_loop ?n 0 ?body ?s0] =>
      destruct (for_loop_rule I body n 0 s0) as [[loc' st'] [Hloop HI]]
  end.
  - unfold I. cbn [fst snd computeWaitTimelineValue firstChunkUsed].
    destruct HCore as (Hlen & Hup & Hall).
    split; [apply rtc_once, twoQueuesBegin_step|].
    split; [exact (conj Hlen (conj Hup Hall))|].
    split; [cbn; lia|]. split; [cbn; lia|]. split; [left; reflexivity | exact HJ0].
  - intros i [loc s] Hi (Hrtc & HC & Hup & Hw & Hfirst & HJi).
    cbn [fst snd] in *. rewrite Z2Nat.id in Hi by lia.
    assert (i * B < Z.of_nat (length paramsList)) as Hlt
      by (apply batch_lt_count; unfold bc, batchCountOf in Hi; lia).
    destruct (twoQueuesBatch_spec pGui paramsList B bc i loc s HB HM ltac:(lia) Hlt)
      as [loc1 [s1 [Hrun E]]].
    + apply HC.
    + exact Hfirst.
    + destruct HC as (_ & Hup1 & Hall).
      apply maxTimelineValue_bound; [lia | exact Hall | exact Hw].
    + exists (loc1, s1). split; [exact Hrun|].
      assert (s_upcomingTimelineValue s + 1 < 2 ^ 64) as Hnowrap by lia.
      destruct (twoQueuesBatch_Core paramsList B bc i loc loc1 s s1 HC Hnowrap Hw E)
        as (HC1 & Hup1 & Hw1).
      unfold I. cbn [fst snd].
      split; [eapply rtc_r; [exact Hrtc|];
              exact (step_twoQueuesBatch s s1 paramsList B bc i loc loc1 HC Hnowrap Hw E)|].
      split; [exact HC1|]. split; [lia|]. split; [lia|].
      split; [right; apply E|].
      eapply HJ; eauto.
  - rewrite Hloop. cbn [bind snd]. exists st'.
    rewrite Z.add_0_l, Z2Nat.id in HI by lia.
    destruct HI as (Hrtc & HC & Hup & _ & _ & HJbc). cbn [fst snd] in *.
    auto.
Qed.

Lemma computeDrawCommandsGctOnly_spec (J : Z -> State -> Prop) (pGui : Gui)
  (paramsList : list McubesParams) (st : State) :
  let B := effectiveBatchSize pGui in
  let bc := batchCountOf paramsList B in
  Z.of_nat (length paramsList) + 6 <= 2 ^ 32 ->
  J 0 (gctOnlyBegin st) ->
  (forall batch s s',
      0 <= batch < bc -> J batch (snd s) ->
      GctOnlyBatchEffect paramsList B bc batch s s' ->
      J (batch + 1) (snd s')) ->
  exists st',
    computeDrawCommandsGctOnly pGui paramsList st = Ok st'
    /\ rtc sched_step st st'
    /\ J bc st'.
Proof.
  intros B bc HM HJ0 HJ.
  pose proof (effectiveBatchSize_range pGui) as HB. fold B in HB.
  assert (0 <= bc <= Z.of_nat (length paramsList)) as Hbc
    by (apply batchCount_bounds; lia).
  unfold computeDrawCommandsGctOnly. fold B.
  rewrite (computeBatchCount_spec paramsList B HB HM). fold (batchCountOf paramsList B).
  fold bc. cbn [bind]. fold (gctOnlyBegin st).
  unfold for_range. rewrite Z.sub_0_r.
  set (I := fun (i : Z) (s : Z * option Z * State) =>
              rtc sched_step st (snd s)
              /\ (i = 0 \/ is_Some (snd (fst s)))
              /\ J i (snd s)).
  match goal with
  | |- context [for_loop ?n 0 ?body ?s0] =>
      destruct (for_loop_rule I body n 0 s0) as [s' [Hloop HI]]
  end.
  - unfold I. cbn [fst snd].
    split; [apply rtc_once, gctOnlyBegin_step|].
    split; [left; reflexivity | exact HJ0].
  - intros i s Hi (Hrtc & Hfirst & HJi).
    rewrite Z2Nat.id in Hi by lia.
    assert (i * B < Z.of_nat (length paramsList)) as Hlt
      by (apply batch_lt_count; unfold bc, batchCountOf in Hi; lia).
    destruct (gctOnlyBatch_spec pGui paramsList B bc i s HB HM ltac:(lia) Hlt Hfirst)
      as [s1 [Hrun E]].
    exists s1. split; [exact Hrun|].
    unfold I.
    split; [eapply rtc_r; [exact Hrtc|]; eapply step_gctOnlyBatch; exact E|].
    split; [right; apply E|].
    eapply HJ; eauto.
  - rewrite Hloop. cbn [bind]. exists (snd s').
    rewrite Z.add_0_l, Z2Nat.id in HI by lia.
    destruct HI as (Hrtc & _ & HJbc). auto.
Qed.

(** ** The frame loop *)

Lemma frameTicks_nonneg (input : FrameInput McubesParams) : 0 <= frameTicks input.
Proof.
  unfold frameTicks. destruct (m_wantComputeQueue (fi_gui input)); [| lia].
  pose proof (effectiveBatchSize_range (fi_gui input)).
  apply batchCount_bounds; lia.
Qed.

Lemma runTicks_nonneg (inputs : list (FrameInput McubesParams)) : 0 <= runTicks inputs.
Proof.
  induction inputs as [|input inputs IH]; cbn; [lia|].
  pose proof (frameTicks_nonneg input). unfold runTicks in IH. lia.
Qed.

Lemma computeReplaceEquation_Core (compiler : ShaderCompiler) (pEquation : string)
  (st : State) :
  let st' := snd (computeReplaceEquation compiler pEquation st) in
  (Core st -> Core st')
  /\ s_upcomingTimelineValue st' = s_upcomingTimelineValue st
  /\ s_useComputeQueue st' = s_useComputeQueue st.
Proof.
  unfold computeReplaceEquation, setupMcubesImagePipeline.
  destruct (compiler _ =? VK_NULL_HANDLE); cbn; auto.
Qed.

Lemma mainLoopBody_spec (input : FrameInput McubesParams) (st : State) :
  Core st ->
  jobsFit input ->
  s_upcomingTimelineValue st + frameTicks input < 2 ^ 64 ->
  exists pGui st',
    mainLoopBody input st = Ok (pGui, st')
    /\ rtc sched_step st st'
    /\ Core st'
    /\ s_upcomingTimelineValue st' = s_upcomingTimelineValue st + frameTicks input.
Proof.
  intros HCore HM Hwrap. unfold mainLoopBody.
  set (st1 := set_frameNumber _ st).
  assert (sched_step st st1) as H1.
  { apply (step_host st st1 []); try reflexivity; [| constructor].
    cbn. rewrite app_nil_r. reflexivity. }
  set (pGui := fi_gui input) in *.
  set (st2 := if negb (Bool.eqb (m_wantComputeQueue pGui) (s_useComputeQueue st1))
              then set_useComputeQueue (m_wantComputeQueue pGui) (call vkDeviceWaitIdle st1)
              else st1).
  assert (rtc sched_step st st2
          /\ Core st2
          /\ s_upcomingTimelineValue st2 = s_upcomingTimelineValue st
          /\ s_useComputeQueue st2 = m_wantComputeQueue pGui) as (H2 & HC2 & Hup2 & Hq2).
  { subst st2.
    destruct (Bool.eqb (m_wantComputeQueue pGui) (s_useComputeQueue st1)) eqn:Eq;
      cbn [negb].
    - apply Bool.eqb_prop in Eq. split; [apply rtc_once, H1|]. auto.
    - split; [| auto].
      eapply rtc_l; [exact H1|]. apply rtc_once.
      apply (step_host _ _ [vkDeviceWaitIdle]); try reflexivity.
      repeat constructor. }
  clearbody st2. clear H1 st1.
  set (r := if m_wantSetEquation pGui
            then
              let st := call vkDeviceWaitIdle st2 in
              let '(success, st) :=
                computeReplaceEquation (fi_compiler input) (m_equationInput pGui) st in
              (set_equationResult (negb success) pGui, st)
            else (pGui, st2)).
  assert (rtc sched_step st (snd r)
          /\ Core (snd r)
          /\ s_upcomingTimelineValue (snd r) = s_upcomingTimelineValue st
          /\ s_useComputeQueue (snd r) = m_wantComputeQueue pGui
          /\ effectiveBatchSize (fst r) = effectiveBatchSize pGui)
    as (H3 & HC3 & Hup3 & Hq3 & HB3).
  { subst r. destruct (m_wantSetEquation pGui); [| cbn [fst snd]; auto].
    cbv zeta.
    pose proof (step_replaceEquation st2 (fi_compiler input) (m_equationInput pGui))
      as Hstep.
    destruct (computeReplaceEquation_Core (fi_compiler input) (m_equationInput pGui)
                (call vkDeviceWaitIdle st2)) as (HCr & Hupr & Hqr).
    destruct (computeReplaceEquation (fi_compiler input) (m_equationInput pGui)
                (call vkDeviceWaitIdle st2)) as [success st3].
    cbn [fst snd] in *.
    split; [eapply rtc_r; eassumption|].
    split; [apply HCr; exact HC2|].
    split; [rewrite Hupr; exact Hup2|].
    split; [rewrite Hqr; exact Hq2 | reflexivity]. }
  clearbody r. destruct r as [pGui3 st3]. cbn [fst snd] in *.
  unfold frameTicks in *. fold pGui in Hwrap |- *. unfold jobsFit in HM.
  rewrite Hq3. destruct (m_wantComputeQueue pGui).
  - destruct (computeDrawCommandsTwoQueues_spec (fun _ _ => True) pGui3 (fi_jobs input) st3)
      as [st' (Hrun & Hrtc & HC' & Hup' & _)]; auto.
    + rewrite HB3, Hup3. exact Hwrap.
    + rewrite Hrun. cbn [bind snd]. exists pGui3, st'.
      split; [reflexivity|]. split; [etransitivity; eassumption|].
      split; [exact HC'|]. rewrite Hup', HB3, Hup3. reflexivity.
  - destruct (computeDrawCommandsGctOnly_spec
                (fun _ s => Core s /\ s_upcomingTimelineValue s = s_upcomingTimelineValue st3)
                pGui3 (fi_jobs input) st3)
      as [st' (Hrun & Hrtc & HC' & Hup')]; auto.
    + intros batch s s' _ [HCs Hups] E.
      split; [eapply gctOnlyBatch_Core; eassumption|].
      destruct E as (_ & _ & -> & _). exact Hups.
    + rewrite Hrun. cbn [bind snd]. exists pGui3, st'.
      split; [reflexivity|]. split; [etransitivity; eassumption|].
      split; [exact HC'|]. rewrite Hup', Hup3. lia.
Qed.

Lemma initialGlobals_Core (imagePipeline : VkPipeline) :
  Core (initialGlobals imagePipeline : State).
Proof.
  unfold Core. cbn. split; [reflexivity|]. split; [lia|].
  repeat constructor; lia.
Qed.

Lemma runFrames_spec (inputs : list (FrameInput McubesParams)) :
  forall st : State,
    Core st ->
    Forall jobsFit inputs ->
    s_upcomingTimelineValue st + runTicks inputs < 2 ^ 64 ->
    exists st',
      runFrames inputs st = Ok st'
      /\ rtc sched_step st st'
      /\ Core st'
      /\ s_upcomingTimelineValue st' = s_upcomingTimelineValue st + runTicks inputs.
Proof.
  induction inputs as [|input inputs IH]; intros st HCore Hfit Hwrap.
  - exists st. cbn. split; [reflexivity|]. split; [reflexivity|]. split; [exact HCore | lia].
  - inversion Hfit as [|? ? Hfit1 Hfit2]; subst.
    cbn [runTicks foldr] in Hwrap. fold (runTicks inputs) in Hwrap.
    pose proof (runTicks_nonneg inputs) as Hpos.
    destruct (mainLoopBody_spec input st HCore Hfit1 ltac:(lia))
      as [pGui [st1 (Hrun & Hrtc & HC1 & Hup1)]].
    destruct (IH st1 HC1 Hfit2 ltac:(lia)) as [st' (Hrun' & Hrtc' & HC' & Hup')].
    exists st'. cbn [runFrames]. rewrite Hrun. cbn [bind snd].
    split; [exact Hrun'|]. split; [etransitivity; eassumption|].
    split; [exact HC'|].
    cbn [runTicks foldr]. fold (runTicks inputs). lia.
Qed.

(** ** Reading the call trace *)

Lemma flat_map_nil_Forall {A X : Type} (f : A -> list X) (P : A -> Prop) (l : list A) :
  (forall a, P a -> f a = []) -> Forall P l -> flat_map f l = [].
Proof.
  intros Hf Hl. induction Hl as [|a l Ha _ IH]; [reflexivity|].
  cbn. rewrite (Hf a Ha), IH. reflexivity.
Qed.

Lemma assignedSlots_plain (calls : list (VkCall McubesParams)) :
  Forall isPlainCall calls -> assignedSlots calls = [].
Proof. apply flat_map_nil_Forall. intros c. destruct c; cbn; tauto. Qed.

Lemma batchJobs_plain (calls : list (VkCall McubesParams)) :
  Forall isPlainCall calls -> batchJobs calls = [].
Proof. apply flat_map_nil_Forall. intros c. destruct c; cbn; tauto. Qed.

Lemma signalValues_plain sem (calls : list (VkCall McubesParams)) :
  Forall isPlainCall calls -> signalValues sem calls = [].
Proof. apply flat_map_nil_Forall. intros c. destruct c; cbn; tauto. Qed.

Lemma computeWaitSignal_plain (calls : list (VkCall McubesParams)) :
  Forall isPlainCall calls -> computeWaitSignal calls = [].
Proof. apply flat_map_nil_Forall. intros c. destruct c; cbn; tauto. Qed.

Lemma drawSignals_plain p (calls : list (VkCall McubesParams)) :
  Forall isPlainCall calls -> drawSignals p calls = [].
Proof. apply flat_map_nil_Forall. intros c. destruct c; cbn; tauto. Qed.

Lemma assignedSlots_app (a b : list (VkCall McubesParams)) :
  assignedSlots (a ++ b) = assignedSlots a ++ assignedSlots b.
Proof. apply flat_map_app. Qed.

Lemma batchJobs_app (a b : list (VkCall McubesParams)) :
  batchJobs (a ++ b) = batchJobs a ++ batchJobs b.
Proof. apply flat_map_app. Qed.

Lemma signalValues_app sem (a b : list (VkCall McubesParams)) :
  signalValues sem (a ++ b) = signalValues sem a ++ signalValues sem b.
Proof. apply flat_map_app. Qed.

Lemma computeWaitSignal_app (a b : list (VkCall McubesParams)) :
  computeWaitSignal (a ++ b) = computeWaitSignal a ++ computeWaitSignal b.
Proof. apply flat_map_app. Qed.

Lemma drawSignals_app p (a b : list (VkCall McubesParams)) :
  drawSignals p (a ++ b) = drawSignals p a ++ drawSignals p b.
Proof. apply flat_map_app. Qed.

(** What replacing the equation does to the state. *)
Lemma computeReplaceEquation_effect (compiler : ShaderCompiler) (pEquation : string)
  (st : State) :
  let st' := snd (computeReplaceEquation compiler pEquation st) in
  s_upcomingTimelineValue st' = s_upcomingTimelineValue st
  /\ s_mcubesChunkIndex st' = s_mcubesChunkIndex st
  /\ g_mcubesChunkArray st' = g_mcubesChunkArray st
  /\ exists prepend rest,
       vk_calls st' = vk_calls st ++ createShaderModule prepend :: rest
       /\ Forall isPlainCall rest.
Proof.
  unfold computeReplaceEquation, setupMcubesImagePipeline.
  destruct (compiler _ =? VK_NULL_HANDLE); cbn.
  - repeat split. eexists _, []. split; [reflexivity | constructor].
  - repeat split. eexists _, _. rewrite <- !app_assoc. cbn.
    split; [reflexivity|]. repeat constructor.
Qed.

(** ** Invariants of the transition system *)

(** What a step does to the clock, the cursor, the chunks and the trace. *)
Lemma sched_step_inv (st st' : State) :
  sched_step st st' ->
  (exists calls,
      s_upcomingTimelineValue st' = s_upcomingTimelineValue st
      /\ s_mcubesChunkIndex st' = s_mcubesChunkIndex st
      /\ g_mcubesChunkArray st' = g_mcubesChunkArray st
      /\ vk_calls st' = vk_calls st ++ calls
      /\ Forall isPlainCall calls)
  \/ (exists prepend rest,
         s_upcomingTimelineValue st' = s_upcomingTimelineValue st
         /\ s_mcubesChunkIndex st' = s_mcubesChunkIndex st
         /\ g_mcubesChunkArray st' = g_mcubesChunkArray st
         /\ vk_calls st'
            = vk_calls st ++ vkDeviceWaitIdle :: createShaderModule prepend :: rest
         /\ Forall isPlainCall rest)
  \/ (exists n wait0 jobs hC hG allocs first last boxes colors,
         let slots := ring_slots (s_mcubesChunkIndex st) n in
         let wait := maxTimelineValue wait0 (g_mcubesChunkArray st) slots in
         let signal := s_upcomingTimelineValue st in
         Core st
         /\ 0 <= wait < signal
         /\ s_upcomingTimelineValue st' = signal + 1
         /\ s_mcubesChunkIndex st' = ring_cursor (s_mcubesChunkIndex st) n
         /\ g_mcubesChunkArray st' = markSlots signal (g_mcubesChunkArray st) slots
         /\ Forall isAllocate allocs
         /\ vk_calls st'
            = vk_calls st ++ allocs
              ++ [vkQueueSubmit g_computeQueue
                    (computeSubmitInfo wait signal hC (s_mcubesImagePipeline st) slots jobs)
                    None;
                  vkQueueSubmit g_gctQueue
                    (graphicsSubmitInfo signal hG first last slots boxes colors) None])
  \/ (exists n jobs hG allocs first last boxes colors fence,
         let slots := ring_slots (s_mcubesChunkIndex st) n in
         s_upcomingTimelineValue st' = s_upcomingTimelineValue st
         /\ s_mcubesChunkIndex st' = ring_cursor (s_mcubesChunkIndex st) n
         /\ g_mcubesChunkArray st' = g_mcubesChunkArray st
         /\ Forall isAllocate allocs
         /\ vk_calls st'
            = vk_calls st ++ allocs
              ++ [vkQueueSubmit g_gctQueue
                    (gctSubmitInfo hG (s_mcubesImagePipeline st) first last slots jobs
                       boxes colors) fence]).
Proof.
  intros Hstep.
  destruct Hstep as
    [ st st' calls Hup Hci Hca Hpl Hcalls Hplain
    | st compiler pEquation
    | st st' paramsList B bc batch loc loc' HCore Hnowrap Hwait E
    | s s' paramsList B bc batch E ].
  - left. exists calls. auto.
  - right; left.
    destruct (computeReplaceEquation_effect compiler pEquation (call vkDeviceWaitIdle st))
      as (Hup & Hci & Hca & prepend & rest & Hcalls & Hplain).
    exists prepend, rest. cbn in Hcalls. rewrite <- app_assoc in Hcalls. auto.
  - right; right; left.
    destruct E as (Hci & Hca & Hup & _ & _ & _ & _ & _
                   & (allocs & hC & hG & boxes & colors & Hallocs & Hcalls) & _).
    eexists _, (computeWaitTimelineValue loc), _, hC, hG, allocs, _, _, boxes, colors.
    cbv zeta. destruct HCore as (Hlen & Hup1 & Hall).
    split; [exact (conj Hlen (conj Hup1 Hall))|].
    split; [apply maxTimelineValue_bound; [lia | exact Hall | exact Hwait]|].
    split; [rewrite Hup; unfold to_uint64; apply Z.mod_small; lia|].
    split; [exact Hci|]. split; [exact Hca|]. split; [exact Hallocs | exact Hcalls].
  - right; right; right.
    destruct E as (Hci & Hca & Hup & _ & _ & _ & _ & _ & _
                   & (allocs & hG & boxes & colors & Hallocs & Hcalls) & _).
    eexists _, _, hG, allocs, _, _, boxes, colors, _. cbv zeta.
    split; [exact Hup|]. split; [exact Hci|]. split; [exact Hca|].
    split; [exact Hallocs | exact Hcalls].
Qed.

Lemma ClockInv_step (st st' : State) :
  sched_step st st' -> ClockInv st -> ClockInv st'.
Proof.
  intros Hstep (H1 & Hc & Hg). unfold ClockInv.
  destruct (sched_step_inv st st' Hstep)
    as [ (calls & Hup & _ & _ & Hcalls & Hplain)
       | [ (prepend & rest & Hup & _ & _ & Hcalls & Hplain)
         | [ (n & wait0 & jobs & hC & hG & allocs & first & last & boxes & colors
              & _ & _ & Hup & _ & _ & Hallocs & Hcalls)
           | (n & jobs & hG & allocs & first & last & boxes & colors & fence
              & Hup & _ & _ & Hallocs & Hcalls) ]]].
  - rewrite Hup, Hcalls, !signalValues_app, Hc, Hg.
    rewrite !(signalValues_plain _ calls Hplain), !app_nil_r. auto.
  - rewrite Hup, Hcalls.
    change (vkDeviceWaitIdle :: createShaderModule prepend :: rest)
      with ([vkDeviceWaitIdle; createShaderModule prepend] ++ rest).
    rewrite !signalValues_app, Hc, Hg.
    rewrite !(signalValues_plain _ rest Hplain), !app_nil_r. auto.
  - rewrite Hup, Hcalls, !signalValues_app, Hc, Hg.
    rewrite !(signalValues_plain _ allocs (isAllocate_plain _ Hallocs)).
    cbn [signalValues flat_map app computeSubmitInfo graphicsSubmitInfo signalSemaphore
         semaphore_eqb].
    replace (s_upcomingTimelineValue st + 1 - 1)
      with (s_upcomingTimelineValue st - 1 + 1) by lia.
    rewrite seqZ_app by lia. cbn [seqZ].
    replace (1 + (s_upcomingTimelineValue st - 1)) with (s_upcomingTimelineValue st) by lia.
    split; [lia|]. split; reflexivity.
  - rewrite Hup, Hcalls, !signalValues_app, Hc, Hg.
    rewrite !(signalValues_plain _ allocs (isAllocate_plain _ Hallocs)).
    cbn [signalValues flat_map app gctSubmitInfo signalSemaphore].
    rewrite !app_nil_r. auto.
Qed.

Lemma SlotsInv_step (st st' : State) :
  sched_step st st' -> SlotsInv st -> SlotsInv st'.
Proof.
  intros Hstep (k & Hs & Hc). unfold SlotsInv.
  destruct (sched_step_inv st st' Hstep)
    as [ (calls & _ & Hci & _ & Hcalls & Hplain)
       | [ (prepend & rest & _ & Hci & _ & Hcalls & Hplain)
         | [ (n & wait0 & jobs & hC & hG & allocs & first & last & boxes & colors
              & _ & _ & _ & Hci & _ & Hallocs & Hcalls)
           | (n & jobs & hG & allocs & first & last & boxes & colors & fence
              & _ & Hci & _ & Hallocs & Hcalls) ]]].
  - exists k. rewrite Hci, Hcalls, assignedSlots_app, Hs.
    rewrite (assignedSlots_plain calls Hplain), app_nil_r. auto.
  - exists k. rewrite Hci, Hcalls.
    change (vkDeviceWaitIdle :: createShaderModule prepend :: rest)
      with ([vkDeviceWaitIdle; createShaderModule prepend] ++ rest).
    rewrite !assignedSlots_app, Hs.
    rewrite (assignedSlots_plain rest Hplain), !app_nil_r. auto.
  - exists (k + n)%nat. rewrite Hci, Hcalls, !assignedSlots_app, Hs, Hc.
    rewrite (assignedSlots_plain allocs (isAllocate_plain _ Hallocs)).
    destruct first, last;
      cbn [assignedSlots flat_map app computeSubmitInfo graphicsSubmitInfo commands
           filledChunks];
      rewrite ?app_nil_r; rewrite ring_slots_app, ring_cursor_add; auto.
  - exists (k + n)%nat. rewrite Hci, Hcalls, !assignedSlots_app, Hs, Hc.
    rewrite (assignedSlots_plain allocs (isAllocate_plain _ Hallocs)).
    destruct first, last;
      cbn [assignedSlots flat_map app gctSubmitInfo commands filledChunks];
      rewrite ?app_nil_r; rewrite ring_slots_app, ring_cursor_add; auto.
Qed.

Lemma WaitInv_step (st st' : State) :
  sched_step st st' -> WaitInv st -> WaitInv st'.
Proof.
  intros Hstep Hinv. unfold WaitInv in *.
  destruct (sched_step_inv st st' Hstep)
    as [ (calls & _ & _ & _ & Hcalls & Hplain)
       | [ (prepend & rest & _ & _ & _ & Hcalls & Hplain)
         | [ (n & wait0 & jobs & hC & hG & allocs & first & last & boxes & colors
              & _ & Hwait & _ & _ & _ & Hallocs & Hcalls)
           | (n & jobs & hG & allocs & first & last & boxes & colors & fence
              & _ & _ & _ & Hallocs & Hcalls) ]]].
  - rewrite Hcalls, computeWaitSignal_app, (computeWaitSignal_plain calls Hplain),
      app_nil_r. exact Hinv.
  - rewrite Hcalls.
    change (vkDeviceWaitIdle :: createShaderModule prepend :: rest)
      with ([vkDeviceWaitIdle; createShaderModule prepend] ++ rest).
    rewrite !computeWaitSignal_app, (computeWaitSignal_plain rest Hplain), !app_nil_r.
    exact Hinv.
  - rewrite Hcalls, !computeWaitSignal_app.
    rewrite (computeWaitSignal_plain allocs (isAllocate_plain _ Hallocs)).
    cbn [computeWaitSignal flat_map app computeSubmitInfo graphicsSubmitInfo
         waitSemaphore signalSemaphore].
    apply Forall_app. split; [exact Hinv|].
    constructor; [cbn [fst snd]; lia | constructor].
  - rewrite Hcalls, !computeWaitSignal_app.
    rewrite (computeWaitSignal_plain allocs (isAllocate_plain _ Hallocs)).
    cbn [computeWaitSignal flat_map app gctSubmitInfo]. rewrite !app_nil_r.
    exact Hinv.
Qed.

Lemma existsb_eqb_elem_of (p : Z) (l : list Z) :
  existsb (Z.eqb p) l = true <-> p ∈ l.
Proof.
  rewrite existsb_exists. split.
  - intros (x & Hin & Heq). apply Z.eqb_eq in Heq. subst.
    apply list_elem_of_In. exact Hin.
  - intros Hin. exists p. split; [apply list_elem_of_In; exact Hin | apply Z.eqb_refl].
Qed.

Lemma ReadyInv_step (st st' : State) :
  sched_step st st' -> ReadyInv st -> ReadyInv st'.
Proof.
  intros Hstep (Hlen & Hinv). unfold ReadyInv.
  destruct (sched_step_inv st st' Hstep)
    as [ (calls & _ & _ & Hca & Hcalls & Hplain)
       | [ (prepend & rest & _ & _ & Hca & Hcalls & Hplain)
         | [ (n & wait0 & jobs & hC & hG & allocs & first & last & boxes & colors
              & _ & _ & _ & _ & Hca & Hallocs & Hcalls)
           | (n & jobs & hG & allocs & first & last & boxes & colors & fence
              & _ & _ & Hca & Hallocs & Hcalls) ]]].
  - rewrite Hca, Hcalls. split; [exact Hlen|]. intros p Hp.
    rewrite drawSignals_app, (drawSignals_plain p calls Hplain), app_nil_r. auto.
  - rewrite Hca, Hcalls. split; [exact Hlen|]. intros p Hp.
    change (vkDeviceWaitIdle :: createShaderModule prepend :: rest)
      with ([vkDeviceWaitIdle; createShaderModule prepend] ++ rest).
    rewrite !drawSignals_app, (drawSignals_plain p rest Hplain), !app_nil_r. auto.
  - rewrite Hca, Hcalls, markSlots_length. split; [exact Hlen|]. intros p Hp.
    rewrite !drawSignals_app.
    rewrite (drawSignals_plain p allocs (isAllocate_plain _ Hallocs)).
    set (slots := ring_slots (s_mcubesChunkIndex st) n).
    assert (Forall (fun q => 0 <= q) slots) as Hpos.
    { eapply Forall_impl; [apply ring_slots_range|]. cbv beta. intros; lia. }
    assert (drawSignals p
              [vkQueueSubmit g_computeQueue
                 (computeSubmitInfo
                    (maxTimelineValue wait0 (g_mcubesChunkArray st) slots)
                    (s_upcomingTimelineValue st) hC (s_mcubesImagePipeline st) slots jobs)
                 None;
               vkQueueSubmit g_gctQueue
                 (graphicsSubmitInfo (s_upcomingTimelineValue st) hG first last slots
                    boxes colors) None]
            = if existsb (Z.eqb p) slots then [s_upcomingTimelineValue st] else []) as ->.
    { destruct first, last; cbn; rewrite ?app_nil_r; reflexivity. }
    destruct (existsb (Z.eqb p) slots) eqn:Ex.
    + apply existsb_eqb_elem_of in Ex.
      cbn [app]. rewrite last_snoc. cbn [default].
      apply markSlots_lookup_in; try assumption; [lia|].
      unfold MCUBES_CHUNK_COUNT in Hp. lia.
    + assert (p ∉ slots) as Hnin.
      { intros Hin. apply existsb_eqb_elem_of in Hin. congruence. }
      rewrite !app_nil_r.
      rewrite markSlots_lookup_notin by (assumption || lia). auto.
  - rewrite Hca, Hcalls. split; [exact Hlen|]. intros p Hp.
    rewrite !drawSignals_app.
    rewrite (drawSignals_plain p allocs (isAllocate_plain _ Hallocs)).
    cbn [drawSignals flat_map app gctSubmitInfo signalSemaphore].
    rewrite !app_nil_r. auto.
Qed.

Lemma replacementsGuarded_app_plain (calls extra : list (VkCall McubesParams)) :
  replacementsGuarded calls ->
  Forall (fun c => forall prepend, c <> createShaderModule prepend) extra ->
  replacementsGuarded (calls ++ extra).
Proof.
  intros Hg Hextra i prepend Hi.
  destruct (lookup_app_Some calls extra i (createShaderModule prepend)) as [Hcases _].
  destruct (Hcases Hi) as [Hl | [Hge Hr]].
  - destruct (Hg i prepend Hl) as (j & -> & Hj).
    exists j. split; [reflexivity|]. apply lookup_app_l_Some. exact Hj.
  - exfalso. eapply (proj1 (Forall_lookup _ _) Hextra); [exact Hr | reflexivity].
Qed.

Lemma isPlainCall_not_create (calls : list (VkCall McubesParams)) :
  Forall isPlainCall calls ->
  Forall (fun c => forall prepend, c <> createShaderModule prepend) calls.
Proof.
  intros H. eapply Forall_impl; [exact H|].
  intros c Hc prepend ->. exact Hc.
Qed.

Lemma GuardInv_step (st st' : State) :
  sched_step st st' -> GuardInv st -> GuardInv st'.
Proof.
  intros Hstep Hinv. unfold GuardInv in *.
  destruct (sched_step_inv st st' Hstep)
    as [ (calls & _ & _ & _ & Hcalls & Hplain)
       | [ (prepend & rest & _ & _ & _ & Hcalls & Hplain)
         | [ (n & wait0 & jobs & hC & hG & allocs & first & last & boxes & colors
              & _ & _ & _ & _ & _ & Hallocs & Hcalls)
           | (n & jobs & hG & allocs & first & last & boxes & colors & fence
              & _ & _ & _ & Hallocs & Hcalls) ]]].
  - rewrite Hcalls. apply replacementsGuarded_app_plain; [exact Hinv|].
    apply isPlainCall_not_create, Hplain.
  - rewrite Hcalls.
    change (vkDeviceWaitIdle :: createShaderModule prepend :: rest)
      with ([vkDeviceWaitIdle; createShaderModule prepend] ++ rest).
    rewrite app_assoc.
    apply replacementsGuarded_app_plain; [| apply isPlainCall_not_create, Hplain].
    intros i prepend' Hi.
    destruct (lookup_app_Some (vk_calls st) [vkDeviceWaitIdle; createShaderModule prepend]
                i (createShaderModule prepend')) as [Hcases _].
    destruct (Hcases Hi) as [Hl | [Hge Hr]].
    + destruct (Hinv i prepend' Hl) as (j & -> & Hj).
      exists j. split; [reflexivity|]. apply lookup_app_l_Some. exact Hj.
    + destruct (i - length (vk_calls st))%nat as [|[|d]] eqn:Ed; cbn in Hr;
        [discriminate | | discriminate].
      exists (length (vk_calls st)). split; [lia|].
      rewrite lookup_app_r by lia. rewrite Nat.sub_diag. reflexivity.
  - rewrite Hcalls. apply replacementsGuarded_app_plain; [exact Hinv|].
    apply Forall_app. split; [apply isPlainCall_not_create, isAllocate_plain, Hallocs|].
    repeat constructor; intros ? ?; discriminate.
  - rewrite Hcalls. apply replacementsGuarded_app_plain; [exact Hinv|].
    apply Forall_app. split; [apply isPlainCall_not_create, isAllocate_plain, Hallocs|].
    repeat constructor; intros ? ?; discriminate.
Qed.

(** An invariant of the steps holds after any number of them. *)
Lemma sched_invariant (P : State -> Prop) :
  (forall st st', sched_step st st' -> P st -> P st') ->
  forall st st', rtc sched_step st st' -> P st -> P st'.
Proof.
  intros Hstep st st' Hrtc. induction Hrtc as [|st st1 st' H1 _ IH]; [auto|].
  intros HP. apply IH. eapply Hstep; eassumption.
Qed.

(** ** Facts about the partition into batches and about the ring *)

Lemma jobsOfBatch_concat (paramsList : list McubesParams) (B : Z) (k : nat) :
  1 <= B ->
  Z.of_nat k <= batchCountOf paramsList B ->
  concat (map (jobsOfBatch paramsList B) (seqZ 0 (Z.of_nat k)))
  = take (Z.to_nat (Z.min (Z.of_nat k * B) (Z.of_nat (length paramsList)))) paramsList.
Proof.
  intros HB. set (M := Z.of_nat (length paramsList)).
  induction k as [|k IH]; intros Hk.
  - change (Z.of_nat 0) with 0. rewrite Z.mul_0_l, Z.min_l by lia. reflexivity.
  - replace (Z.of_nat (S k)) with (Z.of_nat k + 1) in * by lia.
    rewrite seqZ_app by lia. rewrite map_app, concat_app, IH by lia.
    replace (seqZ (0 + Z.of_nat k) 1) with [Z.of_nat k] by (cbn; f_equal; lia).
    cbn [map concat]. rewrite app_nil_r.
    assert (Z.of_nat k * B < M) as Hlt.
    { apply batch_lt_count; unfold batchCountOf in Hk; fold M in Hk; lia. }
    unfold jobsOfBatch, batchItems. fold M.
    rewrite (Z.min_l (Z.of_nat k * B) M) by lia.
    rewrite take_take_drop. f_equal. lia.
Qed.

Lemma jobsOfBatch_concat_all (paramsList : list McubesParams) (B : Z) :
  1 <= B ->
  concat (map (jobsOfBatch paramsList B) (seqZ 0 (batchCountOf paramsList B)))
  = paramsList.
Proof.
  intros HB.
  assert (0 <= batchCountOf paramsList B <= Z.of_nat (length paramsList)) as Hbc
    by (apply batchCount_bounds; lia).
  assert (Z.of_nat (length paramsList) <= batchCountOf paramsList B * B) as Hcover.
  { unfold batchCountOf. set (M := Z.of_nat (length paramsList)).
    pose proof (Z.mod_pos_bound (M + B - 1) B ltac:(lia)).
    pose proof (Z.div_mod (M + B - 1) B ltac:(lia)). nia. }
  rewrite <- (Z2Nat.id (batchCountOf paramsList B)) at 1 by lia.
  rewrite jobsOfBatch_concat by lia.
  rewrite Z2Nat.id by lia.
  apply take_ge. lia.
Qed.

Lemma batchCountOf_ceil (paramsList : list McubesParams) (B : Z) :
  1 <= B ->
  (batchCountOf paramsList B - 1) * B < Z.of_nat (length paramsList)
  <= batchCountOf paramsList B * B.
Proof.
  intros HB. unfold batchCountOf. set (M := Z.of_nat (length paramsList)).
  pose proof (Z.mod_pos_bound (M + B - 1) B ltac:(lia)).
  pose proof (Z.div_mod (M + B - 1) B ltac:(lia)). nia.
Qed.

Lemma jobsOfBatch_length (paramsList : list McubesParams) (B batch : Z) :
  1 <= B -> 0 <= batch ->
  batch * B < Z.of_nat (length paramsList) ->
  Z.of_nat (length (jobsOfBatch paramsList B batch))
  = Z.min B (Z.of_nat (length paramsList) - batch * B).
Proof.
  intros HB Hb Hlt. unfold jobsOfBatch, batchItems.
  rewrite length_take, length_drop. lia.
Qed.

Lemma ring_slots_round_robin (k : nat) : round_robin (ring_slots 0 k).
Proof.
  intros i a b Ha Hb.
  assert (S i < k)%nat as Hi.
  { apply lookup_lt_Some in Hb. rewrite ring_slots_length in Hb. exact Hb. }
  rewrite ring_slots_lookup in Ha, Hb by lia.
  assert (a = ring_cursor 0 (S i)) as -> by congruence.
  assert (b = nextChunkIndex (ring_cursor 0 (S i))) as ->
    by (rewrite (ring_cursor_S 0 (S i)) in Hb; congruence).
  apply nextChunkIndex_mod. rewrite ring_cursor_S. apply nextChunkIndex_range.
Qed.

Lemma seqZ_strictly_increasing (m n : Z) : strictly_increasing (seqZ m n).
Proof.
  intros i j a b Hij Ha Hb.
  apply lookup_seqZ in Ha, Hb. lia.
Qed.

End StepLemmas.

(** * The claims *)

Lemma exampleFrame_fits (jobCount : nat) (batchSize : Z) (wantComputeQueue : bool) :
  (jobCount <= 512)%nat -> jobsFit (exampleFrame jobCount batchSize wantComputeQueue).
Proof.
  intros H. unfold jobsFit, exampleFrame, fi_jobs. rewrite length_seq. lia.
Qed.

(** Every run that starts in the initial state goes through steps of the
    transition system, as long as the 64-bit clock does not wrap around. *)
Lemma runFrames_initial {McubesParams : Type} (imagePipeline : VkPipeline)
  (inputs : list (FrameInput McubesParams)) :
  Forall jobsFit inputs ->
  1 + runTicks inputs < 2 ^ 64 ->
  exists st,
    runFrames inputs (initialGlobals imagePipeline) = Ok st
    /\ rtc sched_step (initialGlobals imagePipeline) st
    /\ Core st
    /\ s_upcomingTimelineValue st = 1 + runTicks inputs.
Proof.
  intros Hfit Hwrap.
  apply (runFrames_spec inputs (initialGlobals imagePipeline));
    [apply initialGlobals_Core | exact Hfit | exact Hwrap].
Qed.

(** C1. In every run from the initial state (any number of frames, in either
    queue mode, with any GUI batch size), while the 64-bit clock has not
    wrapped around: no frame aborts, so the assertion
    [computeWaitTimelineValue < s_upcomingTimelineValue] holds in every batch,
    and every submission to the compute queue waits for a value strictly
    below the one it signals. *)
Theorem C1_wait_below_signal {McubesParams : Type} (imagePipeline : VkPipeline)
  (inputs : list (FrameInput McubesParams)) :
  Forall jobsFit inputs ->
  1 + runTicks inputs < 2 ^ 64 ->
  exists st,
    runFrames inputs (initialGlobals imagePipeline) = Ok st
    /\ Forall (fun ws => fst ws < snd ws) (computeWaitSignal (vk_calls st)).
Proof.
  intros Hfit Hwrap.
  destruct (runFrames_initial imagePipeline inputs Hfit Hwrap) as [st (Hrun & Hrtc & _)].
  exists st. split; [exact Hrun|].
  apply (sched_invariant WaitInv WaitInv_step _ _ Hrtc). constructor.
Qed.

Lemma C1_wait_below_signal_witness :
  Forall jobsFit [exampleFrame 64 6 true; exampleFrame 64 6 false; exampleFrame 64 3 true]
  /\ 1 + runTicks [exampleFrame 64 6 true; exampleFrame 64 6 false; exampleFrame 64 3 true]
     < 2 ^ 64
  /\ exists st,
       runFrames [exampleFrame 64 6 true; exampleFrame 64 6 false; exampleFrame 64 3 true]
         (initialGlobals 1) = Ok st
       /\ Forall (fun ws => fst ws < snd ws) (computeWaitSignal (vk_calls st)).
Proof.
  assert (Forall jobsFit
            [exampleFrame 64 6 true; exampleFrame 64 6 false; exampleFrame 64 3 true])
    as Hfit by (repeat constructor; apply exampleFrame_fits; lia).
  assert (1 + runTicks
                [exampleFrame 64 6 true; exampleFrame 64 6 false; exampleFrame 64 3 true]
          < 2 ^ 64) as Hwrap by (vm_compute; reflexivity).
  split; [exact Hfit|]. split; [exact Hwrap|].
  exact (C1_wait_below_signal 1 _ Hfit Hwrap).
Defined.

(** C5. [s_upcomingTimelineValue] starts at 1.  In every run from the
    initial state (while the 64-bit clock has not wrapped around) the two
    timeline semaphores are each told to reach 1, 2, 3, ... once per
    two-queue batch, in this order, so the signal values are strictly
    increasing and no value is used twice; afterwards the clock is 1 plus the
    number of two-queue batches.  One two-queue frame of 64 jobs with batch
    size 6 has 11 batches and leaves the clock at 12. *)
Theorem C5_clock_advances_by_one_per_batch {McubesParams : Type}
  (imagePipeline : VkPipeline) (inputs : list (FrameInput McubesParams)) :
  Forall jobsFit inputs ->
  1 + runTicks inputs < 2 ^ 64 ->
  s_upcomingTimelineValue (initialGlobals (McubesParams := McubesParams) imagePipeline) = 1
  /\ (exists st,
        runFrames inputs (initialGlobals imagePipeline) = Ok st
        /\ s_upcomingTimelineValue st = 1 + runTicks inputs
        /\ signalValues s_computeDoneTimelineSemaphore (vk_calls st)
           = seqZ 1 (runTicks inputs)
        /\ signalValues s_graphicsDoneTimelineSemaphore (vk_calls st)
           = seqZ 1 (runTicks inputs)
        /\ strictly_increasing (signalValues s_computeDoneTimelineSemaphore (vk_calls st))
        /\ strictly_increasing (signalValues s_graphicsDoneTimelineSemaphore (vk_calls st))
        /\ NoDup (signalValues s_computeDoneTimelineSemaphore (vk_calls st))
        /\ NoDup (signalValues s_graphicsDoneTimelineSemaphore (vk_calls st)))
  /\ (forall input,
        length (fi_jobs input) = 64%nat ->
        m_batchSize (fi_gui input) = 6 ->
        m_wantComputeQueue (fi_gui input) = true ->
        inputs = [input] ->
        runTicks inputs = 11).
Proof.
  intros Hfit Hwrap. split; [reflexivity|]. split.
  - destruct (runFrames_initial imagePipeline inputs Hfit Hwrap)
      as [st (Hrun & Hrtc & _ & Hup)].
    exists st. split; [exact Hrun|]. split; [exact Hup|].
    assert (ClockInv st) as (_ & Hc & Hg).
    { apply (sched_invariant ClockInv ClockInv_step _ _ Hrtc).
      unfold ClockInv. cbn. split; [lia|]. split; reflexivity. }
    rewrite Hup in Hc, Hg.
    replace (1 + runTicks inputs - 1) with (runTicks inputs) in Hc, Hg by lia.
    rewrite Hc, Hg.
    split; [reflexivity|]. split; [reflexivity|].
    split; [apply seqZ_strictly_increasing|]. split; [apply seqZ_strictly_increasing|].
    split; apply NoDup_seqZ.
  - intros input Hlen HB Hq ->. cbn [runTicks foldr]. unfold frameTicks, batchCountOf.
    rewrite Hq, Hlen. unfold effectiveBatchSize. rewrite HB. reflexivity.
Qed.

Lemma C5_clock_advances_by_one_per_batch_witness :
  Forall jobsFit [exampleFrame 64 6 true]
  /\ 1 + runTicks [exampleFrame 64 6 true] < 2 ^ 64
  /\ exists st,
       runFrames [exampleFrame 64 6 true] (initialGlobals 1) = Ok st
       /\ s_upcomingTimelineValue st = 12
       /\ signalValues s_graphicsDoneTimelineSemaphore (vk_calls st)
          = [1; 2; 3; 4; 5; 6; 7; 8; 9; 10; 11].
Proof.
  assert (Forall jobsFit [exampleFrame 64 6 true]) as Hfit
    by (repeat constructor; apply exampleFrame_fits; lia).
  assert (1 + runTicks [exampleFrame 64 6 true] < 2 ^ 64) as Hwrap
    by (vm_compute; reflexivity).
  split; [exact Hfit|]. split; [exact Hwrap|].
  destruct (C5_clock_advances_by_one_per_batch 1 _ Hfit Hwrap)
    as (_ & (st & Hrun & Hup & _ & Hg & _) & _).
  exists st. split; [exact Hrun|]. split; [exact Hup | exact Hg].
Defined.

(** The jobs of the batches a frame submits, for either scheduler. *)
Lemma twoQueues_batchJobs {McubesParams : Type} (pGui : Gui)
  (paramsList : list McubesParams) (st : Globals McubesParams) :
  Core st ->
  Z.of_nat (length paramsList) + 6 <= 2 ^ 32 ->
  s_upcomingTimelineValue st + batchCountOf paramsList (effectiveBatchSize pGui) < 2 ^ 64 ->
  exists st',
    computeDrawCommandsTwoQueues pGui paramsList st = Ok st'
    /\ batchJobs (vk_calls st')
       = batchJobs (vk_calls st)
         ++ map (jobsOfBatch paramsList (effectiveBatchSize pGui))
                (seqZ 0 (batchCountOf paramsList (effectiveBatchSize pGui))).
Proof.
  intros HCore HM Hwrap.
  destruct (computeDrawCommandsTwoQueues_spec
              (fun i s => 0 <= i
                          /\ batchJobs (vk_calls s)
                             = batchJobs (vk_calls st)
                               ++ map (jobsOfBatch paramsList (effectiveBatchSize pGui))
                                      (seqZ 0 i))
              pGui paramsList st HCore HM Hwrap)
    as [st' (Hrun & _ & _ & _ & _ & HJ)].
  - split; [lia|]. cbn [twoQueuesBegin vk_calls call set_calls].
    rewrite !batchJobs_app. cbn. rewrite !app_nil_r. reflexivity.
  - intros batch loc s loc' s' Hb [Hpos HJ] E.
    destruct E as (_ & _ & _ & _ & _ & _ & _ & _
                   & (allocs & hC & hG & boxes & colors & Hallocs & Hcalls) & _).
    split; [lia|].
    rewrite Hcalls, !batchJobs_app, HJ.
    rewrite (batchJobs_plain allocs (isAllocate_plain _ Hallocs)).
    rewrite seqZ_app by lia. rewrite map_app, <- app_assoc. f_equal.
    replace (seqZ (0 + batch) 1) with [batch] by (cbn; f_equal; lia).
    destruct (batch =? 0), (batch =? to_uint32 _); reflexivity.
  - exists st'. split; [exact Hrun | exact HJ].
Qed.

Lemma gctOnly_batchJobs {McubesParams : Type} (pGui : Gui)
  (paramsList : list McubesParams) (st : Globals McubesParams) :
  Z.of_nat (length paramsList) + 6 <= 2 ^ 32 ->
  exists st',
    computeDrawCommandsGctOnly pGui paramsList st = Ok st'
    /\ batchJobs (vk_calls st')
       = batchJobs (vk_calls st)
         ++ map (jobsOfBatch paramsList (effectiveBatchSize pGui))
                (seqZ 0 (batchCountOf paramsList (effectiveBatchSize pGui))).
Proof.
  intros HM.
  destruct (computeDrawCommandsGctOnly_spec
              (fun i s => 0 <= i
                          /\ batchJobs (vk_calls s)
                             = batchJobs (vk_calls st)
                               ++ map (jobsOfBatch paramsList (effectiveBatchSize pGui))
                                      (seqZ 0 i))
              pGui paramsList st HM)
    as [st' (Hrun & _ & _ & HJ)].
  - split; [lia|]. cbn [gctOnlyBegin vk_calls call set_calls].
    rewrite !batchJobs_app. cbn. rewrite !app_nil_r. reflexivity.
  - intros batch [[nci fcu] s] [[nci' fcu'] s'] Hb [Hpos HJ] E.
    destruct E as (_ & _ & _ & _ & _ & _ & _ & _ & _
                   & (allocs & hG & boxes & colors & Hallocs & Hcalls) & _).
    cbn [fst snd] in *. split; [lia|].
    rewrite Hcalls, !batchJobs_app, HJ.
    rewrite (batchJobs_plain allocs (isAllocate_plain _ Hallocs)).
    rewrite seqZ_app by lia. rewrite map_app, <- app_assoc. f_equal.
    replace (seqZ (0 + batch) 1) with [batch] by (cbn; f_equal; lia).
    destruct (batch =? 0), (batch =? to_uint32 _); reflexivity.
  - exists st'. split; [exact Hrun | exact HJ].
Qed.

(** C3. For every job list (of a length that fits the 32-bit arithmetic) and
    every GUI batch size, with B the effective batch size (1 <= B <= 6), both
    schedulers submit exactly ceil(M/B) batches; batch b fills the jobs with
    indices in [b*B, min((b+1)*B, M)); the batches, concatenated in submission
    order, are the job list; all batches but the last hold B jobs and the last
    holds between 1 and B. *)
Theorem C3_batches_partition_jobs {McubesParams : Type} (pGui : Gui)
  (paramsList : list McubesParams) (st : Globals McubesParams) :
  Core st ->
  Z.of_nat (length paramsList) + 6 <= 2 ^ 32 ->
  s_upcomingTimelineValue st + batchCountOf paramsList (effectiveBatchSize pGui) < 2 ^ 64 ->
  let M := Z.of_nat (length paramsList) in
  let B := effectiveBatchSize pGui in
  let bc := batchCountOf paramsList B in
  let batches := map (jobsOfBatch paramsList B) (seqZ 0 bc) in
  1 <= B <= MCUBES_MAX_CHUNKS_PER_BATCH
  /\ (bc - 1) * B < M <= bc * B
  /\ (exists st',
        computeDrawCommandsTwoQueues pGui paramsList st = Ok st'
        /\ batchJobs (vk_calls st') = batchJobs (vk_calls st) ++ batches)
  /\ (exists st',
        computeDrawCommandsGctOnly pGui paramsList st = Ok st'
        /\ batchJobs (vk_calls st') = batchJobs (vk_calls st) ++ batches)
  /\ Z.of_nat (length batches) = bc
  /\ concat batches = paramsList
  /\ (forall b, 0 <= b < bc ->
        jobsOfBatch paramsList B b
        = take (Z.to_nat (Z.min ((b + 1) * B) M - b * B)) (drop (Z.to_nat (b * B)) paramsList)
        /\ 1 <= Z.of_nat (length (jobsOfBatch paramsList B b)) <= B
        /\ (b < bc - 1 -> Z.of_nat (length (jobsOfBatch paramsList B b)) = B)).
Proof.
  intros HCore HM Hwrap M B bc batches.
  pose proof (effectiveBatchSize_range pGui) as HB.
  pose proof (twoQueues_batchJobs pGui paramsList st HCore HM Hwrap) as Htwo.
  pose proof (gctOnly_batchJobs pGui paramsList st HM) as Hgct.
  fold B in HB, Htwo, Hgct.
  clearbody B. subst batches bc M.
  assert (0 <= batchCountOf paramsList B <= Z.of_nat (length paramsList)) as Hbc
    by (apply batchCount_bounds; lia).
  pose proof (batchCountOf_ceil paramsList B ltac:(lia)) as Hceil.
  split; [exact HB|]. split; [exact Hceil|].
  split; [exact Htwo|]. split; [exact Hgct|].
  split; [rewrite length_map, length_seqZ; lia|].
  split; [apply jobsOfBatch_concat_all; lia|].
  intros b Hb.
  assert (b * B < Z.of_nat (length paramsList)) as Hlt
    by (apply batch_lt_count; unfold batchCountOf in Hb; lia).
  pose proof (jobsOfBatch_length paramsList B b ltac:(lia) ltac:(lia) Hlt) as Hlen.
  split; [| split].
  - unfold jobsOfBatch, batchItems. f_equal. lia.
  - lia.
  - intros Hnotlast. rewrite Hlen. nia.
Qed.

Lemma C3_batches_partition_jobs_witness :
  Core (initialGlobals (McubesParams := nat) 1)
  /\ Z.of_nat (length (seq 0 64)) + 6 <= 2 ^ 32
  /\ s_upcomingTimelineValue (initialGlobals (McubesParams := nat) 1)
     + batchCountOf (seq 0 64) (effectiveBatchSize (exampleGui 6 true)) < 2 ^ 64
  /\ batchCountOf (seq 0 64) (effectiveBatchSize (exampleGui 6 true)) = 11
  /\ concat (map (jobsOfBatch (seq 0 64) (effectiveBatchSize (exampleGui 6 true)))
               (seqZ 0 (batchCountOf (seq 0 64) (effectiveBatchSize (exampleGui 6 true)))))
     = seq 0 64.
Proof.
  assert (Core (initialGlobals (McubesParams := nat) 1)) as HCore
    by apply initialGlobals_Core.
  assert (Z.of_nat (length (seq 0 64)) + 6 <= 2 ^ 32) as HM by (vm_compute; discriminate).
  assert (s_upcomingTimelineValue (initialGlobals (McubesParams := nat) 1)
          + batchCountOf (seq 0 64) (effectiveBatchSize (exampleGui 6 true)) < 2 ^ 64)
    as Hwrap by (vm_compute; reflexivity).
  split; [exact HCore|]. split; [exact HM|]. split; [exact Hwrap|].
  split; [reflexivity|].
  exact (proj1 (proj2 (proj2 (proj2 (proj2 (proj2
           (C3_batches_partition_jobs (exampleGui 6 true) (seq 0 64) (initialGlobals 1)
              HCore HM Hwrap))))))).
Defined.

(** C10. A frame scheduled by [computeDrawCommandsGctOnly] (for any state, GUI
    setting and job list that fits the 32-bit arithmetic) returns normally
    and leaves [s_upcomingTimelineValue], every chunk's [timelineValue] and
    both arrays of pool wait values as they were; so are the frame number,
    the queue mode, the image pipeline and the compute command-buffer lists.
    Of the program's variables only [s_mcubesChunkIndex] and
    [s_frameGraphicsCmdBufs] may differ, apart from the trace of calls and
    the handle counter of the model. *)
Theorem C10_gct_frame_keeps_timeline_state {McubesParams : Type} (pGui : Gui)
  (paramsList : list McubesParams) (st : Globals McubesParams) :
  Z.of_nat (length paramsList) + 6 <= 2 ^ 32 ->
  exists st',
    computeDrawCommandsGctOnly pGui paramsList st = Ok st'
    /\ s_upcomingTimelineValue st' = s_upcomingTimelineValue st
    /\ g_mcubesChunkArray st' = g_mcubesChunkArray st
    /\ s_frameComputePoolWaitTimelineValues st' = s_frameComputePoolWaitTimelineValues st
    /\ s_frameGraphicsPoolWaitTimelineValues st' = s_frameGraphicsPoolWaitTimelineValues st
    /\ g_frameNumber st' = g_frameNumber st
    /\ s_useComputeQueue st' = s_useComputeQueue st
    /\ s_mcubesImagePipeline st' = s_mcubesImagePipeline st
    /\ s_frameComputeCmdBufs st' = s_frameComputeCmdBufs st
    /\ s_mcubesChunkIndex st'
       = ring_cursor (s_mcubesChunkIndex st) (length paramsList).
Proof.
  intros HM.
  pose proof (effectiveBatchSize_range pGui) as HB.
  set (B := effectiveBatchSize pGui) in *.
  set (M := Z.of_nat (length paramsList)) in *.
  destruct (computeDrawCommandsGctOnly_spec
              (fun i s =>
                 0 <= i
                 /\ s_upcomingTimelineValue s = s_upcomingTimelineValue st
                 /\ g_mcubesChunkArray s = g_mcubesChunkArray st
                 /\ s_frameComputePoolWaitTimelineValues s
                    = s_frameComputePoolWaitTimelineValues st
                 /\ s_frameGraphicsPoolWaitTimelineValues s
                    = s_frameGraphicsPoolWaitTimelineValues st
                 /\ g_frameNumber s = g_frameNumber st
                 /\ s_useComputeQueue s = s_useComputeQueue st
                 /\ s_mcubesImagePipeline s = s_mcubesImagePipeline st
                 /\ s_frameComputeCmdBufs s = s_frameComputeCmdBufs st
                 /\ s_mcubesChunkIndex s
                    = ring_cursor (s_mcubesChunkIndex st) (Z.to_nat (Z.min (i * B) M)))
              pGui paramsList st HM)
    as [st' (Hrun & _ & _ & H1 & H2 & H3 & H4 & H5 & H6 & H7 & H8 & H9)].
  - rewrite Z.mul_0_l, Z.min_l by lia. repeat split. lia.
  - intros batch [[nci fcu] s] [[nci' fcu'] s'] Hb
      (Hpos & H1 & H2 & H3 & H4 & H5 & H6 & H7 & H8 & H9) E.
    destruct E as (Eci & Eca & Eup & Efn & Euq & Epl & Ecw & Egw & Ecb & _ & _).
    cbn [fst snd] in *. fold B in Hb, Eci.
    assert (batch * B < M) as Hlt
      by (apply batch_lt_count; unfold batchCountOf in Hb; fold M in Hb; lia).
    split; [lia|].
    rewrite Eup, Eca, Ecw, Egw, Efn, Euq, Epl, Ecb, Eci, H9.
    repeat (split; [assumption|]).
    rewrite <- ring_cursor_add. f_equal. unfold batchItems. fold M. lia.
  - exists st'. split; [exact Hrun|]. repeat (split; [assumption|]).
    rewrite H9. f_equal.
    pose proof (batchCountOf_ceil paramsList B ltac:(lia)) as Hceil.
    fold B. unfold M in *. lia.
Qed.

Lemma C10_gct_frame_keeps_timeline_state_witness :
  Z.of_nat (length (seq 0 64)) + 6 <= 2 ^ 32
  /\ exists st',
       computeDrawCommandsGctOnly (exampleGui 6 false) (seq 0 64) (initialGlobals 1) = Ok st'
       /\ s_upcomingTimelineValue st' = 1
       /\ g_mcubesChunkArray st' = [0; 0; 0; 0; 0; 0; 0; 0; 0; 0; 0; 0].
Proof.
  assert (Z.of_nat (length (seq 0 64)) + 6 <= 2 ^ 32) as HM by (vm_compute; discriminate).
  split; [exact HM|].
  destruct (C10_gct_frame_keeps_timeline_state (exampleGui 6 false) (seq 0 64)
              (initialGlobals 1) HM) as (st' & Hrun & Hup & Hca & _).
  exists st'. split; [exact Hrun|]. split; [exact Hup | exact Hca].
Defined.

(** The batch count is always computed: the divisor is at least 1. *)
Lemma computeBatchCount_Ok {McubesParams : Type} (pGui : Gui)
  (paramsList : list McubesParams) :
  exists batchCount,
    computeBatchCount paramsList (effectiveBatchSize pGui) = Ok batchCount.
Proof.
  pose proof (effectiveBatchSize_range pGui) as HB.
  unfold computeBatchCount, udiv.
  destruct (Z.eqb_spec (effectiveBatchSize pGui) 0); [lia | eexists; reflexivity].
Qed.

(** The faults the clamp rules out do occur in the model without it: a
    seventh chunk does not fit the pointer array, and a batch size of 0 makes
    the division fail. *)
Example unclamped_batch_overflows :
  for_range 0 7 (selectNextChunk 0 0)
    (newCArray MCUBES_MAX_CHUNKS_PER_BATCH, None, initialGlobals (McubesParams := nat) 1)
  = Abort OutOfBounds.
Proof. reflexivity. Qed.

Example zero_batch_size_divides_by_zero :
  computeBatchCount (seq 0 64) 0 = Abort DivisionByZero.
Proof. reflexivity. Qed.

(** C9. For every integer the GUI may hold in [m_batchSize] (zero and
    negative values included) the effective batch size lies in [1, 6]; the
    batch count is computed without a division by zero; and from every state
    that satisfies the clock invariant both schedulers run to the end of the
    frame, so that no access to [chunkPointerArray] (or to any other array)
    is out of bounds. *)
Theorem C9_batch_size_clamped {McubesParams : Type} (pGui : Gui)
  (paramsList : list McubesParams) (st : Globals McubesParams) :
  Core st ->
  Z.of_nat (length paramsList) + 6 <= 2 ^ 32 ->
  s_upcomingTimelineValue st + batchCountOf paramsList (effectiveBatchSize pGui) < 2 ^ 64 ->
  1 <= effectiveBatchSize pGui <= MCUBES_MAX_CHUNKS_PER_BATCH
  /\ (exists batchCount,
        computeBatchCount paramsList (effectiveBatchSize pGui) = Ok batchCount)
  /\ (exists st', computeDrawCommandsTwoQueues pGui paramsList st = Ok st')
  /\ (exists st', computeDrawCommandsGctOnly pGui paramsList st = Ok st').
Proof.
  intros HCore HM Hwrap.
  split; [apply effectiveBatchSize_range|].
  split; [apply computeBatchCount_Ok|].
  split.
  - destruct (twoQueues_batchJobs pGui paramsList st HCore HM Hwrap) as [st' [Hrun _]].
    exists st'. exact Hrun.
  - destruct (gctOnly_batchJobs pGui paramsList st HM) as [st' [Hrun _]].
    exists st'. exact Hrun.
Qed.

Lemma C9_batch_size_clamped_witness :
  Core (initialGlobals (McubesParams := nat) 1)
  /\ Z.of_nat (length (seq 0 64)) + 6 <= 2 ^ 32
  /\ s_upcomingTimelineValue (initialGlobals (McubesParams := nat) 1)
     + batchCountOf (seq 0 64) (effectiveBatchSize (exampleGui (-3) true)) < 2 ^ 64
  /\ effectiveBatchSize (exampleGui (-3) true) = 6
  /\ effectiveBatchSize (exampleGui 0 true) = 1
  /\ (exists st',
        computeDrawCommandsTwoQueues (exampleGui (-3) true) (seq 0 64) (initialGlobals 1)
        = Ok st').
Proof.
  assert (Core (initialGlobals (McubesParams := nat) 1)) as HCore
    by apply initialGlobals_Core.
  assert (Z.of_nat (length (seq 0 64)) + 6 <= 2 ^ 32) as HM by (vm_compute; discriminate).
  assert (s_upcomingTimelineValue (initialGlobals (McubesParams := nat) 1)
          + batchCountOf (seq 0 64) (effectiveBatchSize (exampleGui (-3) true)) < 2 ^ 64)
    as Hwrap by (vm_compute; reflexivity).
  split; [exact HCore|]. split; [exact HM|]. split; [exact Hwrap|].
  split; [reflexivity|]. split; [reflexivity|].
  exact (proj1 (proj2 (proj2
           (C9_batch_size_clamped (exampleGui (-3) true) (seq 0 64) (initialGlobals 1)
              HCore HM Hwrap)))).
Defined.

(** C6 as the claim puts it does not hold: a GUI batch size of 7 is not
    rejected.  The single-queue scheduler clamps it to 6 and schedules the
    frame: 13 jobs go out in batches of 6, 6 and 1. *)
Lemma C6_batch_size_7_is_not_rejected :
  effectiveBatchSize (exampleGui 7 false) = 6
  /\ exists st',
       computeDrawCommandsGctOnly (exampleGui 7 false) (seq 0 13) (initialGlobals 1) = Ok st'
       /\ batchJobs (vk_calls st')
          = [[0; 1; 2; 3; 4; 5]; [6; 7; 8; 9; 10; 11]; [12]]%nat.
Proof.
  split; [reflexivity|]. eexists. split; vm_compute; reflexivity.
Qed.

(** C7. [computeReplaceEquation] returns a boolean, [false] exactly when the
    shader compiler hands back no module.  When it returns [false] the state
    is the one before the call with only the call to the shader compiler
    added to the trace: the image pipeline, the clock, the cursor, the chunks
    and every other variable are unchanged.  In every run from the initial
    state each call to the shader compiler comes immediately after a
    [vkDeviceWaitIdle]. *)
Theorem C7_failed_replacement_changes_nothing {McubesParams : Type}
  (imagePipeline : VkPipeline) (inputs : list (FrameInput McubesParams))
  (compiler : ShaderCompiler) (pEquation : string) (st : Globals McubesParams) :
  Forall jobsFit inputs ->
  1 + runTicks inputs < 2 ^ 64 ->
  let prepend :=
    (replaceNewlines ("#define EQUATION(x, y, z, t) " ++ pEquation)
     ++ String newline EmptyString)%string in
  let result := computeReplaceEquation compiler pEquation st in
  fst result = negb (compiler prepend =? VK_NULL_HANDLE)
  /\ (fst result = false ->
      snd result = call (createShaderModule prepend) st
      /\ s_mcubesImagePipeline (snd result) = s_mcubesImagePipeline st
      /\ s_upcomingTimelineValue (snd result) = s_upcomingTimelineValue st
      /\ s_mcubesChunkIndex (snd result) = s_mcubesChunkIndex st
      /\ g_mcubesChunkArray (snd result) = g_mcubesChunkArray st)
  /\ (exists st',
        runFrames inputs (initialGlobals imagePipeline) = Ok st'
        /\ replacementsGuarded (vk_calls st')).
Proof.
  intros Hfit Hwrap prepend result. split; [| split].
  - subst result prepend. unfold computeReplaceEquation, setupMcubesImagePipeline.
    destruct (compiler _ =? VK_NULL_HANDLE); reflexivity.
  - subst result prepend. unfold computeReplaceEquation, setupMcubesImagePipeline.
    destruct (compiler _ =? VK_NULL_HANDLE); cbn [fst snd]; [| discriminate].
    intros _. repeat split.
  - destruct (runFrames_initial imagePipeline inputs Hfit Hwrap) as [st' (Hrun & Hrtc & _)].
    exists st'. split; [exact Hrun|].
    apply (sched_invariant GuardInv GuardInv_step _ _ Hrtc).
    intros i s Hi. cbn in Hi. rewrite lookup_nil in Hi. discriminate.
Qed.

Lemma C7_failed_replacement_changes_nothing_witness :
  Forall jobsFit [exampleFrame 6 6 true; exampleReplaceFrame 6 (fun _ => VK_NULL_HANDLE)]
  /\ 1 + runTicks [exampleFrame 6 6 true; exampleReplaceFrame 6 (fun _ => VK_NULL_HANDLE)]
     < 2 ^ 64
  /\ fst (computeReplaceEquation (fun _ => VK_NULL_HANDLE) "x +"
            (initialGlobals (McubesParams := nat) 1)) = false
  /\ s_mcubesImagePipeline
       (snd (computeReplaceEquation (fun _ => VK_NULL_HANDLE) "x +"
               (initialGlobals (McubesParams := nat) 1))) = 1
  /\ exists st',
       runFrames [exampleFrame 6 6 true; exampleReplaceFrame 6 (fun _ => VK_NULL_HANDLE)]
         (initialGlobals 1) = Ok st'
       /\ replacementsGuarded (vk_calls st').
Proof.
  assert (Forall jobsFit
            [exampleFrame 6 6 true; exampleReplaceFrame 6 (fun _ => VK_NULL_HANDLE)])
    as Hfit by (repeat constructor; unfold jobsFit; vm_compute; discriminate).
  assert (1 + runTicks
                [exampleFrame 6 6 true; exampleReplaceFrame 6 (fun _ => VK_NULL_HANDLE)]
          < 2 ^ 64) as Hwrap by (vm_compute; reflexivity).
  split; [exact Hfit|]. split; [exact Hwrap|].
  destruct (C7_failed_replacement_changes_nothing 1 _ (fun _ => VK_NULL_HANDLE) "x +"
              (initialGlobals (McubesParams := nat) 1) Hfit Hwrap)
    as (Hres & Hfail & Hrun).
  split; [exact Hres|].
  split; [exact (proj1 (proj2 (Hfail Hres))) | exact Hrun].
Defined.

(** The run of the witness above does call the shader compiler, after the
    device has gone idle, and keeps the pipeline of the first frame. *)
Example failed_replacement_run :
  exists st',
    runFrames [exampleFrame 6 6 true; exampleReplaceFrame 6 (fun _ => VK_NULL_HANDLE)]
      (initialGlobals 1) = Ok st'
    /\ s_mcubesImagePipeline st' = 1
    /\ vk_calls st' !! 7%nat = Some vkDeviceWaitIdle
    /\ vk_calls st' !! 8%nat
       = Some (createShaderModule
                 ("#define EQUATION(x, y, z, t) x +" ++ String newline EmptyString)).
Proof.
  eexists. split; [vm_compute; reflexivity|].
  split; [vm_compute; reflexivity|].
  split; vm_compute; reflexivity.
Qed.

(** After any run, each chunk's [timelineValue] is the value signalled by
    the last two-queue batch that drew the chunk (0 if there is none). *)
Lemma chunk_timeline_values_after_run {McubesParams : Type} (imagePipeline : VkPipeline)
  (inputs : list (FrameInput McubesParams)) :
  Forall jobsFit inputs ->
  1 + runTicks inputs < 2 ^ 64 ->
  exists st,
    runFrames inputs (initialGlobals imagePipeline) = Ok st
    /\ forall p, 0 <= p < MCUBES_CHUNK_COUNT ->
         g_mcubesChunkArray st !! Z.to_nat p
         = Some (default 0 (last (drawSignals p (vk_calls st)))).
Proof.
  intros Hfit Hwrap.
  destruct (runFrames_initial imagePipeline inputs Hfit Hwrap) as [st (Hrun & Hrtc & _)].
  exists st. split; [exact Hrun|].
  apply (sched_invariant ReadyInv ReadyInv_step _ _ Hrtc).
  split; [reflexivity|]. intros p Hp. cbn [vk_calls initialGlobals drawSignals flat_map last].
  cbn [default g_mcubesChunkArray]. apply lookup_replicate_2.
  unfold MCUBES_CHUNK_COUNT in *. lia.
Qed.

(** The end-to-end scenario: one two-queue frame of 64 jobs in batches of 6
    from the initial state. *)
Example sixty_four_jobs_in_batches_of_six :
  exists st',
    runFrames [exampleFrame 64 6 true] (initialGlobals 1) = Ok st'
    /\ s_upcomingTimelineValue st' = 12
    /\ s_mcubesChunkIndex st' = 4
    /\ g_mcubesChunkArray st' = [10; 11; 11; 11; 11; 9; 9; 10; 10; 10; 10; 10]
    /\ map length (batchJobs (vk_calls st')) = [6; 6; 6; 6; 6; 6; 6; 6; 6; 6; 4]%nat
    /\ computeWaitSignal (vk_calls st')
       = [(0, 1); (0, 2); (1, 3); (2, 4); (3, 5); (4, 6); (5, 7); (6, 8); (7, 9);
          (8, 10); (9, 11)].
Proof.
  eexists. split; [vm_compute; reflexivity|].
  split; [vm_compute; reflexivity|]. split; [vm_compute; reflexivity|].
  split; [vm_compute; reflexivity|]. split; vm_compute; reflexivity.
Qed.

(** C2 fails on the code.  [computeWaitTimelineValue] is set to 0 once per
    frame and only ever raised, so a batch waits for the largest
    [timelineValue] among the chunks of all batches of the frame so far, not
    of its own chunks alone.  Run: a two-queue frame of 6 jobs, a single-queue
    frame of 6 jobs, then a two-queue frame of 12 jobs, batch size 6
    throughout.  In the third frame batch 0 takes chunks 1..6 (value 1) and
    batch 1 takes chunks 7..11 and 0, which no two-queue batch has used: their
    [timelineValue] is 0 when batch 1 reads them, yet batch 1 is submitted
    with the wait value 1. *)
Lemma C2_wait_exceeds_maximum_of_batch :
  exists st2 st3 loc1 s1 loc2,
    runFrames [exampleFrame 6 6 true; exampleFrame 6 6 false] (initialGlobals 1) = Ok st2
    /\ g_mcubesChunkArray st2 = [0; 1; 1; 1; 1; 1; 1; 0; 0; 0; 0; 0]
    /\ s_mcubesChunkIndex st2 = 0
    /\ runFrames [exampleFrame 6 6 true; exampleFrame 6 6 false; exampleFrame 12 6 true]
         (initialGlobals 1) = Ok st3
    /\ computeSubmissions (drop (length (vk_calls st2)) (vk_calls st3))
       = [(1, 2, [1; 2; 3; 4; 5; 6]); (1, 3, [7; 8; 9; 10; 11; 0])]
    /\ twoQueuesBatch (exampleGui 6 true) (seq 0 12) 6 2 0
         ({| nextCmdBufIndex := 0;
             computeWaitTimelineValue := 0;
             computeSignalTimelineValue := 0;
             graphicsWaitTimelineValue := 0;
             graphicsSignalTimelineValue := 0;
             firstChunkUsed := None |},
          twoQueuesBegin
            (set_useComputeQueue true (call vkDeviceWaitIdle (set_frameNumber 3 st2))))
       = Ok (loc1, s1)
    /\ twoQueuesBatch (exampleGui 6 true) (seq 0 12) 6 2 1 (loc1, s1) = Ok (loc2, st3)
    /\ ring_slots (s_mcubesChunkIndex s1) 6 = [7; 8; 9; 10; 11; 0]
    /\ map (slotValue (g_mcubesChunkArray s1)) [7; 8; 9; 10; 11; 0] = [0; 0; 0; 0; 0; 0]
    /\ maxTimelineValue 0 (g_mcubesChunkArray s1) [7; 8; 9; 10; 11; 0] = 0
    /\ computeWaitTimelineValue loc2 = 1.
Proof.
  eexists _, _, _, _, _.
  split; [vm_compute; reflexivity|]. split; [vm_compute; reflexivity|].
  split; [vm_compute; reflexivity|]. split; [vm_compute; reflexivity|].
  split; [vm_compute; reflexivity|]. split; [vm_compute; reflexivity|].
  split; [vm_compute; reflexivity|]. split; [vm_compute; reflexivity|].
  split; [vm_compute; reflexivity|]. split; vm_compute; reflexivity.
Qed.

(** What does hold of the wait value of a batch: it is the maximum of the
    wait value of the batch before it in the frame (0 for the first batch)
    and of the [timelineValue] of the chunks selected for the batch.  It is
    therefore never below the [timelineValue] of a chunk of the batch, and
    in the first batch of a frame it is the maximum over the chunks of the
    batch. *)
Lemma twoQueuesBatch_wait_value {McubesParams : Type} (pGui : Gui)
  (paramsList : list McubesParams) (batch : Z) (loc : TwoQueuesLocals)
  (st : Globals McubesParams) :
  let B := effectiveBatchSize pGui in
  let bc := batchCountOf paramsList B in
  let slots :=
    ring_slots (s_mcubesChunkIndex st) (batchItems B (Z.of_nat (length paramsList)) batch) in
  Core st ->
  Z.of_nat (length paramsList) + 6 <= 2 ^ 32 ->
  0 <= batch < bc ->
  0 <= computeWaitTimelineValue loc < s_upcomingTimelineValue st ->
  batch = 0 \/ is_Some (firstChunkUsed loc) ->
  exists loc' st',
    twoQueuesBatch pGui paramsList B bc batch (loc, st) = Ok (loc', st')
    /\ computeWaitTimelineValue loc'
       = maxTimelineValue (computeWaitTimelineValue loc) (g_mcubesChunkArray st) slots
    /\ (forall p, p ∈ slots ->
          slotValue (g_mcubesChunkArray st) p <= computeWaitTimelineValue loc')
    /\ computeWaitSignal (vk_calls st')
       = computeWaitSignal (vk_calls st)
         ++ [(computeWaitTimelineValue loc', s_upcomingTimelineValue st)].
Proof.
  intros B bc slots HCore HM Hb Hw Hfirst.
  pose proof (effectiveBatchSize_range pGui) as HB. fold B in HB.
  assert (batch * B < Z.of_nat (length paramsList)) as Hlt
    by (apply batch_lt_count; unfold bc, batchCountOf in Hb; lia).
  destruct HCore as (Hlen & Hup & Hall).
  assert (maxTimelineValue (computeWaitTimelineValue loc) (g_mcubesChunkArray st) slots
          < s_upcomingTimelineValue st) as Hwait
    by (apply maxTimelineValue_bound; [lia | exact Hall | exact Hw]).
  destruct (twoQueuesBatch_spec pGui paramsList B bc batch loc st HB HM ltac:(lia) Hlt
              Hlen Hfirst Hwait) as [loc' [st' [Hrun E]]].
  destruct E as (_ & _ & _ & _ & _ & _ & _ & _
                 & (allocs & hC & hG & boxes & colors & Hallocs & Hcalls) & _ & Hw' & _).
  exists loc', st'. split; [exact Hrun|]. split; [exact Hw'|].
  split; [intros p Hp; rewrite Hw'; apply maxTimelineValue_ge_slot, Hp|].
  rewrite Hcalls, !computeWaitSignal_app.
  rewrite (computeWaitSignal_plain allocs (isAllocate_plain _ Hallocs)), Hw'.
  reflexivity.
Qed.


(** * Further properties of the code *)

(** ** Runs in steps of the frame loop *)

Section FrameStepLemmas.

Context {McubesParams : Type}.
Local Abbreviation State := (Globals McubesParams).

(** Every step of the frame loop is a step of the coarser system. *)
Lemma frame_step_sched_step (st st' : State) :
  frame_step st st' -> sched_step st st'.
Proof.
  intros H. destruct H as
    [ st | st want | st compiler pEquation | st Hq | st Hq
    | st st' paramsList B batch loc loc' HC Hwrap Hw HB HM Hb Hq E
    | s s' paramsList B batch HB HM Hb Hq E ].
  - apply (step_host st _ []); try reflexivity; [| constructor].
    cbn. rewrite app_nil_r. reflexivity.
  - apply (step_host st _ [vkDeviceWaitIdle]); try reflexivity. repeat constructor.
  - apply step_replaceEquation.
  - apply twoQueuesBegin_step.
  - apply gctOnlyBegin_step.
  - exact (step_twoQueuesBatch st st' paramsList B _ batch loc loc' HC Hwrap Hw E).
  - eapply step_gctOnlyBatch; exact E.
Qed.

Lemma frame_steps_sched_steps (st st' : State) :
  rtc frame_step st st' -> rtc sched_step st st'.
Proof.
  intros H. induction H as [|a b c Hab _ IH]; [reflexivity|].
  eapply rtc_l; [apply frame_step_sched_step; exact Hab | exact IH].
Qed.

Lemma frame_invariant (P : State -> Prop) :
  (forall st st', frame_step st st' -> P st -> P st') ->
  forall st st', rtc frame_step st st' -> P st -> P st'.
Proof.
  intros Hstep st st' Hrtc. induction Hrtc as [|st st1 st' H1 _ IH]; [auto|].
  intros HP. apply IH. eapply Hstep; eassumption.
Qed.

Lemma computeDrawCommandsTwoQueues_frame_steps (pGui : Gui)
  (paramsList : list McubesParams) (st : State) :
  let B := effectiveBatchSize pGui in
  let bc := batchCountOf paramsList B in
  Core st ->
  Z.of_nat (length paramsList) + 6 <= 2 ^ 32 ->
  s_upcomingTimelineValue st + bc < 2 ^ 64 ->
  s_useComputeQueue st = true ->
  exists st',
    computeDrawCommandsTwoQueues pGui paramsList st = Ok st'
    /\ rtc frame_step st st'
    /\ Core st'
    /\ s_upcomingTimelineValue st' = s_upcomingTimelineValue st + bc
    /\ s_useComputeQueue st' = true.
Proof.
  intros B bc HCore HM Hwrap Hq.
  pose proof (effectiveBatchSize_range pGui) as HB. fold B in HB.
  assert (0 <= bc <= Z.of_nat (length paramsList)) as Hbc
    by (apply batchCount_bounds; lia).
  unfold computeDrawCommandsTwoQueues. fold B.
  rewrite (computeBatchCount_spec paramsList B HB HM). fold (batchCountOf paramsList B).
  fold bc. cbn [bind]. fold (twoQueuesBegin st).
  unfold for_range. rewrite Z.sub_0_r.
  set (I := fun (i : Z) (ls : TwoQueuesLocals * State) =>
              rtc frame_step st (snd ls)
              /\ Core (snd ls)
              /\ s_upcomingTimelineValue (snd ls) = s_upcomingTimelineValue st + i
              /\ 0 <= computeWaitTimelineValue (fst ls) < s_upcomingTimelineValue (snd ls)
              /\ (i = 0 \/ is_Some (firstChunkUsed (fst ls)))
              /\ s_useComputeQueue (snd ls) = true).
  match goal with
  | |- context [for_loop ?n 0 ?body ?s0] =>
      destruct (for_loop_rule I body n 0 s0) as [[loc' st'] [Hloop HI]]
  end.
  - unfold I. cbn [fst snd computeWaitTimelineValue firstChunkUsed].
    destruct HCore as (Hlen & Hup & Hall).
    split; [apply rtc_once, fs_twoQueuesBegin, Hq|].
    split; [exact (conj Hlen (conj Hup Hall))|].
    split; [cbn; lia|]. split; [cbn; lia|]. split; [left; reflexivity | exact Hq].
  - intros i [loc s] Hi (Hrtc & HC & Hup & Hw & Hfirst & Hqs).
    cbn [fst snd] in *. rewrite Z2Nat.id in Hi by lia.
    assert (i * B < Z.of_nat (length paramsList)) as Hlt
      by (apply batch_lt_count; unfold bc, batchCountOf in Hi; lia).
    destruct (twoQueuesBatch_spec pGui paramsList B bc i loc s HB HM ltac:(lia) Hlt)
      as [loc1 [s1 [Hrun E]]].
    + apply HC.
    + exact Hfirst.
    + destruct HC as (_ & Hup1 & Hall).
      apply maxTimelineValue_bound; [lia | exact Hall | exact Hw].
    + exists (loc1, s1). split; [exact Hrun|].
      assert (s_upcomingTimelineValue s + 1 < 2 ^ 64) as Hnowrap by lia.
      destruct (twoQueuesBatch_Core paramsList B bc i loc loc1 s s1 HC Hnowrap Hw E)
        as (HC1 & Hup1 & Hw1).
      unfold I. cbn [fst snd].
      split; [eapply rtc_r; [exact Hrtc|];
              exact (fs_twoQueuesBatch s s1 paramsList B i loc loc1 HC Hnowrap Hw HB HM
                       ltac:(fold bc; lia) Hqs E)|].
      split; [exact HC1|]. split; [lia|]. split; [lia|].
      split; [right; apply E|].
      destruct E as (_ & _ & _ & _ & -> & _). exact Hqs.
  - rewrite Hloop. cbn [bind snd]. exists st'.
    rewrite Z.add_0_l, Z2Nat.id in HI by lia.
    destruct HI as (Hrtc & HC & Hup & _ & _ & Hq'). cbn [fst snd] in *.
    auto.
Qed.

Lemma computeDrawCommandsGctOnly_frame_steps (pGui : Gui)
  (paramsList : list McubesParams) (st : State) :
  Z.of_nat (length paramsList) + 6 <= 2 ^ 32 ->
  Core st ->
  s_useComputeQueue st = false ->
  exists st',
    computeDrawCommandsGctOnly pGui paramsList st = Ok st'
    /\ rtc frame_step st st'
    /\ Core st'
    /\ s_upcomingTimelineValue st' = s_upcomingTimelineValue st
    /\ s_useComputeQueue st' = false.
Proof.
  intros HM HCore Hq.
  pose proof (effectiveBatchSize_range pGui) as HB.
  destruct (computeDrawCommandsGctOnly_spec
              (fun _ s => rtc frame_step st s
                          /\ Core s
                          /\ s_upcomingTimelineValue s = s_upcomingTimelineValue st
                          /\ s_useComputeQueue s = false)
              pGui paramsList st HM)
    as [st' (Hrun & _ & Hrtc & HC' & Hup' & Hq')].
  - split; [apply rtc_once, fs_gctOnlyBegin, Hq|]. split; [exact HCore|]. auto.
  - intros batch s s' Hb (Hrtc & HCs & Hups & Hqs) E.
    split; [eapply rtc_r; [exact Hrtc|];
            exact (fs_gctOnlyBatch s s' paramsList _ batch HB HM Hb Hqs E)|].
    split; [eapply gctOnlyBatch_Core; eassumption|].
    destruct E as (_ & _ & -> & _ & -> & _). auto.
  - exists st'. auto.
Qed.

Lemma mainLoopBody_frame_steps (input : FrameInput McubesParams) (st : State) :
  Core st ->
  jobsFit input ->
  s_upcomingTimelineValue st + frameTicks input < 2 ^ 64 ->
  exists pGui st',
    mainLoopBody input st = Ok (pGui, st')
    /\ rtc frame_step st st'
    /\ Core st'
    /\ s_upcomingTimelineValue st' = s_upcomingTimelineValue st + frameTicks input.
Proof.
  intros HCore HM Hwrap. unfold mainLoopBody.
  set (st1 := set_frameNumber _ st).
  assert (frame_step st st1) as H1 by apply fs_nextFrame.
  set (pGui := fi_gui input) in *.
  set (st2 := if negb (Bool.eqb (m_wantComputeQueue pGui) (s_useComputeQueue st1))
              then set_useComputeQueue (m_wantComputeQueue pGui) (call vkDeviceWaitIdle st1)
              else st1).
  assert (rtc frame_step st st2
          /\ Core st2
          /\ s_upcomingTimelineValue st2 = s_upcomingTimelineValue st
          /\ s_useComputeQueue st2 = m_wantComputeQueue pGui) as (H2 & HC2 & Hup2 & Hq2).
  { subst st2.
    destruct (Bool.eqb (m_wantComputeQueue pGui) (s_useComputeQueue st1)) eqn:Eq;
      cbn [negb].
    - apply Bool.eqb_prop in Eq. split; [apply rtc_once, H1|]. auto.
    - split; [| auto].
      eapply rtc_l; [exact H1|]. apply rtc_once. apply fs_switchQueue. }
  clearbody st2. clear H1 st1.
  set (r := if m_wantSetEquation pGui
            then
              let st := call vkDeviceWaitIdle st2 in
              let '(success, st) :=
                computeReplaceEquation (fi_compiler input) (m_equationInput pGui) st in
              (set_equationResult (negb success) pGui, st)
            else (pGui, st2)).
  assert (rtc frame_step st (snd r)
          /\ Core (snd r)
          /\ s_upcomingTimelineValue (snd r) = s_upcomingTimelineValue st
          /\ s_useComputeQueue (snd r) = m_wantComputeQueue pGui
          /\ effectiveBatchSize (fst r) = effectiveBatchSize pGui)
    as (H3 & HC3 & Hup3 & Hq3 & HB3).
  { subst r. destruct (m_wantSetEquation pGui); [| cbn [fst snd]; auto].
    cbv zeta.
    pose proof (fs_replaceEquation st2 (fi_compiler input) (m_equationInput pGui))
      as Hstep.
    destruct (computeReplaceEquation_Core (fi_compiler input) (m_equationInput pGui)
                (call vkDeviceWaitIdle st2)) as (HCr & Hupr & Hqr).
    destruct (computeReplaceEquation (fi_compiler input) (m_equationInput pGui)
                (call vkDeviceWaitIdle st2)) as [success st3].
    cbn [fst snd] in *.
    split; [eapply rtc_r; eassumption|].
    split; [apply HCr; exact HC2|].
    split; [rewrite Hupr; exact Hup2|].
    split; [rewrite Hqr; exact Hq2 | reflexivity]. }
  clearbody r. destruct r as [pGui3 st3]. cbn [fst snd] in *.
  unfold frameTicks in *. fold pGui in Hwrap |- *. unfold jobsFit in HM.
  rewrite Hq3. destruct (m_wantComputeQueue pGui).
  - destruct (computeDrawCommandsTwoQueues_frame_steps pGui3 (fi_jobs input) st3)
      as [st' (Hrun & Hrtc & HC' & Hup' & _)]; auto.
    + rewrite HB3, Hup3. exact Hwrap.
    + rewrite Hrun. cbn [bind snd]. exists pGui3, st'.
      split; [reflexivity|]. split; [etransitivity; eassumption|].
      split; [exact HC'|]. rewrite Hup', HB3, Hup3. reflexivity.
  - destruct (computeDrawCommandsGctOnly_frame_steps pGui3 (fi_jobs input) st3)
      as [st' (Hrun & Hrtc & HC' & Hup' & _)]; auto.
    rewrite Hrun. cbn [bind snd]. exists pGui3, st'.
    split; [reflexivity|]. split; [etransitivity; eassumption|].
    split; [exact HC'|]. rewrite Hup', Hup3. lia.
Qed.

Lemma runFrames_frame_steps (inputs : list (FrameInput McubesParams)) :
  forall st : State,
    Core st ->
    Forall jobsFit inputs ->
    s_upcomingTimelineValue st + runTicks inputs < 2 ^ 64 ->
    exists st',
      runFrames inputs st = Ok st'
      /\ rtc frame_step st st'.
Proof.
  induction inputs as [|input inputs IH]; intros st HCore Hfit Hwrap.
  - exists st. cbn. split; reflexivity.
  - inversion Hfit as [|? ? Hfit1 Hfit2]; subst.
    cbn [runTicks foldr] in Hwrap. fold (runTicks inputs) in Hwrap.
    pose proof (runTicks_nonneg inputs) as Hpos.
    destruct (mainLoopBody_frame_steps input st HCore Hfit1 ltac:(lia))
      as [pGui [st1 (Hrun & Hrtc & HC1 & Hup1)]].
    destruct (IH st1 HC1 Hfit2 ltac:(lia)) as [st' (Hrun' & Hrtc')].
    exists st'. cbn [runFrames]. rewrite Hrun. cbn [bind snd].
    split; [exact Hrun'|]. etransitivity; eassumption.
Qed.

(** Every run from the initial state is a sequence of steps of the frame
    loop. *)
Lemma runFrames_initial_steps (imagePipeline : VkPipeline)
  (inputs : list (FrameInput McubesParams)) :
  Forall jobsFit inputs ->
  1 + runTicks inputs < 2 ^ 64 ->
  exists st,
    runFrames inputs (initialGlobals imagePipeline) = Ok st
    /\ rtc frame_step (initialGlobals imagePipeline) st.
Proof.
  intros Hfit Hwrap.
  apply (runFrames_frame_steps inputs (initialGlobals imagePipeline));
    [apply initialGlobals_Core | exact Hfit | exact Hwrap].
Qed.

End FrameStepLemmas.

(** ** Hazards between the two queues *)

Section Hazards.

Context {McubesParams : Type}.
Local Abbreviation State := (Globals McubesParams).

(** Where a call that is not plain can sit in a trace that was extended by a
    batch. *)
Lemma lookup_batch_calls (calls allocs tail : list (VkCall McubesParams)) (i : nat)
  (x : VkCall McubesParams) :
  Forall isAllocate allocs ->
  (calls ++ allocs ++ tail) !! i = Some x ->
  ~ isPlainCall x ->
  calls !! i = Some x
  \/ exists k : nat, i = (length calls + length allocs + k)%nat /\ tail !! k = Some x.
Proof.
  intros Hallocs Hi Hx.
  apply lookup_app_Some in Hi. destruct Hi as [Hi | [Hge Hi]]; [left; exact Hi|].
  apply lookup_app_Some in Hi. destruct Hi as [Hi | [Hge' Hi]].
  - exfalso. apply Hx.
    exact (proj1 (Forall_lookup _ _) (isAllocate_plain _ Hallocs) _ _ Hi).
  - right. exists (i - length calls - length allocs)%nat. split; [lia | exact Hi].
Qed.

Lemma lookup_batch_tail (calls allocs tail : list (VkCall McubesParams)) (k : nat) :
  (calls ++ allocs ++ tail) !! (length calls + length allocs + k)%nat = tail !! k.
Proof.
  rewrite lookup_app_r by lia. rewrite lookup_app_r by lia. f_equal. lia.
Qed.

Lemma lookup_plain_calls (calls extra : list (VkCall McubesParams)) (i : nat)
  (x : VkCall McubesParams) :
  Forall isPlainCall extra ->
  (calls ++ extra) !! i = Some x ->
  ~ isPlainCall x ->
  calls !! i = Some x.
Proof.
  intros Hextra Hi Hx.
  apply lookup_app_Some in Hi. destruct Hi as [Hi | [Hge Hi]]; [exact Hi|].
  exfalso. apply Hx. exact (proj1 (Forall_lookup _ _) Hextra _ _ Hi).
Qed.

Lemma submit_not_plain (q : VkQueue) (submit : VkSubmitInfo McubesParams)
  (fence : option VkFence) : ~ isPlainCall (vkQueueSubmit q submit fence).
Proof. cbn. tauto. Qed.

Lemma graphicsSubmitInfo_drawn (signal : Z) (hG : VkCommandBuffer) (first last : bool)
  (slots : list Z) (boxes : option (list McubesParams))
  (colors : option (list McubesDebugViewPushConstant)) :
  flat_map drawnChunks (commands (graphicsSubmitInfo signal hG first last slots boxes colors))
  = slots.
Proof. destruct first, last; cbn; rewrite ?app_nil_r; reflexivity. Qed.

Lemma gctSubmitInfo_filled (hG : VkCommandBuffer) (pipeline : VkPipeline)
  (first last : bool) (slots : list Z) (jobs : list McubesParams)
  (boxes : option (list McubesParams))
  (colors : option (list McubesDebugViewPushConstant)) :
  flat_map filledChunks
    (commands (gctSubmitInfo hG pipeline first last slots jobs boxes colors))
  = slots.
Proof. destruct first, last; cbn; rewrite ?app_nil_r; reflexivity. Qed.

Lemma graphicsFollowsCompute_step (st st' : State) :
  sched_step st st' ->
  graphicsFollowsCompute (vk_calls st) -> graphicsFollowsCompute (vk_calls st').
Proof.
  intros Hstep Hinv i submit fence Hi.
  assert (forall (calls : list (VkCall McubesParams)) (j : nat) x,
             vk_calls st !! j = Some x -> (vk_calls st ++ calls) !! j = Some x)
    as Hold by (intros; apply lookup_app_l_Some; assumption).
  assert (vk_calls st !! i = Some (vkQueueSubmit g_computeQueue submit fence) ->
          forall calls,
          exists gsubmit v,
            (vk_calls st ++ calls) !! S i = Some (vkQueueSubmit g_gctQueue gsubmit None)
            /\ signalSemaphore submit = Some (s_computeDoneTimelineSemaphore, v)
            /\ waitSemaphore gsubmit = Some (s_computeDoneTimelineSemaphore, v)
            /\ flat_map drawnChunks (commands gsubmit)
               = flat_map filledChunks (commands submit)) as Hkeep.
  { intros Hi0 calls. destruct (Hinv i submit fence Hi0) as (g & v & Hg & Hrest).
    exists g, v. split; [apply Hold; exact Hg | exact Hrest]. }
  destruct (sched_step_inv st st' Hstep)
    as [ (calls & _ & _ & _ & Hcalls & Hplain)
       | [ (prepend & rest & _ & _ & _ & Hcalls & Hplain)
         | [ (n & wait0 & jobs & hC & hG & allocs & first & last & boxes & colors
              & _ & _ & _ & _ & _ & Hallocs & Hcalls)
           | (n & jobs & hG & allocs & first & last & boxes & colors & fence'
              & _ & _ & _ & Hallocs & Hcalls) ]]];
    rewrite Hcalls in Hi |- *.
  - apply Hkeep. eapply lookup_plain_calls; [exact Hplain | exact Hi | apply submit_not_plain].
  - change (vkDeviceWaitIdle :: createShaderModule prepend :: rest)
      with ([vkDeviceWaitIdle] ++ createShaderModule prepend :: rest) in Hi |- *.
    rewrite app_assoc in Hi |- *.
    apply lookup_app_Some in Hi. destruct Hi as [Hi | [Hge Hi]].
    + rewrite <- app_assoc. apply Hkeep.
      eapply lookup_plain_calls; [| exact Hi | apply submit_not_plain]. repeat constructor.
    + exfalso.
      destruct (i - length (vk_calls st ++ [vkDeviceWaitIdle]))%nat as [|k];
        [discriminate Hi|].
      cbn in Hi.
      exact (submit_not_plain _ _ _ (proj1 (Forall_lookup _ _) Hplain _ _ Hi)).
  - destruct (lookup_batch_calls _ _ _ _ _ Hallocs Hi (submit_not_plain _ _ _))
      as [Hi0 | (k & -> & Hk)]; [apply Hkeep; exact Hi0|].
    destruct k as [|[|k]]; cbn in Hk; [| discriminate Hk | discriminate Hk].
    injection Hk as <- <-.
    eexists _, _. split.
    + replace (S (length (vk_calls st) + length allocs + 0))
        with (length (vk_calls st) + length allocs + 1)%nat by lia.
      rewrite lookup_batch_tail. reflexivity.
    + split; [reflexivity|]. split; [reflexivity|].
      rewrite graphicsSubmitInfo_drawn. cbn. rewrite app_nil_r. reflexivity.
  - destruct (lookup_batch_calls _ _ _ _ _ Hallocs Hi (submit_not_plain _ _ _))
      as [Hi0 | (k & -> & Hk)]; [apply Hkeep; exact Hi0|].
    destruct k as [|k]; cbn in Hk; [| discriminate Hk]. discriminate Hk.
Qed.

Lemma markSlots_mono (v : Z) (slots : list Z) (p : Z) :
  forall chunks,
    Forall (fun x => x <= v) chunks ->
    slotValue chunks p <= slotValue (markSlots v chunks slots) p.
Proof.
  unfold markSlots, slotValue.
  induction slots as [|q slots IH]; intros chunks Hall; [reflexivity|].
  cbn [foldl]. etransitivity; [| apply IH].
  - destruct (decide (Z.to_nat q = Z.to_nat p)) as [Heq | Hne].
    + rewrite Heq.
      destruct (chunks !! Z.to_nat p) as [x|] eqn:E.
      * rewrite list_lookup_insert_eq by (eapply lookup_lt_Some; exact E).
        cbn. exact (proj1 (Forall_lookup _ _) Hall _ _ E).
      * rewrite list_insert_ge by (apply lookup_ge_None; exact E).
        rewrite E. reflexivity.
    + rewrite list_lookup_insert_ne by exact Hne. reflexivity.
  - apply Forall_insert; [exact Hall | reflexivity].
Qed.

Lemma slotValue_markSlots_in (v : Z) (slots chunks : list Z) (p : Z) :
  length chunks = 12%nat ->
  Forall (fun q => 0 <= q < MCUBES_CHUNK_COUNT) slots ->
  p ∈ slots ->
  slotValue (markSlots v chunks slots) p = v.
Proof.
  intros Hlen Hrange Hin. unfold slotValue.
  assert (0 <= p < MCUBES_CHUNK_COUNT) as Hp
    by exact (proj1 (Forall_forall _ _) Hrange _ Hin).
  rewrite (markSlots_lookup_in v slots p chunks); [reflexivity | lia | | | exact Hin].
  - unfold MCUBES_CHUNK_COUNT in Hp. lia.
  - eapply Forall_impl; [exact Hrange|]. cbv beta. intros; lia.
Qed.

Lemma lookup_submit_app (calls extra : list (VkCall McubesParams)) (i : nat)
  (q : VkQueue) (submit : VkSubmitInfo McubesParams) (fence : option VkFence) :
  Forall (fun c => forall q s f, c <> vkQueueSubmit q s f) extra ->
  (calls ++ extra) !! i = Some (vkQueueSubmit q submit fence) ->
  calls !! i = Some (vkQueueSubmit q submit fence).
Proof.
  intros Hextra Hi.
  apply lookup_app_Some in Hi. destruct Hi as [Hi | [Hge Hi]]; [exact Hi|].
  exfalso. exact (proj1 (Forall_lookup _ _) Hextra _ _ Hi q submit fence eq_refl).
Qed.

Lemma isPlainCall_not_submit (calls : list (VkCall McubesParams)) :
  Forall isPlainCall calls ->
  Forall (fun c => forall q s f, c <> vkQueueSubmit q s f) calls.
Proof.
  intros H. eapply Forall_impl; [exact H|].
  intros c Hc q s f ->. exact Hc.
Qed.

Lemma hazards_step (st st' : State) :
  sched_step st st' ->
  DrawnInv st /\ fillsWaitForDraws (vk_calls st) ->
  DrawnInv st' /\ fillsWaitForDraws (vk_calls st').
Proof.
  intros Hstep [HD HW].
  assert (forall calls,
             Forall (fun c => forall q s f, c <> vkQueueSubmit q s f) calls ->
             g_mcubesChunkArray st' = g_mcubesChunkArray st ->
             vk_calls st' = vk_calls st ++ calls ->
             DrawnInv st' /\ fillsWaitForDraws (vk_calls st')) as Hplaincase.
  { intros calls Hplain Hca Hcalls. split.
    - intros i q submit fence v p Hi Hsig Hp. rewrite Hca.
      rewrite Hcalls in Hi.
      eapply HD; [| exact Hsig | exact Hp].
      eapply lookup_submit_app; [exact Hplain | exact Hi].
    - intros i j q gsubmit csubmit gfence cfence v p Hij Hi Hsig Hp Hj Hfill.
      rewrite Hcalls in Hi, Hj.
      eapply (HW i j); [exact Hij | | exact Hsig | exact Hp | | exact Hfill].
      + eapply lookup_submit_app; [exact Hplain | exact Hi].
      + eapply lookup_submit_app; [exact Hplain | exact Hj]. }
  destruct (sched_step_inv st st' Hstep)
    as [ (calls & _ & _ & Hca & Hcalls & Hplain)
       | [ (prepend & rest & _ & _ & Hca & Hcalls & Hplain)
         | [ (n & wait0 & jobs & hC & hG & allocs & first & last & boxes & colors
              & HCore & Hwait & _ & _ & Hca & Hallocs & Hcalls)
           | (n & jobs & hG & allocs & first & last & boxes & colors & fence'
              & _ & _ & Hca & Hallocs & Hcalls) ]]].
  - exact (Hplaincase calls (isPlainCall_not_submit _ Hplain) Hca Hcalls).
  - apply (Hplaincase (vkDeviceWaitIdle :: createShaderModule prepend :: rest));
      [| exact Hca | exact Hcalls].
    constructor; [discriminate|]. constructor; [discriminate|].
    apply isPlainCall_not_submit, Hplain.
  - set (slots := ring_slots (s_mcubesChunkIndex st) n) in *.
    set (signal := s_upcomingTimelineValue st) in *.
    set (wait := maxTimelineValue wait0 (g_mcubesChunkArray st) slots) in *.
    destruct HCore as (Hlen & Hup & Hall).
    assert (Forall (fun x => x <= signal) (g_mcubesChunkArray st)) as Hle.
    { eapply Forall_impl; [exact Hall|]. cbv beta. intros; lia. }
    split.
    + intros i q submit fence v p Hi Hsig Hp. rewrite Hca.
      rewrite Hcalls in Hi.
      destruct (lookup_batch_calls _ _ _ _ _ Hallocs Hi (submit_not_plain _ _ _))
        as [Hi0 | (k & -> & Hk)].
      * etransitivity; [exact (HD _ _ _ _ _ _ Hi0 Hsig Hp)|].
        apply markSlots_mono, Hle.
      * destruct k as [|[|k]]; cbn in Hk; [| | discriminate Hk].
        -- injection Hk as <- <- <-. discriminate Hsig.
        -- injection Hk as <- <- <-.
           cbn [graphicsSubmitInfo signalSemaphore] in Hsig. injection Hsig as <-.
           rewrite graphicsSubmitInfo_drawn in Hp.
           rewrite slotValue_markSlots_in;
             [reflexivity | exact Hlen | apply ring_slots_range | exact Hp].
    + intros i j q gsubmit csubmit gfence cfence v p Hij Hi Hsig Hp Hj Hfill.
      rewrite Hcalls in Hi, Hj.
      destruct (lookup_batch_calls _ _ _ _ _ Hallocs Hj (submit_not_plain _ _ _))
        as [Hj0 | (k & -> & Hk)].
      * eapply (HW i j); [exact Hij | | exact Hsig | exact Hp | exact Hj0 | exact Hfill].
        apply lookup_lt_Some in Hj0.
        rewrite lookup_app_l in Hi by lia. exact Hi.
      * destruct k as [|[|k]]; cbn in Hk; [| discriminate Hk | discriminate Hk].
        injection Hk as <- <-.
        exists wait. split; [reflexivity|].
        cbn [computeSubmitInfo commands flat_map filledChunks] in Hfill.
        rewrite app_nil_r in Hfill.
        assert (vk_calls st !! i = Some (vkQueueSubmit q gsubmit gfence)) as Hi0.
        { destruct (lookup_batch_calls _ _ _ _ _ Hallocs Hi (submit_not_plain _ _ _))
            as [Hi0 | (k & -> & _)]; [exact Hi0 | lia]. }
        etransitivity; [exact (HD _ _ _ _ _ _ Hi0 Hsig Hp)|].
        apply maxTimelineValue_ge_slot, Hfill.
  - split.
    + intros i q submit fence v p Hi Hsig Hp. rewrite Hca.
      rewrite Hcalls in Hi.
      destruct (lookup_batch_calls _ _ _ _ _ Hallocs Hi (submit_not_plain _ _ _))
        as [Hi0 | (k & -> & Hk)]; [exact (HD _ _ _ _ _ _ Hi0 Hsig Hp)|].
      destruct k as [|k]; cbn in Hk; [| discriminate Hk].
      injection Hk as <- <- <-. discriminate Hsig.
    + intros i j q gsubmit csubmit gfence cfence v p Hij Hi Hsig Hp Hj Hfill.
      rewrite Hcalls in Hi, Hj.
      destruct (lookup_batch_calls _ _ _ _ _ Hallocs Hj (submit_not_plain _ _ _))
        as [Hj0 | (k & -> & Hk)].
      * eapply (HW i j); [exact Hij | | exact Hsig | exact Hp | exact Hj0 | exact Hfill].
        apply lookup_lt_Some in Hj0.
        rewrite lookup_app_l in Hi by lia. exact Hi.
      * destruct k as [|k]; cbn in Hk; [| discriminate Hk]. discriminate Hk.
Qed.

End Hazards.

(** In every run from the initial state, every submission to the compute
    queue is followed at once by a submission to the graphics queue that
    waits, on [s_computeDoneTimelineSemaphore], for exactly the value the
    compute submission signals, and that draws exactly the chunks the compute
    submission fills: no chunk is drawn before the commands that fill it have
    finished. *)
Theorem graphics_submission_follows_compute {McubesParams : Type}
  (imagePipeline : VkPipeline) (inputs : list (FrameInput McubesParams)) :
  Forall jobsFit inputs ->
  1 + runTicks inputs < 2 ^ 64 ->
  exists st,
    runFrames inputs (initialGlobals imagePipeline) = Ok st
    /\ graphicsFollowsCompute (vk_calls st).
Proof.
  intros Hfit Hwrap.
  destruct (runFrames_initial imagePipeline inputs Hfit Hwrap) as [st (Hrun & Hrtc & _)].
  exists st. split; [exact Hrun|].
  apply (sched_invariant (fun s => graphicsFollowsCompute (vk_calls s))
           graphicsFollowsCompute_step _ _ Hrtc).
  intros i submit fence Hi. cbn in Hi. discriminate Hi.
Qed.

Lemma graphics_submission_follows_compute_witness :
  Forall jobsFit [exampleFrame 13 6 true; exampleFrame 7 6 false; exampleFrame 20 4 true]
  /\ 1 + runTicks [exampleFrame 13 6 true; exampleFrame 7 6 false; exampleFrame 20 4 true]
     < 2 ^ 64
  /\ exists st,
       runFrames [exampleFrame 13 6 true; exampleFrame 7 6 false; exampleFrame 20 4 true]
         (initialGlobals 1) = Ok st
       /\ graphicsFollowsCompute (vk_calls st).
Proof.
  assert (Forall jobsFit
            [exampleFrame 13 6 true; exampleFrame 7 6 false; exampleFrame 20 4 true])
    as Hfit by (repeat constructor; apply exampleFrame_fits; lia).
  assert (1 + runTicks
                [exampleFrame 13 6 true; exampleFrame 7 6 false; exampleFrame 20 4 true]
          < 2 ^ 64) as Hwrap by (vm_compute; reflexivity).
  split; [exact Hfit|]. split; [exact Hwrap|].
  exact (graphics_submission_follows_compute 1 _ Hfit Hwrap).
Defined.

(** In every run from the initial state, a submission to the compute queue
    that fills a chunk waits until [s_graphicsDoneTimelineSemaphore] has
    reached the value signalled by every earlier submission that drew this
    chunk: a chunk is not overwritten while an earlier batch may still be
    drawing it. *)
Theorem fill_waits_for_earlier_draws {McubesParams : Type}
  (imagePipeline : VkPipeline) (inputs : list (FrameInput McubesParams)) :
  Forall jobsFit inputs ->
  1 + runTicks inputs < 2 ^ 64 ->
  exists st,
    runFrames inputs (initialGlobals imagePipeline) = Ok st
    /\ fillsWaitForDraws (vk_calls st).
Proof.
  intros Hfit Hwrap.
  destruct (runFrames_initial imagePipeline inputs Hfit Hwrap) as [st (Hrun & Hrtc & _)].
  exists st. split; [exact Hrun|].
  apply (sched_invariant (fun s => DrawnInv s /\ fillsWaitForDraws (vk_calls s))
           hazards_step _ _ Hrtc).
  split.
  - intros i q submit fence v p Hi. cbn in Hi. discriminate Hi.
  - intros i j q gsubmit csubmit gfence cfence v p _ Hi. cbn in Hi. discriminate Hi.
Qed.

Lemma fill_waits_for_earlier_draws_witness :
  Forall jobsFit [exampleFrame 64 6 true; exampleFrame 30 5 false; exampleFrame 64 2 true]
  /\ 1 + runTicks [exampleFrame 64 6 true; exampleFrame 30 5 false; exampleFrame 64 2 true]
     < 2 ^ 64
  /\ exists st,
       runFrames [exampleFrame 64 6 true; exampleFrame 30 5 false; exampleFrame 64 2 true]
         (initialGlobals 1) = Ok st
       /\ fillsWaitForDraws (vk_calls st).
Proof.
  assert (Forall jobsFit
            [exampleFrame 64 6 true; exampleFrame 30 5 false; exampleFrame 64 2 true])
    as Hfit by (repeat constructor; apply exampleFrame_fits; lia).
  assert (1 + runTicks
                [exampleFrame 64 6 true; exampleFrame 30 5 false; exampleFrame 64 2 true]
          < 2 ^ 64) as Hwrap by (vm_compute; reflexivity).
  split; [exact Hfit|]. split; [exact Hwrap|].
  exact (fill_waits_for_earlier_draws 1 _ Hfit Hwrap).
Defined.

(** ** Reading the trace of a run step by step *)

(** Projections of a state that was built with the setters. *)
Ltac state_simpl :=
  cbn [call set_calls set_useComputeQueue set_frameNumber set_mcubesImagePipeline
       set_nextHandle set_computePoolWaits set_graphicsPoolWaits
       twoQueuesBegin gctOnlyBegin
       vk_calls vk_nextHandle s_mcubesImagePipeline s_upcomingTimelineValue
       s_frameComputePoolWaitTimelineValues s_frameGraphicsPoolWaitTimelineValues
       s_frameComputeCmdBufs s_frameGraphicsCmdBufs
       s_useComputeQueue s_mcubesChunkIndex g_mcubesChunkArray g_frameNumber snd fst].

Section TraceLemmas.

Context {McubesParams : Type}.
Local Abbreviation State := (Globals McubesParams).

(** The two ways [computeReplaceEquation] can go. *)
Lemma computeReplaceEquation_cases (compiler : ShaderCompiler) (pEquation : string)
  (st : State) :
  let text := (replaceNewlines ("#define EQUATION(x, y, z, t) " ++ pEquation)
               ++ String newline EmptyString)%string in
  (compiler text = VK_NULL_HANDLE
   /\ computeReplaceEquation compiler pEquation st
      = (false, call (createShaderModule text) st))
  \/ (compiler text <> VK_NULL_HANDLE
      /\ computeReplaceEquation compiler pEquation st
         = (true,
            set_mcubesImagePipeline (vk_nextHandle st)
              (set_calls (vk_calls st
                          ++ [createShaderModule text;
                              vkDestroyPipeline (s_mcubesImagePipeline st);
                              vkCreateComputePipelines (compiler text) (vk_nextHandle st)])
                 (set_nextHandle (vk_nextHandle st + 1) st)))).
Proof.
  intros text. unfold computeReplaceEquation, setupMcubesImagePipeline. fold text.
  destruct (Z.eqb_spec (compiler text) VK_NULL_HANDLE) as [Heq | Hne].
  - left. split; [exact Heq | reflexivity].
  - right. split; [exact Hne|]. f_equal.
    destruct st. unfold call, set_mcubesImagePipeline, set_calls, set_nextHandle.
    cbn. rewrite <- !app_assoc. reflexivity.
Qed.

(** A step of the frame loop is a step of the host, which submits nothing
    and leaves the ring and the clock as they are, or a batch. *)
Lemma frame_step_inv (st st' : State) :
  frame_step st st' ->
  (exists extra,
      vk_calls st' = vk_calls st ++ extra
      /\ Forall (fun c => forall q s f, c <> vkQueueSubmit q s f) extra
      /\ s_mcubesChunkIndex st' = s_mcubesChunkIndex st
      /\ g_mcubesChunkArray st' = g_mcubesChunkArray st
      /\ s_upcomingTimelineValue st' = s_upcomingTimelineValue st)
  \/ (exists paramsList B batch loc loc',
         Core st
         /\ s_upcomingTimelineValue st + 1 < 2 ^ 64
         /\ 0 <= computeWaitTimelineValue loc < s_upcomingTimelineValue st
         /\ 1 <= B <= MCUBES_MAX_CHUNKS_PER_BATCH
         /\ Z.of_nat (length paramsList) + 6 <= 2 ^ 32
         /\ 0 <= batch < batchCountOf paramsList B
         /\ s_useComputeQueue st = true
         /\ TwoQueuesBatchEffect paramsList B (batchCountOf paramsList B) batch
              loc st loc' st')
  \/ (exists paramsList B batch n fcu n' fcu',
         1 <= B <= MCUBES_MAX_CHUNKS_PER_BATCH
         /\ Z.of_nat (length paramsList) + 6 <= 2 ^ 32
         /\ 0 <= batch < batchCountOf paramsList B
         /\ s_useComputeQueue st = false
         /\ GctOnlyBatchEffect paramsList B (batchCountOf paramsList B) batch
              (n, fcu, st) (n', fcu', st')).
Proof.
  intros H. destruct H as
    [ st | st want | st compiler pEquation | st Hq | st Hq
    | st st' paramsList B batch loc loc' HC Hwrap Hw HB HM Hb Hq E
    | s s' paramsList B batch HB HM Hb Hq E ].
  - left. exists []. cbn. rewrite app_nil_r. repeat split. constructor.
  - left. exists [vkDeviceWaitIdle]. cbn. repeat split.
    constructor; [discriminate | constructor].
  - left.
    destruct (computeReplaceEquation_cases compiler pEquation (call vkDeviceWaitIdle st))
      as [[_ ->] | [_ ->]]; cbn [snd].
    + eexists [_; _]. cbn. rewrite <- !app_assoc. repeat split.
      repeat (constructor; [discriminate|]). constructor.
    + eexists [_; _; _; _]. cbn. rewrite <- !app_assoc. repeat split.
      repeat (constructor; [discriminate|]). constructor.
  - left. eexists [_; _; _]. cbn. rewrite <- !app_assoc. repeat split.
    repeat (constructor; [discriminate|]). constructor.
  - left. eexists [_; _; _]. cbn. rewrite <- !app_assoc. repeat split.
    repeat (constructor; [discriminate|]). constructor.
  - right; left. exists paramsList, B, batch, loc, loc'. auto 10.
  - right; right. destruct s as [[n fcu] st], s' as [[n' fcu'] st'].
    exists paramsList, B, batch, n, fcu, n', fcu'. auto 10.
Qed.

Lemma batchItems_bounds (paramsList : list McubesParams) (B batch : Z) :
  1 <= B <= MCUBES_MAX_CHUNKS_PER_BATCH ->
  0 <= batch < batchCountOf paramsList B ->
  (1 <= batchItems B (Z.of_nat (length paramsList)) batch <= 6)%nat.
Proof.
  intros HB Hb. unfold MCUBES_MAX_CHUNKS_PER_BATCH in HB.
  assert (batch * B < Z.of_nat (length paramsList)) as Hlt
    by (apply batch_lt_count; unfold batchCountOf in Hb; lia).
  unfold batchItems. lia.
Qed.

Lemma ring_slots_NoDup (c : Z) (m : nat) : (m <= 12)%nat -> NoDup (ring_slots c m).
Proof.
  intros Hm. apply NoDup_alt. intros i j x Hi Hj.
  assert (i < m)%nat as Him
    by (apply lookup_lt_Some in Hi; rewrite ring_slots_length in Hi; exact Hi).
  assert (j < m)%nat as Hjm
    by (apply lookup_lt_Some in Hj; rewrite ring_slots_length in Hj; exact Hj).
  rewrite ring_slots_lookup in Hi, Hj by assumption.
  injection Hi as Hi. injection Hj as Hj.
  pose proof (ring_cursor_add c 1 i) as Hai. pose proof (ring_cursor_add c 1 j) as Haj.
  change (ring_cursor c (1 + i)) with (nextChunkIndex (ring_cursor c i)) in Hai.
  change (ring_cursor c (1 + j)) with (nextChunkIndex (ring_cursor c j)) in Haj.
  rewrite Hai in Hi. rewrite Haj in Hj. clear Hai Haj.
  pose proof (nextChunkIndex_range c) as Hc.
  change (ring_cursor c 1) with (nextChunkIndex c) in Hi, Hj.
  rewrite ring_cursor_mod in Hi, Hj by exact Hc.
  unfold MCUBES_CHUNK_COUNT in *. subst x.
  Z.to_euclidean_division_equations. lia.
Qed.

Lemma batchChunks_app (a b : list (VkCall McubesParams)) :
  batchChunks (a ++ b) = batchChunks a ++ batchChunks b.
Proof. apply flat_map_app. Qed.

Lemma batchChunks_no_submit (calls : list (VkCall McubesParams)) :
  Forall (fun c => forall q s f, c <> vkQueueSubmit q s f) calls -> batchChunks calls = [].
Proof.
  intros H. unfold batchChunks.
  eapply flat_map_nil_Forall; [| exact H].
  intros c Hc. destruct c; try reflexivity. exfalso. exact (Hc _ _ _ eq_refl).
Qed.

Lemma consecutiveBatches_snoc (l : list (list Z)) (b : list Z) :
  (forall i x y, l !! i = Some x -> l !! S i = Some y -> NoDup (x ++ y)) ->
  (forall a, last l = Some a -> NoDup (a ++ b)) ->
  forall i x y, (l ++ [b]) !! i = Some x -> (l ++ [b]) !! S i = Some y -> NoDup (x ++ y).
Proof.
  intros Hl Hlast i x y Hi HSi.
  apply lookup_app_Some in HSi. destruct HSi as [HSi | [Hge HSi]].
  - apply (Hl i x y); [| exact HSi].
    apply lookup_lt_Some in HSi. rewrite lookup_app_l in Hi by lia. exact Hi.
  - destruct (S i - length l)%nat as [|k] eqn:Ek; [| destruct k; discriminate HSi].
    injection HSi as <-.
    assert (S i = length l) as Hlen by lia.
    rewrite lookup_app_l in Hi by lia.
    apply Hlast. rewrite last_lookup. rewrite <- Hlen. cbn. exact Hi.
Qed.

Lemma BatchInv_batch (st st' : State) (slots : list Z) (n : nat)
  (tail : list (VkCall McubesParams)) (allocs : list (VkCall McubesParams)) :
  (1 <= n <= 6)%nat ->
  slots = ring_slots (s_mcubesChunkIndex st) n ->
  s_mcubesChunkIndex st' = ring_cursor (s_mcubesChunkIndex st) n ->
  Forall isAllocate allocs ->
  vk_calls st' = vk_calls st ++ allocs ++ tail ->
  batchChunks tail = [slots] ->
  BatchInv st -> BatchInv st'.
Proof.
  intros Hn Hslots Hci Hallocs Hcalls Htail (Hall & Hcons & Hlast).
  assert (batchChunks (vk_calls st') = batchChunks (vk_calls st) ++ [slots]) as Hbc.
  { rewrite Hcalls, !batchChunks_app, Htail.
    rewrite (batchChunks_no_submit allocs), app_nil_l; [reflexivity|].
    apply isPlainCall_not_submit, isAllocate_plain, Hallocs. }
  unfold BatchInv, consecutiveBatchesDisjoint. rewrite Hbc.
  split; [| split].
  - apply Forall_app. split; [exact Hall|]. constructor; [| constructor].
    rewrite Hslots, ring_slots_length. split; [exact Hn|].
    apply ring_slots_NoDup. lia.
  - apply consecutiveBatches_snoc; [exact Hcons|].
    intros a Ha. destruct (Hlast a Ha) as (c & Hac & Hcur).
    assert ((length a <= 6)%nat) as Hla.
    { apply last_Some_elem_of in Ha.
      exact (proj2 (proj1 (proj1 (Forall_forall _ _) Hall a Ha))). }
    rewrite Hac at 1. rewrite Hslots, Hcur, <- ring_slots_app.
    apply ring_slots_NoDup. lia.
  - intros a Ha. rewrite last_snoc in Ha. injection Ha as <-.
    exists (s_mcubesChunkIndex st). rewrite Hslots, ring_slots_length.
    split; [reflexivity | exact Hci].
Qed.

Lemma BatchInv_step (st st' : State) :
  frame_step st st' -> BatchInv st -> BatchInv st'.
Proof.
  intros Hstep Hinv.
  destruct (frame_step_inv st st' Hstep)
    as [ (extra & Hcalls & Hextra & Hci & _)
       | [ (paramsList & B & batch & loc & loc' & _ & _ & _ & HB & _ & Hb & _ & E)
         | (paramsList & B & batch & n & fcu & n' & fcu' & HB & _ & Hb & _ & E) ]].
  - unfold BatchInv, consecutiveBatchesDisjoint in *.
    rewrite Hcalls, batchChunks_app, (batchChunks_no_submit extra Hextra), app_nil_r, Hci.
    exact Hinv.
  - destruct E as (Hci & _ & _ & _ & _ & _ & _ & _
                   & (allocs & hC & hG & boxes & colors & Hallocs & Hcalls) & _).
    eapply BatchInv_batch;
      [exact (batchItems_bounds paramsList B batch HB Hb) | reflexivity | exact Hci
      | exact Hallocs | exact Hcalls | | exact Hinv].
    destruct (batch =? 0), (batch =? to_uint32 (batchCountOf paramsList B - 1));
      reflexivity.
  - destruct E as (Hci & _ & _ & _ & _ & _ & _ & _ & _
                   & (allocs & hG & boxes & colors & Hallocs & Hcalls) & _).
    cbn [fst snd] in *.
    eapply BatchInv_batch;
      [exact (batchItems_bounds paramsList B batch HB Hb) | reflexivity | exact Hci
      | exact Hallocs | exact Hcalls | | exact Hinv].
    destruct (batch =? 0), (batch =? to_uint32 (batchCountOf paramsList B - 1));
      reflexivity.
Qed.

Lemma mode_step (st st' : State) :
  frame_step st st' ->
  ModeInv st /\ modeSwitchesGuarded (vk_calls st) ->
  ModeInv st' /\ modeSwitchesGuarded (vk_calls st').
Proof.
  intros Hstep [HM HG].
  (* a host step that leaves the queue mode alone *)
  assert (forall extra,
             Forall (fun c => forall q s f, c <> vkQueueSubmit q s f) extra ->
             vk_calls st' = vk_calls st ++ extra ->
             (s_useComputeQueue st' = s_useComputeQueue st
              \/ exists k, extra !! k = Some vkDeviceWaitIdle) ->
             ModeInv st' /\ modeSwitchesGuarded (vk_calls st')) as Hhost.
  { intros extra Hextra Hcalls Hmode. split.
    - intros j q s f Hj. rewrite Hcalls in Hj |- *.
      apply (lookup_submit_app _ _ _ _ _ _ Hextra) in Hj.
      destruct Hmode as [-> | (k & Hk)].
      + destruct (HM j q s f Hj) as [Hu | (k & Hjk & Hk)]; [left; exact Hu|].
        right. exists k. split; [exact Hjk | apply lookup_app_l_Some; exact Hk].
      + right. exists (length (vk_calls st) + k)%nat.
        split; [apply lookup_lt_Some in Hj; lia|].
        rewrite lookup_app_r by lia.
        replace (length (vk_calls st) + k - length (vk_calls st))%nat with k by lia.
        exact Hk.
    - intros i j q1 q2 s1 s2 f1 f2 Hij Hi Hj Hne. rewrite Hcalls in Hi, Hj |- *.
      apply (lookup_submit_app _ _ _ _ _ _ Hextra) in Hi.
      apply (lookup_submit_app _ _ _ _ _ _ Hextra) in Hj.
      destruct (HG i j q1 q2 s1 s2 f1 f2 Hij Hi Hj Hne) as (k & Hk & Hidle).
      exists k. split; [exact Hk | apply lookup_app_l_Some; exact Hidle]. }
  (* a batch, whose submissions all belong to the scheduler in use *)
  assert (forall allocs tail,
             Forall isAllocate allocs ->
             vk_calls st' = vk_calls st ++ allocs ++ tail ->
             s_useComputeQueue st' = s_useComputeQueue st ->
             Forall (fun c => exists q s f,
                         c = vkQueueSubmit q s f
                         /\ usesTimeline s = s_useComputeQueue st) tail ->
             ModeInv st' /\ modeSwitchesGuarded (vk_calls st')) as Hbatch.
  { intros allocs tail Hallocs Hcalls Hq Htail. split.
    - intros j q s f Hj. rewrite Hcalls in Hj |- *. rewrite Hq.
      destruct (lookup_batch_calls _ _ _ _ _ Hallocs Hj (submit_not_plain _ _ _))
        as [Hj0 | (k & -> & Hk)].
      + destruct (HM j q s f Hj0) as [Hu | (k & Hjk & Hk)]; [left; exact Hu|].
        right. exists k. split; [exact Hjk | apply lookup_app_l_Some; exact Hk].
      + left. destruct (proj1 (Forall_lookup _ _) Htail _ _ Hk) as (q' & s' & f' & Heq & Hu).
        injection Heq as -> -> ->. exact Hu.
    - intros i j q1 q2 s1 s2 f1 f2 Hij Hi Hj Hne. rewrite Hcalls in Hi, Hj |- *.
      destruct (lookup_batch_calls _ _ _ _ _ Hallocs Hj (submit_not_plain _ _ _))
        as [Hj0 | (kj & -> & Hkj)].
      + assert (vk_calls st !! i = Some (vkQueueSubmit q1 s1 f1)) as Hi0.
        { apply lookup_lt_Some in Hj0. rewrite lookup_app_l in Hi by lia. exact Hi. }
        destruct (HG i j q1 q2 s1 s2 f1 f2 Hij Hi0 Hj0 Hne) as (k & Hk & Hidle).
        exists k. split; [exact Hk | apply lookup_app_l_Some; exact Hidle].
      + destruct (proj1 (Forall_lookup _ _) Htail _ _ Hkj)
          as (q' & s' & f' & Heq & Hu2).
        injection Heq as -> -> ->.
        destruct (lookup_batch_calls _ _ _ _ _ Hallocs Hi (submit_not_plain _ _ _))
          as [Hi0 | (ki & -> & Hki)].
        * destruct (HM i q1 s1 f1 Hi0) as [Hu1 | (k & Hik & Hk)]; [congruence|].
          exists k. split; [| apply lookup_app_l_Some; exact Hk].
          apply lookup_lt_Some in Hk. lia.
        * destruct (proj1 (Forall_lookup _ _) Htail _ _ Hki)
            as (q'' & s'' & f'' & Heq & Hu1).
          injection Heq as -> -> ->. congruence. }
  destruct Hstep as
    [ st | st want | st compiler pEquation | st Hq | st Hq
    | st st' paramsList B batch loc loc' HC Hwrap Hw HB HMM Hb Hq E
    | s s' paramsList B batch HB HMM Hb Hq E ].
  - apply (Hhost []); [constructor | cbn; rewrite app_nil_r; reflexivity | left; reflexivity].
  - apply (Hhost [vkDeviceWaitIdle]);
      [constructor; [discriminate | constructor] | reflexivity |].
    right. exists 0%nat. reflexivity.
  - destruct (computeReplaceEquation_cases compiler pEquation (call vkDeviceWaitIdle st))
      as [[_ Heq] | [_ Heq]]; rewrite Heq in *; cbn [snd] in *.
    + eapply Hhost; cycle 1;
        [cbn; rewrite <- !app_assoc; reflexivity | left; reflexivity
        | cbn; repeat (constructor; [discriminate|]); constructor].
    + eapply Hhost; cycle 1;
        [cbn; rewrite <- !app_assoc; reflexivity | left; reflexivity
        | cbn; repeat (constructor; [discriminate|]); constructor].
  - eapply Hhost; cycle 1;
      [cbn; rewrite <- !app_assoc; reflexivity | left; reflexivity
      | cbn; repeat (constructor; [discriminate|]); constructor].
  - eapply Hhost; cycle 1;
      [cbn; rewrite <- !app_assoc; reflexivity | left; reflexivity
      | cbn; repeat (constructor; [discriminate|]); constructor].
  - destruct E as (_ & _ & _ & _ & Hq' & _ & _ & _
                   & (allocs & hC & hG & boxes & colors & Hallocs & Hcalls) & _).
    eapply Hbatch; [exact Hallocs | exact Hcalls | exact Hq' |].
    rewrite Hq. constructor; [eexists _, _, _; split; reflexivity|].
    constructor; [eexists _, _, _; split; reflexivity | constructor].
  - destruct E as (_ & _ & _ & _ & Hq' & _ & _ & _ & _
                   & (allocs & hG & boxes & colors & Hallocs & Hcalls) & _).
    eapply Hbatch; [exact Hallocs | exact Hcalls | exact Hq' |].
    rewrite Hq. constructor; [eexists _, _, _; split; reflexivity | constructor].
Qed.

Lemma eachCall_snoc (Q : list (VkCall McubesParams) -> VkCall McubesParams -> Prop)
  (calls : list (VkCall McubesParams)) (x : VkCall McubesParams) :
  eachCall Q calls -> Q calls x -> eachCall Q (calls ++ [x]).
Proof.
  intros Hall Hx i y Hi.
  apply lookup_app_Some in Hi. destruct Hi as [Hi | [Hge Hi]].
  - rewrite take_app_le by (apply lookup_lt_Some in Hi; lia). apply Hall, Hi.
  - destruct (i - length calls)%nat as [|k] eqn:Ek; [| destruct k; discriminate Hi].
    injection Hi as <-.
    replace i with (length calls) by lia.
    rewrite take_app_length. exact Hx.
Qed.

Lemma eachCall_app (Q : list (VkCall McubesParams) -> VkCall McubesParams -> Prop)
  (calls extra : list (VkCall McubesParams)) :
  eachCall Q calls -> Forall (fun x => forall pre, Q pre x) extra ->
  eachCall Q (calls ++ extra).
Proof.
  intros Hall Hextra. induction extra as [|x extra IH] using rev_ind.
  - rewrite app_nil_r. exact Hall.
  - apply Forall_app in Hextra. destruct Hextra as [Hextra Hx].
    rewrite app_assoc. apply eachCall_snoc; [apply IH, Hextra|].
    inversion Hx; subst. auto.
Qed.





Lemma at2_upd2 {A : Type} (p : A * A) (i j : Z) (v : A) :
  at2 (upd2 p i v) j = at2 p j \/ at2 (upd2 p i v) j = v.
Proof.
  unfold at2, upd2. destruct (i =? 0), (j =? 0); cbn; auto.
Qed.

Lemma not_wait_waitsForSignalled (calls : list (VkCall McubesParams)) :
  Forall (fun c => forall a b, c <> vkWaitSemaphoresKHR a b) calls ->
  Forall (fun x => forall pre, waitsForSignalled pre x) calls.
Proof.
  intros H. eapply Forall_impl; [exact H|].
  intros c Hc pre. destruct c; try exact I. exfalso. exact (Hc _ _ eq_refl).
Qed.

Lemma isAllocate_not_wait (allocs : list (VkCall McubesParams)) :
  Forall isAllocate allocs ->
  Forall (fun c => forall a b, c <> vkWaitSemaphoresKHR a b) allocs.
Proof.
  intros H. eapply Forall_impl; [exact H|].
  intros c Hc a b ->. exact Hc.
Qed.

(** The host waits for values that were signalled by submissions made
    before. *)
Lemma hostWait_step (st st' : State) :
  frame_step st st' ->
  ClockInv st /\ PoolInv st /\ eachCall waitsForSignalled (vk_calls st) ->
  ClockInv st' /\ PoolInv st' /\ eachCall waitsForSignalled (vk_calls st').
Proof.
  intros Hstep (HC & HP & HE).
  split; [exact (ClockInv_step st st' (frame_step_sched_step st st' Hstep) HC)|].
  destruct HC as (Hup1 & Hsc & Hsg).
  destruct Hstep as
    [ st | st want | st compiler pEquation | st Hq | st Hq
    | st st' paramsList B batch loc loc' HCore Hwrap Hw HB HMM Hb Hq E
    | s s' paramsList B batch HB HMM Hb Hq E ].
  - split; [exact HP | exact HE].
  - split; [exact HP|]. state_simpl. apply eachCall_snoc; [exact HE | exact I].
  - destruct (computeReplaceEquation_cases compiler pEquation (call vkDeviceWaitIdle st))
      as [[_ Heq] | [_ Heq]]; rewrite Heq; (split; [exact HP|]); state_simpl.
    + repeat apply eachCall_snoc; try exact I. exact HE.
    + rewrite <- app_assoc. apply eachCall_app; [exact HE|].
      cbn. repeat (constructor; [intros ?; exact I|]). constructor.
  - split; [exact HP|]. state_simpl.
    repeat apply eachCall_snoc; try exact I; [exact HE|].
    destruct (HP (Z.land (g_frameNumber st) 1)) as [Hc Hg].
    cbn [waitsForSignalled]. rewrite Hsc, Hsg. split.
    + destruct (Z.eq_dec (at2 (s_frameComputePoolWaitTimelineValues st)
                            (Z.land (g_frameNumber st) 1)) 0) as [H0 | Hn0];
        [left; exact H0 | right; apply elem_of_seqZ; lia].
    + destruct (Z.eq_dec (at2 (s_frameGraphicsPoolWaitTimelineValues st)
                            (Z.land (g_frameNumber st) 1)) 0) as [H0 | Hn0];
        [left; exact H0 | right; apply elem_of_seqZ; lia].
  - split; [exact HP|]. state_simpl.
    repeat apply eachCall_snoc; try exact I. exact HE.
  - destruct (twoQueuesBatch_Core paramsList B _ batch loc loc' st st' HCore Hwrap Hw E)
      as (_ & Hup' & _).
    destruct E as (_ & _ & _ & _ & _ & _ & Hcw & Hgw
                   & (allocs & hC & hG & boxes & colors & Hallocs & Hcalls) & _).
    split.
    + intros i. rewrite Hcw, Hgw, Hup'. specialize (HP i). destruct HP as [Hc Hg].
      destruct (batch =? to_uint32 (batchCountOf paramsList B - 1)); [| lia].
      destruct (at2_upd2 (s_frameComputePoolWaitTimelineValues st)
                  (Z.land (g_frameNumber st) 1) i (s_upcomingTimelineValue st))
        as [-> | ->];
        destruct (at2_upd2 (s_frameGraphicsPoolWaitTimelineValues st)
                    (Z.land (g_frameNumber st) 1) i (s_upcomingTimelineValue st))
        as [-> | ->]; lia.
    + rewrite Hcalls. apply eachCall_app; [exact HE|].
      apply Forall_app. split.
      * apply not_wait_waitsForSignalled, isAllocate_not_wait, Hallocs.
      * repeat (constructor; [intros ?; exact I|]). constructor.
  - destruct E as (_ & _ & Hup' & _ & _ & _ & Hcw & Hgw & _
                   & (allocs & hG & boxes & colors & Hallocs & Hcalls) & _).
    split.
    + intros i. rewrite Hcw, Hgw, Hup'. exact (HP i).
    + rewrite Hcalls. apply eachCall_app; [exact HE|].
      apply Forall_app. split.
      * apply not_wait_waitsForSignalled, isAllocate_not_wait, Hallocs.
      * repeat (constructor; [intros ?; exact I|]). constructor.
Qed.

End TraceLemmas.

(** In every run from the initial state, the chunks of one batch are
    between 1 and 6 chunks that differ from each other, and two batches
    submitted one after the other (in the same frame or in consecutive frames,
    by either scheduler) share no chunk: a chunk filled in one batch is not
    filled again in the next batch. *)
Theorem consecutive_batches_share_no_chunk {McubesParams : Type}
  (imagePipeline : VkPipeline) (inputs : list (FrameInput McubesParams)) :
  Forall jobsFit inputs ->
  1 + runTicks inputs < 2 ^ 64 ->
  exists st,
    runFrames inputs (initialGlobals imagePipeline) = Ok st
    /\ Forall (fun a => (1 <= length a <= 6)%nat /\ NoDup a) (batchChunks (vk_calls st))
    /\ consecutiveBatchesDisjoint (vk_calls st).
Proof.
  intros Hfit Hwrap.
  destruct (runFrames_initial_steps imagePipeline inputs Hfit Hwrap) as [st (Hrun & Hrtc)].
  exists st. split; [exact Hrun|].
  assert (BatchInv st) as (Hall & Hcons & _); [| split; assumption].
  apply (frame_invariant BatchInv BatchInv_step _ _ Hrtc).
  split; [constructor|]. split.
  - intros i a b Hi. cbn in Hi. discriminate Hi.
  - intros a Ha. cbn in Ha. discriminate Ha.
Qed.

Lemma consecutive_batches_share_no_chunk_witness :
  Forall jobsFit [exampleFrame 13 6 false; exampleFrame 7 5 false; exampleFrame 20 4 true]
  /\ 1 + runTicks [exampleFrame 13 6 false; exampleFrame 7 5 false; exampleFrame 20 4 true]
     < 2 ^ 64
  /\ exists st,
       runFrames [exampleFrame 13 6 false; exampleFrame 7 5 false; exampleFrame 20 4 true]
         (initialGlobals 1) = Ok st
       /\ Forall (fun a => (1 <= length a <= 6)%nat /\ NoDup a) (batchChunks (vk_calls st))
       /\ consecutiveBatchesDisjoint (vk_calls st).
Proof.
  assert (Forall jobsFit
            [exampleFrame 13 6 false; exampleFrame 7 5 false; exampleFrame 20 4 true])
    as Hfit by (repeat constructor; apply exampleFrame_fits; lia).
  assert (1 + runTicks
                [exampleFrame 13 6 false; exampleFrame 7 5 false; exampleFrame 20 4 true]
          < 2 ^ 64) as Hwrap by (vm_compute; reflexivity).
  split; [exact Hfit|]. split; [exact Hwrap|].
  exact (consecutive_batches_share_no_chunk 1 _ Hfit Hwrap).
Defined.

(** In every run from the initial state, between a submission of one
    scheduler and a later submission of the other scheduler the host has
    called [vkDeviceWaitIdle]: work that is ordered by the timeline
    semaphores and work that is ordered by the barriers of one queue are
    never in flight together. *)
Theorem scheduler_switch_waits_for_idle {McubesParams : Type}
  (imagePipeline : VkPipeline) (inputs : list (FrameInput McubesParams)) :
  Forall jobsFit inputs ->
  1 + runTicks inputs < 2 ^ 64 ->
  exists st,
    runFrames inputs (initialGlobals imagePipeline) = Ok st
    /\ modeSwitchesGuarded (vk_calls st).
Proof.
  intros Hfit Hwrap.
  destruct (runFrames_initial_steps imagePipeline inputs Hfit Hwrap) as [st (Hrun & Hrtc)].
  exists st. split; [exact Hrun|].
  apply (frame_invariant (fun s => ModeInv s /\ modeSwitchesGuarded (vk_calls s))
           mode_step _ _ Hrtc).
  split.
  - intros j q s f Hj. cbn in Hj. discriminate Hj.
  - intros i j q1 q2 s1 s2 f1 f2 _ Hi. cbn in Hi. discriminate Hi.
Qed.

Lemma scheduler_switch_waits_for_idle_witness :
  Forall jobsFit [exampleFrame 13 6 true; exampleFrame 7 5 false; exampleFrame 20 4 true]
  /\ 1 + runTicks [exampleFrame 13 6 true; exampleFrame 7 5 false; exampleFrame 20 4 true]
     < 2 ^ 64
  /\ exists st,
       runFrames [exampleFrame 13 6 true; exampleFrame 7 5 false; exampleFrame 20 4 true]
         (initialGlobals 1) = Ok st
       /\ modeSwitchesGuarded (vk_calls st).
Proof.
  assert (Forall jobsFit
            [exampleFrame 13 6 true; exampleFrame 7 5 false; exampleFrame 20 4 true])
    as Hfit by (repeat constructor; apply exampleFrame_fits; lia).
  assert (1 + runTicks
                [exampleFrame 13 6 true; exampleFrame 7 5 false; exampleFrame 20 4 true]
          < 2 ^ 64) as Hwrap by (vm_compute; reflexivity).
  split; [exact Hfit|]. split; [exact Hwrap|].
  exact (scheduler_switch_waits_for_idle 1 _ Hfit Hwrap).
Defined.


(** In every run from the initial state, the values for which
    [vkWaitSemaphoresKHR] waits at the start of a two-queue frame are 0 or
    values that submissions made before the call signal on the two timeline
    semaphores: the host never waits for a value that no submitted work
    signals. *)
Theorem host_waits_for_signalled_values {McubesParams : Type}
  (imagePipeline : VkPipeline) (inputs : list (FrameInput McubesParams)) :
  Forall jobsFit inputs ->
  1 + runTicks inputs < 2 ^ 64 ->
  exists st,
    runFrames inputs (initialGlobals imagePipeline) = Ok st
    /\ eachCall waitsForSignalled (vk_calls st).
Proof.
  intros Hfit Hwrap.
  destruct (runFrames_initial_steps imagePipeline inputs Hfit Hwrap) as [st (Hrun & Hrtc)].
  exists st. split; [exact Hrun|].
  apply (frame_invariant
           (fun s => ClockInv s /\ PoolInv s /\ eachCall waitsForSignalled (vk_calls s))
           hostWait_step _ _ Hrtc).
  split; [| split].
  - unfold ClockInv. cbn. split; [lia|]. split; reflexivity.
  - intros i. unfold at2. cbn. destruct (i =? 0); lia.
  - intros i x Hi. cbn in Hi. discriminate Hi.
Qed.


Lemma host_waits_for_signalled_values_witness :
  Forall jobsFit
    [exampleFrame 13 6 true; exampleFrame 7 5 true; exampleFrame 20 4 true;
     exampleFrame 5 1 true]
  /\ 1 + runTicks
           [exampleFrame 13 6 true; exampleFrame 7 5 true; exampleFrame 20 4 true;
            exampleFrame 5 1 true]
     < 2 ^ 64
  /\ exists st,
       runFrames
         [exampleFrame 13 6 true; exampleFrame 7 5 true; exampleFrame 20 4 true;
          exampleFrame 5 1 true]
         (initialGlobals 1) = Ok st
       /\ eachCall waitsForSignalled (vk_calls st).
Proof.
  assert (Forall jobsFit
            [exampleFrame 13 6 true; exampleFrame 7 5 true; exampleFrame 20 4 true;
             exampleFrame 5 1 true])
    as Hfit by (repeat constructor; apply exampleFrame_fits; lia).
  assert (1 + runTicks
                [exampleFrame 13 6 true; exampleFrame 7 5 true; exampleFrame 20 4 true;
                 exampleFrame 5 1 true]
          < 2 ^ 64) as Hwrap by (vm_compute; reflexivity).
  split; [exact Hfit|]. split; [exact Hwrap|].
  exact (host_waits_for_signalled_values 1 _ Hfit Hwrap).
Defined.

(** ** The shape of one frame *)

Section FrameShape.

Context {McubesParams : Type}.
Local Abbreviation State := (Globals McubesParams).

Lemma submitFences_app (a b : list (VkCall McubesParams)) :
  submitFences (a ++ b) = submitFences a ++ submitFences b.
Proof. apply flat_map_app. Qed.

Lemma submitFences_no_submit (calls : list (VkCall McubesParams)) :
  Forall (fun c => forall q s f, c <> vkQueueSubmit q s f) calls -> submitFences calls = [].
Proof.
  intros H. unfold submitFences.
  eapply flat_map_nil_Forall; [| exact H].
  intros c Hc. destruct c; try reflexivity. exfalso. exact (Hc _ _ _ eq_refl).
Qed.

Lemma graphicsQueueCommands_app (a b : list (VkCall McubesParams)) :
  graphicsQueueCommands (a ++ b) = graphicsQueueCommands a ++ graphicsQueueCommands b.
Proof. apply flat_map_app. Qed.

Lemma graphicsQueueCommands_no_submit (calls : list (VkCall McubesParams)) :
  Forall (fun c => forall q s f, c <> vkQueueSubmit q s f) calls ->
  graphicsQueueCommands calls = [].
Proof.
  intros H. unfold graphicsQueueCommands.
  eapply flat_map_nil_Forall; [| exact H].
  intros c Hc. destruct c; try reflexivity. exfalso. exact (Hc _ _ _ eq_refl).
Qed.

Lemma last_batch_test (paramsList : list McubesParams) (B batch : Z) :
  1 <= B <= MCUBES_MAX_CHUNKS_PER_BATCH ->
  Z.of_nat (length paramsList) + 6 <= 2 ^ 32 ->
  0 <= batch < batchCountOf paramsList B ->
  (batch =? to_uint32 (batchCountOf paramsList B - 1))
  = (batch + 1 =? batchCountOf paramsList B).
Proof.
  intros HB HM Hb.
  assert (0 <= batchCountOf paramsList B <= Z.of_nat (length paramsList)) as Hbc
    by (apply batchCount_bounds; lia).
  unfold to_uint32. rewrite Z.mod_small by lia.
  destruct (Z.eqb_spec batch (batchCountOf paramsList B - 1)),
           (Z.eqb_spec (batch + 1) (batchCountOf paramsList B)); try reflexivity; lia.
Qed.

(** The fences of the submissions of a single-queue frame: none but the
    last one signals a fence, and the last one signals the fence the frame
    waited for and reset. *)
Lemma gctOnly_fences (pGui : Gui) (paramsList : list McubesParams) (st : State) :
  let bc := batchCountOf paramsList (effectiveBatchSize pGui) in
  let frame := Z.land (g_frameNumber st) 1 in
  Z.of_nat (length paramsList) + 6 <= 2 ^ 32 ->
  exists st' calls,
    computeDrawCommandsGctOnly pGui paramsList st = Ok st'
    /\ vk_calls st'
       = vk_calls st
         ++ [vkWaitForFences (s_frameGraphicsPoolFences frame);
             vkResetFences (s_frameGraphicsPoolFences frame);
             vkResetCommandPool (s_frameGraphicsPools frame)]
         ++ calls
    /\ submitFences calls
       = (if bc =? 0 then []
          else replicate (Z.to_nat (bc - 1)) None
               ++ [Some (s_frameGraphicsPoolFences frame)]).
Proof.
  intros bc frame HM.
  pose proof (effectiveBatchSize_range pGui) as HB.
  set (B := effectiveBatchSize pGui) in *.
  assert (0 <= bc <= Z.of_nat (length paramsList)) as Hbc
    by (apply batchCount_bounds; lia).
  destruct (computeDrawCommandsGctOnly_spec
              (fun i s =>
                 g_frameNumber s = g_frameNumber st
                 /\ exists calls,
                      vk_calls s = vk_calls (gctOnlyBegin st) ++ calls
                      /\ submitFences calls
                         = (if i =? 0 then []
                            else if i =? bc
                                 then replicate (Z.to_nat (bc - 1)) None
                                      ++ [Some (s_frameGraphicsPoolFences frame)]
                                 else replicate (Z.to_nat i) None))
              pGui paramsList st HM)
    as [st' (Hrun & _ & Hfn & calls & Hcalls & Hf)].
  - split; [reflexivity|]. exists []. rewrite app_nil_r. split; reflexivity.
  - intros batch s s' Hb (Hfn & calls & Hcalls & Hf) E.
    fold B in Hb, E. fold bc in Hb, E.
    pose proof (last_batch_test paramsList B batch HB HM Hb) as Hlast. fold bc in Hlast.
    destruct E as (_ & _ & _ & Hfn' & _ & _ & _ & _ & _
                   & (allocs & hG & boxes & colors & Hallocs & Hcalls') & _).
    split; [rewrite Hfn'; exact Hfn|].
    eexists. split; [rewrite Hcalls', Hcalls, <- app_assoc; reflexivity|].
    rewrite !submitFences_app, Hf.
    rewrite (submitFences_no_submit allocs)
      by (apply isPlainCall_not_submit, isAllocate_plain, Hallocs).
    cbn [app submitFences flat_map]. rewrite Hlast, Hfn. fold frame.
    replace (batch + 1 =? 0) with false by (symmetry; apply Z.eqb_neq; lia).
    destruct (Z.eqb_spec batch 0) as [-> | Hb0].
    + cbn [app]. destruct (Z.eqb_spec (0 + 1) bc) as [<- | Hne]; reflexivity.
    + replace (batch =? bc) with false by (symmetry; apply Z.eqb_neq; lia).
      destruct (Z.eqb_spec (batch + 1) bc) as [<- | Hne].
      * replace (batch + 1 - 1) with batch by lia. reflexivity.
      * replace (Z.to_nat (batch + 1)) with (S (Z.to_nat batch)) by lia.
        rewrite replicate_S_end. reflexivity.
  - exists st', calls. split; [exact Hrun|]. split.
    + rewrite Hcalls. unfold gctOnlyBegin. state_simpl. fold frame.
      rewrite <- !app_assoc. reflexivity.
    + rewrite Hf. fold B. fold bc. rewrite Z.eqb_refl. reflexivity.
Qed.

Lemma batchCountOf_pos (paramsList : list McubesParams) (B : Z) :
  1 <= B -> paramsList <> [] -> 1 <= batchCountOf paramsList B.
Proof.
  intros HB Hne. unfold batchCountOf.
  assert (1 <= Z.of_nat (length paramsList)) by (destruct paramsList; [congruence | cbn; lia]).
  apply Z.div_le_lower_bound; lia.
Qed.

(** What the frame has recorded for the graphics queue after [i] of its
    [bc] batches. *)
Lemma frame_commands_step (bc batch : Z) (old body : list (Cmd McubesParams)) :
  0 <= batch < bc ->
  Forall isBatchCmd body ->
  (if batch =? 0 then old = []
   else exists mid,
          old = CmdPrepareFrame :: mid ++ (if batch =? bc then [CmdDrawImGui] else [])
          /\ Forall isBatchCmd mid) ->
  exists mid,
    old ++ (if batch =? 0 then [CmdPrepareFrame] else []) ++ body
        ++ (if batch + 1 =? bc then [CmdDrawImGui] else [])
    = CmdPrepareFrame :: mid ++ (if batch + 1 =? bc then [CmdDrawImGui] else [])
    /\ Forall isBatchCmd mid.
Proof.
  intros Hb Hbody Hold.
  destruct (Z.eqb_spec batch 0) as [-> | Hb0].
  - subst old. exists body. split; [reflexivity | exact Hbody].
  - destruct Hold as (mid & -> & Hmid).
    replace (batch =? bc) with false by (symmetry; apply Z.eqb_neq; lia).
    exists (mid ++ body). split.
    + cbn [app]. rewrite app_nil_r, <- !app_assoc. reflexivity.
    + apply Forall_app. split; assumption.
Qed.

Lemma gctOnly_commands (pGui : Gui) (paramsList : list McubesParams) (st : State) :
  Z.of_nat (length paramsList) + 6 <= 2 ^ 32 ->
  paramsList <> [] ->
  exists st' calls mid,
    computeDrawCommandsGctOnly pGui paramsList st = Ok st'
    /\ vk_calls st' = vk_calls st ++ calls
    /\ graphicsQueueCommands calls = CmdPrepareFrame :: mid ++ [CmdDrawImGui]
    /\ Forall isBatchCmd mid.
Proof.
  intros HM Hne.
  pose proof (effectiveBatchSize_range pGui) as HB.
  set (B := effectiveBatchSize pGui) in *.
  set (bc := batchCountOf paramsList B).
  assert (1 <= bc) as Hbc1 by (apply batchCountOf_pos; [lia | exact Hne]).
  destruct (computeDrawCommandsGctOnly_spec
              (fun i s =>
                 exists calls,
                   vk_calls s = vk_calls st ++ calls
                   /\ if i =? 0 then graphicsQueueCommands calls = []
                      else exists mid,
                             graphicsQueueCommands calls
                             = CmdPrepareFrame :: mid
                               ++ (if i =? bc then [CmdDrawImGui] else [])
                             /\ Forall isBatchCmd mid)
              pGui paramsList st HM)
    as [st' (Hrun & _ & calls & Hcalls & Hc)].
  - eexists. split; [unfold gctOnlyBegin; state_simpl; rewrite <- !app_assoc; reflexivity|].
    reflexivity.
  - intros batch s s' Hb (calls & Hcalls & Hc) E.
    fold B in Hb, E. fold bc in Hb, E.
    pose proof (last_batch_test paramsList B batch HB HM Hb) as Hlast. fold bc in Hlast.
    destruct E as (_ & _ & _ & _ & _ & _ & _ & _ & _
                   & (allocs & hG & boxes & colors & Hallocs & Hcalls') & _).
    eexists. split; [rewrite Hcalls', Hcalls, <- app_assoc; reflexivity|].
    replace (batch + 1 =? 0) with false by (symmetry; apply Z.eqb_neq; lia).
    rewrite !graphicsQueueCommands_app.
    rewrite (graphicsQueueCommands_no_submit allocs)
      by (apply isPlainCall_not_submit, isAllocate_plain, Hallocs).
    cbn [app graphicsQueueCommands flat_map gctSubmitInfo commands].
    rewrite app_nil_r, Hlast.
    eapply (frame_commands_step bc batch _ [_; _; _]); [exact Hb | repeat constructor |].
    destruct (batch =? 0); exact Hc.
  - fold B in Hc. fold bc in Hc.
    replace (bc =? 0) with false in Hc by (symmetry; apply Z.eqb_neq; lia).
    rewrite Z.eqb_refl in Hc. destruct Hc as (mid & Hc & Hmid).
    exists st', calls, mid. auto.
Qed.

Lemma twoQueues_commands (pGui : Gui) (paramsList : list McubesParams) (st : State) :
  Core st ->
  Z.of_nat (length paramsList) + 6 <= 2 ^ 32 ->
  s_upcomingTimelineValue st + batchCountOf paramsList (effectiveBatchSize pGui) < 2 ^ 64 ->
  paramsList <> [] ->
  exists st' calls mid,
    computeDrawCommandsTwoQueues pGui paramsList st = Ok st'
    /\ vk_calls st' = vk_calls st ++ calls
    /\ graphicsQueueCommands calls = CmdPrepareFrame :: mid ++ [CmdDrawImGui]
    /\ Forall isBatchCmd mid.
Proof.
  intros HCore HM Hwrap Hne.
  pose proof (effectiveBatchSize_range pGui) as HB.
  set (B := effectiveBatchSize pGui) in *.
  set (bc := batchCountOf paramsList B) in *.
  assert (1 <= bc) as Hbc1 by (apply batchCountOf_pos; [lia | exact Hne]).
  destruct (computeDrawCommandsTwoQueues_spec
              (fun i s =>
                 exists calls,
                   vk_calls s = vk_calls st ++ calls
                   /\ if i =? 0 then graphicsQueueCommands calls = []
                      else exists mid,
                             graphicsQueueCommands calls
                             = CmdPrepareFrame :: mid
                               ++ (if i =? bc then [CmdDrawImGui] else [])
                             /\ Forall isBatchCmd mid)
              pGui paramsList st HCore HM Hwrap)
    as [st' (Hrun & _ & _ & _ & calls & Hcalls & Hc)].
  - eexists. split; [unfold twoQueuesBegin; state_simpl; rewrite <- !app_assoc; reflexivity|].
    reflexivity.
  - intros batch loc s loc' s' Hb (calls & Hcalls & Hc) E.
    fold B in Hb, E. fold bc in Hb, E.
    pose proof (last_batch_test paramsList B batch HB HM Hb) as Hlast. fold bc in Hlast.
    destruct E as (_ & _ & _ & _ & _ & _ & _ & _
                   & (allocs & hC & hG & boxes & colors & Hallocs & Hcalls') & _).
    eexists. split; [rewrite Hcalls', Hcalls, <- app_assoc; reflexivity|].
    replace (batch + 1 =? 0) with false by (symmetry; apply Z.eqb_neq; lia).
    rewrite !graphicsQueueCommands_app.
    rewrite (graphicsQueueCommands_no_submit allocs)
      by (apply isPlainCall_not_submit, isAllocate_plain, Hallocs).
    cbn [app graphicsQueueCommands flat_map graphicsSubmitInfo commands].
    rewrite app_nil_r, Hlast.
    eapply (frame_commands_step bc batch _ [_; _]); [exact Hb | repeat constructor |].
    destruct (batch =? 0); exact Hc.
  - fold B in Hc. fold bc in Hc.
    replace (bc =? 0) with false in Hc by (symmetry; apply Z.eqb_neq; lia).
    rewrite Z.eqb_refl in Hc. destruct Hc as (mid & Hc & Hmid).
    exists st', calls, mid. auto.
Qed.

Lemma no_jobs_no_batches (pGui : Gui) :
  computeBatchCount ([] : list McubesParams) (effectiveBatchSize pGui) = Ok 0.
Proof.
  pose proof (effectiveBatchSize_range pGui) as HB.
  rewrite computeBatchCount_spec; [| exact HB | cbn; lia].
  f_equal. unfold MCUBES_MAX_CHUNKS_PER_BATCH in HB. cbn [length Z.of_nat].
  apply Z.div_small. lia.
Qed.

End FrameShape.

(** A frame of the single-queue scheduler waits for the fence of its frame
    parity, resets it and resets the command pool; of the submissions that
    follow, one per batch, only the last one signals a fence, and it signals
    the fence the frame has reset, so that the fence is signalled again when
    the commands of the frame have finished. *)
Theorem single_queue_frame_rearms_its_fence {McubesParams : Type} (pGui : Gui)
  (paramsList : list McubesParams) (st : Globals McubesParams) :
  let bc := batchCountOf paramsList (effectiveBatchSize pGui) in
  let frame := Z.land (g_frameNumber st) 1 in
  Z.of_nat (length paramsList) + 6 <= 2 ^ 32 ->
  paramsList <> [] ->
  exists st' calls,
    computeDrawCommandsGctOnly pGui paramsList st = Ok st'
    /\ vk_calls st'
       = vk_calls st
         ++ [vkWaitForFences (s_frameGraphicsPoolFences frame);
             vkResetFences (s_frameGraphicsPoolFences frame);
             vkResetCommandPool (s_frameGraphicsPools frame)]
         ++ calls
    /\ submitFences calls
       = replicate (Z.to_nat (bc - 1)) None ++ [Some (s_frameGraphicsPoolFences frame)].
Proof.
  intros bc frame HM Hne.
  destruct (gctOnly_fences pGui paramsList st HM) as (st' & calls & Hrun & Hcalls & Hf).
  exists st', calls. split; [exact Hrun|]. split; [exact Hcalls|].
  rewrite Hf. fold bc.
  assert (1 <= bc) as Hbc.
  { apply batchCountOf_pos; [| exact Hne]. apply effectiveBatchSize_range. }
  replace (bc =? 0) with false by (symmetry; apply Z.eqb_neq; lia). reflexivity.
Qed.

Lemma single_queue_frame_rearms_its_fence_witness :
  Z.of_nat (length (seq 0 13)) + 6 <= 2 ^ 32
  /\ seq 0 13 <> []
  /\ exists st' calls,
       computeDrawCommandsGctOnly (exampleGui 6 false) (seq 0 13)
         (set_frameNumber 5 (initialGlobals 1)) = Ok st'
       /\ vk_calls st'
          = [vkWaitForFences (s_frameGraphicsPoolFences 1);
             vkResetFences (s_frameGraphicsPoolFences 1);
             vkResetCommandPool (s_frameGraphicsPools 1)]
            ++ calls
       /\ submitFences calls = [None; None; Some (s_frameGraphicsPoolFences 1)].
Proof.
  assert (Z.of_nat (length (seq 0 13)) + 6 <= 2 ^ 32) as HM by (vm_compute; discriminate).
  assert (seq 0 13 <> []) as Hne by discriminate.
  split; [exact HM|]. split; [exact Hne|].
  destruct (single_queue_frame_rearms_its_fence (exampleGui 6 false) (seq 0 13)
              (set_frameNumber 5 (initialGlobals 1)) HM Hne)
    as (st' & calls & Hrun & Hcalls & Hf).
  exists st', calls. split; [exact Hrun|]. split; [exact Hcalls | exact Hf].
Defined.

(** In a frame with at least one job, with either scheduler, the commands
    recorded for the graphics queue start with the commands that prepare the
    frame and end with the commands that draw the GUI; in between there are
    only the commands of the batches, so the frame is prepared once, before
    anything is drawn, and the GUI is drawn once, on top of everything. *)
Theorem frame_is_prepared_first_and_gui_drawn_last {McubesParams : Type} (pGui : Gui)
  (paramsList : list McubesParams) (st : Globals McubesParams) :
  Core st ->
  Z.of_nat (length paramsList) + 6 <= 2 ^ 32 ->
  s_upcomingTimelineValue st + batchCountOf paramsList (effectiveBatchSize pGui) < 2 ^ 64 ->
  paramsList <> [] ->
  (exists st' calls mid,
      computeDrawCommandsTwoQueues pGui paramsList st = Ok st'
      /\ vk_calls st' = vk_calls st ++ calls
      /\ graphicsQueueCommands calls = CmdPrepareFrame :: mid ++ [CmdDrawImGui]
      /\ Forall isBatchCmd mid)
  /\ (exists st' calls mid,
         computeDrawCommandsGctOnly pGui paramsList st = Ok st'
         /\ vk_calls st' = vk_calls st ++ calls
         /\ graphicsQueueCommands calls = CmdPrepareFrame :: mid ++ [CmdDrawImGui]
         /\ Forall isBatchCmd mid).
Proof.
  intros HCore HM Hwrap Hne. split.
  - exact (twoQueues_commands pGui paramsList st HCore HM Hwrap Hne).
  - exact (gctOnly_commands pGui paramsList st HM Hne).
Qed.

Lemma frame_is_prepared_first_and_gui_drawn_last_witness :
  Core (initialGlobals 1 : Globals nat)
  /\ Z.of_nat (length (seq 0 13)) + 6 <= 2 ^ 32
  /\ s_upcomingTimelineValue (initialGlobals 1 : Globals nat)
     + batchCountOf (seq 0 13) (effectiveBatchSize (exampleGui 6 true)) < 2 ^ 64
  /\ seq 0 13 <> []
  /\ (exists st' calls mid,
         computeDrawCommandsTwoQueues (exampleGui 6 true) (seq 0 13) (initialGlobals 1)
         = Ok st'
         /\ vk_calls st' = vk_calls (initialGlobals 1 : Globals nat) ++ calls
         /\ graphicsQueueCommands calls = CmdPrepareFrame :: mid ++ [CmdDrawImGui]
         /\ Forall isBatchCmd mid)
  /\ (exists st' calls mid,
         computeDrawCommandsGctOnly (exampleGui 6 true) (seq 0 13) (initialGlobals 1)
         = Ok st'
         /\ vk_calls st' = vk_calls (initialGlobals 1 : Globals nat) ++ calls
         /\ graphicsQueueCommands calls = CmdPrepareFrame :: mid ++ [CmdDrawImGui]
         /\ Forall isBatchCmd mid).
Proof.
  assert (Z.of_nat (length (seq 0 13)) + 6 <= 2 ^ 32) as HM by (vm_compute; discriminate).
  assert (s_upcomingTimelineValue (initialGlobals 1 : Globals nat)
          + batchCountOf (seq 0 13) (effectiveBatchSize (exampleGui 6 true)) < 2 ^ 64)
    as Hwrap by (vm_compute; reflexivity).
  assert (seq 0 13 <> []) as Hne by discriminate.
  split; [apply initialGlobals_Core|]. split; [exact HM|]. split; [exact Hwrap|].
  split; [exact Hne|].
  exact (frame_is_prepared_first_and_gui_drawn_last (exampleGui 6 true) (seq 0 13)
           (initialGlobals 1) (initialGlobals_Core 1) HM Hwrap Hne).
Defined.

(** With an empty job list both schedulers stop after the calls a frame
    starts with: there is no batch, nothing is submitted, and the clock, the
    cursor of the ring and the chunks are as before.  In single-queue mode
    the fence of the frame has then been reset and no submission signals it
    again. *)
Theorem empty_job_list_submits_nothing {McubesParams : Type} (pGui : Gui)
  (st : Globals McubesParams) :
  let frame := Z.land (g_frameNumber st) 1 in
  exists st2 st1,
    computeDrawCommandsTwoQueues pGui [] st = Ok st2
    /\ computeDrawCommandsGctOnly pGui [] st = Ok st1
    /\ vk_calls st2
       = vk_calls st
         ++ [vkWaitSemaphoresKHR (at2 (s_frameComputePoolWaitTimelineValues st) frame)
               (at2 (s_frameGraphicsPoolWaitTimelineValues st) frame);
             vkResetCommandPool (s_frameComputePools frame);
             vkResetCommandPool (s_frameGraphicsPools frame)]
    /\ vk_calls st1
       = vk_calls st
         ++ [vkWaitForFences (s_frameGraphicsPoolFences frame);
             vkResetFences (s_frameGraphicsPoolFences frame);
             vkResetCommandPool (s_frameGraphicsPools frame)]
    /\ same_scheduler_state st st2
    /\ same_scheduler_state st st1.
Proof.
  intros frame. exists (twoQueuesBegin st), (gctOnlyBegin st).
  unfold computeDrawCommandsTwoQueues, computeDrawCommandsGctOnly.
  rewrite !no_jobs_no_batches. cbn [bind for_range for_loop Z.sub Z.to_nat snd].
  split; [reflexivity|]. split; [reflexivity|].
  unfold twoQueuesBegin, gctOnlyBegin, same_scheduler_state. state_simpl. fold frame.
  rewrite <- !app_assoc. repeat split.
Qed.

(** ** The GUI: job list and keyboard *)

Lemma jobsAlong_table :
  forallb (fun c => match GuiCpp.jobsAlong c with
                    | Some n => n =? Z.max ((2 * c + 127) / 254) 1
                    | None => false
                    end) (seqZ 0 1025) = true.
Proof. vm_compute. reflexivity. Qed.

(** The division and the rounding of [jobsAlong] are exact on the clamped
    counts: the floating-point result is the integer rounding. *)
Lemma jobsAlong_clamped (count : Z) :
  GuiCpp.jobsAlong (glm_clamp count 0 1024) = Some (jobsAlongAxis count).
Proof.
  pose proof jobsAlong_table as H.
  rewrite forallb_forall in H.
  assert (0 <= glm_clamp count 0 1024 <= 1024) as Hc by (unfold glm_clamp; lia).
  specialize (H (glm_clamp count 0 1024)).
  assert (In (glm_clamp count 0 1024) (seqZ 0 1025)) as Hin.
  { apply list_elem_of_In, elem_of_seqZ. lia. }
  specialize (H Hin). unfold jobsAlongAxis.
  destruct (GuiCpp.jobsAlong (glm_clamp count 0 1024)) as [n|]; [| discriminate H].
  apply Z.eqb_eq in H. subst n. reflexivity.
Qed.

Lemma jobsAlongAxis_range (count : Z) : 1 <= jobsAlongAxis count <= 8.
Proof.
  unfold jobsAlongAxis, glm_clamp.
  assert (0 <= (2 * Z.min (Z.max count 0) 1024 + 127) / 254 < 9).
  { split; [apply Z.div_pos; lia|].
    apply Z.div_lt_upper_bound; lia. }
  lia.
Qed.

Lemma length_bind_const {A B : Type} (f : A -> list B) (k : nat) (l : list A) :
  (forall a, length (f a) = k) -> length (l ≫= f) = (length l * k)%nat.
Proof.
  intros Hf. induction l as [|a l IH]; [reflexivity|].
  cbn. rewrite length_app, Hf. fold (mbind f l). rewrite IH. reflexivity.
Qed.

Lemma getMcubesJobs_length (g : GuiCpp.Gui) :
  exists jobs g',
    GuiCpp.getMcubesJobs g = Some (jobs, g')
    /\ frameGui g' = frameGui g
    /\ Z.of_nat (length jobs)
       = jobsAlongAxis (GuiCpp.m_targetCellCounts g).1.1
         * jobsAlongAxis (GuiCpp.m_targetCellCounts g).1.2
         * jobsAlongAxis (GuiCpp.m_targetCellCounts g).2.
Proof.
  unfold GuiCpp.getMcubesJobs.
  destruct (GuiCpp.m_targetCellCounts g) as [[cx cy] cz]. cbn [fst snd].
  rewrite !jobsAlong_clamped. cbn [mbind option_bind].
  eexists _, _. split; [reflexivity|]. split.
  - destruct (_ && _); reflexivity.
  - pose proof (jobsAlongAxis_range cx). pose proof (jobsAlongAxis_range cy).
    pose proof (jobsAlongAxis_range cz).
    rewrite (length_bind_const _
               (Z.to_nat (jobsAlongAxis cy) * Z.to_nat (jobsAlongAxis cx))%nat).
    + rewrite length_seqZ. nia.
    + intros z. rewrite (length_bind_const _ (Z.to_nat (jobsAlongAxis cx))).
      * rewrite length_seqZ. reflexivity.
      * intros y. rewrite (length_bind_const _ 1%nat).
        -- rewrite length_seqZ. lia.
        -- intros x. reflexivity.
Qed.

(** Case analysis on the key that [charCallbackImpl] was given. *)
Ltac key_cases H :=
  unfold GuiCpp.charCallbackImpl, GuiCpp.setEquation, GuiCpp.resetCamera in H;
  repeat match type of H with
         | context [if ?b then _ else _] => destruct b eqn:?
         | context [let '(_, _) := ?x in _] => destruct x as [[? ?] ?] eqn:?
         | context [mbind _ ?m] => destruct m eqn:?; cbn [mbind option_bind] in H
         end;
  try discriminate H; injection H as <-.

Lemma in_int_Some (z r : Z) :
  GuiCpp.in_int z = Some r -> r = z /\ GuiCpp.INT_MIN <= z <= GuiCpp.INT_MAX.
Proof.
  unfold GuiCpp.in_int. intros H.
  destruct (Z.leb_spec GuiCpp.INT_MIN z), (Z.leb_spec z GuiCpp.INT_MAX);
    cbn in H; try discriminate H.
  injection H as <-. auto.
Qed.

Lemma in_int_small (z : Z) : - 2 ^ 31 <= z <= 2 ^ 31 - 1 -> GuiCpp.in_int z = Some z.
Proof.
  intros H. unfold GuiCpp.in_int, GuiCpp.INT_MIN, GuiCpp.INT_MAX.
  destruct (Z.leb_spec (- 2 ^ 31) z), (Z.leb_spec z (2 ^ 31 - 1)); try lia. reflexivity.
Qed.

(** What a key does to the batch size. *)
Lemma charCallbackImpl_batchSize (chr : Z) (clipboard : option (list ascii))
  (g g' : GuiCpp.Gui) :
  GuiCpp.charCallbackImpl chr clipboard g = Some g' ->
  GuiCpp.m_batchSize g' = GuiCpp.m_batchSize g
  \/ GuiCpp.m_batchSize g'
     = (if GuiCpp.m_batchSize g + 1 >? MCUBES_MAX_CHUNKS_PER_BATCH
        then 1 else GuiCpp.m_batchSize g + 1)
  \/ GuiCpp.m_batchSize g'
     = (if GuiCpp.m_batchSize g - 1 <? 1
        then MCUBES_MAX_CHUNKS_PER_BATCH else GuiCpp.m_batchSize g - 1).
Proof.
  intros H. key_cases H; cbn; auto.
  all: match goal with
       | E : GuiCpp.int_add _ _ = Some _ |- _ => apply in_int_Some in E as [-> _]
       | E : GuiCpp.int_sub _ _ = Some _ |- _ => apply in_int_Some in E as [-> _]
       end.
  all: match goal with E : (_ >? _) = _ |- _ => rewrite E; auto
                  | E : (_ <? _) = _ |- _ => rewrite E; auto end.
Qed.

Lemma typeKeys_batchSize (keys : list Z) (clipboard : option (list ascii)) :
  forall g g',
    1 <= GuiCpp.m_batchSize g <= MCUBES_MAX_CHUNKS_PER_BATCH ->
    typeKeys keys clipboard g = Some g' ->
    1 <= GuiCpp.m_batchSize g' <= MCUBES_MAX_CHUNKS_PER_BATCH.
Proof.
  unfold MCUBES_MAX_CHUNKS_PER_BATCH.
  induction keys as [|chr keys IH]; intros g g' Hg H.
  - injection H as <-. exact Hg.
  - cbn [typeKeys] in H.
    destruct (GuiCpp.charCallbackImpl chr clipboard g) as [g1|] eqn:E; [| discriminate H].
    cbn [mbind option_bind] in H. apply (IH g1 g'); [| exact H].
    destruct (charCallbackImpl_batchSize chr clipboard g g1 E) as [-> | [-> | ->]];
      unfold MCUBES_MAX_CHUNKS_PER_BATCH.
    + exact Hg.
    + destruct (Z.gtb_spec (GuiCpp.m_batchSize g + 1) 6); lia.
    + destruct (Z.ltb_spec (GuiCpp.m_batchSize g - 1) 1); lia.
Qed.

Lemma set_batchSize_same (g : GuiCpp.Gui) (v w : Z) :
  v = GuiCpp.m_batchSize g ->
  GuiCpp.set_batchSize v (GuiCpp.set_batchSize w g) = g.
Proof. intros ->. destruct g; reflexivity. Qed.

(** The keys [+] and [-] move the batch size around the values 1..6 of its
    slider and undo each other; no key takes the batch size out of this
    range, so that the schedulers use the batch size of the GUI as it is. *)
Theorem batch_size_keys_stay_in_slider_range (clipboard : option (list ascii))
  (g : GuiCpp.Gui) :
  1 <= GuiCpp.m_batchSize g <= MCUBES_MAX_CHUNKS_PER_BATCH ->
  (exists g1,
      GuiCpp.charCallbackImpl (GuiCpp.key "+") clipboard g = Some g1
      /\ GuiCpp.m_batchSize g1
         = (if GuiCpp.m_batchSize g =? MCUBES_MAX_CHUNKS_PER_BATCH
            then 1 else GuiCpp.m_batchSize g + 1)
      /\ GuiCpp.charCallbackImpl (GuiCpp.key "-") clipboard g1 = Some g)
  /\ (exists g1,
         GuiCpp.charCallbackImpl (GuiCpp.key "-") clipboard g = Some g1
         /\ GuiCpp.m_batchSize g1
            = (if GuiCpp.m_batchSize g =? 1
               then MCUBES_MAX_CHUNKS_PER_BATCH else GuiCpp.m_batchSize g - 1)
         /\ GuiCpp.charCallbackImpl (GuiCpp.key "+") clipboard g1 = Some g)
  /\ (forall keys g',
         typeKeys keys clipboard g = Some g' ->
         1 <= GuiCpp.m_batchSize g' <= MCUBES_MAX_CHUNKS_PER_BATCH
         /\ effectiveBatchSize (frameGui g') = GuiCpp.m_batchSize g').
Proof.
  intros Hg. unfold MCUBES_MAX_CHUNKS_PER_BATCH in *.
  assert (forall g0, GuiCpp.charCallbackImpl (GuiCpp.key "+") clipboard g0
                     = (size ← GuiCpp.int_add (GuiCpp.m_batchSize g0) 1;
                        Some (GuiCpp.set_batchSize (if size >? 6 then 1 else size) g0)))
    as Hplus by reflexivity.
  assert (forall g0, GuiCpp.charCallbackImpl (GuiCpp.key "-") clipboard g0
                     = (size ← GuiCpp.int_sub (GuiCpp.m_batchSize g0) 1;
                        Some (GuiCpp.set_batchSize (if size <? 1 then 6 else size) g0)))
    as Hminus by reflexivity.
  split; [| split].
  - eexists. rewrite Hplus. unfold GuiCpp.int_add. rewrite in_int_small by lia.
    cbn [mbind option_bind]. split; [reflexivity|]. split.
    + cbn. destruct (Z.eqb_spec (GuiCpp.m_batchSize g) 6),
                    (Z.gtb_spec (GuiCpp.m_batchSize g + 1) 6); lia.
    + rewrite Hminus. cbn [GuiCpp.m_batchSize GuiCpp.set_batchSize].
      unfold GuiCpp.int_sub.
      destruct (Z.gtb_spec (GuiCpp.m_batchSize g + 1) 6).
      * rewrite in_int_small by lia. cbn [mbind option_bind]. f_equal.
        apply set_batchSize_same. destruct (Z.ltb_spec (1 - 1) 1); lia.
      * rewrite in_int_small by lia. cbn [mbind option_bind]. f_equal.
        apply set_batchSize_same.
        destruct (Z.ltb_spec (GuiCpp.m_batchSize g + 1 - 1) 1); lia.
  - eexists. rewrite Hminus. unfold GuiCpp.int_sub. rewrite in_int_small by lia.
    cbn [mbind option_bind]. split; [reflexivity|]. split.
    + cbn. destruct (Z.eqb_spec (GuiCpp.m_batchSize g) 1),
                    (Z.ltb_spec (GuiCpp.m_batchSize g - 1) 1); lia.
    + rewrite Hplus. cbn [GuiCpp.m_batchSize GuiCpp.set_batchSize].
      unfold GuiCpp.int_add.
      destruct (Z.ltb_spec (GuiCpp.m_batchSize g - 1) 1).
      * rewrite in_int_small by lia. cbn [mbind option_bind]. f_equal.
        apply set_batchSize_same. destruct (Z.gtb_spec (6 + 1) 6); lia.
      * rewrite in_int_small by lia. cbn [mbind option_bind]. f_equal.
        apply set_batchSize_same.
        destruct (Z.gtb_spec (GuiCpp.m_batchSize g - 1 + 1) 6); lia.
  - intros keys g' H.
    pose proof (typeKeys_batchSize keys clipboard g g' Hg H) as Hr.
    unfold MCUBES_MAX_CHUNKS_PER_BATCH in Hr. split; [exact Hr|].
    unfold effectiveBatchSize, frameGui, glm_clamp, to_uint32,
      MCUBES_MAX_CHUNKS_PER_BATCH. cbn [m_batchSize].
    rewrite Z.mod_small by lia. lia.
Qed.

Lemma batch_size_keys_stay_in_slider_range_witness :
  1 <= GuiCpp.m_batchSize GuiCpp.Gui_new <= MCUBES_MAX_CHUNKS_PER_BATCH
  /\ exists g',
       typeKeys
         [GuiCpp.key "+"; GuiCpp.key "+"; GuiCpp.key "-"; GuiCpp.key "-"; GuiCpp.key "-"]
         None GuiCpp.Gui_new = Some g'
       /\ GuiCpp.m_batchSize g' = 5
       /\ effectiveBatchSize (frameGui g') = 5.
Proof.
  assert (1 <= GuiCpp.m_batchSize GuiCpp.Gui_new <= MCUBES_MAX_CHUNKS_PER_BATCH) as Hg
    by (vm_compute; split; discriminate).
  split; [exact Hg|].
  eexists. split; [vm_compute; reflexivity|]. split; [reflexivity|].
  destruct (batch_size_keys_stay_in_slider_range None GuiCpp.Gui_new Hg) as (_ & _ & H).
  refine (proj2 (H [GuiCpp.key "+"; GuiCpp.key "+"; GuiCpp.key "-"; GuiCpp.key "-";
                    GuiCpp.key "-"] _ _)).
  vm_compute. reflexivity.
Defined.

(** What a key does to the debug view. *)
Lemma charCallbackImpl_chunkDebugViewMode (chr : Z) (clipboard : option (list ascii))
  (g g' : GuiCpp.Gui) :
  GuiCpp.charCallbackImpl chr clipboard g = Some g' ->
  GuiCpp.m_chunkDebugViewMode g' = GuiCpp.m_chunkDebugViewMode g
  \/ GuiCpp.m_chunkDebugViewMode g'
     = (if GuiCpp.m_chunkDebugViewMode g - 1 <? 0
        then GuiCpp.chunkDebugViewModeCount - 1 else GuiCpp.m_chunkDebugViewMode g - 1)
  \/ GuiCpp.m_chunkDebugViewMode g'
     = (if GuiCpp.m_chunkDebugViewMode g + 1 >=? GuiCpp.chunkDebugViewModeCount
        then 0 else GuiCpp.m_chunkDebugViewMode g + 1).
Proof.
  intros H. key_cases H; cbn; auto.
  all: match goal with
       | E : GuiCpp.int_add _ _ = Some _ |- _ => apply in_int_Some in E as [-> _]
       | E : GuiCpp.int_sub _ _ = Some _ |- _ => apply in_int_Some in E as [-> _]
       end.
  all: match goal with E : (_ >=? _) = _ |- _ => rewrite E; auto
                  | E : (_ <? _) = _ |- _ => rewrite E; auto end.
Qed.

Lemma typeKeys_chunkDebugViewMode (keys : list Z) (clipboard : option (list ascii)) :
  forall g g',
    0 <= GuiCpp.m_chunkDebugViewMode g < GuiCpp.chunkDebugViewModeCount ->
    typeKeys keys clipboard g = Some g' ->
    0 <= GuiCpp.m_chunkDebugViewMode g' < GuiCpp.chunkDebugViewModeCount.
Proof.
  unfold GuiCpp.chunkDebugViewModeCount.
  induction keys as [|chr keys IH]; intros g g' Hg H.
  - injection H as <-. exact Hg.
  - cbn [typeKeys] in H.
    destruct (GuiCpp.charCallbackImpl chr clipboard g) as [g1|] eqn:E; [| discriminate H].
    cbn [mbind option_bind] in H. apply (IH g1 g'); [| exact H].
    destruct (charCallbackImpl_chunkDebugViewMode chr clipboard g g1 E) as [-> | [-> | ->]];
      unfold GuiCpp.chunkDebugViewModeCount.
    + exact Hg.
    + destruct (Z.ltb_spec (GuiCpp.m_chunkDebugViewMode g - 1) 0); lia.
    + destruct (Z.geb_spec (GuiCpp.m_chunkDebugViewMode g + 1) 4); lia.
Qed.

Lemma set_chunkDebugViewMode_same (g : GuiCpp.Gui) (v w : Z) :
  v = GuiCpp.m_chunkDebugViewMode g ->
  GuiCpp.set_chunkDebugViewMode v (GuiCpp.set_chunkDebugViewMode w g) = g.
Proof. intros ->. destruct g; reflexivity. Qed.

(** The keys [d] and [D] step the debug view forwards and backwards through
    its four modes, wrapping around, and undo each other; no key takes the
    debug view out of the four modes. *)
Theorem debug_view_keys_cycle (clipboard : option (list ascii)) (g : GuiCpp.Gui) :
  0 <= GuiCpp.m_chunkDebugViewMode g < GuiCpp.chunkDebugViewModeCount ->
  (exists g1,
      GuiCpp.charCallbackImpl (GuiCpp.key "d") clipboard g = Some g1
      /\ GuiCpp.m_chunkDebugViewMode g1
         = (GuiCpp.m_chunkDebugViewMode g + 1) mod GuiCpp.chunkDebugViewModeCount
      /\ GuiCpp.charCallbackImpl (GuiCpp.key "D") clipboard g1 = Some g)
  /\ (exists g1,
         GuiCpp.charCallbackImpl (GuiCpp.key "D") clipboard g = Some g1
         /\ GuiCpp.m_chunkDebugViewMode g1
            = (GuiCpp.m_chunkDebugViewMode g - 1) mod GuiCpp.chunkDebugViewModeCount
         /\ GuiCpp.charCallbackImpl (GuiCpp.key "d") clipboard g1 = Some g)
  /\ (forall keys g',
         typeKeys keys clipboard g = Some g' ->
         0 <= GuiCpp.m_chunkDebugViewMode g' < GuiCpp.chunkDebugViewModeCount).
Proof.
  intros Hg. unfold GuiCpp.chunkDebugViewModeCount in *.
  assert (forall g0, GuiCpp.charCallbackImpl (GuiCpp.key "d") clipboard g0
                     = (mode ← GuiCpp.int_add (GuiCpp.m_chunkDebugViewMode g0) 1;
                        Some (GuiCpp.set_chunkDebugViewMode
                                (if mode >=? 4 then 0 else mode) g0)))
    as Hd by reflexivity.
  assert (forall g0, GuiCpp.charCallbackImpl (GuiCpp.key "D") clipboard g0
                     = (mode ← GuiCpp.int_sub (GuiCpp.m_chunkDebugViewMode g0) 1;
                        Some (GuiCpp.set_chunkDebugViewMode
                                (if mode <? 0 then 4 - 1 else mode) g0)))
    as HD by reflexivity.
  split; [| split].
  - eexists. rewrite Hd. unfold GuiCpp.int_add. rewrite in_int_small by lia.
    cbn [mbind option_bind]. split; [reflexivity|]. split.
    + cbn [GuiCpp.m_chunkDebugViewMode GuiCpp.set_chunkDebugViewMode].
      destruct (Z.geb_spec (GuiCpp.m_chunkDebugViewMode g + 1) 4);
        Z.to_euclidean_division_equations; lia.
    + rewrite HD. cbn [GuiCpp.m_chunkDebugViewMode GuiCpp.set_chunkDebugViewMode].
      unfold GuiCpp.int_sub.
      destruct (Z.geb_spec (GuiCpp.m_chunkDebugViewMode g + 1) 4).
      * rewrite in_int_small by lia. cbn [mbind option_bind]. f_equal.
        apply set_chunkDebugViewMode_same. destruct (Z.ltb_spec (0 - 1) 0); lia.
      * rewrite in_int_small by lia. cbn [mbind option_bind]. f_equal.
        apply set_chunkDebugViewMode_same.
        destruct (Z.ltb_spec (GuiCpp.m_chunkDebugViewMode g + 1 - 1) 0); lia.
  - eexists. rewrite HD. unfold GuiCpp.int_sub. rewrite in_int_small by lia.
    cbn [mbind option_bind]. split; [reflexivity|]. split.
    + cbn [GuiCpp.m_chunkDebugViewMode GuiCpp.set_chunkDebugViewMode].
      destruct (Z.ltb_spec (GuiCpp.m_chunkDebugViewMode g - 1) 0);
        Z.to_euclidean_division_equations; lia.
    + rewrite Hd. cbn [GuiCpp.m_chunkDebugViewMode GuiCpp.set_chunkDebugViewMode].
      unfold GuiCpp.int_add.
      destruct (Z.ltb_spec (GuiCpp.m_chunkDebugViewMode g - 1) 0).
      * rewrite in_int_small by lia. cbn [mbind option_bind]. f_equal.
        apply set_chunkDebugViewMode_same. destruct (Z.geb_spec (4 - 1 + 1) 4); lia.
      * rewrite in_int_small by lia. cbn [mbind option_bind]. f_equal.
        apply set_chunkDebugViewMode_same.
        destruct (Z.geb_spec (GuiCpp.m_chunkDebugViewMode g - 1 + 1) 4); lia.
  - intros keys g' H.
    exact (typeKeys_chunkDebugViewMode keys clipboard g g' Hg H).
Qed.

Lemma debug_view_keys_cycle_witness :
  0 <= GuiCpp.m_chunkDebugViewMode GuiCpp.Gui_new < GuiCpp.chunkDebugViewModeCount
  /\ exists g',
       typeKeys [GuiCpp.key "D"; GuiCpp.key "d"; GuiCpp.key "d"; GuiCpp.key "x"]
         None GuiCpp.Gui_new = Some g'
       /\ GuiCpp.m_chunkDebugViewMode g' = 1
       /\ 0 <= GuiCpp.m_chunkDebugViewMode g' < GuiCpp.chunkDebugViewModeCount.
Proof.
  assert (0 <= GuiCpp.m_chunkDebugViewMode GuiCpp.Gui_new < GuiCpp.chunkDebugViewModeCount)
    as Hg by (vm_compute; split; [discriminate | reflexivity]).
  split; [exact Hg|].
  eexists. split; [vm_compute; reflexivity|]. split; [reflexivity|].
  destruct (debug_view_keys_cycle None GuiCpp.Gui_new Hg) as (_ & _ & H).
  refine (H [GuiCpp.key "D"; GuiCpp.key "d"; GuiCpp.key "d"; GuiCpp.key "x"] _ _).
  vm_compute. reflexivity.
Defined.

Lemma strlen_spec (mem : list ascii) (n : nat) :
  GuiCpp.strlen mem = Some n ->
  (n < length mem)%nat /\ GuiCpp.c_str mem = take n mem
  /\ forall rest, GuiCpp.c_str (take (S n) mem ++ rest) = take n mem.
Proof.
  revert n. induction mem as [|c mem IH]; intros n H; [discriminate H|].
  cbn [GuiCpp.strlen] in H. cbn [GuiCpp.c_str].
  destruct (Ascii.eqb c GuiCpp.NUL) eqn:Ec.
  - injection H as <-. cbn. rewrite Ec. split; [lia|]. split; reflexivity.
  - destruct (GuiCpp.strlen mem) as [k|] eqn:Ek; [| discriminate H].
    cbn in H. injection H as <-.
    destruct (IH k eq_refl) as (Hlt & Hc & Hr).
    cbn [length take]. split; [lia|]. split; [rewrite Hc; reflexivity|].
    intros rest. cbn [app GuiCpp.c_str]. rewrite Ec. f_equal.
    exact (Hr rest).
Qed.

(** [setEquation] stores the string it is given: read back as a C string,
    the buffer holds the characters of the string; the buffer is made larger
    when the string and its terminator do not fit and is never made smaller;
    and the frame loop is asked to replace the equation.  This is what the
    key [p] does with the text of the clipboard. *)
Theorem setEquation_stores_the_string (mem : list ascii) (n : nat) (g : GuiCpp.Gui) :
  GuiCpp.strlen mem = Some n ->
  exists g',
    GuiCpp.setEquation mem g = Some g'
    /\ GuiCpp.charCallbackImpl (GuiCpp.key "p") (Some mem) g = Some g'
    /\ GuiCpp.c_str (GuiCpp.m_equationInput g') = GuiCpp.c_str mem
    /\ length (GuiCpp.m_equationInput g')
       = Nat.max (length (GuiCpp.m_equationInput g)) (S n)
    /\ m_equationInput (frameGui g') = string_of_list_ascii (GuiCpp.c_str mem)
    /\ m_wantSetEquation (frameGui g') = true
    /\ m_batchSize (frameGui g') = m_batchSize (frameGui g).
Proof.
  intros Hlen. destruct (strlen_spec mem n Hlen) as (Hlt & Hc & Hr).
  unfold GuiCpp.setEquation. rewrite Hlen. cbn [mbind option_bind].
  eexists. split; [reflexivity|]. split.
  - change (GuiCpp.charCallbackImpl (GuiCpp.key "p") (Some mem) g)
      with (GuiCpp.setEquation mem g).
    unfold GuiCpp.setEquation. rewrite Hlen. reflexivity.
  - assert (forall buf, GuiCpp.c_str (take (S n) mem ++ buf) = GuiCpp.c_str mem) as Hcs
      by (intros; rewrite Hr, Hc; reflexivity).
    cbn [GuiCpp.m_equationInput GuiCpp.set_wantSetEquation GuiCpp.set_equationInput
         frameGui m_equationInput m_wantSetEquation m_batchSize
         GuiCpp.m_wantSetEquation GuiCpp.m_batchSize].
    rewrite Hcs. split; [reflexivity|]. split; [| auto].
    rewrite length_app, length_take, length_drop.
    destruct (Nat.leb_spec (length (GuiCpp.m_equationInput g)) (S n)).
    + unfold GuiCpp.vector_resize. rewrite length_app, length_take, length_replicate. lia.
    + lia.
Qed.

Lemma setEquation_stores_the_string_witness :
  GuiCpp.strlen (list_ascii_of_string "x*y" ++ [GuiCpp.NUL; "z"%char]) = Some 3%nat
  /\ exists g',
       GuiCpp.setEquation (list_ascii_of_string "x*y" ++ [GuiCpp.NUL; "z"%char])
         GuiCpp.Gui_new = Some g'
       /\ GuiCpp.c_str (GuiCpp.m_equationInput g') = list_ascii_of_string "x*y"
       /\ m_equationInput (frameGui g') = "x*y"%string.
Proof.
  assert (GuiCpp.strlen (list_ascii_of_string "x*y" ++ [GuiCpp.NUL; "z"%char])
          = Some 3%nat) as Hlen by reflexivity.
  split; [exact Hlen|].
  destruct (setEquation_stores_the_string _ _ GuiCpp.Gui_new Hlen)
    as (g' & Hset & _ & Hc & _ & Hf & _).
  exists g'. split; [exact Hset|]. split; [exact Hc | exact Hf].
Defined.

(** A null clipboard makes the key [p] take the length of a null string. *)
Example paste_without_clipboard_is_undefined (g : GuiCpp.Gui) :
  GuiCpp.charCallbackImpl (GuiCpp.key "p") None g = None.
Proof. reflexivity. Qed.

(** The key [n] steps the amount of colouring by the normal through 1, 0
    and 0.5: whatever the amount was, after one press it is one of the
    three, and from then on every third press gives the same amount. *)
Theorem color_by_normal_key_cycles (clipboard : option (list ascii)) (g : GuiCpp.Gui) :
  exists g1 g2 g3 g4,
    GuiCpp.charCallbackImpl (GuiCpp.key "n") clipboard g = Some g1
    /\ GuiCpp.charCallbackImpl (GuiCpp.key "n") clipboard g1 = Some g2
    /\ GuiCpp.charCallbackImpl (GuiCpp.key "n") clipboard g2 = Some g3
    /\ GuiCpp.charCallbackImpl (GuiCpp.key "n") clipboard g3 = Some g4
    /\ (GuiCpp.m_colorByNormalAmount g1 = GuiCpp.f_0_0
        \/ GuiCpp.m_colorByNormalAmount g1 = GuiCpp.f_0_5
        \/ GuiCpp.m_colorByNormalAmount g1 = GuiCpp.f_1_0)
    /\ GuiCpp.m_colorByNormalAmount g2 <> GuiCpp.m_colorByNormalAmount g1
    /\ GuiCpp.m_colorByNormalAmount g3 <> GuiCpp.m_colorByNormalAmount g1
    /\ GuiCpp.m_colorByNormalAmount g3 <> GuiCpp.m_colorByNormalAmount g2
    /\ g4 = g1.
Proof.
  assert (forall g0, GuiCpp.charCallbackImpl (GuiCpp.key "n") clipboard g0
                     = if SFeqb (GuiCpp.m_colorByNormalAmount g0) GuiCpp.f_1_0
                       then Some (GuiCpp.set_colorByNormalAmount GuiCpp.f_0_0 g0)
                       else if SFeqb (GuiCpp.m_colorByNormalAmount g0) GuiCpp.f_0_0
                            then Some (GuiCpp.set_colorByNormalAmount GuiCpp.f_0_5 g0)
                            else Some (GuiCpp.set_colorByNormalAmount GuiCpp.f_1_0 g0))
    as Hn by reflexivity.
  destruct (SFeqb (GuiCpp.m_colorByNormalAmount g) GuiCpp.f_1_0) eqn:E1;
    [| destruct (SFeqb (GuiCpp.m_colorByNormalAmount g) GuiCpp.f_0_0) eqn:E2].
  all: eexists _, _, _, _; rewrite (Hn g), E1, ?E2.
  all: split; [reflexivity|].
  all: split; [rewrite Hn; cbn; reflexivity|].
  all: split; [rewrite Hn; cbn; reflexivity|].
  all: split; [rewrite Hn; cbn; reflexivity|].
  all: cbn.
  all: split; [auto|].
  all: split; [discriminate|]. all: split; [discriminate|]. all: split; [discriminate|].
  all: destruct g; reflexivity.
Qed.

Lemma guiJobs_length (g : GuiCpp.Gui) :
  Z.of_nat (length (guiJobs g))
  = jobsAlongAxis (GuiCpp.m_targetCellCounts g).1.1
    * jobsAlongAxis (GuiCpp.m_targetCellCounts g).1.2
    * jobsAlongAxis (GuiCpp.m_targetCellCounts g).2.
Proof.
  destruct (getMcubesJobs_length g) as (jobs & g' & Hj & _ & Hlen).
  unfold guiJobs. rewrite Hj. exact Hlen.
Qed.

Lemma guiJobs_bounds (g : GuiCpp.Gui) : 1 <= Z.of_nat (length (guiJobs g)) <= 512.
Proof.
  rewrite guiJobs_length.
  pose proof (jobsAlongAxis_range (GuiCpp.m_targetCellCounts g).1.1).
  pose proof (jobsAlongAxis_range (GuiCpp.m_targetCellCounts g).1.2).
  pose proof (jobsAlongAxis_range (GuiCpp.m_targetCellCounts g).2).
  assert (1 <= jobsAlongAxis (GuiCpp.m_targetCellCounts g).1.1
               * jobsAlongAxis (GuiCpp.m_targetCellCounts g).1.2 <= 64) by nia.
  nia.
Qed.

(** What [getMcubesJobs] does to the [Gui]: it sets the flag of the warning
    when a count is outside 0..1024 and the flag is not set, and nothing
    else. *)
Lemma getMcubesJobs_gui (g g' : GuiCpp.Gui) (jobs : list GuiCpp.McubesParams)
  (cx cy cz : Z) :
  GuiCpp.m_targetCellCounts g = (cx, cy, cz) ->
  GuiCpp.getMcubesJobs g = Some (jobs, g') ->
  (g' = g \/ g' = GuiCpp.set_didTargetCellCountWarning true g)
  /\ (0 <= cx <= 1024 /\ 0 <= cy <= 1024 /\ 0 <= cz <= 1024 -> g' = g)
  /\ (GuiCpp.m_didTargetCellCountWarning g = true -> g' = g)
  /\ (~ (0 <= cx <= 1024 /\ 0 <= cy <= 1024 /\ 0 <= cz <= 1024) ->
      GuiCpp.m_didTargetCellCountWarning g' = true).
Proof.
  intros Hc. unfold GuiCpp.getMcubesJobs. rewrite Hc.
  rewrite !jobsAlong_clamped. cbn [mbind option_bind]. intros [= _ <-].
  assert (forall v, (glm_clamp v 0 1024 =? v) = true <-> 0 <= v <= 1024) as Hclamp
    by (intros v; rewrite Z.eqb_eq; unfold glm_clamp; lia).
  destruct (glm_clamp cx 0 1024 =? cx) eqn:Ex, (glm_clamp cy 0 1024 =? cy) eqn:Ey,
    (glm_clamp cz 0 1024 =? cz) eqn:Ez, (GuiCpp.m_didTargetCellCountWarning g) eqn:Ew;
    cbn [andb negb];
    repeat match goal with
           | H : (glm_clamp _ 0 1024 =? _) = true |- _ => apply Hclamp in H
           | H : (glm_clamp ?v 0 1024 =? ?v) = false |- _ =>
               assert (~ 0 <= v <= 1024)
                 by (intros Hr; apply Hclamp in Hr; congruence);
               clear H
           end;
    (split; [auto|]); (split; [intros (? & ? & ?); try reflexivity; contradiction|]);
    (split; [intros ?; try reflexivity; discriminate|]);
    intros Hout; try reflexivity; try exact Ew; exfalso; apply Hout; auto.
Qed.

(** [getMcubesJobs] returns, for every setting of the target cell counts
    (negative and huge ones included), one job for each position of a grid
    whose edges are the counts, clamped to 0..1024, divided by 127 and
    rounded, and at least 1: the floating-point division and [roundf] do not
    differ from the exact rounding.  There are between 1 and 512 jobs.  Of
    the [Gui] only the flag of the warning may change: it is set when a count
    is outside 0..1024, and the [Gui] is left as it is when the counts are
    in this range or the flag is set already. *)
Theorem gui_job_list_size (g : GuiCpp.Gui) :
  exists jobs g',
    GuiCpp.getMcubesJobs g = Some (jobs, g')
    /\ frameGui g' = frameGui g
    /\ Z.of_nat (length jobs)
       = jobsAlongAxis (GuiCpp.m_targetCellCounts g).1.1
         * jobsAlongAxis (GuiCpp.m_targetCellCounts g).1.2
         * jobsAlongAxis (GuiCpp.m_targetCellCounts g).2
    /\ 1 <= Z.of_nat (length jobs) <= 512
    /\ (g' = g \/ g' = GuiCpp.set_didTargetCellCountWarning true g)
    /\ (let '(cx, cy, cz) := GuiCpp.m_targetCellCounts g in
        (0 <= cx <= 1024 /\ 0 <= cy <= 1024 /\ 0 <= cz <= 1024 -> g' = g)
        /\ (~ (0 <= cx <= 1024 /\ 0 <= cy <= 1024 /\ 0 <= cz <= 1024) ->
            GuiCpp.m_didTargetCellCountWarning g' = true))
    /\ (GuiCpp.m_didTargetCellCountWarning g = true -> g' = g).
Proof.
  destruct (getMcubesJobs_length g) as (jobs & g' & Hj & Hf & Hlen).
  exists jobs, g'. split; [exact Hj|]. split; [exact Hf|]. split; [exact Hlen|].
  split; [pose proof (guiJobs_bounds g) as Hb; unfold guiJobs in Hb; rewrite Hj in Hb;
          exact Hb|].
  destruct (GuiCpp.m_targetCellCounts g) as [[cx cy] cz] eqn:Hc.
  destruct (getMcubesJobs_gui g g' jobs cx cy cz Hc Hj) as (H1 & H2 & H3 & H4).
  auto.
Qed.

Lemma guiFrame_fits (f : GuiCpp.Gui * ShaderCompiler) : jobsFit (guiFrame f).
Proof.
  unfold jobsFit, guiFrame, fi_jobs. pose proof (guiJobs_bounds (fst f)). lia.
Qed.

Lemma guiFrame_ticks (frames : list (GuiCpp.Gui * ShaderCompiler)) :
  runTicks (map guiFrame frames) <= 512 * Z.of_nat (length frames).
Proof.
  induction frames as [|f frames IH]; [cbn; lia|].
  cbn [map runTicks foldr length]. fold (runTicks (map guiFrame frames)).
  assert (frameTicks (guiFrame f) <= 512); [| lia].
  unfold frameTicks. destruct (m_wantComputeQueue _); [| lia].
  pose proof (effectiveBatchSize_range (fi_gui (guiFrame f))) as HB.
  pose proof (guiJobs_bounds (fst f)) as Hj.
  assert (0 <= batchCountOf (fi_jobs (guiFrame f)) (effectiveBatchSize (fi_gui (guiFrame f)))
          <= Z.of_nat (length (fi_jobs (guiFrame f)))) as Hbc
    by (apply batchCount_bounds; lia).
  change (guiJobs (fst f)) with (fi_jobs (guiFrame f)) in Hj. lia.
Qed.

(** Whatever the state of the GUI is in each frame (batch size, counts,
    queue mode, debug view, equation) and whatever the shader compiler
    answers, the frame loop that takes its job list from [getMcubesJobs]
    does not fail: no assertion fails, no array is indexed out of bounds and
    nothing is divided by zero, for as many frames as the 64-bit clock lasts
    (512 timeline values per frame at most). *)
Theorem frame_loop_runs_on_every_gui_state (imagePipeline : VkPipeline)
  (frames : list (GuiCpp.Gui * ShaderCompiler)) :
  1 + 512 * Z.of_nat (length frames) < 2 ^ 64 ->
  exists st,
    runFrames (map guiFrame frames) (initialGlobals imagePipeline) = Ok st
    /\ s_upcomingTimelineValue st = 1 + runTicks (map guiFrame frames)
    /\ Forall (fun ws => fst ws < snd ws) (computeWaitSignal (vk_calls st)).
Proof.
  intros Hlen.
  assert (Forall jobsFit (map guiFrame frames)) as Hfit.
  { apply Forall_forall. intros x Hx. apply list_elem_of_fmap in Hx as (f & -> & _).
    apply guiFrame_fits. }
  pose proof (guiFrame_ticks frames) as Ht.
  destruct (runFrames_initial imagePipeline (map guiFrame frames) Hfit ltac:(lia))
    as [st (Hrun & Hrtc & _ & Hup)].
  exists st. split; [exact Hrun|]. split; [exact Hup|].
  apply (sched_invariant WaitInv WaitInv_step _ _ Hrtc). constructor.
Qed.

Lemma frame_loop_runs_on_every_gui_state_witness :
  1 + 512 * Z.of_nat (length [(GuiCpp.Gui_new, (fun _ : string => 5) : ShaderCompiler);
                              (GuiCpp.set_batchSize (-3) GuiCpp.Gui_new, fun _ => 0)])
  < 2 ^ 64
  /\ exists st,
       runFrames (map guiFrame [(GuiCpp.Gui_new, (fun _ : string => 5) : ShaderCompiler);
                                (GuiCpp.set_batchSize (-3) GuiCpp.Gui_new, fun _ => 0)])
         (initialGlobals 1) = Ok st
       /\ s_upcomingTimelineValue st = 23.
Proof.
  assert (1 + 512 * Z.of_nat (length [(GuiCpp.Gui_new, (fun _ : string => 5) : ShaderCompiler);
                                      (GuiCpp.set_batchSize (-3) GuiCpp.Gui_new, fun _ => 0)])
          < 2 ^ 64) as Hlen by (vm_compute; reflexivity).
  split; [exact Hlen|].
  destruct (frame_loop_runs_on_every_gui_state 1 _ Hlen) as (st & Hrun & Hup & _).
  exists st. split; [exact Hrun|]. rewrite Hup. vm_compute. reflexivity.
Defined.

Lemma jobsAlongAxis_step (count : Z) :
  64 <= count <= 897 -> jobsAlongAxis (count + 127) = jobsAlongAxis count + 1.
Proof.
  intros H. unfold jobsAlongAxis, glm_clamp.
  replace (Z.min (Z.max (count + 127) 0) 1024) with (count + 127) by lia.
  replace (Z.min (Z.max count 0) 1024) with count by lia.
  replace (2 * (count + 127) + 127) with (2 * count + 127 + 1 * 254) by lia.
  rewrite Z.div_add by lia.
  assert (1 <= (2 * count + 127) / 254) by (apply Z.div_le_lower_bound; lia).
  lia.
Qed.

(** The key [x] adds the cells of one chunk to the target count along x,
    which adds one layer of jobs to the job list (for counts from 64 to 897),
    and the key [X] takes them away again; [X] leaves a count of at most 127
    as it is, so that it does not make a positive count zero or negative. *)
Theorem cell_count_keys_add_and_remove_a_layer (clipboard : option (list ascii))
  (g : GuiCpp.Gui) (cx cy cz : Z) :
  GuiCpp.m_targetCellCounts g = (cx, cy, cz) ->
  1 <= cx <= GuiCpp.INT_MAX - 127 ->
  exists g1 g2 g3,
    GuiCpp.charCallbackImpl (GuiCpp.key "x") clipboard g = Some g1
    /\ GuiCpp.m_targetCellCounts g1 = (cx + 127, cy, cz)
    /\ GuiCpp.charCallbackImpl (GuiCpp.key "X") clipboard g1 = Some g2
    /\ GuiCpp.m_targetCellCounts g2 = (cx, cy, cz)
    /\ GuiCpp.charCallbackImpl (GuiCpp.key "X") clipboard g = Some g3
    /\ 1 <= (GuiCpp.m_targetCellCounts g3).1.1 <= cx
    /\ GuiCpp.m_targetCellCounts g3 = (if cx >? 127 then cx - 127 else cx, cy, cz)
    /\ (cx <= 127 -> GuiCpp.m_targetCellCounts g3 = GuiCpp.m_targetCellCounts g)
    /\ (64 <= cx <= 897 ->
        Z.of_nat (length (guiJobs g1))
        = Z.of_nat (length (guiJobs g)) + jobsAlongAxis cy * jobsAlongAxis cz
        /\ length (guiJobs g2) = length (guiJobs g)).
Proof.
  intros Hc Hcx. unfold GuiCpp.INT_MAX in Hcx.
  assert (forall g0, GuiCpp.charCallbackImpl (GuiCpp.key "x") clipboard g0
                     = (let g := GuiCpp.set_wantOpenEquationHeader true g0 in
                        let '(cx, cy, cz) := GuiCpp.m_targetCellCounts g in
                        cx ← GuiCpp.int_add cx GuiCpp.MCUBES_CHUNK_EDGE_LENGTH_CELLS;
                        Some (GuiCpp.set_targetCellCounts (cx, cy, cz) g)))
    as Hx by reflexivity.
  assert (forall g0, GuiCpp.charCallbackImpl (GuiCpp.key "X") clipboard g0
                     = (let g := GuiCpp.set_wantOpenEquationHeader true g0 in
                        let '(cx, cy, cz) := GuiCpp.m_targetCellCounts g in
                        if cx >? GuiCpp.MCUBES_CHUNK_EDGE_LENGTH_CELLS
                        then cx ← GuiCpp.int_sub cx GuiCpp.MCUBES_CHUNK_EDGE_LENGTH_CELLS;
                             Some (GuiCpp.set_targetCellCounts (cx, cy, cz) g)
                        else Some g))
    as HX by reflexivity.
  change GuiCpp.MCUBES_CHUNK_EDGE_LENGTH_CELLS with 127 in Hx, HX.
  assert (exists g3,
             GuiCpp.charCallbackImpl (GuiCpp.key "X") clipboard g = Some g3
             /\ 1 <= (GuiCpp.m_targetCellCounts g3).1.1 <= cx
             /\ GuiCpp.m_targetCellCounts g3
                = (if cx >? 127 then cx - 127 else cx, cy, cz))
    as (g3 & Hg3 & Hr & Hc3).
  { rewrite HX. cbv zeta.
    cbn [GuiCpp.m_targetCellCounts GuiCpp.set_wantOpenEquationHeader].
    rewrite Hc. destruct (Z.gtb_spec cx 127).
    - unfold GuiCpp.int_sub. rewrite in_int_small by lia. eexists. split; [reflexivity|].
      cbn. split; [lia | reflexivity].
    - eexists. split; [reflexivity|]. cbn. rewrite Hc. cbn. split; [lia | reflexivity]. }
  eexists _, _, g3.
  split; [rewrite Hx; cbv zeta;
          cbn [GuiCpp.m_targetCellCounts GuiCpp.set_wantOpenEquationHeader];
          rewrite Hc; unfold GuiCpp.int_add; rewrite in_int_small by lia;
          reflexivity|].
  split; [reflexivity|].
  split; [rewrite HX; cbv zeta;
          cbn [GuiCpp.m_targetCellCounts GuiCpp.set_wantOpenEquationHeader
               GuiCpp.set_targetCellCounts];
          destruct (Z.gtb_spec (cx + 127) 127); [| lia];
          unfold GuiCpp.int_sub; rewrite in_int_small by lia; reflexivity|].
  split; [cbn [GuiCpp.m_targetCellCounts GuiCpp.set_targetCellCounts]; f_equal; f_equal; lia|].
  split; [exact Hg3|]. split; [exact Hr|]. split; [exact Hc3|].
  split; [intros Hle; rewrite Hc3, Hc; destruct (Z.gtb_spec cx 127); [lia | reflexivity]|].
  intros H64.
  split.
  - rewrite !guiJobs_length.
    cbn [GuiCpp.m_targetCellCounts GuiCpp.set_targetCellCounts fst snd].
    rewrite Hc. cbn [fst snd]. rewrite jobsAlongAxis_step by lia. lia.
  - apply Nat2Z.inj. rewrite !guiJobs_length.
    cbn [GuiCpp.m_targetCellCounts GuiCpp.set_targetCellCounts fst snd].
    rewrite Hc. cbn [fst snd]. replace (cx + 127 - 127) with cx by lia. reflexivity.
Qed.

Lemma cell_count_keys_add_and_remove_a_layer_witness :
  GuiCpp.m_targetCellCounts GuiCpp.Gui_new = (508, 508, 508)
  /\ 1 <= 508 <= GuiCpp.INT_MAX - 127
  /\ exists g1 g2,
       GuiCpp.charCallbackImpl (GuiCpp.key "x") None GuiCpp.Gui_new = Some g1
       /\ GuiCpp.charCallbackImpl (GuiCpp.key "X") None g1 = Some g2
       /\ length (guiJobs GuiCpp.Gui_new) = 64%nat
       /\ length (guiJobs g1) = 80%nat
       /\ length (guiJobs g2) = 64%nat.
Proof.
  assert (GuiCpp.m_targetCellCounts GuiCpp.Gui_new = (508, 508, 508)) as Hc
      by reflexivity.
  assert (1 <= 508 <= GuiCpp.INT_MAX - 127) as Hcx by (unfold GuiCpp.INT_MAX; lia).
  split; [exact Hc|]. split; [exact Hcx|].
  destruct (cell_count_keys_add_and_remove_a_layer None _ _ _ _ Hc Hcx)
    as (g1 & g2 & g3 & Hg1 & _ & Hg2 & _ & _ & _ & _ & _ & Hjobs).
  destruct (Hjobs ltac:(lia)) as [H1 H2].
  assert (length (guiJobs GuiCpp.Gui_new) = 64%nat) as H0 by (vm_compute; reflexivity).
  exists g1, g2. split; [exact Hg1|]. split; [exact Hg2|]. split; [exact H0|].
  split; [| rewrite H2; exact H0].
  apply Nat2Z.inj. rewrite H1, H0. vm_compute. reflexivity.
Defined.

(** ** The text handed to the shader compiler *)

Lemma replaceNewlines_app (a b : string) :
  replaceNewlines (a ++ b) = (replaceNewlines a ++ replaceNewlines b)%string.
Proof.
  induction a as [|c a IH]; [reflexivity|].
  cbn [String.append replaceNewlines]. rewrite IH. reflexivity.
Qed.

Lemma replaceNewlines_no_newline (s : string) :
  newline ∉ list_ascii_of_string (replaceNewlines s).
Proof.
  induction s as [|c s IH]; cbn [replaceNewlines list_ascii_of_string].
  - apply not_elem_of_nil.
  - apply not_elem_of_cons. split; [| exact IH].
    destruct (Ascii.eqb_spec c newline) as [-> | Hne]; [discriminate | congruence].
Qed.

Lemma replaceNewlines_lineFeedsReplaced (s : string) :
  lineFeedsReplaced s (replaceNewlines s).
Proof.
  split.
  - induction s as [|c s IH]; [reflexivity|]. cbn. rewrite IH. reflexivity.
  - induction s as [|c s IH]; intros i x Hi; [destruct i; discriminate Hi|].
    destruct i as [|i]; cbn in Hi |- *.
    + injection Hi as <-. reflexivity.
    + exact (IH i x Hi).
Qed.

Lemma defineText_eq (pEquation : string) :
  (replaceNewlines ("#define EQUATION(x, y, z, t) " ++ pEquation)
   ++ String newline EmptyString)%string
  = (equationDefine ++ replaceNewlines pEquation ++ String newline EmptyString)%string.
Proof.
  rewrite replaceNewlines_app.
  change (replaceNewlines "#define EQUATION(x, y, z, t) ") with equationDefine.
  generalize equationDefine as d. intros d.
  induction d as [|c d IH]; [reflexivity|].
  cbn [String.append]. rewrite IH. reflexivity.
Qed.

Section ShaderText.

Context {McubesParams : Type}.
Local Abbreviation State := (Globals McubesParams).

Lemma computeReplaceEquation_text (pEquation : string) :
  endsWithOnlyLineFeed
    (replaceNewlines ("#define EQUATION(x, y, z, t) " ++ pEquation)
     ++ String newline EmptyString).
Proof.
  exists (replaceNewlines pEquation). split.
  - apply defineText_eq.
  - apply replaceNewlines_no_newline.
Qed.

Lemma isAllocate_compiles (allocs : list (VkCall McubesParams)) :
  Forall isAllocate allocs -> Forall compilesDefine allocs.
Proof.
  intros H. eapply Forall_impl; [exact H|].
  intros c Hc. destruct c; try exact I. destruct Hc.
Qed.

Lemma shaderText_step (st st' : State) :
  frame_step st st' ->
  Forall compilesDefine (vk_calls st) ->
  Forall compilesDefine (vk_calls st').
Proof.
  intros Hstep HF.
  destruct Hstep as
    [ st | st want | st compiler pEquation | st Hq | st Hq
    | st st' paramsList B batch loc loc' HC Hwrap Hw HB HMM Hb Hq E
    | s s' paramsList B batch HB HMM Hb Hq E ].
  - exact HF.
  - state_simpl. apply Forall_app. split; [exact HF|]. repeat constructor.
  - destruct (computeReplaceEquation_cases compiler pEquation (call vkDeviceWaitIdle st))
      as [[_ Heq] | [_ Heq]]; rewrite Heq; state_simpl.
    + repeat (apply Forall_app; split); try exact HF; repeat constructor.
      apply computeReplaceEquation_text.
    + repeat (apply Forall_app; split); try exact HF; repeat constructor.
      apply computeReplaceEquation_text.
  - state_simpl. repeat (apply Forall_app; split); try exact HF; repeat constructor.
  - state_simpl. repeat (apply Forall_app; split); try exact HF; repeat constructor.
  - destruct E as (_ & _ & _ & _ & _ & _ & _ & _
                   & (allocs & hC & hG & boxes & colors & Hallocs & Hcalls) & _).
    rewrite Hcalls. repeat (apply Forall_app; split); try exact HF.
    + apply isAllocate_compiles, Hallocs.
    + repeat constructor.
  - destruct E as (_ & _ & _ & _ & _ & _ & _ & _ & _
                   & (allocs & hG & boxes & colors & Hallocs & Hcalls) & _).
    rewrite Hcalls. repeat (apply Forall_app; split); try exact HF.
    + apply isAllocate_compiles, Hallocs.
    + repeat constructor.
Qed.

End ShaderText.

(** In every run from the initial state, every text handed to the shader
    compiler is the define of [EQUATION], a body and one line feed, and the
    body holds no line feed: the only line feed of the text is its last
    character.  The body that [computeReplaceEquation] hands on is the
    equation with each line feed replaced by a space; every other character
    of the equation, a carriage return or a backslash included, is handed on
    as it is. *)
Theorem shader_text_ends_with_its_only_line_feed {McubesParams : Type}
  (imagePipeline : VkPipeline) (inputs : list (FrameInput McubesParams)) :
  Forall jobsFit inputs ->
  1 + runTicks inputs < 2 ^ 64 ->
  (exists st,
      runFrames inputs (initialGlobals imagePipeline) = Ok st
      /\ Forall compilesDefine (vk_calls st))
  /\ (forall (compiler : ShaderCompiler) (pEquation : string)
             (st : Globals McubesParams),
        exists body rest,
          vk_calls (snd (computeReplaceEquation compiler pEquation st))
          = vk_calls st
            ++ createShaderModule
                 (equationDefine ++ body ++ String newline EmptyString)
               :: rest
          /\ lineFeedsReplaced pEquation body
          /\ Forall isPlainCall rest).
Proof.
  intros Hfit Hwrap. split.
  - destruct (runFrames_initial_steps imagePipeline inputs Hfit Hwrap)
      as [st (Hrun & Hrtc)].
    exists st. split; [exact Hrun|].
    apply (frame_invariant (fun s => Forall compilesDefine (vk_calls s))
             shaderText_step _ _ Hrtc).
    constructor.
  - intros compiler pEquation st. exists (replaceNewlines pEquation).
    destruct (computeReplaceEquation_cases compiler pEquation st)
      as [[_ Heq] | [_ Heq]]; rewrite Heq, defineText_eq; cbn [snd].
    + exists []. split; [reflexivity|].
      split; [apply replaceNewlines_lineFeedsReplaced | constructor].
    + eexists. split; [state_simpl; reflexivity|].
      split; [apply replaceNewlines_lineFeedsReplaced | repeat constructor].
Qed.

Lemma shader_text_ends_with_its_only_line_feed_witness :
  Forall jobsFit [exampleTwoLineFrame (fun _ => 40); exampleReplaceFrame 8 (fun _ => 0)]
  /\ 1 + runTicks [exampleTwoLineFrame (fun _ => 40); exampleReplaceFrame 8 (fun _ => 0)]
     < 2 ^ 64
  /\ (exists st,
        runFrames [exampleTwoLineFrame (fun _ => 40); exampleReplaceFrame 8 (fun _ => 0)]
          (initialGlobals 1) = Ok st
        /\ Forall compilesDefine (vk_calls st)
        /\ vk_calls st !! 1%nat
           = Some (createShaderModule
                     ("#define EQUATION(x, y, z, t) x + y"
                      ++ String newline EmptyString)))
  /\ (exists body rest,
        vk_calls (snd (computeReplaceEquation (fun _ => 0) exampleCarriageReturnEquation
                         (initialGlobals (McubesParams := nat) 1)))
        = createShaderModule (equationDefine ++ body ++ String newline EmptyString)
          :: rest
        /\ lineFeedsReplaced exampleCarriageReturnEquation body)
  /\ head (vk_calls (snd (computeReplaceEquation (fun _ => 0)
                            exampleCarriageReturnEquation
                            (initialGlobals (McubesParams := nat) 1))))
     = Some (createShaderModule
               (equationDefine ++ exampleCarriageReturnEquation
                ++ String newline EmptyString)).
Proof.
  assert (Forall jobsFit
            [exampleTwoLineFrame (fun _ => 40); exampleReplaceFrame 8 (fun _ => 0)])
    as Hfit by (repeat constructor; vm_compute; discriminate).
  assert (1 + runTicks
                [exampleTwoLineFrame (fun _ => 40); exampleReplaceFrame 8 (fun _ => 0)]
          < 2 ^ 64) as Hwrap by (vm_compute; reflexivity).
  split; [exact Hfit|]. split; [exact Hwrap|].
  destruct (shader_text_ends_with_its_only_line_feed 1 _ Hfit Hwrap)
    as ((st & Hrun & HF) & Hbody).
  split; [| split].
  - exists st. split; [exact Hrun|]. split; [exact HF|].
    vm_compute in Hrun. injection Hrun as <-. reflexivity.
  - destruct (Hbody (fun _ => 0) exampleCarriageReturnEquation (initialGlobals 1))
      as (body & rest & Hcalls & Hrep & _).
    exists body, rest. split; [exact Hcalls | exact Hrep].
  - reflexivity.
Defined.

(** ** Debug colours *)

Lemma foldl_snoc_map {A B : Type} (f : A -> B) (l : list A) :
  forall r, foldl (fun r a => r ++ [f a]) r l = r ++ (f <$> l).
Proof.
  induction l as [|a l IH]; intros r; cbn [foldl fmap list_fmap].
  - rewrite app_nil_r. reflexivity.
  - rewrite IH, <- app_assoc. reflexivity.
Qed.

Lemma chunkColor_inj (first p q : Z) :
  0 <= p < MCUBES_CHUNK_COUNT -> 0 <= q < MCUBES_CHUNK_COUNT ->
  chunkColor first p = chunkColor first q -> p = q.
Proof.
  unfold chunkColor, MCUBES_CHUNK_COUNT. intros Hp Hq H.
  injection H as Hm Hd.
  assert ((p - first) mod 12 = (q - first) mod 12) as Hrel.
  { rewrite (Z.div_mod ((p - first) mod 12) 5), (Z.div_mod ((q - first) mod 12) 5) by lia.
    rewrite Hm, Hd. reflexivity. }
  clear Hm Hd.
  pose proof (Z.div_mod (p - first) 12 ltac:(lia)) as H1.
  pose proof (Z.div_mod (q - first) 12 ltac:(lia)) as H2.
  pose proof (Z.mod_pos_bound (q - first) 12 ltac:(lia)) as H3.
  assert (p - q = 12 * ((p - first) / 12 - (q - first) / 12)) as Hd by lia.
  lia.
Qed.

Lemma to_int32_small (z : Z) : - 2 ^ 31 <= z < 2 ^ 31 -> to_int32 z = z.
Proof. intros H. unfold to_int32. rewrite Z.mod_small; lia. Qed.

Lemma makeDebugColors_chunkIndex (batchNumber firstChunkUsed chunkCount : Z)
  (chunkPointerArray : CArray Z) (slots : list Z) :
  chunkCount = Z.of_nat (length slots) ->
  take (length slots) chunkPointerArray = Some <$> slots ->
  Forall (fun p => 0 <= p < MCUBES_CHUNK_COUNT) slots ->
  0 <= firstChunkUsed < MCUBES_CHUNK_COUNT ->
  makeDebugColors chunkDebugViewChunkIndex batchNumber firstChunkUsed chunkCount
    chunkPointerArray
  = Ok (chunkColor firstChunkUsed <$> slots).
Proof.
  intros Hc Htake Hrange Hfirst.
  unfold makeDebugColors.
  change (chunkDebugViewChunkIndex =? chunkDebugViewBatch) with false.
  change (chunkDebugViewChunkIndex =? chunkDebugViewChunkIndex) with true.
  cbv iota. unfold for_range.
  erewrite (for_range_read chunkPointerArray
              (fun chunkIndex result =>
                 _ <- assert (chunkIndex <? MCUBES_CHUNK_COUNT) ;;
                 let relativeChunkIndex :=
                   to_int32 (to_int32 chunkIndex - to_int32 firstChunkUsed) in
                 let relativeChunkIndex :=
                   to_int32 (relativeChunkIndex
                             + (if relativeChunkIndex <? 0 then MCUBES_CHUNK_COUNT else 0)) in
                 Ok (result ++ [ChunkColor (Z.rem relativeChunkIndex 5)
                                           (Z.quot relativeChunkIndex 5)]))
              _ 0 slots).
  - erewrite foldM_Ok
      with (P := fun p => 0 <= p < MCUBES_CHUNK_COUNT)
           (h := fun p r => r ++ [chunkColor firstChunkUsed p]);
      [rewrite foldl_snoc_map; reflexivity | | exact Hrange].
    intros p r Hp. cbv beta.
    destruct (Z.ltb_spec p MCUBES_CHUNK_COUNT); [| lia].
    cbn [assert bind]. cbv zeta. unfold chunkColor. cbv zeta.
    unfold MCUBES_CHUNK_COUNT in *.
    rewrite !(to_int32_small p), !(to_int32_small firstChunkUsed),
      (to_int32_small (p - firstChunkUsed)) by lia.
    rewrite to_int32_small by (destruct (p - firstChunkUsed <? 0); lia).
    assert (p - firstChunkUsed + (if p - firstChunkUsed <? 0 then 12 else 0)
            = (p - firstChunkUsed) mod 12) as ->.
    { destruct (Z.ltb_spec (p - firstChunkUsed) 0).
      - apply (Z.mod_unique _ _ (-1)); lia.
      - rewrite Z.add_0_r. symmetry. apply Z.mod_small. lia. }
    pose proof (Z.mod_pos_bound (p - firstChunkUsed) 12 ltac:(lia)).
    rewrite Z.rem_mod_nonneg, Z.quot_div_nonneg by lia. reflexivity.
  - lia.
  - exact Htake.
  - intros p r. rewrite Z.sub_0_r. reflexivity.
Qed.

(** In the view that colours by chunk index, [makeDebugColors] gives each
    chunk of the batch the colour that belongs to its position in the ring
    counted from the first chunk of the frame.  The colour of a chunk is the
    same in every batch of the frame, the first chunk of the frame has the
    exponents 0 and 0 (white), and two different chunks of the ring never
    have the same colour. *)
Theorem chunk_index_colors_tell_chunks_apart (batchNumber firstChunkUsed chunkCount : Z)
  (chunkPointerArray : CArray Z) (slots : list Z) :
  chunkCount = Z.of_nat (length slots) ->
  take (length slots) chunkPointerArray = Some <$> slots ->
  Forall (fun p => 0 <= p < MCUBES_CHUNK_COUNT) slots ->
  0 <= firstChunkUsed < MCUBES_CHUNK_COUNT ->
  makeDebugColors chunkDebugViewChunkIndex batchNumber firstChunkUsed chunkCount
    chunkPointerArray
  = Ok (chunkColor firstChunkUsed <$> slots)
  /\ chunkColor firstChunkUsed firstChunkUsed = ChunkColor 0 0
  /\ (forall p q,
         0 <= p < MCUBES_CHUNK_COUNT -> 0 <= q < MCUBES_CHUNK_COUNT ->
         chunkColor firstChunkUsed p = chunkColor firstChunkUsed q -> p = q)
  /\ (forall p, exists relMod5 relDiv5,
         chunkColor firstChunkUsed p = ChunkColor relMod5 relDiv5
         /\ 0 <= relMod5 <= 4 /\ 0 <= relDiv5 <= 2).
Proof.
  intros Hc Htake Hrange Hfirst. split; [| split; [| split]].
  - apply makeDebugColors_chunkIndex; assumption.
  - unfold chunkColor. rewrite Z.sub_diag. reflexivity.
  - intros p q. apply chunkColor_inj.
  - intros p. unfold chunkColor, MCUBES_CHUNK_COUNT. eexists _, _. split; [reflexivity|].
    pose proof (Z.mod_pos_bound (p - firstChunkUsed) 12 ltac:(lia)).
    pose proof (Z.mod_pos_bound ((p - firstChunkUsed) mod 12) 5 ltac:(lia)).
    split; [lia|]. split; [apply Z.div_pos; lia|].
    apply Z.lt_succ_r. apply Z.div_lt_upper_bound; lia.
Qed.

Lemma chunk_index_colors_tell_chunks_apart_witness :
  4 = Z.of_nat (length [10; 11; 0; 1])
  /\ take (length [10; 11; 0; 1]) [Some 10; Some 11; Some 0; Some 1; None; None]
     = Some <$> [10; 11; 0; 1]
  /\ Forall (fun p => 0 <= p < MCUBES_CHUNK_COUNT) [10; 11; 0; 1]
  /\ 0 <= 7 < MCUBES_CHUNK_COUNT
  /\ makeDebugColors chunkDebugViewChunkIndex 1 7 4
       [Some 10; Some 11; Some 0; Some 1; None; None]
     = Ok [ChunkColor 3 0; ChunkColor 4 0; ChunkColor 0 1; ChunkColor 1 1].
Proof.
  assert (Forall (fun p => 0 <= p < MCUBES_CHUNK_COUNT) [10; 11; 0; 1]) as Hr
    by (unfold MCUBES_CHUNK_COUNT; repeat constructor; lia).
  assert (0 <= 7 < MCUBES_CHUNK_COUNT) as Hf by (unfold MCUBES_CHUNK_COUNT; lia).
  split; [reflexivity|]. split; [reflexivity|]. split; [exact Hr|]. split; [exact Hf|].
  exact (proj1 (chunk_index_colors_tell_chunks_apart 1 7 4
                  [Some 10; Some 11; Some 0; Some 1; None; None] [10; 11; 0; 1]
                  eq_refl eq_refl Hr Hf)).
Defined.

(** ** Command buffers *)

(** A loop keeps what its body keeps, whenever it returns. *)
Lemma for_loop_inv {T : Type} (I : Z -> T -> Prop) (body : Z -> T -> Outcome T) (n : nat) :
  forall lo s s',
    (forall i s s', lo <= i < lo + Z.of_nat n -> I i s -> body i s = Ok s' -> I (i + 1) s') ->
    I lo s ->
    for_loop n lo body s = Ok s' ->
    I (lo + Z.of_nat n) s'.
Proof.
  induction n as [|n IH]; intros lo s s' Hstep HI Hrun.
  - cbn in Hrun. injection Hrun as <-. rewrite Z.add_0_r. exact HI.
  - cbn [for_loop] in Hrun. destruct (body lo s) as [s1|] eqn:Hb; [| discriminate Hrun].
    cbn [bind] in Hrun.
    replace (lo + Z.of_nat (S n)) with (lo + 1 + Z.of_nat n) by lia.
    apply (IH (lo + 1) s1 s'); [| | exact Hrun].
    + intros i s2 s3 Hi. apply Hstep. lia.
    + apply (Hstep lo s s1); [lia | exact HI | exact Hb].
Qed.

Lemma land_1_cases (z : Z) : Z.land z 1 = 0 \/ Z.land z 1 = 1.
Proof.
  assert (Z.land z 1 = z mod 2) as ->
    by (change 1 with (Z.ones 1); rewrite Z.land_ones by lia; reflexivity).
  pose proof (Z.mod_pos_bound z 2 ltac:(lia)). lia.
Qed.

Section CommandBuffers.

Context {McubesParams : Type}.
Local Abbreviation State := (Globals McubesParams).

Lemma VkCommandPool_eqb_spec (a b : VkCommandPool) :
  reflect (a = b) (VkCommandPool_eqb a b).
Proof.
  destruct a as [i | i], b as [j | j]; cbn; try (constructor; discriminate).
  - destruct (Z.eqb_spec i j); constructor; congruence.
  - destruct (Z.eqb_spec i j); constructor; congruence.
Qed.

Lemma submittedSinceReset_snoc (pool : VkCommandPool) (calls : list (VkCall McubesParams))
  (c : VkCall McubesParams) :
  submittedSinceReset pool (calls ++ [c])
  = match c with
    | vkResetCommandPool p =>
        if VkCommandPool_eqb p pool then [] else submittedSinceReset pool calls
    | vkQueueSubmit _ submit _ => submittedSinceReset pool calls ++ [commandBuffer submit]
    | _ => submittedSinceReset pool calls
    end.
Proof. unfold submittedSinceReset. rewrite foldl_app. reflexivity. Qed.

Lemma poolCmdBufs_set (pool pool' : VkCommandPool) (bufs : list VkCommandBuffer)
  (st : State) :
  framePool pool -> framePool pool' ->
  poolCmdBufs (set_poolCmdBufs pool bufs st) pool'
  = if VkCommandPool_eqb pool pool' then bufs else poolCmdBufs st pool'.
Proof.
  intros Hp Hp'.
  destruct pool as [i | i], pool' as [j | j]; cbn in Hp, Hp' |- *;
    unfold at2, upd2;
    destruct Hp as [-> | ->], Hp' as [-> | ->]; reflexivity.
Qed.

Lemma CmdBufInv_same (a b : State) : sameCmdBufs a b -> CmdBufInv a -> CmdBufInv b.
Proof.
  intros (Hc & Hn & Hcb & Hgb & _) (H1 & H2 & H3 & H4).
  assert (forall pool, poolCmdBufs b pool = poolCmdBufs a pool) as Hp
    by (intros [i | i]; cbn; congruence).
  unfold CmdBufInv. rewrite <- Hc, <- Hn.
  split; [exact H1|]. split; [| split].
  - intros pool h. rewrite Hp. apply H2.
  - intros pool h. rewrite Hp. apply H3.
  - intros pool. rewrite Hp. apply H4.
Qed.

Lemma InFrame_same (pools : list VkCommandPool) (idx : VkCommandPool -> Z) (a b : State) :
  sameCmdBufs a b -> InFrame pools idx a -> InFrame pools idx b.
Proof.
  intros Hs (H1 & H2 & H3).
  assert (forall pool, poolCmdBufs b pool = poolCmdBufs a pool) as Hp
    by (destruct Hs as (_ & _ & Hcb & Hgb & _); intros [i | i]; cbn; congruence).
  split; [exact (CmdBufInv_same a b Hs H1)|].
  destruct Hs as (Hc & _). split.
  - intros pool. rewrite Hp. apply H2.
  - intros pool h. rewrite <- Hc. intros Hin Hh.
    destruct (H3 pool h Hin Hh) as (pool' & Hin' & Hh').
    exists pool'. rewrite Hp. auto.
Qed.

Lemma InFrame_idx (pools : list VkCommandPool) (idx idx' : VkCommandPool -> Z) (st : State) :
  (forall pool, pool ∈ pools -> idx pool = idx' pool) ->
  InFrame pools idx st -> InFrame pools idx' st.
Proof.
  intros Hi (H1 & H2 & H3). split; [exact H1|]. split.
  - intros pool Hin. rewrite <- (Hi pool Hin). apply H2, Hin.
  - intros pool h Hin Hh. destruct (H3 pool h Hin Hh) as (pool' & Hin' & Hh').
    exists pool'. rewrite <- (Hi pool' Hin'). auto.
Qed.

(** A handle is in the list of one pool only. *)
Lemma CmdBufInv_disjoint (st : State) (pool pool' : VkCommandPool) (h : VkCommandBuffer) :
  CmdBufInv st -> framePool pool -> framePool pool' ->
  h ∈ poolCmdBufs st pool -> h ∈ poolCmdBufs st pool' -> pool = pool'.
Proof.
  intros (H1 & _ & H3 & _) Hp Hp' Hh Hh'.
  apply (H3 _ _ Hp) in Hh. apply (H3 _ _ Hp') in Hh'.
  apply list_elem_of_lookup in Hh as [i Hi]. apply list_elem_of_lookup in Hh' as [j Hj].
  destruct (Nat.lt_trichotomy i j) as [Hlt | [-> | Hlt]].
  - exfalso. apply (H1 j _ Hj pool). apply list_elem_of_lookup. exists i.
    rewrite lookup_take_lt by exact Hlt. exact Hi.
  - congruence.
  - exfalso. apply (H1 i _ Hi pool'). apply list_elem_of_lookup. exists j.
    rewrite lookup_take_lt by exact Hlt. exact Hj.
Qed.

Lemma upd2_at2 {A : Type} (p : A * A) (i : Z) : upd2 p i (at2 p i) = p.
Proof. unfold upd2, at2. destruct p, (i =? 0); reflexivity. Qed.

Lemma set_poolCmdBufs_same (pool : VkCommandPool) (bufs : list VkCommandBuffer)
  (st : State) :
  sameCmdBufs (set_poolCmdBufs pool (poolCmdBufs st pool) st) st.
Proof.
  destruct pool as [i | i]; unfold sameCmdBufs; cbn; rewrite upd2_at2; auto.
Qed.

Lemma lookup_default_Some {A : Type} (l : list A) (i : nat) (d x : A) :
  l !! i = Some x -> l !! i = Some (default d (l !! i)).
Proof. intros H. rewrite H. reflexivity. Qed.

(** Calls that neither allocate nor submit keep the rule. *)
Lemma CmdBufInv_host (st st' : State) (extra : list (VkCall McubesParams)) :
  vk_calls st' = vk_calls st ++ extra ->
  Forall (fun c => (forall pool h, c <> vkAllocateCommandBuffers pool h)
                   /\ (forall q s f, c <> vkQueueSubmit q s f)) extra ->
  vk_nextHandle st <= vk_nextHandle st' ->
  s_frameComputeCmdBufs st' = s_frameComputeCmdBufs st ->
  s_frameGraphicsCmdBufs st' = s_frameGraphicsCmdBufs st ->
  CmdBufInv st -> CmdBufInv st'.
Proof.
  intros Hc Hextra Hn Hcb Hgb (H1 & H2 & H3 & H4).
  assert (forall pool, poolCmdBufs st' pool = poolCmdBufs st pool) as Hp
    by (intros [i | i]; cbn; congruence).
  assert (forall pool h, vkAllocateCommandBuffers pool h ∈ vk_calls st' ->
                         vkAllocateCommandBuffers pool h ∈ vk_calls st) as Hold.
  { intros pool h Hin. rewrite Hc in Hin. apply elem_of_app in Hin as [Hin | Hin]; [exact Hin|].
    exfalso. rewrite Forall_forall in Hextra.
    exact (proj1 (Hextra _ Hin) pool h eq_refl). }
  split; [| split; [| split]].
  - rewrite Hc. apply eachCall_app; [exact H1|].
    eapply Forall_impl; [exact Hextra|]. intros c [Ha Hs] pre.
    destruct c; try exact I.
    + exfalso. exact (Ha _ _ eq_refl).
    + exfalso. exact (Hs _ _ _ eq_refl).
  - intros pool h Hin. rewrite Hp. destruct (H2 pool h (Hold pool h Hin)) as (? & ? & ?).
    split; [assumption|]. split; [assumption | lia].
  - intros pool h Hpool. rewrite Hp, Hc. intros Hh. apply elem_of_app. left.
    exact (H3 pool h Hpool Hh).
  - intros pool. rewrite Hp. apply H4.
Qed.

(** After the resets a frame starts with, no command buffer of the pools
    that were reset has been taken. *)
Lemma InFrame_begin (pools : list VkCommandPool) (st st' : State)
  (extra : list (VkCall McubesParams)) :
  vk_calls st' = vk_calls st ++ extra ->
  Forall (fun c => (forall pool h, c <> vkAllocateCommandBuffers pool h)
                   /\ (forall q s f, c <> vkQueueSubmit q s f)) extra ->
  vk_nextHandle st' = vk_nextHandle st ->
  s_frameComputeCmdBufs st' = s_frameComputeCmdBufs st ->
  s_frameGraphicsCmdBufs st' = s_frameGraphicsCmdBufs st ->
  (forall pool, pool ∈ pools ->
                framePool pool /\ submittedSinceReset pool (vk_calls st ++ extra) = []) ->
  CmdBufInv st -> InFrame pools (fun _ => 0) st'.
Proof.
  intros Hc Hextra Hn Hcb Hgb Hpools HI.
  split; [apply (CmdBufInv_host st st' extra); auto; lia|]. split.
  - intros pool Hin. split; [apply Hpools, Hin | lia].
  - intros pool h Hin Hh. rewrite Hc, (proj2 (Hpools pool Hin)) in Hh.
    apply elem_of_nil in Hh. destruct Hh.
Qed.

(** Taking the next command buffer of a pool: the one at the index, or a
    new one that is put at the index. *)
Lemma acquireCommandBuffer_InFrame (pools : list VkCommandPool) (idx : VkCommandPool -> Z)
  (pool : VkCommandPool) (st st1 : State) (h : VkCommandBuffer)
  (bufs' : list VkCommandBuffer) :
  InFrame pools idx st ->
  pool ∈ pools ->
  acquireCommandBuffer pool (poolCmdBufs st pool) (idx pool) st = (h, bufs', st1) ->
  InFrame pools idx (set_poolCmdBufs pool bufs' st1)
  /\ bufs' !! Z.to_nat (idx pool) = Some h
  /\ g_frameNumber st1 = g_frameNumber st.
Proof.
  intros (HI & Hidx & Hsub) Hin. unfold acquireCommandBuffer.
  destruct (Hidx pool Hin) as [Hpool Hk].
  destruct (Z.ltb_spec (idx pool) (Z.of_nat (length (poolCmdBufs st pool)))) as [Hlt | Hge];
    intros [= <- <- <-].
  - split; [| split; [| reflexivity]].
    + apply (InFrame_same pools idx st).
      * destruct (set_poolCmdBufs_same pool [] st) as (?&?&?&?&?).
        unfold sameCmdBufs. auto.
      * split; [exact HI|]. split; assumption.
    + destruct (lookup_lt_is_Some_2 (poolCmdBufs st pool) (Z.to_nat (idx pool))
                  ltac:(lia)) as [x Hx].
      exact (lookup_default_Some _ _ _ _ Hx).
  - assert (idx pool = Z.of_nat (length (poolCmdBufs st pool))) as Hlen by lia.
    set (h := vk_nextHandle st).
    set (bufs := poolCmdBufs st pool) in *.
    set (S := set_poolCmdBufs pool (bufs ++ [h])
                (call (vkAllocateCommandBuffers pool h) (set_nextHandle (h + 1) st))).
    destruct HI as (H1 & H2 & H3 & H4).
    assert (vk_calls S = vk_calls st ++ [vkAllocateCommandBuffers pool h]) as Hcalls
      by (subst S; destruct pool; reflexivity).
    assert (vk_nextHandle S = h + 1) as Hnext by (subst S; destruct pool; reflexivity).
    assert (forall pool', framePool pool' ->
              poolCmdBufs S pool'
              = if VkCommandPool_eqb pool pool' then bufs ++ [h] else poolCmdBufs st pool')
      as Hbufs.
    { intros pool' Hp'. subst S. rewrite poolCmdBufs_set by assumption.
      destruct (VkCommandPool_eqb pool pool'); [reflexivity|].
      destruct pool'; reflexivity. }
    assert (h ∉ bufs) as Hfresh.
    { intros Hh. apply (H3 pool h Hpool) in Hh. apply H2 in Hh. subst h. lia. }
    assert (forall pool' x, framePool pool' -> x ∈ poolCmdBufs st pool' ->
                            x ∈ poolCmdBufs S pool') as Hmono.
    { intros pool' x Hp' Hx. rewrite Hbufs by exact Hp'.
      destruct (VkCommandPool_eqb_spec pool pool') as [<- | _]; [| exact Hx].
      apply elem_of_app. left. exact Hx. }
    split; [| split; [| reflexivity]].
    + split; [split; [| split; [| split]] | split].
      * rewrite Hcalls. apply eachCall_snoc; [exact H1|].
        intros pool' Hx. apply H2 in Hx. subst h. lia.
      * intros pool' x Hx. rewrite Hcalls in Hx. rewrite Hnext.
        apply elem_of_app in Hx as [Hx | Hx].
        -- destruct (H2 pool' x Hx) as (Hp' & Hx' & Hlt).
           split; [exact Hp'|]. split; [apply Hmono; assumption | subst h; lia].
        -- apply list_elem_of_singleton in Hx. injection Hx as -> ->.
           split; [exact Hpool|]. split; [| lia].
           rewrite Hbufs by exact Hpool.
           destruct (VkCommandPool_eqb_spec pool pool) as [_ | Hne]; [| congruence].
           apply elem_of_app. right. apply list_elem_of_singleton. reflexivity.
      * intros pool' x Hp' Hx. rewrite Hcalls. rewrite Hbufs in Hx by exact Hp'.
        apply elem_of_app.
        destruct (VkCommandPool_eqb_spec pool pool') as [<- | _].
        -- apply elem_of_app in Hx as [Hx | Hx]; [left; apply H3; assumption|].
           right. apply list_elem_of_singleton in Hx. subst x.
           apply list_elem_of_singleton. reflexivity.
        -- left. apply H3; assumption.
      * intros pool' Hp'. rewrite Hbufs by exact Hp'.
        destruct (VkCommandPool_eqb_spec pool pool') as [<- | _]; [| apply H4, Hp'].
        apply NoDup_app. split; [apply H4, Hpool|]. split; [| apply NoDup_singleton].
        intros x Hx Hx'. apply list_elem_of_singleton in Hx'. subst x. exact (Hfresh Hx).
      * intros pool' Hin'. destruct (Hidx pool' Hin') as [Hp' Hk'].
        split; [exact Hp'|]. rewrite Hbufs by exact Hp'.
        destruct (VkCommandPool_eqb_spec pool pool') as [<- | _]; [| exact Hk'].
        rewrite length_app. cbn. lia.
      * intros pool' x Hin' Hx. rewrite Hcalls, submittedSinceReset_snoc in Hx.
        destruct (Hsub pool' x Hin' Hx) as (pool'' & Hin'' & Hx'').
        exists pool''. split; [exact Hin''|].
        destruct (Hidx pool'' Hin'') as [Hp'' Hk''].
        rewrite Hbufs by exact Hp''.
        destruct (VkCommandPool_eqb_spec pool pool'') as [<- | _]; [| exact Hx''].
        rewrite take_app_le by (fold bufs in Hk''; lia). exact Hx''.
    + rewrite Hlen, Nat2Z.id. apply list_lookup_middle. reflexivity.
Qed.

(** Submitting the command buffer at the index of a pool. *)
Lemma submit_InFrame (pools : list VkCommandPool) (idx : VkCommandPool -> Z)
  (pool : VkCommandPool) (st : State) (submit : VkSubmitInfo McubesParams)
  (fence : option VkFence) :
  InFrame pools idx st ->
  pool ∈ pools ->
  poolCmdBufs st pool !! Z.to_nat (idx pool) = Some (commandBuffer submit) ->
  InFrame pools (fun p => if VkCommandPool_eqb p pool then idx pool + 1 else idx p)
    (call (vkQueueSubmit (poolQueue pool) submit fence) st).
Proof.
  intros (HI & Hidx & Hsub) Hin Hh.
  destruct (Hidx pool Hin) as [Hpool Hk].
  destruct HI as (H1 & H2 & H3 & H4).
  set (h := commandBuffer submit) in *.
  assert (h ∈ poolCmdBufs st pool) as Hmem by (apply list_elem_of_lookup; eauto).
  assert (Z.to_nat (idx pool) < length (poolCmdBufs st pool))%nat as Hlt
    by (apply lookup_lt_Some in Hh; exact Hh).
  split; [split; [| split; [| split]] | split].
  - cbn. apply eachCall_snoc; [exact H1|]. exists pool.
    split; [apply H3; assumption|]. split; [reflexivity|].
    intros Hx. destruct (Hsub pool h Hin Hx) as (pool' & Hin' & Hx').
    destruct (Hidx pool' Hin') as [Hp' _].
    apply elem_of_take in Hx' as (j & Hj & Hjk).
    assert (pool = pool') as <-.
    { apply (CmdBufInv_disjoint st pool pool' h); try assumption.
      - split; [| split; [| split]]; assumption.
      - apply list_elem_of_lookup. eauto. }
    pose proof (NoDup_lookup _ _ _ _ (H4 pool Hpool) Hj Hh). lia.
  - intros pool' x Hx. cbn in Hx.
    apply elem_of_app in Hx as [Hx | Hx]; [exact (H2 pool' x Hx)|].
    apply list_elem_of_singleton in Hx. discriminate Hx.
  - intros pool' x Hp' Hx. cbn. apply elem_of_app. left.
    apply H3; [exact Hp'|]. destruct pool'; exact Hx.
  - intros pool' Hp'. destruct pool'; exact (H4 _ Hp').
  - intros pool' Hin'. destruct (Hidx pool' Hin') as [Hp' Hk'].
    split; [exact Hp'|].
    assert (poolCmdBufs (call (vkQueueSubmit (poolQueue pool) submit fence) st) pool'
            = poolCmdBufs st pool') as -> by (destruct pool'; reflexivity).
    destruct (VkCommandPool_eqb_spec pool' pool) as [-> | _]; lia.
  - intros pool' x Hin' Hx. cbn [call set_calls vk_calls] in Hx.
    rewrite submittedSinceReset_snoc in Hx.
    assert (forall q, poolCmdBufs (call (vkQueueSubmit (poolQueue pool) submit fence) st) q
                      = poolCmdBufs st q) as Hsame by (intros []; reflexivity).
    apply elem_of_app in Hx as [Hx | Hx].
    + destruct (Hsub pool' x Hin' Hx) as (pool'' & Hin'' & Hx'').
      exists pool''. split; [exact Hin''|]. rewrite Hsame.
      destruct (VkCommandPool_eqb_spec pool'' pool) as [-> | _]; [| exact Hx''].
      apply elem_of_take in Hx'' as (j & Hj & Hjk).
      apply elem_of_take. exists j. split; [exact Hj | lia].
    + apply list_elem_of_singleton in Hx. subst x.
      exists pool. split; [exact Hin|]. rewrite Hsame.
      destruct (VkCommandPool_eqb_spec pool pool) as [_ | Hne]; [| congruence].
      apply elem_of_take. exists (Z.to_nat (idx pool)). split; [exact Hh | lia].
Qed.

Lemma sameCmdBufs_refl (st : State) : sameCmdBufs st st.
Proof. unfold sameCmdBufs. auto. Qed.

Lemma sameCmdBufs_trans (a b c : State) : sameCmdBufs a b -> sameCmdBufs b c -> sameCmdBufs a c.
Proof.
  unfold sameCmdBufs. intros (?&?&?&?&?) (?&?&?&?&?). repeat split; congruence.
Qed.

(** The loops over the chunks of a batch make no call and leave the
    command buffers alone. *)
Lemma selectLoop_same (batch batchStart lo hi : Z) (s s' : CArray Z * option Z * State) :
  for_range lo hi (selectNextChunk batch batchStart) s = Ok s' ->
  sameCmdBufs (snd s) (snd s').
Proof.
  unfold for_range. intros H.
  refine (for_loop_inv
            (fun _ (x : CArray Z * option Z * State) => sameCmdBufs (snd s) (snd x))
            _ _ _ _ _ _ _ H); [| apply sameCmdBufs_refl].
  intros i [[a g] x] [[a' g'] x'] _ HI Hb. cbn [snd] in *.
  unfold selectNextChunk in Hb.
  destruct (carray_write a _ _) as [a1|]; cbn [bind] in Hb; [| discriminate Hb].
  injection Hb as _ _ <-.
  eapply sameCmdBufs_trans; [exact HI|]. unfold sameCmdBufs. cbn. auto.
Qed.

Lemma markLoop_same (arr : CArray Z) (batchStart lo hi : Z) (s s' : State) :
  for_range lo hi
    (fun paramIndex st =>
       pChunk <- carray_read arr (paramIndex - batchStart) ;;
       set_chunk_timelineValue pChunk (s_upcomingTimelineValue st) st) s = Ok s' ->
  sameCmdBufs s s'.
Proof.
  unfold for_range. intros H.
  refine (for_loop_inv (fun _ (x : State) => sameCmdBufs s x) _ _ _ _ _ _ _ H);
    [| apply sameCmdBufs_refl].
  intros i x x' _ HI Hb. cbv beta in Hb.
  destruct (carray_read arr _) as [p|]; cbn [bind] in Hb; [| discriminate Hb].
  unfold set_chunk_timelineValue in Hb.
  destruct (_ && _); [| discriminate Hb]. injection Hb as <-.
  eapply sameCmdBufs_trans; [exact HI|]. unfold sameCmdBufs. cbn. auto.
Qed.

Lemma poolCmdBufs_same (a b : State) (pool : VkCommandPool) :
  sameCmdBufs a b -> poolCmdBufs a pool = poolCmdBufs b pool.
Proof. intros (_ & _ & Hc & Hg & _). destruct pool; cbn; congruence. Qed.

Lemma acquireCommandBuffer_bufs (pool q : VkCommandPool) (bufs bufs' : list VkCommandBuffer)
  (k : Z) (st st1 : State) (h : VkCommandBuffer) :
  acquireCommandBuffer pool bufs k st = (h, bufs', st1) ->
  poolCmdBufs st1 q = poolCmdBufs st q.
Proof.
  intros E. apply acquireCommandBuffer_spec in E. destruct E as (_ & Hc & Hg & _).
  destruct q; cbn; congruence.
Qed.

Lemma framePool_land (z : Z) :
  framePool (s_frameComputePools (Z.land z 1))
  /\ framePool (s_frameGraphicsPools (Z.land z 1)).
Proof. split; exact (land_1_cases z). Qed.

(** One batch of the two-queue scheduler takes the next command buffer of
    the two pools of the frame and submits them. *)
Lemma twoQueuesBatch_InFrame (pGui : Gui) (paramsList : list McubesParams)
  (B bc batch k : Z) (loc loc' : TwoQueuesLocals) (st st' : State) :
  let pools := [s_frameComputePools (Z.land (g_frameNumber st) 1);
                s_frameGraphicsPools (Z.land (g_frameNumber st) 1)] in
  twoQueuesBatch pGui paramsList B bc batch (loc, st) = Ok (loc', st') ->
  nextCmdBufIndex loc = k ->
  InFrame pools (fun _ => k) st ->
  InFrame pools (fun _ => k + 1) st'
  /\ g_frameNumber st' = g_frameNumber st
  /\ nextCmdBufIndex loc' = to_uint32 (k + 1).
Proof.
  intros pools H Hk HI. unfold twoQueuesBatch in H. rewrite Hk in H.
  set (frame := Z.land (g_frameNumber st) 1) in *.
  destruct (framePool_land (g_frameNumber st)) as [HpC HpG]. fold frame in HpC, HpG.
  assert (s_frameComputePools frame ∈ pools) as HinC
    by (apply elem_of_cons; left; reflexivity).
  assert (s_frameGraphicsPools frame ∈ pools) as HinG
    by (apply elem_of_cons; right; apply elem_of_cons; left; reflexivity).
  destruct (acquireCommandBuffer (s_frameComputePools frame) _ k st)
    as [[hC bufsC] st1] eqn:E1.
  destruct (acquireCommandBuffer_InFrame pools (fun _ => k) _ st st1 hC bufsC HI HinC E1)
    as (HI1 & HhC & Hfn1).
  change (set_computeCmdBufs (upd2 (s_frameComputeCmdBufs st1) frame bufsC) st1)
    with (set_poolCmdBufs (s_frameComputePools frame) bufsC st1) in H.
  set (st1' := set_poolCmdBufs (s_frameComputePools frame) bufsC st1) in *.
  change (at2 (s_frameGraphicsCmdBufs st1') frame)
    with (poolCmdBufs st1' (s_frameGraphicsPools frame)) in H.
  destruct (acquireCommandBuffer (s_frameGraphicsPools frame) _ k st1')
    as [[hG bufsG] st2] eqn:E2.
  destruct (acquireCommandBuffer_InFrame pools (fun _ => k) _ st1' st2 hG bufsG HI1 HinG E2)
    as (HI2 & HhG & Hfn2).
  change (set_graphicsCmdBufs (upd2 (s_frameGraphicsCmdBufs st2) frame bufsG) st2)
    with (set_poolCmdBufs (s_frameGraphicsPools frame) bufsG st2) in H.
  set (st2' := set_poolCmdBufs (s_frameGraphicsPools frame) bufsG st2) in *.
  assert (poolCmdBufs st2' (s_frameComputePools frame) = bufsC) as HbC.
  { subst st2'. rewrite poolCmdBufs_set by assumption. cbn [VkCommandPool_eqb].
    rewrite (acquireCommandBuffer_bufs _ _ _ _ _ _ _ _ E2).
    subst st1'. rewrite poolCmdBufs_set by assumption.
    cbn [VkCommandPool_eqb]. rewrite Z.eqb_refl. reflexivity. }
  assert (poolCmdBufs st2' (s_frameGraphicsPools frame) = bufsG) as HbG.
  { subst st2'. rewrite poolCmdBufs_set by assumption.
    cbn [VkCommandPool_eqb]. rewrite Z.eqb_refl. reflexivity. }
  assert (g_frameNumber st2' = g_frameNumber st) as Hfn.
  { transitivity (g_frameNumber st2); [reflexivity|]. rewrite Hfn2.
    transitivity (g_frameNumber st1); [reflexivity | exact Hfn1]. }
  clearbody st2'. clear E1 E2 HI HI1 Hfn1 Hfn2 st1' st1 st2.
  destruct (for_range _ _ (selectNextChunk _ _) _) as [[[arr fcu'] s3]|] eqn:Esel;
    cbn [bind] in H; [| discriminate H].
  apply selectLoop_same in Esel. cbn [snd] in Esel.
  match type of H with bind ?m _ = Ok _ =>
    destruct m as [wait|]; cbn [bind] in H; [| discriminate H] end.
  match type of H with bind ?m _ = Ok _ =>
    destruct m as [computeCmds|]; cbn [bind] in H; [| discriminate H] end.
  match type of H with bind ?m _ = Ok _ =>
    destruct m as [s4|] eqn:Emark; cbn [bind] in H; [| discriminate H] end.
  apply markLoop_same in Emark.
  repeat match type of H with bind ?m _ = Ok _ =>
    destruct m; cbn [bind] in H; [| discriminate H] end.
  injection H as <- <-.
  assert (sameCmdBufs st2' s4) as Hs by (eapply sameCmdBufs_trans; eassumption).
  clear Esel Emark s3.
  assert (InFrame pools (fun _ => k) s4) as HI4 by exact (InFrame_same _ _ _ _ Hs HI2).
  rewrite (poolCmdBufs_same _ _ _ Hs) in HbC. rewrite (poolCmdBufs_same _ _ _ Hs) in HbG.
  match goal with
  | |- context [call (vkQueueSubmit g_gctQueue ?sG None)
                  (call (vkQueueSubmit g_computeQueue ?sC None) s4)] =>
      set (submitC := sC); set (submitG := sG)
  end.
  assert (InFrame pools (fun _ => k + 1)
            (call (vkQueueSubmit g_gctQueue submitG None)
               (call (vkQueueSubmit g_computeQueue submitC None) s4))) as HI6.
  { pose proof (submit_InFrame pools (fun _ => k) (s_frameComputePools frame) s4
                  submitC None HI4 HinC) as HI5.
    cbv beta in HI5. rewrite HbC in HI5. specialize (HI5 HhC).
    pose proof (submit_InFrame pools _ (s_frameGraphicsPools frame) _
                  submitG None HI5 HinG) as HI6.
    cbv beta in HI6. cbn [VkCommandPool_eqb] in HI6.
    change (poolCmdBufs (call (vkQueueSubmit (poolQueue (s_frameComputePools frame))
                                 submitC None) s4) (s_frameGraphicsPools frame))
      with (poolCmdBufs s4 (s_frameGraphicsPools frame)) in HI6.
    rewrite HbG in HI6. specialize (HI6 HhG).
    eapply InFrame_idx; [| exact HI6].
    intros pool Hin. cbv beta.
    apply elem_of_cons in Hin as [-> | Hin];
      [| apply elem_of_cons in Hin as [-> | Hin]; [| apply elem_of_nil in Hin; destruct Hin]];
      cbn [VkCommandPool_eqb]; rewrite ?Z.eqb_refl; reflexivity. }
  split; [| split].
  - eapply InFrame_same; [| exact HI6].
    destruct (batch =? to_uint32 (bc - 1)); unfold sameCmdBufs; cbn; auto.
  - transitivity (g_frameNumber s4).
    + destruct (batch =? to_uint32 (bc - 1)); reflexivity.
    + destruct Hs as (_ & _ & _ & _ & <-). exact Hfn.
  - reflexivity.
Qed.

(** One batch of the single-queue scheduler takes the next command buffer
    of the graphics pool of the frame and submits it. *)
Lemma gctOnlyBatch_InFrame (pGui : Gui) (paramsList : list McubesParams)
  (B bc batch k : Z) (fcu fcu' : option Z) (k' : Z) (st st' : State) :
  let pools := [s_frameGraphicsPools (Z.land (g_frameNumber st) 1)] in
  gctOnlyBatch pGui paramsList B bc batch (k, fcu, st) = Ok (k', fcu', st') ->
  InFrame pools (fun _ => k) st ->
  InFrame pools (fun _ => k + 1) st'
  /\ g_frameNumber st' = g_frameNumber st
  /\ k' = to_uint32 (k + 1).
Proof.
  intros pools H HI. unfold gctOnlyBatch in H.
  set (frame := Z.land (g_frameNumber st) 1) in *.
  destruct (framePool_land (g_frameNumber st)) as [_ HpG]. fold frame in HpG.
  assert (s_frameGraphicsPools frame ∈ pools) as HinG
    by (apply elem_of_cons; left; reflexivity).
  destruct (acquireCommandBuffer (s_frameGraphicsPools frame) _ k st)
    as [[hG bufsG] st1] eqn:E1.
  destruct (acquireCommandBuffer_InFrame pools (fun _ => k) _ st st1 hG bufsG HI HinG E1)
    as (HI1 & HhG & Hfn1).
  change (set_graphicsCmdBufs (upd2 (s_frameGraphicsCmdBufs st1) frame bufsG) st1)
    with (set_poolCmdBufs (s_frameGraphicsPools frame) bufsG st1) in H.
  set (st1' := set_poolCmdBufs (s_frameGraphicsPools frame) bufsG st1) in *.
  assert (poolCmdBufs st1' (s_frameGraphicsPools frame) = bufsG) as HbG.
  { subst st1'. rewrite poolCmdBufs_set by assumption.
    cbn [VkCommandPool_eqb]. rewrite Z.eqb_refl. reflexivity. }
  assert (g_frameNumber st1' = g_frameNumber st) as Hfn
    by (transitivity (g_frameNumber st1); [reflexivity | exact Hfn1]).
  clearbody st1'. clear E1 HI Hfn1 st1.
  destruct (for_range _ _ (selectNextChunk _ _) _) as [[[arr fcu1] s3]|] eqn:Esel;
    cbn [bind] in H; [| discriminate H].
  apply selectLoop_same in Esel. cbn [snd] in Esel.
  repeat match type of H with bind ?m _ = Ok _ =>
    destruct m; cbn [bind] in H; [| discriminate H] end.
  injection H as <- <- <-.
  assert (InFrame pools (fun _ => k) s3) as HI3 by exact (InFrame_same _ _ _ _ Esel HI1).
  rewrite (poolCmdBufs_same _ _ _ Esel) in HbG.
  split; [| split].
  - match goal with
    | |- context [call (vkQueueSubmit g_gctQueue ?sG ?f) s3] =>
        pose proof (submit_InFrame pools (fun _ => k) (s_frameGraphicsPools frame) s3
                      sG f HI3 HinG) as HI4
    end.
    cbv beta in HI4. rewrite HbG in HI4. specialize (HI4 HhG).
    eapply InFrame_idx; [| exact HI4].
    intros pool Hin. cbv beta.
    apply elem_of_cons in Hin as [-> | Hin]; [| apply elem_of_nil in Hin; destruct Hin].
    cbn [VkCommandPool_eqb]. rewrite Z.eqb_refl. reflexivity.
  - transitivity (g_frameNumber s3); [reflexivity|].
    destruct Esel as (_ & _ & _ & _ & <-). exact Hfn.
  - reflexivity.
Qed.

Lemma computeBatchCount_lt (paramsList : list McubesParams) (B bc : Z) :
  1 <= B ->
  computeBatchCount paramsList B = Ok bc -> 0 <= bc < 2 ^ 32.
Proof.
  intros HB. unfold computeBatchCount, udiv.
  destruct (Z.eqb_spec B 0); [lia|]. intros [= <-].
  set (a := to_uint32 _).
  assert (0 <= a < 2 ^ 32) as Ha by (apply Z.mod_pos_bound; lia).
  split; [apply Z.div_pos; lia|].
  apply Z.div_lt_upper_bound; [lia | nia].
Qed.

(** The frames keep the rule of the command buffers. *)
Lemma computeDrawCommandsTwoQueues_CmdBufInv (pGui : Gui) (paramsList : list McubesParams)
  (st st' : State) :
  computeDrawCommandsTwoQueues pGui paramsList st = Ok st' ->
  CmdBufInv st -> CmdBufInv st'.
Proof.
  intros H HI. unfold computeDrawCommandsTwoQueues in H.
  fold (twoQueuesBegin st) in H.
  pose proof (effectiveBatchSize_range pGui) as HB.
  destruct (computeBatchCount paramsList (effectiveBatchSize pGui)) as [bc|] eqn:Ebc;
    cbn [bind] in H; [| discriminate H].
  apply computeBatchCount_lt in Ebc; [| lia].
  match type of H with bind ?m _ = Ok _ =>
    destruct m as [[loc' s']|] eqn:Eloop; cbn [bind snd] in H; [| discriminate H] end.
  injection H as <-.
  set (frame := Z.land (g_frameNumber st) 1) in *.
  set (pools := [s_frameComputePools frame; s_frameGraphicsPools frame]).
  destruct (framePool_land (g_frameNumber st)) as [HpC HpG]. fold frame in HpC, HpG.
  unfold for_range in Eloop.
  refine (proj1 (proj2 (proj2
            (for_loop_inv
               (fun i (ls : TwoQueuesLocals * State) =>
                  nextCmdBufIndex (fst ls) = i
                  /\ g_frameNumber (snd ls) = g_frameNumber st
                  /\ InFrame pools (fun _ => i) (snd ls))
               _ _ _ _ _ _ _ Eloop)))).
  - intros i [loc s] [loc1 s1] Hi (Hk & Hfn & HIn) Hb. cbn [fst snd] in *.
    rewrite Z2Nat.id in Hi by lia.
    pose proof (twoQueuesBatch_InFrame _ _ _ _ _ i _ _ _ _ Hb Hk) as Hstep.
    cbv zeta in Hstep. rewrite Hfn in Hstep. fold frame in Hstep.
    destruct (Hstep HIn) as (HI1 & Hfn1 & Hk1).
    split; [| split; [congruence | exact HI1]].
    rewrite Hk1. unfold to_uint32. apply Z.mod_small. lia.
  - cbn [fst snd nextCmdBufIndex]. split; [reflexivity|]. split; [reflexivity|].
    apply (InFrame_begin pools st (twoQueuesBegin st)
             [vkWaitSemaphoresKHR (at2 (s_frameComputePoolWaitTimelineValues st) frame)
                (at2 (s_frameGraphicsPoolWaitTimelineValues st) frame);
              vkResetCommandPool (s_frameComputePools frame);
              vkResetCommandPool (s_frameGraphicsPools frame)]);
      try reflexivity; [| | | exact HI].
    + state_simpl. rewrite <- !app_assoc. reflexivity.
    + repeat (constructor; [split; discriminate|]). constructor.
    + intros pool Hin.
      apply elem_of_cons in Hin as [-> | Hin];
        [| apply elem_of_cons in Hin as [-> | Hin]; [| apply elem_of_nil in Hin; destruct Hin]].
      * split; [exact HpC|]. unfold submittedSinceReset. rewrite foldl_app.
        cbn [foldl VkCommandPool_eqb]. rewrite Z.eqb_refl. reflexivity.
      * split; [exact HpG|]. unfold submittedSinceReset. rewrite foldl_app.
        cbn [foldl VkCommandPool_eqb]. rewrite Z.eqb_refl. reflexivity.
Qed.

Lemma computeDrawCommandsGctOnly_CmdBufInv (pGui : Gui) (paramsList : list McubesParams)
  (st st' : State) :
  computeDrawCommandsGctOnly pGui paramsList st = Ok st' ->
  CmdBufInv st -> CmdBufInv st'.
Proof.
  intros H HI. unfold computeDrawCommandsGctOnly in H.
  fold (gctOnlyBegin st) in H.
  pose proof (effectiveBatchSize_range pGui) as HB.
  destruct (computeBatchCount paramsList (effectiveBatchSize pGui)) as [bc|] eqn:Ebc;
    cbn [bind] in H; [| discriminate H].
  apply computeBatchCount_lt in Ebc; [| lia].
  match type of H with bind ?m _ = Ok _ =>
    destruct m as [[[k' fcu'] s']|] eqn:Eloop; cbn [bind snd] in H; [| discriminate H] end.
  injection H as <-.
  set (frame := Z.land (g_frameNumber st) 1) in *.
  set (pools := [s_frameGraphicsPools frame]).
  destruct (framePool_land (g_frameNumber st)) as [_ HpG]. fold frame in HpG.
  unfold for_range in Eloop.
  refine (proj1 (proj2 (proj2
            (for_loop_inv
               (fun i (ls : Z * option Z * State) =>
                  fst (fst ls) = i
                  /\ g_frameNumber (snd ls) = g_frameNumber st
                  /\ InFrame pools (fun _ => i) (snd ls))
               _ _ _ _ _ _ _ Eloop)))).
  - intros i [[k fcu] s] [[k1 fcu1] s1] Hi (Hk & Hfn & HIn) Hb. cbn [fst snd] in *.
    rewrite Z2Nat.id in Hi by lia. subst k.
    pose proof (gctOnlyBatch_InFrame _ _ _ _ _ i _ _ _ _ _ Hb) as Hstep.
    cbv zeta in Hstep. rewrite Hfn in Hstep. fold frame in Hstep.
    destruct (Hstep HIn) as (HI1 & Hfn1 & Hk1).
    split; [| split; [congruence | exact HI1]].
    rewrite Hk1. unfold to_uint32. apply Z.mod_small. lia.
  - cbn [fst snd]. split; [reflexivity|]. split; [reflexivity|].
    apply (InFrame_begin pools st (gctOnlyBegin st)
             [vkWaitForFences (s_frameGraphicsPoolFences frame);
              vkResetFences (s_frameGraphicsPoolFences frame);
              vkResetCommandPool (s_frameGraphicsPools frame)]);
      try reflexivity; [| | | exact HI].
    + state_simpl. rewrite <- !app_assoc. reflexivity.
    + repeat (constructor; [split; discriminate|]). constructor.
    + intros pool Hin.
      apply elem_of_cons in Hin as [-> | Hin]; [| apply elem_of_nil in Hin; destruct Hin].
      split; [exact HpG|]. unfold submittedSinceReset. rewrite foldl_app.
      cbn [foldl VkCommandPool_eqb]. rewrite Z.eqb_refl. reflexivity.
Qed.

Lemma computeReplaceEquation_CmdBufInv (compiler : ShaderCompiler) (pEquation : string)
  (st : State) :
  CmdBufInv st -> CmdBufInv (snd (computeReplaceEquation compiler pEquation st)).
Proof.
  intros HI.
  destruct (computeReplaceEquation_cases compiler pEquation st) as [[_ ->] | [_ ->]];
    cbn [snd].
  - eapply (CmdBufInv_host st _ [_]); [reflexivity | | cbn; lia | reflexivity | reflexivity | exact HI].
    repeat (constructor; [split; discriminate|]). constructor.
  - eapply (CmdBufInv_host st _ [_; _; _]); [reflexivity | | cbn; lia | reflexivity | reflexivity | exact HI].
    repeat (constructor; [split; discriminate|]). constructor.
Qed.

Lemma mainLoopBody_CmdBufInv (input : FrameInput McubesParams) (st st' : State) (pGui : Gui) :
  mainLoopBody input st = Ok (pGui, st') ->
  CmdBufInv st -> CmdBufInv st'.
Proof.
  intros H HI. unfold mainLoopBody in H.
  set (st1 := set_frameNumber _ st) in H.
  assert (CmdBufInv st1) as HI1.
  { eapply (CmdBufInv_host st st1 []);
      [cbn; rewrite app_nil_r; reflexivity | constructor | cbn; lia
      | reflexivity | reflexivity | exact HI]. }
  clearbody st1. clear HI st.
  match type of H with context [if negb ?b then ?a else st1] =>
    set (st2 := if negb b then a else st1) in H end.
  assert (CmdBufInv st2) as HI2.
  { subst st2. destruct (negb _); [| exact HI1].
    eapply (CmdBufInv_host st1 _ [_]); [reflexivity | | cbn; lia | reflexivity | reflexivity | exact HI1].
    repeat (constructor; [split; discriminate|]). constructor. }
  clearbody st2. clear HI1 st1.
  destruct (m_wantSetEquation (fi_gui input)).
  - cbv zeta in H.
    pose proof (computeReplaceEquation_CmdBufInv (fi_compiler input)
                  (m_equationInput (fi_gui input)) (call vkDeviceWaitIdle st2)) as HI3.
    destruct (computeReplaceEquation _ _ _) as [success st3]. cbn [snd] in HI3.
    assert (CmdBufInv st3) as HI3'.
    { apply HI3. eapply (CmdBufInv_host st2 _ [_]); [reflexivity | | cbn; lia | reflexivity | reflexivity | exact HI2].
      repeat (constructor; [split; discriminate|]). constructor. }
    clear HI3.
    destruct (s_useComputeQueue st3);
      match type of H with bind ?m _ = Ok _ =>
        destruct m as [s|] eqn:E; cbn [bind] in H; [| discriminate H] end;
      injection H as _ <-.
    + exact (computeDrawCommandsTwoQueues_CmdBufInv _ _ _ _ E HI3').
    + exact (computeDrawCommandsGctOnly_CmdBufInv _ _ _ _ E HI3').
  - destruct (s_useComputeQueue st2);
      match type of H with bind ?m _ = Ok _ =>
        destruct m as [s|] eqn:E; cbn [bind] in H; [| discriminate H] end;
      injection H as _ <-.
    + exact (computeDrawCommandsTwoQueues_CmdBufInv _ _ _ _ E HI2).
    + exact (computeDrawCommandsGctOnly_CmdBufInv _ _ _ _ E HI2).
Qed.

Lemma runFrames_CmdBufInv (inputs : list (FrameInput McubesParams)) :
  forall st st' : State,
    runFrames inputs st = Ok st' -> CmdBufInv st -> CmdBufInv st'.
Proof.
  induction inputs as [|input inputs IH]; intros st st' H HI.
  - injection H as <-. exact HI.
  - cbn [runFrames] in H.
    destruct (mainLoopBody input st) as [[pGui st1]|] eqn:E; cbn [bind snd] in H;
      [| discriminate H].
    apply (IH st1 st' H). exact (mainLoopBody_CmdBufInv _ _ _ _ E HI).
Qed.

Lemma initialGlobals_CmdBufInv (imagePipeline : VkPipeline) :
  CmdBufInv (initialGlobals (McubesParams := McubesParams) imagePipeline).
Proof.
  split; [| split; [| split]].
  - intros i x Hi. cbn in Hi. discriminate Hi.
  - intros pool h Hin. cbn in Hin. apply elem_of_nil in Hin. destruct Hin.
  - intros pool h _ Hin. destruct pool as [i | i]; cbn in Hin; unfold at2 in Hin;
      destruct (i =? 0); cbn in Hin; apply elem_of_nil in Hin; destruct Hin.
  - intros pool _. destruct pool as [i | i]; cbn; unfold at2;
      destruct (i =? 0); apply NoDup_nil_2.
Qed.

Lemma sameClock_refl (st : State) : sameClock st st.
Proof. unfold sameClock. auto. Qed.

Lemma sameClock_trans (a b c : State) : sameClock a b -> sameClock b c -> sameClock a c.
Proof. unfold sameClock. intros (?&?&?&?) (?&?&?&?). repeat split; congruence. Qed.

Lemma selectLoop_sameClock (batch batchStart lo hi : Z) (s s' : CArray Z * option Z * State) :
  for_range lo hi (selectNextChunk batch batchStart) s = Ok s' ->
  sameClock (snd s) (snd s').
Proof.
  unfold for_range. intros H.
  refine (for_loop_inv
            (fun _ (x : CArray Z * option Z * State) => sameClock (snd s) (snd x))
            _ _ _ _ _ _ _ H); [| apply sameClock_refl].
  intros i [[a g] x] [[a' g'] x'] _ HI Hb. cbn [snd] in *.
  unfold selectNextChunk in Hb.
  destruct (carray_write a _ _) as [a1|]; cbn [bind] in Hb; [| discriminate Hb].
  injection Hb as _ _ <-.
  eapply sameClock_trans; [exact HI|]. unfold sameClock. cbn. auto.
Qed.

Lemma markLoop_sameClock (arr : CArray Z) (batchStart lo hi : Z) (s s' : State) :
  for_range lo hi
    (fun paramIndex st =>
       pChunk <- carray_read arr (paramIndex - batchStart) ;;
       set_chunk_timelineValue pChunk (s_upcomingTimelineValue st) st) s = Ok s' ->
  sameClock s s'.
Proof.
  unfold for_range. intros H.
  refine (for_loop_inv (fun _ (x : State) => sameClock s x) _ _ _ _ _ _ _ H);
    [| apply sameClock_refl].
  intros i x x' _ HI Hb. cbv beta in Hb.
  destruct (carray_read arr _) as [p|]; cbn [bind] in Hb; [| discriminate Hb].
  unfold set_chunk_timelineValue in Hb.
  destruct (_ && _); [| discriminate Hb]. injection Hb as <-.
  eapply sameClock_trans; [exact HI|]. unfold sameClock. cbn. auto.
Qed.

Lemma acquireCommandBuffer_sameClock (pool : VkCommandPool) (bufs bufs' : list VkCommandBuffer)
  (k : Z) (st st1 : State) (h : VkCommandBuffer) :
  acquireCommandBuffer pool bufs k st = (h, bufs', st1) -> sameClock st st1.
Proof.
  intros E. apply acquireCommandBuffer_spec in E.
  destruct E as ((_ & ? & ? & ? & _ & ? & _) & _). unfold sameClock. auto.
Qed.

(** *** Recycling *)

Lemma acquireCommandBuffer_effect (pool : VkCommandPool) (bufs bufs' : list VkCommandBuffer)
  (k : Z) (st st1 : State) (h : VkCommandBuffer) :
  0 <= k <= Z.of_nat (length bufs) ->
  acquireCommandBuffer pool bufs k st = (h, bufs', st1) ->
  exists fresh,
    bufs' = bufs ++ fresh
    /\ vk_calls st1 = vk_calls st ++ (vkAllocateCommandBuffers pool <$> fresh)
    /\ Z.of_nat (length bufs') = Z.max (Z.of_nat (length bufs)) (k + 1)
    /\ bufs' !! Z.to_nat k = Some h
    /\ s_frameComputeCmdBufs st1 = s_frameComputeCmdBufs st
    /\ s_frameGraphicsCmdBufs st1 = s_frameGraphicsCmdBufs st
    /\ g_frameNumber st1 = g_frameNumber st.
Proof.
  intros Hk. unfold acquireCommandBuffer.
  destruct (Z.ltb_spec k (Z.of_nat (length bufs))) as [Hlt | Hge]; intros [= <- <- <-].
  - exists []. rewrite !app_nil_r. repeat split; [lia|].
    destruct (lookup_lt_is_Some_2 bufs (Z.to_nat k) ltac:(lia)) as [x Hx].
    exact (lookup_default_Some _ _ _ _ Hx).
  - exists [vk_nextHandle st]. repeat split.
    + rewrite length_app. cbn. lia.
    + replace (Z.to_nat k) with (length bufs) by lia.
      apply list_lookup_middle. reflexivity.
Qed.

Lemma allocatedFrom_app (pool : VkCommandPool) (a b : list (VkCall McubesParams)) :
  allocatedFrom pool (a ++ b) = allocatedFrom pool a ++ allocatedFrom pool b.
Proof. apply flat_map_app. Qed.

Lemma submittedTo_app (queue : VkQueue) (a b : list (VkCall McubesParams)) :
  submittedTo queue (a ++ b) = submittedTo queue a ++ submittedTo queue b.
Proof. apply flat_map_app. Qed.

Lemma allocatedFrom_allocs (pool pool' : VkCommandPool) (fresh : list VkCommandBuffer) :
  allocatedFrom pool' (vkAllocateCommandBuffers (McubesParams := McubesParams) pool <$> fresh)
  = if VkCommandPool_eqb pool pool' then fresh else [].
Proof.
  induction fresh as [|h fresh IH]; cbn.
  - destruct (VkCommandPool_eqb pool pool'); reflexivity.
  - unfold allocatedFrom in IH. rewrite IH.
    destruct (VkCommandPool_eqb pool pool'); reflexivity.
Qed.

Lemma submittedTo_allocs (queue : VkQueue) (pool : VkCommandPool)
  (fresh : list VkCommandBuffer) :
  submittedTo queue (vkAllocateCommandBuffers (McubesParams := McubesParams) pool <$> fresh)
  = [].
Proof. induction fresh as [|h fresh IH]; [reflexivity | exact IH]. Qed.

(** What one batch of the two-queue scheduler does with the command
    buffers. *)
Lemma twoQueuesBatch_buffers (pGui : Gui) (paramsList : list McubesParams)
  (B bc batch k : Z) (loc loc' : TwoQueuesLocals) (st st' : State) :
  let frame := Z.land (g_frameNumber st) 1 in
  let bufsC := at2 (s_frameComputeCmdBufs st) frame in
  let bufsG := at2 (s_frameGraphicsCmdBufs st) frame in
  twoQueuesBatch pGui paramsList B bc batch (loc, st) = Ok (loc', st') ->
  nextCmdBufIndex loc = k ->
  0 <= k <= Z.of_nat (length bufsC) ->
  k <= Z.of_nat (length bufsG) ->
  exists freshC freshG submitC submitG,
    s_frameComputeCmdBufs st' = upd2 (s_frameComputeCmdBufs st) frame (bufsC ++ freshC)
    /\ s_frameGraphicsCmdBufs st' = upd2 (s_frameGraphicsCmdBufs st) frame (bufsG ++ freshG)
    /\ Z.of_nat (length (bufsC ++ freshC)) = Z.max (Z.of_nat (length bufsC)) (k + 1)
    /\ Z.of_nat (length (bufsG ++ freshG)) = Z.max (Z.of_nat (length bufsG)) (k + 1)
    /\ (bufsC ++ freshC) !! Z.to_nat k = Some (commandBuffer submitC)
    /\ (bufsG ++ freshG) !! Z.to_nat k = Some (commandBuffer submitG)
    /\ vk_calls st'
       = vk_calls st
         ++ (vkAllocateCommandBuffers (s_frameComputePools frame) <$> freshC)
         ++ (vkAllocateCommandBuffers (s_frameGraphicsPools frame) <$> freshG)
         ++ [vkQueueSubmit g_computeQueue submitC None;
             vkQueueSubmit g_gctQueue submitG None]
    /\ g_frameNumber st' = g_frameNumber st
    /\ nextCmdBufIndex loc' = to_uint32 (k + 1)
    /\ signalSemaphore submitC
       = Some (s_computeDoneTimelineSemaphore, s_upcomingTimelineValue st)
    /\ signalSemaphore submitG
       = Some (s_graphicsDoneTimelineSemaphore, s_upcomingTimelineValue st)
    /\ s_upcomingTimelineValue st' = to_uint64 (s_upcomingTimelineValue st + 1)
    /\ s_frameComputePoolWaitTimelineValues st'
       = (if batch =? to_uint32 (bc - 1)
          then upd2 (s_frameComputePoolWaitTimelineValues st) frame
                 (s_upcomingTimelineValue st)
          else s_frameComputePoolWaitTimelineValues st)
    /\ s_frameGraphicsPoolWaitTimelineValues st'
       = (if batch =? to_uint32 (bc - 1)
          then upd2 (s_frameGraphicsPoolWaitTimelineValues st) frame
                 (s_upcomingTimelineValue st)
          else s_frameGraphicsPoolWaitTimelineValues st)
    /\ s_useComputeQueue st' = s_useComputeQueue st.
Proof.
  intros frame bufsC bufsG H Hk HkC HkG. unfold twoQueuesBatch in H. rewrite Hk in H.
  fold frame in H. fold bufsC in H.
  destruct (acquireCommandBuffer (s_frameComputePools frame) bufsC k st)
    as [[hC bufsC'] st1] eqn:E1.
  destruct (acquireCommandBuffer_effect _ _ _ _ _ _ _ HkC E1)
    as (freshC & -> & Hcalls1 & HlenC & HhC & Hc1 & Hg1 & Hfn1).
  change (s_frameGraphicsCmdBufs
            (set_computeCmdBufs (upd2 (s_frameComputeCmdBufs st1) frame (bufsC ++ freshC))
               st1))
    with (s_frameGraphicsCmdBufs st1) in H.
  rewrite Hc1, Hg1 in H. fold bufsG in H.
  match type of H with context [acquireCommandBuffer _ bufsG k ?s] =>
    destruct (acquireCommandBuffer (s_frameGraphicsPools frame) bufsG k s)
      as [[hG bufsG'] st2] eqn:E2
  end.
  destruct (acquireCommandBuffer_effect _ _ _ _ _ _ _ (conj (proj1 HkC) HkG) E2)
    as (freshG & -> & Hcalls2 & HlenG & HhG & Hc2 & Hg2 & Hfn2).
  cbn [set_computeCmdBufs vk_calls s_frameComputeCmdBufs s_frameGraphicsCmdBufs
       g_frameNumber] in Hcalls2, Hc2, Hg2, Hfn2.
  rewrite Hg2, Hg1 in H.
  match type of H with context [set_graphicsCmdBufs ?v st2] =>
    set (st2' := set_graphicsCmdBufs v st2) in H end.
  assert (vk_calls st2' = vk_calls st
            ++ (vkAllocateCommandBuffers (s_frameComputePools frame) <$> freshC)
            ++ (vkAllocateCommandBuffers (s_frameGraphicsPools frame) <$> freshG))
    as Hcalls by (subst st2'; cbn; rewrite Hcalls2, Hcalls1, <- app_assoc; reflexivity).
  assert (s_frameComputeCmdBufs st2'
          = upd2 (s_frameComputeCmdBufs st) frame (bufsC ++ freshC)) as HC
    by (subst st2'; cbn; exact Hc2).
  assert (s_frameGraphicsCmdBufs st2'
          = upd2 (s_frameGraphicsCmdBufs st) frame (bufsG ++ freshG)) as HG
    by (subst st2'; reflexivity).
  assert (g_frameNumber st2' = g_frameNumber st) as Hfn
    by (subst st2'; cbn; rewrite Hfn2; exact Hfn1).
  assert (sameClock st st2') as Hck.
  { eapply sameClock_trans; [exact (acquireCommandBuffer_sameClock _ _ _ _ _ _ _ E1)|].
    eapply sameClock_trans; [| exact (acquireCommandBuffer_sameClock _ _ _ _ _ _ _ E2)].
    unfold sameClock. cbn. auto. }
  clearbody st2'. clear E1 E2 Hcalls1 Hcalls2 Hc1 Hg1 Hc2 Hg2 Hfn1 Hfn2 st1 st2.
  destruct (for_range _ _ (selectNextChunk _ _) _) as [[[arr fcu'] s3]|] eqn:Esel;
    cbn [bind] in H; [| discriminate H].
  pose proof (selectLoop_sameClock _ _ _ _ _ _ Esel) as Ksel. cbn [snd] in Ksel.
  apply selectLoop_same in Esel. cbn [snd] in Esel.
  match type of H with bind ?m _ = Ok _ =>
    destruct m as [wait|]; cbn [bind] in H; [| discriminate H] end.
  match type of H with bind ?m _ = Ok _ =>
    destruct m as [computeCmds|]; cbn [bind] in H; [| discriminate H] end.
  match type of H with bind ?m _ = Ok _ =>
    destruct m as [s4|] eqn:Emark; cbn [bind] in H; [| discriminate H] end.
  pose proof (markLoop_sameClock _ _ _ _ _ _ Emark) as Kmark.
  apply markLoop_same in Emark.
  repeat match type of H with bind ?m _ = Ok _ =>
    destruct m; cbn [bind] in H; [| discriminate H] end.
  injection H as <- <-.
  destruct (sameCmdBufs_trans _ _ _ Esel Emark) as (Sc & _ & SC & SG & Sfn).
  destruct (sameClock_trans _ _ _ Hck (sameClock_trans _ _ _ Ksel Kmark))
    as (Kup & KC & KG & Kq).
  exists freshC, freshG. do 2 eexists.
  repeat match goal with |- _ /\ _ => split end.
  7: { assert (forall (b : bool) v x y (s : State),
                  vk_calls (set_upcomingTimelineValue v
                              (if b then set_graphicsPoolWaits x (set_computePoolWaits y s)
                               else s)) = vk_calls s) as Hend
         by (intros []; reflexivity).
       rewrite Hend. cbn [call set_calls vk_calls].
       rewrite <- Sc, Hcalls, <- !app_assoc. reflexivity. }
  - rewrite <- HC, SC. destruct (batch =? to_uint32 (bc - 1)); reflexivity.
  - rewrite <- HG, SG. destruct (batch =? to_uint32 (bc - 1)); reflexivity.
  - exact HlenC.
  - exact HlenG.
  - exact HhC.
  - exact HhG.
  - rewrite <- Hfn, Sfn. destruct (batch =? to_uint32 (bc - 1)); reflexivity.
  - reflexivity.
  - cbn [signalSemaphore]. rewrite Kup. reflexivity.
  - cbn [signalSemaphore call s_upcomingTimelineValue set_calls]. rewrite Kup. reflexivity.
  - rewrite Kup. destruct (batch =? to_uint32 (bc - 1)); reflexivity.
  - rewrite Kup, KC. destruct (batch =? to_uint32 (bc - 1)); reflexivity.
  - rewrite Kup, KG. destruct (batch =? to_uint32 (bc - 1)); reflexivity.
  - rewrite Kq. destruct (batch =? to_uint32 (bc - 1)); reflexivity.
Qed.

Lemma gctOnlyBatch_buffers (pGui : Gui) (paramsList : list McubesParams)
  (B bc batch k k' : Z) (fcu fcu' : option Z) (st st' : State) :
  let frame := Z.land (g_frameNumber st) 1 in
  let bufsG := at2 (s_frameGraphicsCmdBufs st) frame in
  gctOnlyBatch pGui paramsList B bc batch (k, fcu, st) = Ok (k', fcu', st') ->
  0 <= k <= Z.of_nat (length bufsG) ->
  exists freshG submitG fence,
    s_frameComputeCmdBufs st' = s_frameComputeCmdBufs st
    /\ s_frameGraphicsCmdBufs st' = upd2 (s_frameGraphicsCmdBufs st) frame (bufsG ++ freshG)
    /\ Z.of_nat (length (bufsG ++ freshG)) = Z.max (Z.of_nat (length bufsG)) (k + 1)
    /\ (bufsG ++ freshG) !! Z.to_nat k = Some (commandBuffer submitG)
    /\ vk_calls st'
       = vk_calls st
         ++ (vkAllocateCommandBuffers (s_frameGraphicsPools frame) <$> freshG)
         ++ [vkQueueSubmit g_gctQueue submitG fence]
    /\ g_frameNumber st' = g_frameNumber st
    /\ k' = to_uint32 (k + 1)
    /\ fence = (if batch =? to_uint32 (bc - 1)
                then Some (s_frameGraphicsPoolFences frame) else None)
    /\ sameClock st st'.
Proof.
  intros frame bufsG H HkG. unfold gctOnlyBatch in H.
  fold frame in H. fold bufsG in H.
  destruct (acquireCommandBuffer (s_frameGraphicsPools frame) bufsG k st)
    as [[hG bufsG'] st1] eqn:E1.
  destruct (acquireCommandBuffer_effect _ _ _ _ _ _ _ HkG E1)
    as (freshG & -> & Hcalls1 & HlenG & HhG & Hc1 & Hg1 & Hfn1).
  rewrite Hg1 in H.
  match type of H with context [set_graphicsCmdBufs ?v st1] =>
    set (st1' := set_graphicsCmdBufs v st1) in H end.
  assert (vk_calls st1' = vk_calls st
            ++ (vkAllocateCommandBuffers (s_frameGraphicsPools frame) <$> freshG))
    as Hcalls by exact Hcalls1.
  assert (s_frameComputeCmdBufs st1' = s_frameComputeCmdBufs st) as HC by exact Hc1.
  assert (s_frameGraphicsCmdBufs st1'
          = upd2 (s_frameGraphicsCmdBufs st) frame (bufsG ++ freshG)) as HG
    by reflexivity.
  assert (g_frameNumber st1' = g_frameNumber st) as Hfn by exact Hfn1.
  assert (sameClock st st1') as Hck
    by exact (acquireCommandBuffer_sameClock _ _ _ _ _ _ _ E1).
  clearbody st1'. clear E1 Hcalls1 Hc1 Hg1 Hfn1 st1.
  destruct (for_range _ _ (selectNextChunk _ _) _) as [[[arr fcu1] s3]|] eqn:Esel;
    cbn [bind] in H; [| discriminate H].
  pose proof (selectLoop_sameClock _ _ _ _ _ _ Esel) as Ksel. cbn [snd] in Ksel.
  apply selectLoop_same in Esel. cbn [snd] in Esel.
  repeat match type of H with bind ?m _ = Ok _ =>
    destruct m; cbn [bind] in H; [| discriminate H] end.
  injection H as <- <- <-.
  destruct Esel as (Sc & _ & SC & SG & Sfn).
  exists freshG. do 2 eexists.
  repeat match goal with |- _ /\ _ => split end.
  5: { cbn [call set_calls vk_calls]. rewrite <- Sc, Hcalls, <- !app_assoc. reflexivity. }
  - rewrite <- HC, SC. reflexivity.
  - rewrite <- HG, SG. reflexivity.
  - exact HlenG.
  - exact HhG.
  - rewrite <- Hfn, Sfn. reflexivity.
  - reflexivity.
  - reflexivity.
  - exact (sameClock_trans _ _ _ Hck Ksel).
Qed.

Lemma at2_upd2_same {A : Type} (p : A * A) (i : Z) (v : A) : at2 (upd2 p i v) i = v.
Proof. unfold at2, upd2. destruct (i =? 0) eqn:E; cbn; rewrite ?E; reflexivity. Qed.

Lemma at2_upd2_other {A : Type} (p : A * A) (i j : Z) (v : A) :
  (i = 0 \/ i = 1) -> (j = 0 \/ j = 1) -> i <> j -> at2 (upd2 p i v) j = at2 p j.
Proof. intros [-> | ->] [-> | ->] H; try congruence; reflexivity. Qed.

(** One more batch that takes the command buffer at the index. *)
Lemma recyclesCmdBufs_step (pool : VkCommandPool) (i : Z) (st s s' : State)
  (calls extra : list (VkCall McubesParams)) (fresh : list VkCommandBuffer)
  (h : VkCommandBuffer) :
  recyclesCmdBufs pool i st s calls ->
  0 <= i ->
  poolCmdBufs s' pool = poolCmdBufs s pool ++ fresh ->
  Z.of_nat (length (poolCmdBufs s pool ++ fresh))
  = Z.max (Z.of_nat (length (poolCmdBufs s pool))) (i + 1) ->
  (poolCmdBufs s pool ++ fresh) !! Z.to_nat i = Some h ->
  allocatedFrom pool extra = fresh ->
  submittedTo (poolQueue pool) extra = [h] ->
  recyclesCmdBufs pool (i + 1) st s' (calls ++ extra).
Proof.
  intros (H1 & H2 & H3) Hi Hbufs Hlen Hh Hal Hsub.
  unfold recyclesCmdBufs. rewrite Hbufs, allocatedFrom_app, submittedTo_app, Hal, Hsub.
  split; [| split].
  - rewrite H1, <- app_assoc. reflexivity.
  - rewrite Hlen. lia.
  - rewrite H3. replace (Z.to_nat (i + 1)) with (S (Z.to_nat i)) by lia.
    rewrite (take_S_r _ _ _ Hh). f_equal.
    rewrite take_app_le by lia. reflexivity.
Qed.

(** A pool that a batch leaves alone. *)
Lemma recyclesCmdBufs_skip (pool : VkCommandPool) (st s s' : State)
  (calls extra : list (VkCall McubesParams)) :
  poolCmdBufs s pool = poolCmdBufs st pool /\ allocatedFrom pool calls = [] ->
  poolCmdBufs s' pool = poolCmdBufs s pool ->
  allocatedFrom pool extra = [] ->
  poolCmdBufs s' pool = poolCmdBufs st pool /\ allocatedFrom pool (calls ++ extra) = [].
Proof.
  intros [H1 H2] Hb He. rewrite Hb, allocatedFrom_app, H2, He. auto.
Qed.

Lemma VkCommandPool_eqb_neq (a b : VkCommandPool) : a <> b -> VkCommandPool_eqb a b = false.
Proof. intros H. destruct (VkCommandPool_eqb_spec a b); [contradiction | reflexivity]. Qed.

Lemma poolCmdBufs_upd_compute (s s' : State) (frame : Z) (bufs : list VkCommandBuffer)
  (pool : VkCommandPool) :
  framePool (s_frameComputePools frame) -> framePool pool ->
  s_frameComputeCmdBufs s' = upd2 (s_frameComputeCmdBufs s) frame bufs ->
  (forall i, pool = s_frameGraphicsPools i -> poolCmdBufs s' pool = poolCmdBufs s pool) ->
  poolCmdBufs s' pool
  = if VkCommandPool_eqb (s_frameComputePools frame) pool then bufs
    else poolCmdBufs s pool.
Proof.
  intros Hf Hp HC HG. destruct pool as [j | j]; cbn [VkCommandPool_eqb].
  - cbn [poolCmdBufs]. rewrite HC. destruct (Z.eqb_spec frame j) as [<- | Hne].
    + apply at2_upd2_same.
    + apply at2_upd2_other; assumption.
  - exact (HG j eq_refl).
Qed.

Lemma poolCmdBufs_upd_graphics (s s' : State) (frame : Z) (bufs : list VkCommandBuffer)
  (pool : VkCommandPool) :
  framePool (s_frameGraphicsPools frame) -> framePool pool ->
  s_frameGraphicsCmdBufs s' = upd2 (s_frameGraphicsCmdBufs s) frame bufs ->
  (forall i, pool = s_frameComputePools i -> poolCmdBufs s' pool = poolCmdBufs s pool) ->
  poolCmdBufs s' pool
  = if VkCommandPool_eqb (s_frameGraphicsPools frame) pool then bufs
    else poolCmdBufs s pool.
Proof.
  intros Hf Hp HG HC. destruct pool as [j | j]; cbn [VkCommandPool_eqb].
  - exact (HC j eq_refl).
  - cbn [poolCmdBufs]. rewrite HG. destruct (Z.eqb_spec frame j) as [<- | Hne].
    + apply at2_upd2_same.
    + apply at2_upd2_other; assumption.
Qed.

Lemma computeDrawCommandsTwoQueues_recycles (pGui : Gui) (paramsList : list McubesParams)
  (st st' : State) :
  let frame := Z.land (g_frameNumber st) 1 in
  computeDrawCommandsTwoQueues pGui paramsList st = Ok st' ->
  exists bc calls,
    computeBatchCount paramsList (effectiveBatchSize pGui) = Ok bc
    /\ vk_calls st' = vk_calls (twoQueuesBegin st) ++ calls
    /\ recyclesCmdBufs (s_frameComputePools frame) bc st st' calls
    /\ recyclesCmdBufs (s_frameGraphicsPools frame) bc st st' calls
    /\ (forall pool,
           framePool pool ->
           pool <> s_frameComputePools frame -> pool <> s_frameGraphicsPools frame ->
           poolCmdBufs st' pool = poolCmdBufs st pool /\ allocatedFrom pool calls = []).
Proof.
  intros frame H. unfold computeDrawCommandsTwoQueues in H.
  fold (twoQueuesBegin st) in H.
  pose proof (effectiveBatchSize_range pGui) as HB.
  destruct (computeBatchCount paramsList (effectiveBatchSize pGui)) as [bc|] eqn:Ebc;
    cbn [bind] in H; [| discriminate H].
  pose proof (computeBatchCount_lt _ _ _ (proj1 HB) Ebc) as Hbc.
  match type of H with bind ?m _ = Ok _ =>
    destruct m as [[loc' s']|] eqn:Eloop; cbn [bind snd] in H; [| discriminate H] end.
  injection H as <-.
  destruct (framePool_land (g_frameNumber st)) as [HpC HpG]. fold frame in HpC, HpG.
  unfold for_range in Eloop.
  pose proof
    (fun Hstep Hinit => for_loop_inv
       (fun i (ls : TwoQueuesLocals * State) =>
          nextCmdBufIndex (fst ls) = i
          /\ g_frameNumber (snd ls) = g_frameNumber st
          /\ exists calls,
               vk_calls (snd ls) = vk_calls (twoQueuesBegin st) ++ calls
               /\ recyclesCmdBufs (s_frameComputePools frame) i st (snd ls) calls
               /\ recyclesCmdBufs (s_frameGraphicsPools frame) i st (snd ls) calls
               /\ (forall pool,
                      framePool pool ->
                      pool <> s_frameComputePools frame ->
                      pool <> s_frameGraphicsPools frame ->
                      poolCmdBufs (snd ls) pool = poolCmdBufs st pool
                      /\ allocatedFrom pool calls = []))
       _ _ _ _ _ Hstep Hinit Eloop) as Hinv.
  rewrite Z.add_0_l, Z.sub_0_r, Z2Nat.id in Hinv by lia.
  cbn [fst snd] in Hinv.
  destruct Hinv as (_ & _ & calls & Hc & HRC & HRG & Ho);
    [| | exists bc, calls; auto].
  - intros i [loc s] [loc1 s1] Hi (Hk & Hfn & calls & Hcalls & HRC & HRG & Hother) Hb.
    cbn [fst snd] in *.
    pose proof (twoQueuesBatch_buffers _ _ _ _ _ i _ _ _ _ Hb Hk) as Hstep.
    cbv zeta in Hstep. rewrite Hfn in Hstep. fold frame in Hstep.
    change (at2 (s_frameComputeCmdBufs s) frame)
      with (poolCmdBufs s (s_frameComputePools frame)) in Hstep.
    change (at2 (s_frameGraphicsCmdBufs s) frame)
      with (poolCmdBufs s (s_frameGraphicsPools frame)) in Hstep.
    destruct Hstep as (freshC & freshG & submitC & submitG & HC & HG & HlenC & HlenG
                       & HhC & HhG & Hcalls1 & Hfn1 & Hk1 & _).
    { destruct HRC as (_ & Hl & _). lia. }
    { destruct HRG as (_ & Hl & _). lia. }
    assert (forall pool, framePool pool ->
              poolCmdBufs s1 pool
              = if VkCommandPool_eqb (s_frameComputePools frame) pool
                then poolCmdBufs s (s_frameComputePools frame) ++ freshC
                else if VkCommandPool_eqb (s_frameGraphicsPools frame) pool
                     then poolCmdBufs s (s_frameGraphicsPools frame) ++ freshG
                     else poolCmdBufs s pool) as Hbufs.
    { intros [j | j] Hp; cbn [VkCommandPool_eqb poolCmdBufs].
      - rewrite HC. destruct (Z.eqb_spec frame j) as [<- | Hne];
          [apply at2_upd2_same | apply at2_upd2_other; assumption].
      - rewrite HG. destruct (Z.eqb_spec frame j) as [<- | Hne];
          [apply at2_upd2_same | apply at2_upd2_other; assumption]. }
    split; [| split; [congruence|]].
    { rewrite Hk1. unfold to_uint32. apply Z.mod_small. lia. }
    eexists. split; [rewrite Hcalls1, Hcalls, <- app_assoc; reflexivity|].
    split; [| split].
    + eapply recyclesCmdBufs_step; [exact HRC | lia | | exact HlenC | exact HhC | |].
      * rewrite Hbufs by exact HpC. cbn [VkCommandPool_eqb]. rewrite Z.eqb_refl.
        reflexivity.
      * rewrite !allocatedFrom_app, !allocatedFrom_allocs. cbn [VkCommandPool_eqb].
        rewrite Z.eqb_refl. cbn. rewrite app_nil_r. reflexivity.
      * rewrite !submittedTo_app, !submittedTo_allocs. reflexivity.
    + eapply recyclesCmdBufs_step; [exact HRG | lia | | exact HlenG | exact HhG | |].
      * rewrite Hbufs by exact HpG. cbn [VkCommandPool_eqb]. rewrite Z.eqb_refl.
        reflexivity.
      * rewrite !allocatedFrom_app, !allocatedFrom_allocs. cbn [VkCommandPool_eqb].
        rewrite Z.eqb_refl. cbn. rewrite app_nil_r. reflexivity.
      * rewrite !submittedTo_app, !submittedTo_allocs. reflexivity.
    + intros pool Hp HnC HnG.
      apply (recyclesCmdBufs_skip pool st s s1); [apply Hother; assumption | |].
      * rewrite Hbufs by exact Hp.
        rewrite !VkCommandPool_eqb_neq by congruence. reflexivity.
      * rewrite !allocatedFrom_app, !allocatedFrom_allocs.
        rewrite !VkCommandPool_eqb_neq by congruence. reflexivity.
  - cbn [fst snd nextCmdBufIndex]. split; [reflexivity|]. split; [reflexivity|].
    exists []. rewrite app_nil_r. split; [reflexivity|].
    assert (forall pool, poolCmdBufs (twoQueuesBegin st) pool = poolCmdBufs st pool) as Hb
      by (intros []; reflexivity).
    unfold recyclesCmdBufs. rewrite !Hb. cbn [allocatedFrom submittedTo flat_map].
    rewrite !app_nil_r.
    split; [split; [reflexivity | split; [lia | reflexivity]]|].
    split; [split; [reflexivity | split; [lia | reflexivity]]|].
    intros pool _ _ _. rewrite Hb. auto.
Qed.

Lemma computeDrawCommandsGctOnly_recycles (pGui : Gui) (paramsList : list McubesParams)
  (st st' : State) :
  let frame := Z.land (g_frameNumber st) 1 in
  computeDrawCommandsGctOnly pGui paramsList st = Ok st' ->
  exists bc calls,
    computeBatchCount paramsList (effectiveBatchSize pGui) = Ok bc
    /\ vk_calls st' = vk_calls (gctOnlyBegin st) ++ calls
    /\ recyclesCmdBufs (s_frameGraphicsPools frame) bc st st' calls
    /\ (forall pool,
           framePool pool -> pool <> s_frameGraphicsPools frame ->
           poolCmdBufs st' pool = poolCmdBufs st pool /\ allocatedFrom pool calls = []).
Proof.
  intros frame H. unfold computeDrawCommandsGctOnly in H.
  fold (gctOnlyBegin st) in H.
  pose proof (effectiveBatchSize_range pGui) as HB.
  destruct (computeBatchCount paramsList (effectiveBatchSize pGui)) as [bc|] eqn:Ebc;
    cbn [bind] in H; [| discriminate H].
  pose proof (computeBatchCount_lt _ _ _ (proj1 HB) Ebc) as Hbc.
  match type of H with bind ?m _ = Ok _ =>
    destruct m as [[[k' fcu'] s']|] eqn:Eloop; cbn [bind snd] in H; [| discriminate H] end.
  injection H as <-.
  destruct (framePool_land (g_frameNumber st)) as [_ HpG]. fold frame in HpG.
  unfold for_range in Eloop.
  pose proof
    (fun Hstep Hinit => for_loop_inv
       (fun i (ls : Z * option Z * State) =>
          fst (fst ls) = i
          /\ g_frameNumber (snd ls) = g_frameNumber st
          /\ exists calls,
               vk_calls (snd ls) = vk_calls (gctOnlyBegin st) ++ calls
               /\ recyclesCmdBufs (s_frameGraphicsPools frame) i st (snd ls) calls
               /\ (forall pool,
                      framePool pool ->
                      pool <> s_frameGraphicsPools frame ->
                      poolCmdBufs (snd ls) pool = poolCmdBufs st pool
                      /\ allocatedFrom pool calls = []))
       _ _ _ _ _ Hstep Hinit Eloop) as Hinv.
  rewrite Z.add_0_l, Z.sub_0_r, Z2Nat.id in Hinv by lia.
  cbn [fst snd] in Hinv.
  destruct Hinv as (_ & _ & calls & Hc & HRG & Ho);
    [| | exists bc, calls; auto].
  - intros i [[k fcu] s] [[k1 fcu1] s1] Hi (Hk & Hfn & calls & Hcalls & HRG & Hother) Hb.
    cbn [fst snd] in *. subst k.
    pose proof (gctOnlyBatch_buffers _ _ _ _ _ i _ _ _ _ _ Hb) as Hstep.
    cbv zeta in Hstep. rewrite Hfn in Hstep. fold frame in Hstep.
    change (at2 (s_frameGraphicsCmdBufs s) frame)
      with (poolCmdBufs s (s_frameGraphicsPools frame)) in Hstep.
    destruct Hstep as (freshG & submitG & fence & HC & HG & HlenG & HhG & Hcalls1
                       & Hfn1 & Hk1 & _).
    { destruct HRG as (_ & Hl & _). lia. }
    assert (forall pool, framePool pool ->
              poolCmdBufs s1 pool
              = if VkCommandPool_eqb (s_frameGraphicsPools frame) pool
                then poolCmdBufs s (s_frameGraphicsPools frame) ++ freshG
                else poolCmdBufs s pool) as Hbufs.
    { intros [j | j] Hp; cbn [VkCommandPool_eqb poolCmdBufs].
      - rewrite HC. reflexivity.
      - rewrite HG. destruct (Z.eqb_spec frame j) as [<- | Hne];
          [apply at2_upd2_same | apply at2_upd2_other; assumption]. }
    split; [| split; [congruence|]].
    { rewrite Hk1. unfold to_uint32. apply Z.mod_small. lia. }
    eexists. split; [rewrite Hcalls1, Hcalls, <- app_assoc; reflexivity|].
    split.
    + eapply recyclesCmdBufs_step; [exact HRG | lia | | exact HlenG | exact HhG | |].
      * rewrite Hbufs by exact HpG. cbn [VkCommandPool_eqb]. rewrite Z.eqb_refl.
        reflexivity.
      * rewrite !allocatedFrom_app, !allocatedFrom_allocs. cbn [VkCommandPool_eqb].
        rewrite Z.eqb_refl. cbn. rewrite app_nil_r. reflexivity.
      * rewrite !submittedTo_app, !submittedTo_allocs. reflexivity.
    + intros pool Hp HnG.
      apply (recyclesCmdBufs_skip pool st s s1); [apply Hother; assumption | |].
      * rewrite Hbufs by exact Hp.
        rewrite !VkCommandPool_eqb_neq by congruence. reflexivity.
      * rewrite !allocatedFrom_app, !allocatedFrom_allocs.
        rewrite !VkCommandPool_eqb_neq by congruence. reflexivity.
  - split; [reflexivity|]. split; [reflexivity|].
    exists []. rewrite app_nil_r. split; [reflexivity|].
    assert (forall pool, poolCmdBufs (gctOnlyBegin st) pool = poolCmdBufs st pool) as Hb
      by (intros []; reflexivity).
    unfold recyclesCmdBufs. rewrite !Hb. cbn [allocatedFrom submittedTo flat_map].
    rewrite !app_nil_r.
    split; [split; [reflexivity | split; [lia | reflexivity]]|].
    intros pool _ _. rewrite Hb. auto.
Qed.

Lemma recyclesCmdBufs_prefix (pool : VkCommandPool) (bc : Z) (st st' : State)
  (pre calls : list (VkCall McubesParams)) :
  allocatedFrom pool pre = [] ->
  submittedTo (poolQueue pool) pre = [] ->
  recyclesCmdBufs pool bc st st' calls ->
  recyclesCmdBufs pool bc st st' (pre ++ calls).
Proof.
  intros Ha Hs (H1 & H2 & H3). unfold recyclesCmdBufs.
  rewrite allocatedFrom_app, submittedTo_app, Ha, Hs. auto.
Qed.

End CommandBuffers.

(** A frame recycles its command buffers.  With either scheduler, the
    batches of a frame submit the first command buffers of the list that
    belongs to the pool and to the parity of the frame, one per batch and in
    the order of the list; a command buffer is allocated only when the frame
    has more batches than the list holds, and is put at the end of the list,
    which then holds as many command buffers as the frame has batches.  The
    lists of the other pools are left alone, and nothing is allocated from
    the other pools. *)
Theorem frames_recycle_command_buffers {McubesParams : Type} (pGui : Gui)
  (paramsList : list McubesParams) (st : Globals McubesParams) :
  let bc := batchCountOf paramsList (effectiveBatchSize pGui) in
  let frame := Z.land (g_frameNumber st) 1 in
  Core st ->
  Z.of_nat (length paramsList) + 6 <= 2 ^ 32 ->
  s_upcomingTimelineValue st + bc < 2 ^ 64 ->
  (exists st' calls,
      computeDrawCommandsTwoQueues pGui paramsList st = Ok st'
      /\ vk_calls st' = vk_calls st ++ calls
      /\ recyclesCmdBufs (s_frameComputePools frame) bc st st' calls
      /\ recyclesCmdBufs (s_frameGraphicsPools frame) bc st st' calls
      /\ (forall pool,
             framePool pool ->
             pool <> s_frameComputePools frame -> pool <> s_frameGraphicsPools frame ->
             poolCmdBufs st' pool = poolCmdBufs st pool /\ allocatedFrom pool calls = []))
  /\ (exists st' calls,
         computeDrawCommandsGctOnly pGui paramsList st = Ok st'
         /\ vk_calls st' = vk_calls st ++ calls
         /\ recyclesCmdBufs (s_frameGraphicsPools frame) bc st st' calls
         /\ (forall pool,
                framePool pool -> pool <> s_frameGraphicsPools frame ->
                poolCmdBufs st' pool = poolCmdBufs st pool
                /\ allocatedFrom pool calls = [])).
Proof.
  intros bc frame HCore HM Hwrap.
  pose proof (effectiveBatchSize_range pGui) as HB.
  pose proof (computeBatchCount_spec paramsList _ HB HM) as Hbc.
  fold (batchCountOf paramsList (effectiveBatchSize pGui)) in Hbc. fold bc in Hbc.
  split.
  - destruct (computeDrawCommandsTwoQueues_spec (fun _ _ => True) pGui paramsList st
                HCore HM Hwrap I (fun _ _ _ _ _ _ _ _ => I)) as (st' & Hrun & _).
    destruct (computeDrawCommandsTwoQueues_recycles pGui paramsList st st' Hrun)
      as (bc' & calls & Hbc' & Hcalls & HRC & HRG & Ho).
    rewrite Hbc in Hbc'. injection Hbc' as <-. fold frame in HRC, HRG, Ho.
    exists st'. eexists. split; [exact Hrun|].
    split; [rewrite Hcalls; state_simpl; rewrite <- !app_assoc; reflexivity|].
    split; [apply recyclesCmdBufs_prefix; [reflexivity | reflexivity | exact HRC]|].
    split; [apply recyclesCmdBufs_prefix; [reflexivity | reflexivity | exact HRG]|].
    intros pool Hp HnC HnG. destruct (Ho pool Hp HnC HnG) as [H1 H2].
    split; [exact H1|]. rewrite !allocatedFrom_app, H2. reflexivity.
  - destruct (computeDrawCommandsGctOnly_spec (fun _ _ => True) pGui paramsList st
                HM I (fun _ _ _ _ _ _ => I)) as (st' & Hrun & _).
    destruct (computeDrawCommandsGctOnly_recycles pGui paramsList st st' Hrun)
      as (bc' & calls & Hbc' & Hcalls & HRG & Ho).
    rewrite Hbc in Hbc'. injection Hbc' as <-. fold frame in HRG, Ho.
    exists st'. eexists. split; [exact Hrun|].
    split; [rewrite Hcalls; state_simpl; rewrite <- !app_assoc; reflexivity|].
    split; [apply recyclesCmdBufs_prefix; [reflexivity | reflexivity | exact HRG]|].
    intros pool Hp HnG. destruct (Ho pool Hp HnG) as [H1 H2].
    split; [exact H1|]. rewrite !allocatedFrom_app, H2. reflexivity.
Qed.

Lemma frames_recycle_command_buffers_witness :
  Core exampleRecycleState
  /\ Z.of_nat (length (seq 0 13)) + 6 <= 2 ^ 32
  /\ s_upcomingTimelineValue exampleRecycleState
     + batchCountOf (seq 0 13) (effectiveBatchSize (exampleGui 6 true)) < 2 ^ 64
  /\ exists st' calls,
       computeDrawCommandsTwoQueues (exampleGui 6 true) (seq 0 13) exampleRecycleState
       = Ok st'
       /\ vk_calls st' = vk_calls exampleRecycleState ++ calls
       /\ s_frameComputeCmdBufs st' = ([], [10; 30; 31])
       /\ s_frameGraphicsCmdBufs st' = ([], [20; 21; 22])
       /\ allocatedFrom (s_frameComputePools 1) calls = [30; 31]
       /\ allocatedFrom (s_frameGraphicsPools 1) calls = []
       /\ submittedTo g_computeQueue calls = [10; 30; 31]
       /\ submittedTo g_gctQueue calls = [20; 21; 22].
Proof.
  assert (Core exampleRecycleState) as HCore
    by exact (initialGlobals_Core (McubesParams := nat) 1).
  assert (Z.of_nat (length (seq 0 13)) + 6 <= 2 ^ 32) as HM by (vm_compute; discriminate).
  assert (s_upcomingTimelineValue exampleRecycleState
          + batchCountOf (seq 0 13) (effectiveBatchSize (exampleGui 6 true)) < 2 ^ 64)
    as Hwrap by (vm_compute; reflexivity).
  split; [exact HCore|]. split; [exact HM|]. split; [exact Hwrap|].
  destruct (frames_recycle_command_buffers (exampleGui 6 true) (seq 0 13)
              exampleRecycleState HCore HM Hwrap)
    as [(st' & calls & Hrun & Hcalls & _) _].
  exists st', calls. split; [exact Hrun|]. split; [exact Hcalls|].
  vm_compute in Hrun. injection Hrun as <-.
  vm_compute in Hcalls. subst calls.
  repeat split.
Defined.

(** ** Resetting a command pool *)

Section PoolReset.

Context {McubesParams : Type}.
Local Abbreviation State := (Globals McubesParams).

Lemma hostWaitedFor_app (calls extra : list (VkCall McubesParams)) (j : nat)
  (queue : VkQueue) (submit : VkSubmitInfo McubesParams) :
  hostWaitedFor calls j queue submit -> hostWaitedFor (calls ++ extra) j queue submit.
Proof.
  intros (k & x & Hjk & Hk & Hx).
  assert (k < length calls)%nat as Hlt by (apply lookup_lt_Some in Hk; exact Hk).
  exists k, x. split; [exact Hjk|]. split; [rewrite lookup_app_l by lia; exact Hk|].
  destruct x; try exact Hx.
  destruct Hx as (m & submit' & Hm & Hsub & Hno).
  exists m, submit'. split; [exact Hm|]. split; [rewrite lookup_app_l by lia; exact Hsub|].
  intros n Hn. rewrite lookup_app_l by lia. apply Hno, Hn.
Qed.

(** A handle is allocated from one pool. *)
Lemma alloc_unique (calls : list (VkCall McubesParams)) (pool pool' : VkCommandPool)
  (h : VkCommandBuffer) :
  eachCall submitsResetBuffer calls ->
  vkAllocateCommandBuffers pool h ∈ calls ->
  vkAllocateCommandBuffers pool' h ∈ calls ->
  pool = pool'.
Proof.
  intros H1 Hh Hh'.
  apply list_elem_of_lookup in Hh as [i Hi]. apply list_elem_of_lookup in Hh' as [j Hj].
  destruct (Nat.lt_trichotomy i j) as [Hlt | [-> | Hlt]].
  - exfalso. apply (H1 j _ Hj pool). apply list_elem_of_lookup. exists i.
    rewrite lookup_take_lt by exact Hlt. exact Hi.
  - congruence.
  - exfalso. apply (H1 i _ Hi pool'). apply list_elem_of_lookup. exists j.
    rewrite lookup_take_lt by exact Hlt. exact Hj.
Qed.

(** A submission made before [extra] submits a command buffer that was
    allocated before [extra]. *)
Lemma old_submission (calls extra : list (VkCall McubesParams)) (j : nat) (queue : VkQueue)
  (submit : VkSubmitInfo McubesParams) (fence : option VkFence) (pool : VkCommandPool) :
  eachCall submitsResetBuffer (calls ++ extra) ->
  (calls ++ extra) !! j = Some (vkQueueSubmit queue submit fence) ->
  (j < length calls)%nat ->
  vkAllocateCommandBuffers pool (commandBuffer submit) ∈ calls ++ extra ->
  calls !! j = Some (vkQueueSubmit queue submit fence)
  /\ vkAllocateCommandBuffers pool (commandBuffer submit) ∈ calls.
Proof.
  intros HE Hj Hlt Hal.
  split; [rewrite lookup_app_l in Hj by exact Hlt; exact Hj|].
  destruct (HE j _ Hj) as (pool0 & Hal0 & _).
  assert (vkAllocateCommandBuffers pool0 (commandBuffer submit) ∈ calls) as Hin.
  { rewrite take_app_le in Hal0 by lia. apply elem_of_take in Hal0 as (i & Hi & _).
    apply list_elem_of_lookup. eauto. }
  assert (pool = pool0) as ->; [| exact Hin].
  apply (alloc_unique (calls ++ extra) _ _ (commandBuffer submit) HE Hal).
  apply elem_of_app. left. exact Hin.
Qed.

(** How [Retire] goes from a state to a state that has made more calls. *)
Lemma Retire_step
  (pending pending' : VkCommandPool -> VkQueue -> VkSubmitInfo McubesParams -> Prop)
  (st st' : State) (extra : list (VkCall McubesParams)) :
  vk_calls st' = vk_calls st ++ extra ->
  eachCall submitsResetBuffer (vk_calls st') ->
  Retire pending st ->
  (forall j queue submit fence pool,
      vk_calls st !! j = Some (vkQueueSubmit queue submit fence) ->
      vkAllocateCommandBuffers pool (commandBuffer submit) ∈ vk_calls st ->
      storedCovers st pool submit \/ fenceCovers st j queue pool
      \/ pending pool queue submit ->
      hostWaitedFor (vk_calls st') j queue submit
      \/ storedCovers st' pool submit
      \/ fenceCovers st' j queue pool
      \/ pending' pool queue submit) ->
  (forall j queue submit fence pool,
      (length (vk_calls st) <= j)%nat ->
      vk_calls st' !! j = Some (vkQueueSubmit queue submit fence) ->
      vkAllocateCommandBuffers pool (commandBuffer submit) ∈ vk_calls st' ->
      hostWaitedFor (vk_calls st') j queue submit
      \/ storedCovers st' pool submit
      \/ fenceCovers st' j queue pool
      \/ pending' pool queue submit) ->
  Retire pending' st'.
Proof.
  intros Hcalls HE HR Hold Hnew j queue submit fence pool Hj Hal.
  destruct (Nat.lt_ge_cases j (length (vk_calls st))) as [Hlt | Hge].
  - rewrite Hcalls in HE, Hj, Hal.
    destruct (old_submission _ _ _ _ _ _ _ HE Hj Hlt Hal) as [Hj0 Hal0].
    destruct (HR j queue submit fence pool Hj0 Hal0) as [Hw | Hrest].
    + left. rewrite Hcalls. apply hostWaitedFor_app, Hw.
    + exact (Hold j queue submit fence pool Hj0 Hal0 Hrest).
  - exact (Hnew j queue submit fence pool Hge Hj Hal).
Qed.

(** Calls that are neither allocations, submissions nor resets. *)
Lemma RetireInv_host (st st' : State) (extra : list (VkCall McubesParams)) :
  vk_calls st' = vk_calls st ++ extra ->
  Forall (fun c => (forall pool h, c <> vkAllocateCommandBuffers pool h)
                   /\ (forall q s f, c <> vkQueueSubmit q s f)
                   /\ (forall pool, c <> vkResetCommandPool pool)
                   /\ (forall fence, c <> vkResetFences fence)) extra ->
  vk_nextHandle st <= vk_nextHandle st' ->
  s_frameComputeCmdBufs st' = s_frameComputeCmdBufs st ->
  s_frameGraphicsCmdBufs st' = s_frameGraphicsCmdBufs st ->
  sameClock st st' ->
  RetireInv st -> RetireInv st'.
Proof.
  intros Hcalls Hextra Hn Hcb Hgb (Kup & KC & KG & Kq) (HI & HE & HR & HS).
  assert (CmdBufInv st') as HI'.
  { apply (CmdBufInv_host st st' extra); try assumption.
    eapply Forall_impl; [exact Hextra|]. intros c (? & ? & _). auto. }
  split; [exact HI'|]. split; [| split].
  - rewrite Hcalls. apply eachCall_app; [exact HE|].
    eapply Forall_impl; [exact Hextra|]. intros c (_ & _ & Hr & _) pre.
    destruct c; try exact I. exfalso. exact (Hr _ eq_refl).
  - apply (Retire_step _ _ st st' extra Hcalls (proj1 HI') HR).
    + intros j queue submit fence pool Hj Hal [Hs | [Hf | []]].
      * right. left. destruct Hs as [Hq Hs]. split; [congruence|].
        rewrite <- KC, <- KG. exact Hs.
      * right. right. left. destruct Hf as (Hq & Hqueue & Hf).
        split; [congruence|]. split; [exact Hqueue|].
        destruct pool as [i | i]; [exact Hf|].
        destruct Hf as (m & submit' & Hm & Hsub & Hno).
        exists m, submit'. split; [exact Hm|]. rewrite Hcalls.
        split; [apply lookup_app_l_Some; exact Hsub|].
        intros n Hmn Hreset. apply lookup_app_Some in Hreset as [Hreset | [_ Hreset]].
        -- exact (Hno n Hmn Hreset).
        -- apply list_elem_of_lookup_2 in Hreset.
           rewrite Forall_forall in Hextra.
           exact (proj2 (proj2 (proj2 (Hextra _ Hreset))) _ eq_refl).
    + intros j queue submit fence pool Hge Hj Hal. exfalso.
      rewrite Hcalls in Hj. apply lookup_app_Some in Hj as [Hj | [_ Hj]].
      * apply lookup_lt_Some in Hj. lia.
      * apply list_elem_of_lookup_2 in Hj. rewrite Forall_forall in Hextra.
        exact (proj1 (proj2 (Hextra _ Hj)) _ _ _ eq_refl).
  - intros i. rewrite <- Kup, <- KC, <- KG. apply HS.
Qed.

(** After [vkDeviceWaitIdle] the host has waited for every submission. *)
Lemma RetireInv_idle (st st' : State) :
  vk_calls st' = vk_calls st ++ [vkDeviceWaitIdle] ->
  vk_nextHandle st' = vk_nextHandle st ->
  s_frameComputeCmdBufs st' = s_frameComputeCmdBufs st ->
  s_frameGraphicsCmdBufs st' = s_frameGraphicsCmdBufs st ->
  s_upcomingTimelineValue st' = s_upcomingTimelineValue st ->
  s_frameComputePoolWaitTimelineValues st' = s_frameComputePoolWaitTimelineValues st ->
  s_frameGraphicsPoolWaitTimelineValues st' = s_frameGraphicsPoolWaitTimelineValues st ->
  RetireInv st -> RetireInv st'.
Proof.
  intros Hcalls Hn Hcb Hgb Kup KC KG (HI & HE & HR & HS).
  assert (CmdBufInv st') as HI'.
  { apply (CmdBufInv_host st st' [vkDeviceWaitIdle]); try assumption; [| lia].
    repeat (constructor; [split; discriminate|]). constructor. }
  split; [exact HI'|]. split; [| split].
  - rewrite Hcalls. apply eachCall_snoc; [exact HE | exact I].
  - intros j queue submit fence pool Hj Hal. left.
    rewrite Hcalls in Hj |- *.
    apply lookup_app_Some in Hj as [Hj | [_ Hj]].
    + exists (length (vk_calls st)), vkDeviceWaitIdle.
      split; [apply lookup_lt_Some in Hj; exact Hj|].
      split; [apply list_lookup_middle; reflexivity | exact I].
    + destruct (j - length (vk_calls st))%nat as [|n]; [discriminate Hj|].
      destruct n; discriminate Hj.
  - intros i. rewrite Kup, KC, KG. apply HS.
Qed.

(** Calls that neither submit nor reset a fence leave every submission as
    it is. *)
Lemma Retire_host
  (pending : VkCommandPool -> VkQueue -> VkSubmitInfo McubesParams -> Prop)
  (st st' : State) (extra : list (VkCall McubesParams)) :
  vk_calls st' = vk_calls st ++ extra ->
  eachCall submitsResetBuffer (vk_calls st') ->
  Forall (fun c => (forall q s f, c <> vkQueueSubmit q s f)
                   /\ (forall fence, c <> vkResetFences fence)) extra ->
  sameClock st st' ->
  Retire pending st -> Retire pending st'.
Proof.
  intros Hcalls HE' Hextra (Kup & KC & KG & Kq) HR.
  apply (Retire_step _ _ st st' extra Hcalls HE' HR).
  - intros j queue submit fence pool Hj Hal [Hs | [Hf | Hp]].
    + right. left. destruct Hs as [Hq Hs]. split; [congruence|].
      rewrite <- KC, <- KG. exact Hs.
    + right. right. left. destruct Hf as (Hq & Hqueue & Hf).
      split; [congruence|]. split; [exact Hqueue|].
      destruct pool as [i | i]; [exact Hf|].
      destruct Hf as (m & submit' & Hm & Hsub & Hno).
      exists m, submit'. split; [exact Hm|]. rewrite Hcalls.
      split; [apply lookup_app_l_Some; exact Hsub|].
      intros n Hmn Hreset. apply lookup_app_Some in Hreset as [Hreset | [_ Hreset]].
      * exact (Hno n Hmn Hreset).
      * apply list_elem_of_lookup_2 in Hreset.
        rewrite Forall_forall in Hextra.
        exact (proj2 (Hextra _ Hreset) _ eq_refl).
    + right. right. right. exact Hp.
  - intros j queue submit fence pool Hge Hj Hal. exfalso.
    rewrite Hcalls in Hj. apply lookup_app_Some in Hj as [Hj | [_ Hj]].
    + apply lookup_lt_Some in Hj. lia.
    + apply list_elem_of_lookup_2 in Hj. rewrite Forall_forall in Hextra.
      exact (proj1 (Hextra _ Hj) _ _ _ eq_refl).
Qed.

Lemma lookup_snoc_submit (calls : list (VkCall McubesParams)) (x : VkCall McubesParams)
  (j : nat) (queue : VkQueue) (submit : VkSubmitInfo McubesParams)
  (fence : option VkFence) :
  (forall q s f, x <> vkQueueSubmit q s f) ->
  (calls ++ [x]) !! j = Some (vkQueueSubmit queue submit fence) ->
  calls !! j = Some (vkQueueSubmit queue submit fence).
Proof.
  intros Hx Hj. apply lookup_app_Some in Hj as [Hj | [_ Hj]]; [exact Hj|].
  exfalso. destruct (j - length calls)%nat as [|n].
  - injection Hj as ->. exact (Hx _ _ _ eq_refl).
  - destruct n; discriminate Hj.
Qed.

Lemma elem_of_snoc_alloc (calls : list (VkCall McubesParams)) (x : VkCall McubesParams)
  (pool : VkCommandPool) (h : VkCommandBuffer) :
  (forall p c, x <> vkAllocateCommandBuffers p c) ->
  vkAllocateCommandBuffers pool h ∈ calls ++ [x] ->
  vkAllocateCommandBuffers pool h ∈ calls.
Proof.
  intros Hx Hin. apply elem_of_app in Hin as [Hin | Hin]; [exact Hin|].
  apply list_elem_of_singleton in Hin. exfalso. exact (Hx _ _ (eq_sym Hin)).
Qed.

(** The calls a two-queue frame starts with: the host waits for the values
    kept for the two pools of the frame, and resets the pools. *)
Lemma twoQueuesBegin_resets (st : State) :
  s_useComputeQueue st = true ->
  Retire (fun _ _ _ => False) st ->
  eachCall resetsRetiredPool (vk_calls st) ->
  eachCall resetsRetiredPool (vk_calls (twoQueuesBegin st)).
Proof.
  intros Hq HR HE. unfold twoQueuesBegin. cbn [call set_calls vk_calls].
  set (frame := Z.land (g_frameNumber st) 1).
  set (c := at2 (s_frameComputePoolWaitTimelineValues st) frame).
  set (g := at2 (s_frameGraphicsPoolWaitTimelineValues st) frame).
  assert (forall rest j queue submit fence pool,
            vk_calls st !! j = Some (vkQueueSubmit queue submit fence) ->
            vkAllocateCommandBuffers pool (commandBuffer submit) ∈ vk_calls st ->
            pool = s_frameComputePools frame \/ pool = s_frameGraphicsPools frame ->
            hostWaitedFor ((vk_calls st ++ [vkWaitSemaphoresKHR c g]) ++ rest)
              j queue submit) as Hwait.
  { intros rest j queue submit fence pool Hj Hal Hpool.
    destruct (HR j queue submit fence pool Hj Hal) as [Hw | [Hs | [Hf | []]]].
    - rewrite <- app_assoc. apply hostWaitedFor_app, Hw.
    - apply hostWaitedFor_app.
      exists (length (vk_calls st)), (vkWaitSemaphoresKHR c g).
      split; [apply lookup_lt_Some in Hj; exact Hj|].
      split; [apply list_lookup_middle; reflexivity|].
      destruct Hs as [_ Hs]. unfold signalAtMost.
      destruct Hpool as [-> | ->]; destruct (signalSemaphore submit) as [[[] v]|];
        try contradiction; exact Hs.
    - destruct Hf as (Hq' & _). congruence. }
  apply eachCall_snoc; [apply eachCall_snoc; [apply eachCall_snoc|]|].
  - exact HE.
  - exact I.
  - intros j queue submit fence Hj Hal.
    apply lookup_snoc_submit in Hj; [| discriminate].
    apply elem_of_snoc_alloc in Hal; [| discriminate].
    rewrite <- (app_nil_r (vk_calls st ++ _)).
    apply (Hwait [] j queue submit fence _ Hj Hal). left. reflexivity.
  - intros j queue submit fence Hj Hal.
    apply lookup_snoc_submit in Hj; [| discriminate].
    apply lookup_snoc_submit in Hj; [| discriminate].
    apply elem_of_snoc_alloc in Hal; [| discriminate].
    apply elem_of_snoc_alloc in Hal; [| discriminate].
    apply (Hwait [_] j queue submit fence _ Hj Hal). right. reflexivity.
Qed.

(** The calls a single-queue frame starts with: the host waits for the
    fence of the pool, resets the fence and resets the pool. *)
Lemma gctOnlyBegin_resets (st : State) :
  s_useComputeQueue st = false ->
  Retire (fun _ _ _ => False) st ->
  eachCall resetsRetiredPool (vk_calls st) ->
  eachCall submitsResetBuffer (vk_calls (gctOnlyBegin st)) ->
  eachCall resetsRetiredPool (vk_calls (gctOnlyBegin st))
  /\ Retire (fun _ _ _ => False) (gctOnlyBegin st).
Proof.
  intros Hq HR HE HE'.
  set (frame := Z.land (g_frameNumber st) 1).
  set (F := s_frameGraphicsPoolFences frame).
  assert (forall rest j queue submit,
            (j < length (vk_calls st))%nat ->
            fenceCovers st j queue (s_frameGraphicsPools frame) ->
            hostWaitedFor ((vk_calls st ++ [vkWaitForFences F]) ++ rest) j queue submit)
    as Hwait.
  { intros rest j queue submit Hlt (_ & -> & m & submit' & Hm & Hsub & Hno).
    apply hostWaitedFor_app.
    exists (length (vk_calls st)), (vkWaitForFences F).
    split; [exact Hlt|]. split; [apply list_lookup_middle; reflexivity|].
    exists m, submit'.
    assert (m < length (vk_calls st))%nat as Hmlt
      by (apply lookup_lt_Some in Hsub; exact Hsub).
    split; [lia|]. split; [apply lookup_app_l_Some; exact Hsub|].
    intros n Hn Hreset. rewrite lookup_app_l in Hreset by lia.
    exact (Hno n ltac:(lia) Hreset). }
  split.
  - unfold gctOnlyBegin. cbn [call set_calls vk_calls]. fold frame. fold F.
    apply eachCall_snoc; [apply eachCall_snoc; [apply eachCall_snoc|]|].
    + exact HE.
    + exact I.
    + exact I.
    + intros j queue submit fence Hj Hal.
      apply lookup_snoc_submit in Hj; [| discriminate].
      apply lookup_snoc_submit in Hj; [| discriminate].
      apply elem_of_snoc_alloc in Hal; [| discriminate].
      apply elem_of_snoc_alloc in Hal; [| discriminate].
      destruct (HR j queue submit fence _ Hj Hal) as [Hw | [Hs | [Hf | []]]].
      * rewrite <- app_assoc. apply hostWaitedFor_app, Hw.
      * destruct Hs as [Hq' _]. congruence.
      * apply (Hwait [_] j queue submit); [| exact Hf].
        apply lookup_lt_Some in Hj. exact Hj.
  - apply (Retire_step (fun _ _ _ => False) (fun _ _ _ => False) st (gctOnlyBegin st)
             [vkWaitForFences F; vkResetFences F;
              vkResetCommandPool (s_frameGraphicsPools frame)]);
      [| exact HE' | exact HR | |].
    + unfold gctOnlyBegin. cbn [call set_calls vk_calls]. rewrite <- !app_assoc. reflexivity.
    + intros j queue submit fence pool Hj Hal [Hs | [Hf | []]].
      * destruct Hs as [Hq' _]. congruence.
      * assert (vk_calls (gctOnlyBegin st)
                = (vk_calls st ++ [vkWaitForFences F])
                  ++ [vkResetFences F; vkResetCommandPool (s_frameGraphicsPools frame)])
          as Hc by (unfold gctOnlyBegin; cbn [call set_calls vk_calls];
                    rewrite <- !app_assoc; reflexivity).
        destruct pool as [i | i]; [destruct Hf as (_ & _ & []) |].
        destruct (Z.eq_dec i frame) as [-> | Hne].
        -- left. rewrite Hc. apply Hwait; [| exact Hf].
           apply lookup_lt_Some in Hj. exact Hj.
        -- right. right. left. destruct Hf as (Hq' & Hqueue & m & submit' & Hm & Hsub & Hno).
           split; [exact Hq'|]. split; [exact Hqueue|].
           exists m, submit'. split; [exact Hm|]. rewrite Hc, <- app_assoc.
           split; [apply lookup_app_l_Some; exact Hsub|].
           intros n Hmn Hreset. apply lookup_app_Some in Hreset as [Hreset | [_ Hreset]].
           ++ exact (Hno n Hmn Hreset).
           ++ apply list_elem_of_lookup_2 in Hreset.
              repeat (apply elem_of_cons in Hreset as [Hreset | Hreset];
                      [try discriminate Hreset|]).
              ** injection Hreset as Hreset. congruence.
              ** apply elem_of_nil in Hreset. destruct Hreset.
    + intros j queue submit fence pool Hge Hj Hal. exfalso.
      unfold gctOnlyBegin in Hj. cbn [call set_calls vk_calls] in Hj.
      do 3 (apply lookup_snoc_submit in Hj; [| discriminate]).
      apply lookup_lt_Some in Hj. lia.
Qed.

Lemma Forall_isAllocate_fmap (pool : VkCommandPool) (fresh : list VkCommandBuffer) :
  Forall (isAllocate (McubesParams := McubesParams))
    (vkAllocateCommandBuffers pool <$> fresh).
Proof. induction fresh as [|h fresh IH]; constructor; [exact I | exact IH]. Qed.

Lemma storedBelowClock_upd (st st' : State) (frame up : Z) (last : bool) :
  storedBelowClock st ->
  s_upcomingTimelineValue st = up ->
  s_upcomingTimelineValue st' = up + 1 ->
  s_frameComputePoolWaitTimelineValues st'
  = (if last then upd2 (s_frameComputePoolWaitTimelineValues st) frame up
     else s_frameComputePoolWaitTimelineValues st) ->
  s_frameGraphicsPoolWaitTimelineValues st'
  = (if last then upd2 (s_frameGraphicsPoolWaitTimelineValues st) frame up
     else s_frameGraphicsPoolWaitTimelineValues st) ->
  storedBelowClock st'.
Proof.
  intros HS Hup Hup' HC HG i. rewrite Hup', HC, HG. destruct (HS i) as [H1 H2].
  rewrite Hup in H1, H2.
  destruct last; [| lia].
  destruct (at2_upd2 (s_frameComputePoolWaitTimelineValues st) frame i up) as [-> | ->],
           (at2_upd2 (s_frameGraphicsPoolWaitTimelineValues st) frame i up) as [-> | ->];
    lia.
Qed.

(** One batch of the two-queue scheduler: its two submissions signal the
    value of the clock, which the last batch of the frame keeps for the two
    pools. *)
Lemma twoQueuesBatch_Retire (pGui : Gui) (paramsList : list McubesParams)
  (B bc i : Z) (loc loc' : TwoQueuesLocals) (s s' : State) :
  let frame := Z.land (g_frameNumber s) 1 in
  let pools := [s_frameComputePools frame; s_frameGraphicsPools frame] in
  let up := s_upcomingTimelineValue s in
  twoQueuesBatch pGui paramsList B bc i (loc, s) = Ok (loc', s') ->
  0 <= i < bc -> bc < 2 ^ 32 ->
  nextCmdBufIndex loc = i ->
  InFrame pools (fun _ => i) s ->
  s_useComputeQueue s = true ->
  0 <= up -> up + 1 < 2 ^ 64 ->
  storedBelowClock s ->
  eachCall resetsRetiredPool (vk_calls s) ->
  Retire (if 0 <? i then pendingTwoQueues frame up else fun _ _ _ => False) s ->
  Retire (if i + 1 <? bc then pendingTwoQueues frame (up + 1) else fun _ _ _ => False) s'
  /\ storedBelowClock s'
  /\ eachCall resetsRetiredPool (vk_calls s')
  /\ s_upcomingTimelineValue s' = up + 1
  /\ s_useComputeQueue s' = true.
Proof.
  intros frame pools up H Hi Hbc Hk HI Hq Hup0 Hup1 HS HE HR.
  destruct (twoQueuesBatch_InFrame _ _ _ _ _ i _ _ _ _ H Hk HI) as (HI' & Hfn' & _).
  destruct (framePool_land (g_frameNumber s)) as [HpC HpG]. fold frame in HpC, HpG.
  assert (s_frameComputePools frame ∈ pools) as HinC
    by (apply elem_of_cons; left; reflexivity).
  assert (s_frameGraphicsPools frame ∈ pools) as HinG
    by (apply elem_of_cons; right; apply elem_of_cons; left; reflexivity).
  pose proof (twoQueuesBatch_buffers _ _ _ _ _ i _ _ _ _ H Hk) as Hb.
  cbv zeta in Hb. fold frame in Hb.
  destruct Hb as (freshC & freshG & submitC & submitG & HC & HG & _ & _ & HhC & HhG
                  & Hcalls & _ & _ & HsC & HsG & Hup' & HwC & HwG & Hq').
  { destruct HI as (_ & Hidx & _). destruct (Hidx _ HinC) as [_ Hl]. exact Hl. }
  { destruct HI as (_ & Hidx & _). destruct (Hidx _ HinG) as [_ Hl]. exact (proj2 Hl). }
  fold up in HsC, HsG, Hup', HwC, HwG.
  assert (to_uint64 (up + 1) = up + 1) as Hmod
    by (unfold to_uint64; apply Z.mod_small; lia).
  rewrite Hmod in Hup'.
  assert (to_uint32 (bc - 1) = bc - 1) as Hmod32
    by (unfold to_uint32; apply Z.mod_small; lia).
  rewrite Hmod32 in HwC, HwG.
  assert ((i =? bc - 1) = negb (i + 1 <? bc)) as Hlast.
  { destruct (Z.eqb_spec i (bc - 1)), (Z.ltb_spec (i + 1) bc); try reflexivity; lia. }
  rewrite Hlast in HwC, HwG.
  destruct HI' as (HIc' & _).
  pose proof (proj1 HIc') as HEs'.
  assert (vkAllocateCommandBuffers (s_frameComputePools frame) (commandBuffer submitC)
            ∈ vk_calls s') as HalC.
  { destruct HIc' as (_ & _ & H3 & _). apply (H3 _ _ HpC).
    cbn [poolCmdBufs]. rewrite HC, at2_upd2_same.
    apply list_elem_of_lookup. eauto. }
  assert (vkAllocateCommandBuffers (s_frameGraphicsPools frame) (commandBuffer submitG)
            ∈ vk_calls s') as HalG.
  { destruct HIc' as (_ & _ & H3 & _). apply (H3 _ _ HpG).
    cbn [poolCmdBufs]. rewrite HG, at2_upd2_same.
    apply list_elem_of_lookup. eauto. }
  set (allocs := (vkAllocateCommandBuffers (McubesParams := McubesParams)
                    (s_frameComputePools frame) <$> freshC)
                 ++ (vkAllocateCommandBuffers (s_frameGraphicsPools frame) <$> freshG)).
  assert (vk_calls s'
          = vk_calls s ++ allocs ++ [vkQueueSubmit g_computeQueue submitC None;
                                     vkQueueSubmit g_gctQueue submitG None]) as Hcalls'
    by (rewrite Hcalls; subst allocs; rewrite <- !app_assoc; reflexivity).
  assert (Forall isAllocate allocs) as Hallocs
    by (apply Forall_app; split; apply Forall_isAllocate_fmap).
  split; [| split; [| split; [| split]]].
  - eapply (Retire_step _ _ s s' _ Hcalls' HEs' HR).
    + intros j queue submit fence pool Hj Hal [Hs | [Hf | Hp]].
      * right. left. destruct Hs as [_ Hs]. split; [congruence|].
        rewrite HwC, HwG.
        destruct (HS frame) as [HSC HSG]. fold up in HSC, HSG.
        destruct (i + 1 <? bc); cbn [negb]; [exact Hs|].
        destruct pool as [k | k], (signalSemaphore submit) as [[[] v]|];
          try contradiction.
        -- destruct (at2_upd2 (s_frameComputePoolWaitTimelineValues s) frame k up)
             as [-> | ->]; [exact Hs|].
           destruct (HS k) as [HSk _]. fold up in HSk. lia.
        -- destruct (at2_upd2 (s_frameGraphicsPoolWaitTimelineValues s) frame k up)
             as [-> | ->]; [exact Hs|].
           destruct (HS k) as [_ HSk]. fold up in HSk. lia.
      * destruct Hf as (Hq'' & _). congruence.
      * destruct (Z.ltb_spec 0 i); [| destruct Hp].
        unfold pendingTwoQueues in Hp.
        destruct (Z.ltb_spec (i + 1) bc).
        -- right. right. right. unfold pendingTwoQueues.
           destruct pool as [k | k], (signalSemaphore submit) as [[[] v]|];
             try contradiction; (split; [tauto | lia]).
        -- right. left. split; [congruence|]. rewrite HwC, HwG. cbn [negb].
           destruct pool as [k | k], (signalSemaphore submit) as [[[] v]|];
             try contradiction; destruct Hp as [-> Hv]; rewrite at2_upd2_same; lia.
    + intros j queue submit fence pool Hge Hj Hal.
      rewrite Hcalls' in Hj.
      destruct (lookup_batch_calls _ _ _ _ _ Hallocs Hj ltac:(intros [])) as [Hj' | Hj'].
      { apply lookup_lt_Some in Hj'. lia. }
      destruct Hj' as (k & _ & Hk').
      assert ((queue = g_computeQueue /\ submit = submitC
               /\ pool = s_frameComputePools frame)
              \/ (queue = g_gctQueue /\ submit = submitG
                  /\ pool = s_frameGraphicsPools frame)) as Hwhich.
      { destruct k as [|[|k]]; [| | discriminate Hk'].
        - injection Hk' as <- <- _. left. repeat split.
          exact (alloc_unique _ _ _ _ HEs' Hal HalC).
        - injection Hk' as <- <- _. right. repeat split.
          exact (alloc_unique _ _ _ _ HEs' Hal HalG). }
      destruct (Z.ltb_spec (i + 1) bc).
      * right. right. right. unfold pendingTwoQueues.
        destruct Hwhich as [(-> & -> & ->) | (-> & -> & ->)]; rewrite ?HsC, ?HsG;
          (split; [reflexivity | lia]).
      * right. left. split; [congruence|]. rewrite HwC, HwG. cbn [negb].
        destruct Hwhich as [(-> & -> & ->) | (-> & -> & ->)]; rewrite ?HsC, ?HsG;
          rewrite at2_upd2_same; lia.
  - exact (storedBelowClock_upd s s' frame up _ HS eq_refl Hup' HwC HwG).
  - rewrite Hcalls'. apply eachCall_app; [exact HE|].
    apply Forall_app. split.
    + eapply Forall_impl; [exact Hallocs|]. intros c Hc pre. destruct c; try exact I.
      destruct Hc.
    + repeat (constructor; [intros pre; exact I|]). constructor.
  - exact Hup'.
  - congruence.
Qed.

(** One batch of the single-queue scheduler: the last batch of the frame
    signals the fence of the pool. *)
Lemma gctOnlyBatch_Retire (pGui : Gui) (paramsList : list McubesParams)
  (B bc i k' : Z) (fcu fcu' : option Z) (s s' : State) :
  let frame := Z.land (g_frameNumber s) 1 in
  let pools := [s_frameGraphicsPools frame] in
  gctOnlyBatch pGui paramsList B bc i (i, fcu, s) = Ok (k', fcu', s') ->
  0 <= i < bc -> bc < 2 ^ 32 ->
  InFrame pools (fun _ => i) s ->
  s_useComputeQueue s = false ->
  storedBelowClock s ->
  eachCall resetsRetiredPool (vk_calls s) ->
  Retire (if 0 <? i then pendingGctOnly frame else fun _ _ _ => False) s ->
  Retire (if i + 1 <? bc then pendingGctOnly frame else fun _ _ _ => False) s'
  /\ storedBelowClock s'
  /\ eachCall resetsRetiredPool (vk_calls s')
  /\ s_upcomingTimelineValue s' = s_upcomingTimelineValue s
  /\ s_useComputeQueue s' = false.
Proof.
  intros frame pools H Hi Hbc HI Hq HS HE HR.
  destruct (gctOnlyBatch_InFrame _ _ _ _ _ i _ _ _ _ _ H HI) as (HI' & Hfn' & _).
  destruct (framePool_land (g_frameNumber s)) as [_ HpG]. fold frame in HpG.
  assert (s_frameGraphicsPools frame ∈ pools) as HinG
    by (apply elem_of_cons; left; reflexivity).
  pose proof (gctOnlyBatch_buffers _ _ _ _ _ i _ _ _ _ _ H) as Hb.
  cbv zeta in Hb. fold frame in Hb.
  destruct Hb as (freshG & submitG & fence & _ & HG & _ & HhG & Hcalls & _ & _
                  & Hfence & (Kup & KC & KG & Kq)).
  { destruct HI as (_ & Hidx & _). destruct (Hidx _ HinG) as [_ Hl]. exact Hl. }
  assert (to_uint32 (bc - 1) = bc - 1) as Hmod32
    by (unfold to_uint32; apply Z.mod_small; lia).
  rewrite Hmod32 in Hfence.
  assert ((i =? bc - 1) = negb (i + 1 <? bc)) as Hlast.
  { destruct (Z.eqb_spec i (bc - 1)), (Z.ltb_spec (i + 1) bc); try reflexivity; lia. }
  rewrite Hlast in Hfence.
  destruct HI' as (HIc' & _).
  pose proof (proj1 HIc') as HEs'.
  assert (vkAllocateCommandBuffers (s_frameGraphicsPools frame) (commandBuffer submitG)
            ∈ vk_calls s') as HalG.
  { destruct HIc' as (_ & _ & H3 & _). apply (H3 _ _ HpG).
    cbn [poolCmdBufs]. rewrite HG, at2_upd2_same.
    apply list_elem_of_lookup. eauto. }
  set (allocs := vkAllocateCommandBuffers (McubesParams := McubesParams)
                   (s_frameGraphicsPools frame) <$> freshG) in *.
  assert (Forall isAllocate allocs) as Hallocs by apply Forall_isAllocate_fmap.
  assert (forall j x, (allocs ++ [vkQueueSubmit g_gctQueue submitG fence]) !! j = Some x ->
                      forall F, x <> vkResetFences F) as Hnoreset.
  { intros j x Hj F ->. apply lookup_app_Some in Hj as [Hj | [_ Hj]].
    - apply list_elem_of_lookup_2 in Hj. rewrite Forall_forall in Hallocs.
      exact (Hallocs _ Hj).
    - apply list_elem_of_lookup_2, list_elem_of_singleton in Hj. discriminate Hj. }
  assert (vk_calls s' !! (length (vk_calls s) + length allocs)%nat
          = Some (vkQueueSubmit g_gctQueue submitG fence)) as Hm.
  { rewrite Hcalls.
    replace (length (vk_calls s) + length allocs)%nat
      with (length (vk_calls s) + length allocs + 0)%nat by lia.
    rewrite lookup_batch_tail. reflexivity. }
  assert (forall n, (length (vk_calls s) + length allocs < n)%nat ->
                    vk_calls s' !! n = None) as Hend.
  { intros n Hn. apply lookup_ge_None. rewrite Hcalls, !length_app. cbn. lia. }
  split; [| split; [| split; [| split]]].
  - eapply (Retire_step _ _ s s' _ Hcalls HEs' HR).
    + intros j queue submit fence0 pool Hj Hal [Hs | [Hf | Hp]].
      * destruct Hs as (Hq'' & _). congruence.
      * right. right. left. destruct Hf as (_ & Hqueue & Hf).
        split; [congruence|]. split; [exact Hqueue|].
        destruct pool as [k | k]; [exact Hf|].
        destruct Hf as (m & submit' & Hjm & Hsub & Hno).
        exists m, submit'. split; [exact Hjm|]. rewrite Hcalls.
        split; [apply lookup_app_l_Some; exact Hsub|].
        intros n Hmn Hreset. apply lookup_app_Some in Hreset as [Hreset | [_ Hreset]].
        -- exact (Hno n Hmn Hreset).
        -- exact (Hnoreset _ _ Hreset _ eq_refl).
      * destruct (Z.ltb_spec 0 i); [| destruct Hp].
        destruct Hp as [-> ->].
        destruct (Z.ltb_spec (i + 1) bc).
        -- right. right. right. split; reflexivity.
        -- right. right. left. split; [congruence|]. split; [reflexivity|].
           cbn [negb] in Hfence. subst fence.
           eexists _, submitG. split; [| split; [exact Hm|]].
           ++ apply lookup_lt_Some in Hj. lia.
           ++ intros n Hn Hreset. rewrite (Hend n Hn) in Hreset. discriminate Hreset.
    + intros j queue submit fence0 pool Hge Hj Hal.
      rewrite Hcalls in Hj.
      destruct (lookup_batch_calls _ _ _ _ _ Hallocs Hj ltac:(intros [])) as [Hj' | Hj'].
      { apply lookup_lt_Some in Hj'. lia. }
      destruct Hj' as (k & Hjk & Hk').
      destruct k as [|k]; [| discriminate Hk'].
      injection Hk' as <- <- <-.
      assert (pool = s_frameGraphicsPools frame) as ->
        by exact (alloc_unique _ _ _ _ HEs' Hal HalG).
      destruct (Z.ltb_spec (i + 1) bc).
      * right. right. right. split; reflexivity.
      * right. right. left. split; [congruence|]. split; [reflexivity|].
        cbn [negb] in Hfence. subst fence.
        eexists _, submitG. split; [| split; [exact Hm|]].
        -- lia.
        -- intros n Hn Hreset. rewrite (Hend n Hn) in Hreset. discriminate Hreset.
  - intros k. rewrite <- Kup, <- KC, <- KG. apply HS.
  - rewrite Hcalls. apply eachCall_app; [exact HE|].
    apply Forall_app. split.
    + eapply Forall_impl; [exact Hallocs|]. intros c Hc pre. destruct c; try exact I.
      destruct Hc.
    + repeat (constructor; [intros pre; exact I|]). constructor.
  - congruence.
  - congruence.
Qed.

Lemma twoQueuesBegin_InFrame (st : State) :
  let frame := Z.land (g_frameNumber st) 1 in
  CmdBufInv st ->
  InFrame [s_frameComputePools frame; s_frameGraphicsPools frame] (fun _ => 0)
    (twoQueuesBegin st).
Proof.
  intros frame HI.
  destruct (framePool_land (g_frameNumber st)) as [HpC HpG]. fold frame in HpC, HpG.
  apply (InFrame_begin _ st (twoQueuesBegin st)
           [vkWaitSemaphoresKHR (at2 (s_frameComputePoolWaitTimelineValues st) frame)
              (at2 (s_frameGraphicsPoolWaitTimelineValues st) frame);
            vkResetCommandPool (s_frameComputePools frame);
            vkResetCommandPool (s_frameGraphicsPools frame)]);
    try reflexivity; [| | | exact HI].
  - state_simpl. rewrite <- !app_assoc. reflexivity.
  - repeat (constructor; [split; discriminate|]). constructor.
  - intros pool Hin.
    apply elem_of_cons in Hin as [-> | Hin];
      [| apply elem_of_cons in Hin as [-> | Hin]; [| apply elem_of_nil in Hin; destruct Hin]].
    + split; [exact HpC|]. unfold submittedSinceReset. rewrite foldl_app.
      cbn [foldl VkCommandPool_eqb]. rewrite Z.eqb_refl. reflexivity.
    + split; [exact HpG|]. unfold submittedSinceReset. rewrite foldl_app.
      cbn [foldl VkCommandPool_eqb]. rewrite Z.eqb_refl. reflexivity.
Qed.

Lemma gctOnlyBegin_InFrame (st : State) :
  let frame := Z.land (g_frameNumber st) 1 in
  CmdBufInv st ->
  InFrame [s_frameGraphicsPools frame] (fun _ => 0) (gctOnlyBegin st).
Proof.
  intros frame HI.
  destruct (framePool_land (g_frameNumber st)) as [_ HpG]. fold frame in HpG.
  apply (InFrame_begin _ st (gctOnlyBegin st)
           [vkWaitForFences (s_frameGraphicsPoolFences frame);
            vkResetFences (s_frameGraphicsPoolFences frame);
            vkResetCommandPool (s_frameGraphicsPools frame)]);
    try reflexivity; [| | | exact HI].
  - state_simpl. rewrite <- !app_assoc. reflexivity.
  - repeat (constructor; [split; discriminate|]). constructor.
  - intros pool Hin.
    apply elem_of_cons in Hin as [-> | Hin]; [| apply elem_of_nil in Hin; destruct Hin].
    split; [exact HpG|]. unfold submittedSinceReset. rewrite foldl_app.
    cbn [foldl VkCommandPool_eqb]. rewrite Z.eqb_refl. reflexivity.
Qed.

(** A frame of the two-queue scheduler. *)
Lemma computeDrawCommandsTwoQueues_RetireInv (pGui : Gui) (paramsList : list McubesParams)
  (st st' : State) (bc : Z) :
  computeDrawCommandsTwoQueues pGui paramsList st = Ok st' ->
  computeBatchCount paramsList (effectiveBatchSize pGui) = Ok bc ->
  s_useComputeQueue st = true ->
  0 <= s_upcomingTimelineValue st ->
  s_upcomingTimelineValue st + bc < 2 ^ 64 ->
  RetireInv st ->
  RetireInv st'
  /\ s_upcomingTimelineValue st' = s_upcomingTimelineValue st + bc
  /\ s_useComputeQueue st' = true.
Proof.
  intros H Ebc Hq Hup0 Hwrap (HI & HE & HR & HS).
  unfold computeDrawCommandsTwoQueues in H. fold (twoQueuesBegin st) in H.
  pose proof (effectiveBatchSize_range pGui) as HB.
  rewrite Ebc in H. cbn [bind] in H.
  pose proof (computeBatchCount_lt _ _ _ (proj1 HB) Ebc) as Hbc.
  match type of H with bind ?m _ = Ok _ =>
    destruct m as [[loc' s']|] eqn:Eloop; cbn [bind snd] in H; [| discriminate H] end.
  injection H as <-.
  set (frame := Z.land (g_frameNumber st) 1) in *.
  set (pools := [s_frameComputePools frame; s_frameGraphicsPools frame]).
  set (v0 := s_upcomingTimelineValue st) in *.
  unfold for_range in Eloop.
  pose proof
    (fun Hstep Hinit => for_loop_inv
       (fun i (ls : TwoQueuesLocals * State) =>
          nextCmdBufIndex (fst ls) = i
          /\ g_frameNumber (snd ls) = g_frameNumber st
          /\ InFrame pools (fun _ => i) (snd ls)
          /\ s_useComputeQueue (snd ls) = true
          /\ s_upcomingTimelineValue (snd ls) = v0 + i
          /\ storedBelowClock (snd ls)
          /\ eachCall resetsRetiredPool (vk_calls (snd ls))
          /\ Retire (if (0 <? i) && (i <? bc) then pendingTwoQueues frame (v0 + i)
                     else fun _ _ _ => False) (snd ls))
       _ _ _ _ _ Hstep Hinit Eloop) as Hinv.
  rewrite Z.add_0_l, Z.sub_0_r, Z2Nat.id in Hinv by lia.
  cbn [fst snd] in Hinv.
  destruct Hinv as (_ & _ & HI' & Hq' & Hup' & HS' & HE' & HR').
  - intros i [loc s] [loc1 s1] Hi (Hk & Hfn & HIn & Hqs & Hups & HSs & HEs & HRs) Hb.
    cbn [fst snd] in *.
    pose proof (twoQueuesBatch_InFrame _ _ _ _ _ i _ _ _ _ Hb Hk) as Hstep.
    pose proof (twoQueuesBatch_Retire _ _ _ bc i _ _ _ _ Hb) as Hret.
    cbv zeta in Hstep, Hret. rewrite Hfn in Hstep, Hret. fold frame in Hstep, Hret.
    fold pools in Hstep, Hret. rewrite Hups in Hret.
    destruct (Hstep HIn) as (HI1 & Hfn1 & Hk1).
    destruct (Z.ltb_spec i bc) as [Hlt | ?]; [| lia]. rewrite andb_true_r in HRs.
    destruct (Hret ltac:(lia) ltac:(lia) Hk HIn Hqs ltac:(lia) ltac:(lia) HSs HEs HRs)
      as (HR1 & HS1 & HE1 & Hup1 & Hq1).
    split; [rewrite Hk1; unfold to_uint32; apply Z.mod_small; lia|].
    split; [congruence|]. split; [exact HI1|]. split; [exact Hq1|].
    split; [lia|]. split; [exact HS1|]. split; [exact HE1|].
    destruct (Z.ltb_spec 0 (i + 1)) as [_ | ?]; [| lia]. cbn [andb].
    replace (v0 + (i + 1)) with (v0 + i + 1) by lia. exact HR1.
  - split; [reflexivity|]. split; [reflexivity|].
    split; [exact (twoQueuesBegin_InFrame st HI)|].
    split; [exact Hq|]. split; [cbn; lia|].
    split; [exact HS|]. split; [exact (twoQueuesBegin_resets st Hq HR HE)|].
    cbn [Z.ltb andb]. change (0 <? 0) with false. cbn [andb].
    apply (Retire_host _ st (twoQueuesBegin st)
             [vkWaitSemaphoresKHR (at2 (s_frameComputePoolWaitTimelineValues st) frame)
                (at2 (s_frameGraphicsPoolWaitTimelineValues st) frame);
              vkResetCommandPool (s_frameComputePools frame);
              vkResetCommandPool (s_frameGraphicsPools frame)]).
    + state_simpl. rewrite <- !app_assoc. reflexivity.
    + exact (proj1 (proj1 (twoQueuesBegin_InFrame st HI))).
    + repeat (constructor; [split; discriminate|]). constructor.
    + unfold sameClock. auto.
    + exact HR.
  - split; [| split; [lia | exact Hq']].
    split; [exact (proj1 HI')|]. split; [exact HE'|]. split; [| exact HS'].
    destruct (Z.ltb_spec bc bc); [lia|]. rewrite andb_false_r in HR'. exact HR'.
Qed.

(** A frame of the single-queue scheduler. *)
Lemma computeDrawCommandsGctOnly_RetireInv (pGui : Gui) (paramsList : list McubesParams)
  (st st' : State) :
  computeDrawCommandsGctOnly pGui paramsList st = Ok st' ->
  s_useComputeQueue st = false ->
  RetireInv st ->
  RetireInv st'
  /\ s_upcomingTimelineValue st' = s_upcomingTimelineValue st
  /\ s_useComputeQueue st' = false.
Proof.
  intros H Hq (HI & HE & HR & HS).
  unfold computeDrawCommandsGctOnly in H. fold (gctOnlyBegin st) in H.
  pose proof (effectiveBatchSize_range pGui) as HB.
  destruct (computeBatchCount paramsList (effectiveBatchSize pGui)) as [bc|] eqn:Ebc;
    cbn [bind] in H; [| discriminate H].
  pose proof (computeBatchCount_lt _ _ _ (proj1 HB) Ebc) as Hbc.
  match type of H with bind ?m _ = Ok _ =>
    destruct m as [[[k' fcu'] s']|] eqn:Eloop; cbn [bind snd] in H; [| discriminate H] end.
  injection H as <-.
  set (frame := Z.land (g_frameNumber st) 1) in *.
  set (pools := [s_frameGraphicsPools frame]).
  unfold for_range in Eloop.
  pose proof (gctOnlyBegin_InFrame st HI) as HI0. cbv zeta in HI0. fold frame in HI0.
  destruct (gctOnlyBegin_resets st Hq HR HE (proj1 (proj1 HI0))) as [HE0 HR0].
  pose proof
    (fun Hstep Hinit => for_loop_inv
       (fun i (ls : Z * option Z * State) =>
          fst (fst ls) = i
          /\ g_frameNumber (snd ls) = g_frameNumber st
          /\ InFrame pools (fun _ => i) (snd ls)
          /\ s_useComputeQueue (snd ls) = false
          /\ s_upcomingTimelineValue (snd ls) = s_upcomingTimelineValue st
          /\ storedBelowClock (snd ls)
          /\ eachCall resetsRetiredPool (vk_calls (snd ls))
          /\ Retire (if (0 <? i) && (i <? bc) then pendingGctOnly frame
                     else fun _ _ _ => False) (snd ls))
       _ _ _ _ _ Hstep Hinit Eloop) as Hinv.
  rewrite Z.add_0_l, Z.sub_0_r, Z2Nat.id in Hinv by lia.
  cbn [fst snd] in Hinv.
  destruct Hinv as (_ & _ & HI' & Hq' & Hup' & HS' & HE' & HR').
  - intros i [[k fcu] s] [[k1 fcu1] s1] Hi (Hk & Hfn & HIn & Hqs & Hups & HSs & HEs & HRs) Hb.
    cbn [fst snd] in *. subst k.
    pose proof (gctOnlyBatch_InFrame _ _ _ _ _ i _ _ _ _ _ Hb) as Hstep.
    pose proof (gctOnlyBatch_Retire _ _ _ bc i _ _ _ _ _ Hb) as Hret.
    cbv zeta in Hstep, Hret. rewrite Hfn in Hstep, Hret. fold frame in Hstep, Hret.
    fold pools in Hstep, Hret.
    destruct (Hstep HIn) as (HI1 & Hfn1 & Hk1).
    destruct (Z.ltb_spec i bc) as [Hlt | ?]; [| lia]. rewrite andb_true_r in HRs.
    destruct (Hret ltac:(lia) ltac:(lia) HIn Hqs HSs HEs HRs)
      as (HR1 & HS1 & HE1 & Hup1 & Hq1).
    split; [rewrite Hk1; unfold to_uint32; apply Z.mod_small; lia|].
    split; [congruence|]. split; [exact HI1|]. split; [exact Hq1|].
    split; [congruence|]. split; [exact HS1|]. split; [exact HE1|].
    destruct (Z.ltb_spec 0 (i + 1)) as [_ | ?]; [| lia]. cbn [andb]. exact HR1.
  - split; [reflexivity|]. split; [reflexivity|]. split; [exact HI0|].
    split; [exact Hq|]. split; [reflexivity|].
    split; [exact HS|]. split; [exact HE0|].
    change (0 <? 0) with false. cbn [andb]. exact HR0.
  - split; [| split; [exact Hup' | exact Hq']].
    split; [exact (proj1 HI')|]. split; [exact HE'|]. split; [| exact HS'].
    destruct (Z.ltb_spec bc bc); [lia|]. rewrite andb_false_r in HR'. exact HR'.
Qed.

Lemma computeReplaceEquation_RetireInv (compiler : ShaderCompiler) (pEquation : string)
  (st : State) :
  RetireInv st ->
  RetireInv (snd (computeReplaceEquation compiler pEquation st))
  /\ sameClock st (snd (computeReplaceEquation compiler pEquation st)).
Proof.
  intros HI.
  destruct (computeReplaceEquation_cases compiler pEquation st) as [[_ ->] | [_ ->]];
    cbn [snd].
  - split; [| unfold sameClock; auto].
    eapply (RetireInv_host st _ [_]);
      [reflexivity | | cbn; lia | reflexivity | reflexivity
      | unfold sameClock; auto | exact HI].
    repeat (constructor; [repeat split; discriminate|]). constructor.
  - split; [| unfold sameClock; auto].
    eapply (RetireInv_host st _ [_; _; _]);
      [reflexivity | | cbn; lia | reflexivity | reflexivity
      | unfold sameClock; auto | exact HI].
    repeat (constructor; [repeat split; discriminate|]). constructor.
Qed.

Lemma mainLoopBody_RetireInv (input : FrameInput McubesParams) (st st' : State)
  (pGui : Gui) :
  mainLoopBody input st = Ok (pGui, st') ->
  jobsFit input ->
  0 <= s_upcomingTimelineValue st ->
  s_upcomingTimelineValue st + frameTicks input < 2 ^ 64 ->
  RetireInv st ->
  RetireInv st'
  /\ s_upcomingTimelineValue st' = s_upcomingTimelineValue st + frameTicks input.
Proof.
  intros H HM Hup0 Hwrap HI. unfold mainLoopBody in H.
  set (st1 := set_frameNumber _ st) in H.
  assert (RetireInv st1) as HI1.
  { eapply (RetireInv_host st st1 []);
      [cbn; rewrite app_nil_r; reflexivity | constructor | cbn; lia
      | reflexivity | reflexivity | unfold sameClock; auto | exact HI]. }
  assert (s_upcomingTimelineValue st1 = s_upcomingTimelineValue st) as Hup1 by reflexivity.
  clearbody st1. clear HI.
  set (gui := fi_gui input) in *.
  match type of H with context [if negb ?b then ?a else st1] =>
    set (st2 := if negb b then a else st1) in H end.
  assert (RetireInv st2
          /\ s_upcomingTimelineValue st2 = s_upcomingTimelineValue st
          /\ s_useComputeQueue st2 = m_wantComputeQueue gui) as (HI2 & Hup2 & Hq2).
  { subst st2. destruct (Bool.eqb _ _) eqn:Eq; cbn [negb].
    - apply Bool.eqb_prop in Eq. auto.
    - split; [| auto].
      apply (RetireInv_idle st1); try reflexivity. exact HI1. }
  clearbody st2. clear HI1 Hup1 st1.
  unfold frameTicks in *. fold gui in Hwrap |- *. unfold jobsFit in HM.
  pose proof (effectiveBatchSize_range gui) as HB.
  pose proof (computeBatchCount_spec (fi_jobs input) _ HB HM) as Hbc.
  fold (batchCountOf (fi_jobs input) (effectiveBatchSize gui)) in Hbc.
  assert (exists gui3 st3,
            (if m_wantSetEquation gui
             then
               let '(success, st) :=
                 computeReplaceEquation (fi_compiler input) (m_equationInput gui)
                   (call vkDeviceWaitIdle st2) in
               (set_equationResult (negb success) gui, st)
             else (gui, st2)) = (gui3, st3)
            /\ RetireInv st3
            /\ s_upcomingTimelineValue st3 = s_upcomingTimelineValue st
            /\ s_useComputeQueue st3 = m_wantComputeQueue gui
            /\ effectiveBatchSize gui3 = effectiveBatchSize gui)
    as (gui3 & st3 & E3 & HI3 & Hup3 & Hq3 & HB3).
  { destruct (m_wantSetEquation gui); [| eauto 10].
    cbv zeta.
    assert (RetireInv (call vkDeviceWaitIdle st2)) as HIi
      by (apply (RetireInv_idle st2); try reflexivity; exact HI2).
    destruct (computeReplaceEquation_RetireInv (fi_compiler input) (m_equationInput gui)
                _ HIi) as [HIr (Kup & _ & _ & Kq)].
    destruct (computeReplaceEquation _ _ _) as [success st3]. cbn [snd] in *.
    eexists _, _. split; [reflexivity|]. split; [exact HIr|].
    split; [rewrite <- Kup; exact Hup2|]. split; [rewrite <- Kq; exact Hq2 | reflexivity]. }
  rewrite E3 in H. clear E3. rewrite Hq3 in H.
  destruct (m_wantComputeQueue gui);
    match type of H with bind ?m _ = Ok _ =>
      destruct m as [s|] eqn:E; cbn [bind] in H; [| discriminate H] end;
    injection H as _ <-.
  - rewrite <- HB3 in Hbc at 1.
    destruct (computeDrawCommandsTwoQueues_RetireInv _ _ _ _ _ E Hbc Hq3
                ltac:(lia) ltac:(lia) HI3) as (HI' & Hup' & _).
    split; [exact HI' | lia].
  - destruct (computeDrawCommandsGctOnly_RetireInv _ _ _ _ E Hq3 HI3) as (HI' & Hup' & _).
    split; [exact HI' | lia].
Qed.

Lemma runFrames_RetireInv (inputs : list (FrameInput McubesParams)) :
  forall st st' : State,
    runFrames inputs st = Ok st' ->
    Forall jobsFit inputs ->
    0 <= s_upcomingTimelineValue st ->
    s_upcomingTimelineValue st + runTicks inputs < 2 ^ 64 ->
    RetireInv st -> RetireInv st'.
Proof.
  induction inputs as [|input inputs IH]; intros st st' H Hfit Hup0 Hwrap HI.
  - injection H as <-. exact HI.
  - cbn [runFrames] in H.
    destruct (mainLoopBody input st) as [[pGui st1]|] eqn:E; cbn [bind snd] in H;
      [| discriminate H].
    inversion Hfit as [|? ? Hfit1 Hfit2]; subst.
    cbn [runTicks foldr] in Hwrap. fold (runTicks inputs) in Hwrap.
    pose proof (runTicks_nonneg inputs) as Hpos.
    pose proof (frameTicks_nonneg input) as Hpos1.
    destruct (mainLoopBody_RetireInv _ _ _ _ E Hfit1 Hup0 ltac:(lia) HI) as [HI1 Hup1].
    apply (IH st1 st' H Hfit2); [lia | lia | exact HI1].
Qed.

Lemma initialGlobals_RetireInv (imagePipeline : VkPipeline) :
  RetireInv (initialGlobals (McubesParams := McubesParams) imagePipeline).
Proof.
  split; [apply initialGlobals_CmdBufInv|]. split; [| split].
  - intros i x Hi. cbn in Hi. discriminate Hi.
  - intros j queue submit fence pool Hj. cbn in Hj. discriminate Hj.
  - intros i. cbn. unfold at2. destruct (i =? 0); cbn; lia.
Qed.

End PoolReset.

(** In every run from the initial state, a command pool is reset only
    after the host has waited for every submission of a command buffer of
    this pool: for the device to be idle, for the timeline semaphore of the
    submission to reach a value that is at least the value it signals, or for
    the fence that this or a later submission to the same queue signals. *)
Theorem pools_are_reset_after_their_work_retired {McubesParams : Type}
  (imagePipeline : VkPipeline) (inputs : list (FrameInput McubesParams)) :
  Forall jobsFit inputs ->
  1 + runTicks inputs < 2 ^ 64 ->
  exists st,
    runFrames inputs (initialGlobals imagePipeline) = Ok st
    /\ eachCall resetsRetiredPool (vk_calls st).
Proof.
  intros Hfit Hwrap.
  destruct (runFrames_initial_steps imagePipeline inputs Hfit Hwrap) as [st (Hrun & _)].
  exists st. split; [exact Hrun|].
  refine (proj1 (proj2 (runFrames_RetireInv inputs _ _ Hrun Hfit _ Hwrap
                          (initialGlobals_RetireInv imagePipeline)))).
  cbn. lia.
Qed.

Lemma pools_are_reset_after_their_work_retired_witness :
  Forall jobsFit
    [exampleFrame 7 6 true; exampleFrame 3 3 true; exampleFrame 7 6 true;
     exampleFrame 3 3 false; exampleFrame 3 3 false; exampleFrame 3 3 false]
  /\ 1 + runTicks
           [exampleFrame 7 6 true; exampleFrame 3 3 true; exampleFrame 7 6 true;
            exampleFrame 3 3 false; exampleFrame 3 3 false; exampleFrame 3 3 false]
     < 2 ^ 64
  /\ exists st,
       runFrames
         [exampleFrame 7 6 true; exampleFrame 3 3 true; exampleFrame 7 6 true;
          exampleFrame 3 3 false; exampleFrame 3 3 false; exampleFrame 3 3 false]
         (initialGlobals 1) = Ok st
       /\ eachCall resetsRetiredPool (vk_calls st)
       /\ vk_calls st !! 18%nat = Some (vkWaitSemaphoresKHR 2 2)
       /\ vk_calls st !! 19%nat = Some (vkResetCommandPool (s_frameComputePools 1))
       /\ vk_calls st !! 34%nat = Some (vkWaitForFences (s_frameGraphicsPoolFences 0))
       /\ vk_calls st !! 36%nat = Some (vkResetCommandPool (s_frameGraphicsPools 0)).
Proof.
  assert (Forall jobsFit
            [exampleFrame 7 6 true; exampleFrame 3 3 true; exampleFrame 7 6 true;
             exampleFrame 3 3 false; exampleFrame 3 3 false; exampleFrame 3 3 false])
    as Hfit by (repeat constructor; vm_compute; discriminate).
  assert (1 + runTicks
                [exampleFrame 7 6 true; exampleFrame 3 3 true; exampleFrame 7 6 true;
                 exampleFrame 3 3 false; exampleFrame 3 3 false; exampleFrame 3 3 false]
          < 2 ^ 64) as Hwrap by (vm_compute; reflexivity).
  split; [exact Hfit|]. split; [exact Hwrap|].
  destruct (pools_are_reset_after_their_work_retired 1 _ Hfit Hwrap) as (st & Hrun & HE).
  exists st. split; [exact Hrun|]. split; [exact HE|].
  vm_compute in Hrun. injection Hrun as <-.
  repeat split.
Defined.

(** ** The debug view *)

Section DebugViewLemmas.

Context {McubesParams : Type}.
Local Abbreviation State := (Globals McubesParams).

Lemma drawsOf_app (a b : list (VkCall McubesParams)) :
  drawsOf (a ++ b) = drawsOf a ++ drawsOf b.
Proof. apply flat_map_app. Qed.

Lemma drawsOfCmds_app (a b : list (Cmd McubesParams)) :
  drawsOfCmds (a ++ b) = drawsOfCmds a ++ drawsOfCmds b.
Proof. apply flat_map_app. Qed.

Lemma drawsOf_allocs (allocs : list (VkCall McubesParams)) :
  Forall isAllocate allocs -> drawsOf allocs = [].
Proof.
  induction 1 as [|x l Hx _ IH]; [reflexivity|].
  destruct x; try contradiction. exact IH.
Qed.

(** The colours [makeDebugColors] returns for the chunks of a batch, as the
    draw command takes them. *)
Lemma makeDebugColors_eval (mode batch first count : Z) (arr : CArray Z) (slots : list Z) :
  count = Z.of_nat (length slots) ->
  take (length slots) arr = Some <$> slots ->
  Forall (fun p => 0 <= p < MCUBES_CHUNK_COUNT) slots ->
  0 <= first < MCUBES_CHUNK_COUNT ->
  slots <> [] ->
  exists colors,
    makeDebugColors mode batch first count arr = Ok colors
    /\ match colors with [] => None | _ => Some colors end
       = debugColorsOf mode batch first slots.
Proof.
  intros Hc Htake Hrange Hfirst Hne.
  destruct slots as [|p slots]; [contradiction|].
  unfold debugColorsOf.
  destruct (Z.eqb_spec mode chunkDebugViewBatch) as [-> | Hb].
  - eexists. split; [reflexivity|]. rewrite Hc, Nat2Z.id. reflexivity.
  - destruct (Z.eqb_spec mode chunkDebugViewChunkIndex) as [-> | Hi].
    + eexists. split; [apply (makeDebugColors_chunkIndex batch first count arr (p :: slots));
                       assumption|]. reflexivity.
    + exists []. split; [| reflexivity]. unfold makeDebugColors.
      destruct (Z.eqb_spec mode chunkDebugViewBatch); [contradiction|].
      destruct (Z.eqb_spec mode chunkDebugViewChunkIndex); [contradiction|].
      reflexivity.
Qed.

Lemma vector_range_batch (paramsList : list McubesParams) (B batch : Z) :
  1 <= B <= MCUBES_MAX_CHUNKS_PER_BATCH ->
  0 <= batch ->
  batch * B < Z.of_nat (length paramsList) ->
  vector_range paramsList (batch * B)
    (Z.of_nat (batchItems B (Z.of_nat (length paramsList)) batch))
  = Ok (jobsOfBatch paramsList B batch).
Proof.
  intros HB Hb Hlt. unfold vector_range, jobsOfBatch.
  set (n := batchItems B (Z.of_nat (length paramsList)) batch).
  assert (batch * B + Z.of_nat n <= Z.of_nat (length paramsList)) as Hn
    by (subst n; unfold batchItems; lia).
  destruct (Z.leb_spec 0 (batch * B)); [| nia].
  destruct (Z.leb_spec 0 (Z.of_nat n)); [| lia].
  destruct (Z.leb_spec (batch * B + Z.of_nat n) (Z.of_nat (length paramsList))); [| lia].
  cbn [andb]. rewrite Nat2Z.id. reflexivity.
Qed.

(** The draw command of one batch of the two-queue scheduler. *)
Lemma twoQueuesBatch_draw (pGui : Gui) (paramsList : list McubesParams)
  (B bc batch first : Z) (loc loc' : TwoQueuesLocals) (st st' : State) :
  let slots := ring_slots (s_mcubesChunkIndex st)
                 (batchItems B (Z.of_nat (length paramsList)) batch) in
  twoQueuesBatch pGui paramsList B bc batch (loc, st) = Ok (loc', st') ->
  1 <= B <= MCUBES_MAX_CHUNKS_PER_BATCH ->
  Z.of_nat (length paramsList) + 6 <= 2 ^ 32 ->
  0 <= batch ->
  batch * B < Z.of_nat (length paramsList) ->
  0 <= first < MCUBES_CHUNK_COUNT ->
  (if batch =? 0 then first = nextChunkIndex (s_mcubesChunkIndex st)
   else firstChunkUsed loc = Some first) ->
  firstChunkUsed loc' = Some first
  /\ exists extra,
       vk_calls st' = vk_calls st ++ extra
       /\ drawsOf extra
          = [(slots,
              debugBoxesOf (m_chunkDebugViewMode pGui) paramsList B batch,
              debugColorsOf (m_chunkDebugViewMode pGui) batch first slots)].
Proof.
  intros slots H HB HM Hb Hlt Hfirst Hf.
  destruct (batch_geometry paramsList B batch HB HM Hb Hlt) as [Hbs [Hbe [Hn HnB]]].
  set (n := batchItems B (Z.of_nat (length paramsList)) batch) in *.
  unfold twoQueuesBatch in H.
  match type of H with context [acquireCommandBuffer ?p ?b ?i ?s] =>
    destruct (acquireCommandBuffer p b i s) as [[hC bufsC] st1] eqn:E1 end.
  apply acquireCommandBuffer_spec in E1.
  destruct E1 as [S1 [_ [_ [allocs1 [Hcalls1 Hallocs1]]]]].
  match type of H with context [acquireCommandBuffer ?p ?b ?i ?s] =>
    destruct (acquireCommandBuffer p b i s) as [[hG bufsG] st2] eqn:E2 end.
  apply acquireCommandBuffer_spec in E2.
  destruct E2 as [S2 [_ [_ [allocs2 [Hcalls2 Hallocs2]]]]].
  match type of H with context [set_graphicsCmdBufs ?v st2] =>
    set (st2' := set_graphicsCmdBufs v st2) in H end.
  assert (s_mcubesChunkIndex st2' = s_mcubesChunkIndex st) as Sci.
  { unfold same_scheduler_state in *. cbn in S2.
    destruct S1 as (?&?&?&?&?&?&?&?), S2 as (?&?&?&?&?&?&?&?).
    subst st2'. cbn. congruence. }
  assert (vk_calls st2' = vk_calls st ++ allocs1 ++ allocs2) as Hcalls.
  { subst st2'. cbn. rewrite Hcalls2. cbn. rewrite Hcalls1, <- app_assoc. reflexivity. }
  clearbody st2'. clear S1 S2 Hcalls1 Hcalls2 st1 st2.
  rewrite Hbs, Hbe in H. unfold for_range in H.
  replace (batch * B + Z.of_nat n - batch * B) with (Z.of_nat n) in H by lia.
  rewrite Nat2Z.id in H.
  destruct (selectLoop_spec batch (batch * B) (firstChunkUsed loc) st2' n ltac:(lia))
    as [arr [Hsel [Harr Htake]]].
  rewrite Hsel in H. cbn [bind] in H. clear Hsel.
  rewrite Sci in *. fold slots in Htake.
  assert (length slots = n) as Hslots by apply ring_slots_length.
  assert (Forall (fun p => 0 <= p < MCUBES_CHUNK_COUNT) slots) as Hrange
    by apply ring_slots_range.
  assert (slots <> []) as Hne
    by (intros E; rewrite E in Hslots; cbn in Hslots; lia).
  rewrite <- Hslots in Htake.
  match type of H with bind ?m _ = Ok _ =>
    destruct m as [wait|]; cbn [bind] in H; [| discriminate H] end.
  unfold computeCmdFillChunkBatch in H.
  assert (to_uint32 (Z.of_nat n) = Z.of_nat n) as Hcount
    by (unfold to_uint32; apply Z.mod_small; lia).
  rewrite Hcount, Nat2Z.id in H.
  destruct (Z.leb_spec (Z.of_nat n) MCUBES_MAX_CHUNKS_PER_BATCH);
    [| unfold MCUBES_MAX_CHUNKS_PER_BATCH in *; lia].
  cbn [assert bind] in H.
  pose proof (carray_prefix_read arr slots Htake slots [] eq_refl) as Hprefix.
  change (Z.of_nat (@length Z [])) with 0 in Hprefix. rewrite Hslots in Hprefix.
  rewrite Hprefix in H. cbn [bind] in H.
  pose proof (vector_range_batch paramsList B batch HB Hb Hlt) as Hvr. fold n in Hvr.
  rewrite Hvr in H. cbn [bind] in H.
  match type of H with bind ?m _ = Ok _ =>
    destruct m as [s4|] eqn:Emark; cbn [bind] in H; [| discriminate H] end.
  assert (sameCmdBufs (set_mcubesChunkIndex (ring_cursor (s_mcubesChunkIndex st) n) st2') s4)
    as (Sc & _).
  { apply (markLoop_same arr (batch * B) (batch * B) (batch * B + Z.of_nat n)).
    unfold for_range.
    replace (Z.to_nat (batch * B + Z.of_nat n - batch * B)) with n by lia.
    exact Emark. }
  assert ((if (batch =? 0) && negb (Nat.eqb n 0)
           then Some (nextChunkIndex (s_mcubesChunkIndex st))
           else firstChunkUsed loc) = Some first) as Hf'.
  { destruct (Z.eqb_spec batch 0) as [-> | Hne0].
    - destruct n; [lia|]. cbn. rewrite Hf. reflexivity.
    - exact Hf. }
  rewrite Hf' in H. cbn [read_local bind] in H.
  destruct (makeDebugColors_eval (m_chunkDebugViewMode pGui) batch first (Z.of_nat n)
              arr slots ltac:(lia) Htake Hrange Hfirst Hne) as (colors & Hcolors & Hopt).
  rewrite Hcolors in H. cbn [bind] in H. rewrite Hopt in H.
  unfold graphicsCmdDrawMcubesGeometryBatch in H. rewrite Nat2Z.id, Hprefix in H.
  assert ((if negb (m_chunkDebugViewMode pGui =? chunkDebugViewOff)
           then Ok (Some (jobsOfBatch paramsList B batch))
           else Ok None)
          = Ok (debugBoxesOf (m_chunkDebugViewMode pGui) paramsList B batch)) as Hboxes
    by (unfold debugBoxesOf; destruct (_ =? chunkDebugViewOff); reflexivity).
  rewrite Hboxes in H. cbn [bind] in H.
  match type of H with bind (assert ?b) _ = Ok _ =>
    destruct b; cbn [assert bind] in H; [| discriminate H] end.
  injection H as <- <-.
  split; [reflexivity|].
  assert (forall (b : bool) v x y (s : State),
             vk_calls (set_upcomingTimelineValue v
                         (if b then set_graphicsPoolWaits x (set_computePoolWaits y s)
                          else s)) = vk_calls s) as Hend
    by (intros []; reflexivity).
  rewrite Hend. cbn [call set_calls vk_calls].
  rewrite <- Sc. cbn [vk_calls set_mcubesChunkIndex]. rewrite Hcalls.
  eexists. split; [rewrite <- !app_assoc; reflexivity|].
  rewrite !drawsOf_app, (drawsOf_allocs _ Hallocs1), (drawsOf_allocs _ Hallocs2).
  cbn [app drawsOf flat_map commands drawsOfCmds].
  destruct (batch =? to_uint32 (bc - 1)), (batch =? 0); reflexivity.
Qed.

(** The draw command of one batch of the single-queue scheduler. *)
Lemma gctOnlyBatch_draw (pGui : Gui) (paramsList : list McubesParams)
  (B bc batch first k k' : Z) (fcu fcu' : option Z) (st st' : State) :
  let slots := ring_slots (s_mcubesChunkIndex st)
                 (batchItems B (Z.of_nat (length paramsList)) batch) in
  gctOnlyBatch pGui paramsList B bc batch (k, fcu, st) = Ok (k', fcu', st') ->
  1 <= B <= MCUBES_MAX_CHUNKS_PER_BATCH ->
  Z.of_nat (length paramsList) + 6 <= 2 ^ 32 ->
  0 <= batch ->
  batch * B < Z.of_nat (length paramsList) ->
  0 <= first < MCUBES_CHUNK_COUNT ->
  (if batch =? 0 then first = nextChunkIndex (s_mcubesChunkIndex st)
   else fcu = Some first) ->
  fcu' = Some first
  /\ exists extra,
       vk_calls st' = vk_calls st ++ extra
       /\ drawsOf extra
          = [(slots,
              debugBoxesOf (m_chunkDebugViewMode pGui) paramsList B batch,
              debugColorsOf (m_chunkDebugViewMode pGui) batch first slots)].
Proof.
  intros slots H HB HM Hb Hlt Hfirst Hf.
  destruct (batch_geometry paramsList B batch HB HM Hb Hlt) as [Hbs [Hbe [Hn HnB]]].
  set (n := batchItems B (Z.of_nat (length paramsList)) batch) in *.
  unfold gctOnlyBatch in H.
  match type of H with context [acquireCommandBuffer ?p ?b ?i ?s] =>
    destruct (acquireCommandBuffer p b i s) as [[hG bufsG] st1] eqn:E1 end.
  apply acquireCommandBuffer_spec in E1.
  destruct E1 as [S1 [_ [_ [allocs1 [Hcalls1 Hallocs1]]]]].
  match type of H with context [set_graphicsCmdBufs ?v st1] =>
    set (st1' := set_graphicsCmdBufs v st1) in H end.
  assert (s_mcubesChunkIndex st1' = s_mcubesChunkIndex st) as Sci.
  { unfold same_scheduler_state in *. destruct S1 as (?&?&?&?&?&?&?&?).
    subst st1'. cbn. congruence. }
  assert (vk_calls st1' = vk_calls st ++ allocs1) as Hcalls by exact Hcalls1.
  clearbody st1'. clear S1 Hcalls1 st1.
  rewrite Hbs, Hbe in H. unfold for_range in H.
  replace (batch * B + Z.of_nat n - batch * B) with (Z.of_nat n) in H by lia.
  rewrite Nat2Z.id in H.
  destruct (selectLoop_spec batch (batch * B) fcu st1' n ltac:(lia))
    as [arr [Hsel [Harr Htake]]].
  rewrite Hsel in H. cbn [bind] in H. clear Hsel.
  rewrite Sci in *. fold slots in Htake.
  assert (length slots = n) as Hslots by apply ring_slots_length.
  assert (Forall (fun p => 0 <= p < MCUBES_CHUNK_COUNT) slots) as Hrange
    by apply ring_slots_range.
  assert (slots <> []) as Hne
    by (intros E; rewrite E in Hslots; cbn in Hslots; lia).
  rewrite <- Hslots in Htake.
  unfold computeCmdFillChunkBatch in H.
  assert (to_uint32 (Z.of_nat n) = Z.of_nat n) as Hcount
    by (unfold to_uint32; apply Z.mod_small; lia).
  rewrite Hcount, Nat2Z.id in H.
  destruct (Z.leb_spec (Z.of_nat n) MCUBES_MAX_CHUNKS_PER_BATCH);
    [| unfold MCUBES_MAX_CHUNKS_PER_BATCH in *; lia].
  cbn [assert bind] in H.
  pose proof (carray_prefix_read arr slots Htake slots [] eq_refl) as Hprefix.
  change (Z.of_nat (@length Z [])) with 0 in Hprefix. rewrite Hslots in Hprefix.
  rewrite Hprefix in H. cbn [bind] in H.
  pose proof (vector_range_batch paramsList B batch HB Hb Hlt) as Hvr. fold n in Hvr.
  rewrite Hvr in H. cbn [bind] in H.
  assert ((if (batch =? 0) && negb (Nat.eqb n 0)
           then Some (nextChunkIndex (s_mcubesChunkIndex st))
           else fcu) = Some first) as Hf'.
  { destruct (Z.eqb_spec batch 0) as [-> | Hne0].
    - destruct n; [lia|]. cbn. rewrite Hf. reflexivity.
    - exact Hf. }
  rewrite Hf' in H. cbn [read_local bind] in H.
  destruct (makeDebugColors_eval (m_chunkDebugViewMode pGui) batch first (Z.of_nat n)
              arr slots ltac:(lia) Htake Hrange Hfirst Hne) as (colors & Hcolors & Hopt).
  rewrite Hcolors in H. cbn [bind] in H. rewrite Hopt in H.
  unfold graphicsCmdDrawMcubesGeometryBatch in H. rewrite Nat2Z.id, Hprefix in H.
  assert ((if negb (m_chunkDebugViewMode pGui =? chunkDebugViewOff)
           then Ok (Some (jobsOfBatch paramsList B batch))
           else Ok None)
          = Ok (debugBoxesOf (m_chunkDebugViewMode pGui) paramsList B batch)) as Hboxes
    by (unfold debugBoxesOf; destruct (_ =? chunkDebugViewOff); reflexivity).
  rewrite Hboxes in H. cbn [bind] in H.
  match type of H with bind (assert ?b) _ = Ok _ =>
    destruct b; cbn [assert bind] in H; [| discriminate H] end.
  injection H as _ <- <-.
  split; [reflexivity|].
  cbn [call set_calls vk_calls set_mcubesChunkIndex]. rewrite Hcalls.
  eexists. split; [rewrite <- !app_assoc; reflexivity|].
  rewrite !drawsOf_app, (drawsOf_allocs _ Hallocs1).
  cbn [app drawsOf flat_map commands].
  destruct (batch =? to_uint32 (bc - 1)), (batch =? 0); reflexivity.
Qed.

(** The draw command of one more batch. *)
Lemma showsDebugView_snoc (pGui : Gui) (paramsList : list McubesParams) (first i c : Z)
  (draws : list (@Draw McubesParams)) :
  let B := effectiveBatchSize pGui in
  let slots := ring_slots c (batchItems B (Z.of_nat (length paramsList)) i) in
  showsDebugView pGui paramsList first draws ->
  length draws = Z.to_nat i ->
  0 <= i ->
  i * B < Z.of_nat (length paramsList) ->
  (i = 0 -> first = nextChunkIndex c) ->
  showsDebugView pGui paramsList first
    (draws ++ [(slots,
                debugBoxesOf (m_chunkDebugViewMode pGui) paramsList B i,
                debugColorsOf (m_chunkDebugViewMode pGui) i first slots)]).
Proof.
  intros B slots Hold Hlen Hi Hlt H0 k chunks boxes colors Hk.
  apply lookup_app_Some in Hk as [Hk | [Hge Hk]]; [exact (Hold _ _ _ _ Hk)|].
  apply list_lookup_singleton_Some in Hk as [Hk0 [= <- <- <-]].
  unfold Draw in *.
  assert (i = Z.of_nat k) as Hik by lia.
  rewrite <- Hik. fold B.
  pose proof (effectiveBatchSize_range pGui) as HB. fold B in HB.
  pose proof (jobsOfBatch_length paramsList B i ltac:(lia) Hi Hlt) as Hjobs.
  assert (length slots = batchItems B (Z.of_nat (length paramsList)) i)
    as Hslots by apply ring_slots_length.
  assert (1 <= batchItems B (Z.of_nat (length paramsList)) i)%nat as Hn
    by (unfold batchItems; lia).
  split; [rewrite Hslots; unfold batchItems; lia|].
  split; [intros E; rewrite E in Hslots; cbn in Hslots; lia|].
  split; [apply ring_slots_range|].
  split; [| split; reflexivity].
  intros E. rewrite H0 by lia. subst slots.
  destruct (batchItems B (Z.of_nat (length paramsList)) i); [lia|].
  reflexivity.
Qed.

Lemma computeDrawCommandsTwoQueues_debugView (pGui : Gui) (paramsList : list McubesParams)
  (st st' : State) :
  computeDrawCommandsTwoQueues pGui paramsList st = Ok st' ->
  Z.of_nat (length paramsList) + 6 <= 2 ^ 32 ->
  exists calls,
    vk_calls st' = vk_calls st ++ calls
    /\ length (drawsOf calls)
       = Z.to_nat (batchCountOf paramsList (effectiveBatchSize pGui))
    /\ showsDebugView pGui paramsList (nextChunkIndex (s_mcubesChunkIndex st))
         (drawsOf calls).
Proof.
  intros H HM. unfold computeDrawCommandsTwoQueues in H.
  fold (twoQueuesBegin st) in H.
  pose proof (effectiveBatchSize_range pGui) as HB.
  rewrite (computeBatchCount_spec paramsList _ HB HM) in H.
  fold (batchCountOf paramsList (effectiveBatchSize pGui)) in H.
  set (bc := batchCountOf paramsList (effectiveBatchSize pGui)) in *.
  assert (0 <= bc <= Z.of_nat (length paramsList)) as Hbc
    by (apply batchCount_bounds; lia).
  cbn [bind] in H.
  match type of H with bind ?m _ = Ok _ =>
    destruct m as [[loc' s']|] eqn:Eloop; cbn [bind snd] in H; [| discriminate H] end.
  injection H as <-.
  set (first := nextChunkIndex (s_mcubesChunkIndex st)).
  pose proof (nextChunkIndex_range (s_mcubesChunkIndex st)) as Hfirst. fold first in Hfirst.
  unfold for_range in Eloop.
  pose proof
    (fun Hstep Hinit => for_loop_inv
       (fun i (ls : TwoQueuesLocals * State) =>
          (i = 0 -> s_mcubesChunkIndex (snd ls) = s_mcubesChunkIndex st)
          /\ (i <> 0 -> firstChunkUsed (fst ls) = Some first)
          /\ exists calls,
               vk_calls (snd ls) = vk_calls st ++ calls
               /\ length (drawsOf calls) = Z.to_nat i
               /\ showsDebugView pGui paramsList first (drawsOf calls))
       _ _ _ _ _ Hstep Hinit Eloop) as Hinv.
  rewrite Z.add_0_l, Z.sub_0_r, Z2Nat.id in Hinv by lia.
  cbn [fst snd] in Hinv.
  destruct Hinv as (_ & _ & calls & Hc & Hl & Hs); [| | exists calls; auto].
  - intros i [loc s] [loc1 s1] Hi (Hi0 & Hin & calls & Hcalls & Hlen & Hshow) Hb.
    cbn [fst snd] in *.
    assert (i * effectiveBatchSize pGui < Z.of_nat (length paramsList)) as Hlt
      by (apply batch_lt_count; unfold bc, batchCountOf in Hi; lia).
    destruct (twoQueuesBatch_draw pGui paramsList _ _ i first loc loc1 s s1 Hb HB HM
                ltac:(lia) Hlt Hfirst) as (Hf1 & extra & Hcalls1 & Hdraws).
    { destruct (Z.eqb_spec i 0) as [E | E];
        [subst first; rewrite (Hi0 E); reflexivity | exact (Hin E)]. }
    split; [intros; lia|]. split; [intros _; exact Hf1|].
    exists (calls ++ extra).
    split; [rewrite Hcalls1, Hcalls, <- app_assoc; reflexivity|].
    rewrite drawsOf_app, Hdraws.
    split; [rewrite length_app, Hlen; cbn; lia|].
    apply showsDebugView_snoc; [exact Hshow | exact Hlen | lia | exact Hlt |].
    intros E. subst first. rewrite (Hi0 E). reflexivity.
  - cbn [fst snd]. split; [intros _; reflexivity|]. split; [intros E; contradiction|].
    eexists. split; [unfold twoQueuesBegin; state_simpl; rewrite <- ?app_assoc; reflexivity|].
    split; [reflexivity|].
    intros k chunks boxes colors Hk. discriminate Hk.
Qed.

Lemma computeDrawCommandsGctOnly_debugView (pGui : Gui) (paramsList : list McubesParams)
  (st st' : State) :
  computeDrawCommandsGctOnly pGui paramsList st = Ok st' ->
  Z.of_nat (length paramsList) + 6 <= 2 ^ 32 ->
  exists calls,
    vk_calls st' = vk_calls st ++ calls
    /\ length (drawsOf calls)
       = Z.to_nat (batchCountOf paramsList (effectiveBatchSize pGui))
    /\ showsDebugView pGui paramsList (nextChunkIndex (s_mcubesChunkIndex st))
         (drawsOf calls).
Proof.
  intros H HM. unfold computeDrawCommandsGctOnly in H.
  fold (gctOnlyBegin st) in H.
  pose proof (effectiveBatchSize_range pGui) as HB.
  rewrite (computeBatchCount_spec paramsList _ HB HM) in H.
  fold (batchCountOf paramsList (effectiveBatchSize pGui)) in H.
  set (bc := batchCountOf paramsList (effectiveBatchSize pGui)) in *.
  assert (0 <= bc <= Z.of_nat (length paramsList)) as Hbc
    by (apply batchCount_bounds; lia).
  cbn [bind] in H.
  match type of H with bind ?m _ = Ok _ =>
    destruct m as [[[k' fcu'] s']|] eqn:Eloop; cbn [bind snd] in H; [| discriminate H] end.
  injection H as <-.
  set (first := nextChunkIndex (s_mcubesChunkIndex st)).
  pose proof (nextChunkIndex_range (s_mcubesChunkIndex st)) as Hfirst. fold first in Hfirst.
  unfold for_range in Eloop.
  pose proof
    (fun Hstep Hinit => for_loop_inv
       (fun i (ls : Z * option Z * State) =>
          (i = 0 -> s_mcubesChunkIndex (snd ls) = s_mcubesChunkIndex st)
          /\ (i <> 0 -> snd (fst ls) = Some first)
          /\ exists calls,
               vk_calls (snd ls) = vk_calls st ++ calls
               /\ length (drawsOf calls) = Z.to_nat i
               /\ showsDebugView pGui paramsList first (drawsOf calls))
       _ _ _ _ _ Hstep Hinit Eloop) as Hinv.
  rewrite Z.add_0_l, Z.sub_0_r, Z2Nat.id in Hinv by lia.
  cbn [fst snd] in Hinv.
  destruct Hinv as (_ & _ & calls & Hc & Hl & Hs); [| | exists calls; auto].
  - intros i [[k fcu] s] [[k1 fcu1] s1] Hi (Hi0 & Hin & calls & Hcalls & Hlen & Hshow) Hb.
    cbn [fst snd] in *.
    assert (i * effectiveBatchSize pGui < Z.of_nat (length paramsList)) as Hlt
      by (apply batch_lt_count; unfold bc, batchCountOf in Hi; lia).
    destruct (gctOnlyBatch_draw pGui paramsList _ _ i first k k1 fcu fcu1 s s1 Hb HB HM
                ltac:(lia) Hlt Hfirst) as (Hf1 & extra & Hcalls1 & Hdraws).
    { destruct (Z.eqb_spec i 0) as [E | E];
        [subst first; rewrite (Hi0 E); reflexivity | exact (Hin E)]. }
    split; [intros; lia|]. split; [intros _; exact Hf1|].
    exists (calls ++ extra).
    split; [rewrite Hcalls1, Hcalls, <- app_assoc; reflexivity|].
    rewrite drawsOf_app, Hdraws.
    split; [rewrite length_app, Hlen; cbn; lia|].
    apply showsDebugView_snoc; [exact Hshow | exact Hlen | lia | exact Hlt |].
    intros E. subst first. rewrite (Hi0 E). reflexivity.
  - cbn [fst snd]. split; [intros _; reflexivity|]. split; [intros E; contradiction|].
    eexists. split; [unfold gctOnlyBegin; state_simpl; rewrite <- ?app_assoc; reflexivity|].
    split; [reflexivity|].
    intros k chunks boxes colors Hk. discriminate Hk.
Qed.

End DebugViewLemmas.

(** The draw commands of a frame show the debug view that the GUI selects.
    With either scheduler a frame records one draw command per batch, in the
    order of the batches, and the draw command of a batch draws as many
    chunks as the batch has jobs, at least one.  When the debug view is off
    the draw command takes no boxes and no colours.  In every other view it
    takes the jobs of its batch as the boxes.  In the view that colours by
    batch it takes, for each chunk, the colour of the batch number; in the
    view that colours by chunk index it takes, for each chunk, the colour of
    the position of the chunk counted from the first chunk of the frame,
    which is the slot after the ring cursor at the start of the frame and the
    first chunk of the first draw command; in the view of the bounds alone it
    takes no colours. *)
Theorem frame_draws_show_the_debug_view {McubesParams : Type} (pGui : Gui)
  (paramsList : list McubesParams) (st : Globals McubesParams) :
  let bc := batchCountOf paramsList (effectiveBatchSize pGui) in
  let first := nextChunkIndex (s_mcubesChunkIndex st) in
  Core st ->
  Z.of_nat (length paramsList) + 6 <= 2 ^ 32 ->
  s_upcomingTimelineValue st + bc < 2 ^ 64 ->
  (exists st' calls,
      computeDrawCommandsTwoQueues pGui paramsList st = Ok st'
      /\ vk_calls st' = vk_calls st ++ calls
      /\ length (drawsOf calls) = Z.to_nat bc
      /\ showsDebugView pGui paramsList first (drawsOf calls))
  /\ (exists st' calls,
         computeDrawCommandsGctOnly pGui paramsList st = Ok st'
         /\ vk_calls st' = vk_calls st ++ calls
         /\ length (drawsOf calls) = Z.to_nat bc
         /\ showsDebugView pGui paramsList first (drawsOf calls)).
Proof.
  intros bc first HCore HM Hwrap. split.
  - destruct (computeDrawCommandsTwoQueues_spec (fun _ _ => True) pGui paramsList st
                HCore HM Hwrap I (fun _ _ _ _ _ _ _ _ => I)) as (st' & Hrun & _).
    destruct (computeDrawCommandsTwoQueues_debugView pGui paramsList st st' Hrun HM)
      as (calls & Hcalls & Hlen & Hshow).
    exists st', calls. auto.
  - destruct (computeDrawCommandsGctOnly_spec (fun _ _ => True) pGui paramsList st
                HM I (fun _ _ _ _ _ _ => I)) as (st' & Hrun & _).
    destruct (computeDrawCommandsGctOnly_debugView pGui paramsList st st' Hrun HM)
      as (calls & Hcalls & Hlen & Hshow).
    exists st', calls. auto.
Qed.

Lemma frame_draws_show_the_debug_view_witness :
  Core exampleDebugViewState
  /\ Z.of_nat (length (seq 0 7)) + 6 <= 2 ^ 32
  /\ s_upcomingTimelineValue exampleDebugViewState
     + batchCountOf (seq 0 7) (effectiveBatchSize exampleDebugViewGui) < 2 ^ 64
  /\ exists st' calls,
       computeDrawCommandsTwoQueues exampleDebugViewGui (seq 0 7) exampleDebugViewState
       = Ok st'
       /\ vk_calls st' = vk_calls exampleDebugViewState ++ calls
       /\ showsDebugView exampleDebugViewGui (seq 0 7) 11 (drawsOf calls)
       /\ drawsOf calls
          = [([11; 0; 1], Some [0; 1; 2]%nat,
              Some [ChunkColor 0 0; ChunkColor 1 0; ChunkColor 2 0]);
             ([2; 3; 4], Some [3; 4; 5]%nat,
              Some [ChunkColor 3 0; ChunkColor 4 0; ChunkColor 0 1]);
             ([5], Some [6]%nat, Some [ChunkColor 1 1])].
Proof.
  assert (Core exampleDebugViewState) as HCore
    by exact (initialGlobals_Core (McubesParams := nat) 1).
  assert (Z.of_nat (length (seq 0 7)) + 6 <= 2 ^ 32) as HM by (vm_compute; discriminate).
  assert (s_upcomingTimelineValue exampleDebugViewState
          + batchCountOf (seq 0 7) (effectiveBatchSize exampleDebugViewGui) < 2 ^ 64)
    as Hwrap by (vm_compute; reflexivity).
  split; [exact HCore|]. split; [exact HM|]. split; [exact Hwrap|].
  destruct (frame_draws_show_the_debug_view exampleDebugViewGui (seq 0 7)
              exampleDebugViewState HCore HM Hwrap)
    as [(st' & calls & Hrun & Hcalls & _ & Hshow) _].
  exists st', calls. split; [exact Hrun|]. split; [exact Hcalls|].
  split; [exact Hshow|].
  vm_compute in Hrun. injection Hrun as <-.
  vm_compute in Hcalls. subst calls.
  reflexivity.
Defined.

(** ** The batches of a frame and of a run *)

Section WholeFrameLemmas.

Context {McubesParams : Type}.
Local Abbreviation State := (Globals McubesParams).

Lemma slotsOfBatch_ring_slots (c : Z) (M : nat) (B i : Z) :
  1 <= B -> 0 <= i -> i * B < Z.of_nat M ->
  slotsOfBatch c M B i
  = ring_slots (ring_cursor c (Z.to_nat (i * B))) (batchItems B (Z.of_nat M) i).
Proof.
  intros HB Hi Hlt. unfold slotsOfBatch, jobsOfBatch. rewrite ring_slots_length.
  set (a := Z.to_nat (i * B)). set (n := batchItems B (Z.of_nat M) i).
  replace (ring_slots c M) with (ring_slots c (a + (n + (M - a - n))))
    by (f_equal; subst a n; unfold batchItems; lia).
  rewrite !ring_slots_app.
  rewrite drop_app_length' by (rewrite ring_slots_length; reflexivity).
  rewrite take_app_length' by (rewrite ring_slots_length; reflexivity).
  reflexivity.
Qed.

Lemma batchCountOf_ring_slots (paramsList : list McubesParams) (c B : Z) :
  batchCountOf (ring_slots c (length paramsList)) B = batchCountOf paramsList B.
Proof. unfold batchCountOf. rewrite ring_slots_length. reflexivity. Qed.

Lemma batchChunks_allocs (allocs : list (VkCall McubesParams)) :
  Forall isAllocate allocs -> batchChunks allocs = [].
Proof.
  intros H. apply batchChunks_no_submit. eapply Forall_impl; [exact H|].
  intros x Hx q s f ->. exact Hx.
Qed.

Lemma graphicsDraws_app (a b : list (VkCall McubesParams)) :
  graphicsDraws (a ++ b) = graphicsDraws a ++ graphicsDraws b.
Proof. apply flat_map_app. Qed.

Lemma graphicsDraws_plain (calls : list (VkCall McubesParams)) :
  Forall isPlainCall calls -> graphicsDraws calls = [].
Proof. apply flat_map_nil_Forall. intros c. destruct c; cbn; tauto. Qed.

Lemma graphicsDraws_signalValues (calls : list (VkCall McubesParams)) :
  map fst (graphicsDraws calls) = signalValues s_graphicsDoneTimelineSemaphore calls.
Proof.
  induction calls as [|x calls IH]; [reflexivity|].
  change (x :: calls) with ([x] ++ calls).
  rewrite graphicsDraws_app, signalValues_app, map_app, IH. f_equal.
  destruct x; try reflexivity. cbn.
  destruct (signalSemaphore submit) as [[[] v]|]; reflexivity.
Qed.

Lemma assignedSlots_batchChunks (calls : list (VkCall McubesParams)) :
  assignedSlots calls = concat (batchChunks calls).
Proof.
  induction calls as [|x calls IH]; [reflexivity|].
  change (x :: calls) with ([x] ++ calls).
  rewrite assignedSlots_app, batchChunks_app, concat_app, IH. f_equal.
  destruct x; try reflexivity. cbn. rewrite !app_nil_r.
  induction (commands submit) as [|cmd cmds IHc]; [reflexivity|].
  cbn. rewrite IHc, concat_app. f_equal. destruct cmd; cbn; rewrite ?app_nil_r; reflexivity.
Qed.

(** The slots a frame assigns are the slots after the cursor, one per job. *)
Lemma concat_slotsOfBatch (paramsList : list McubesParams) (c B : Z) :
  1 <= B ->
  concat (map (slotsOfBatch c (length paramsList) B) (seqZ 0 (batchCountOf paramsList B)))
  = ring_slots c (length paramsList).
Proof.
  intros HB. unfold slotsOfBatch.
  rewrite <- (batchCountOf_ring_slots paramsList c B).
  apply jobsOfBatch_concat_all. exact HB.
Qed.

(** Where the cursor is after the first [i] batches of a frame. *)
Lemma frame_cursor_step (c : Z) (M : nat) (B i : Z) :
  1 <= B -> 0 <= i -> i * B < Z.of_nat M ->
  ring_cursor (ring_cursor c (Z.to_nat (Z.min (i * B) (Z.of_nat M))))
    (batchItems B (Z.of_nat M) i)
  = ring_cursor c (Z.to_nat (Z.min ((i + 1) * B) (Z.of_nat M))).
Proof.
  intros HB Hi Hlt. rewrite <- ring_cursor_add. f_equal. unfold batchItems. lia.
Qed.

(** A frame of the two-queue scheduler: its batches, what each draws and
    signals, and the values of the chunks at the end. *)
Lemma twoQueuesFrame_batches (pGui : Gui) (paramsList : list McubesParams) (st : State) :
  let B := effectiveBatchSize pGui in
  let bc := batchCountOf paramsList B in
  let c := s_mcubesChunkIndex st in
  let M := length paramsList in
  Core st ->
  Z.of_nat (length paramsList) + 6 <= 2 ^ 32 ->
  s_upcomingTimelineValue st + bc < 2 ^ 64 ->
  exists st' calls,
    computeDrawCommandsTwoQueues pGui paramsList st = Ok st'
    /\ Core st'
    /\ s_upcomingTimelineValue st' = s_upcomingTimelineValue st + bc
    /\ s_mcubesChunkIndex st' = ring_cursor c M
    /\ vk_calls st' = vk_calls st ++ calls
    /\ batchChunks calls = map (slotsOfBatch c M B) (seqZ 0 bc)
    /\ graphicsDraws calls
       = map (fun k => (s_upcomingTimelineValue st + k, slotsOfBatch c M B k)) (seqZ 0 bc)
    /\ forall p, 0 <= p < MCUBES_CHUNK_COUNT ->
         g_mcubesChunkArray st' !! Z.to_nat p
         = Some (default (slotValue (g_mcubesChunkArray st) p)
                   (last (drawSignals p calls))).
Proof.
  intros B bc c M HCore HM Hwrap.
  pose proof (effectiveBatchSize_range pGui) as HB. fold B in HB.
  assert (0 <= bc <= Z.of_nat (length paramsList)) as Hbc
    by (apply batchCount_bounds; lia).
  assert (Z.of_nat M <= bc * B) as Hcover.
  { unfold bc, batchCountOf. fold M.
    pose proof (Z.mul_succ_div_gt (Z.of_nat M + B - 1) B ltac:(lia)). lia. }
  destruct (computeDrawCommandsTwoQueues_spec
              (fun i s =>
                 0 <= i
                 /\ s_mcubesChunkIndex s
                    = ring_cursor c (Z.to_nat (Z.min (i * B) (Z.of_nat M)))
                 /\ s_upcomingTimelineValue s = s_upcomingTimelineValue st + i
                 /\ length (g_mcubesChunkArray s) = 12%nat
                 /\ exists calls,
                      vk_calls s = vk_calls st ++ calls
                      /\ batchChunks calls = map (slotsOfBatch c M B) (seqZ 0 i)
                      /\ graphicsDraws calls
                         = map (fun k => (s_upcomingTimelineValue st + k,
                                          slotsOfBatch c M B k)) (seqZ 0 i)
                      /\ forall p, 0 <= p < MCUBES_CHUNK_COUNT ->
                           g_mcubesChunkArray s !! Z.to_nat p
                           = Some (default (slotValue (g_mcubesChunkArray st) p)
                                     (last (drawSignals p calls))))
              pGui paramsList st HCore HM Hwrap)
    as [st' (Hrun & _ & HC' & Hup' & HJ)].
  - split; [lia|].
    split; [rewrite Z.mul_0_l, Z.min_l by lia; reflexivity|]. split; [cbn; lia|].
    split; [exact (proj1 HCore)|].
    eexists. split; [unfold twoQueuesBegin; cbn [vk_calls call set_calls];
                     rewrite <- !app_assoc; reflexivity|].
    split; [reflexivity|]. split; [reflexivity|].
    intros p Hp. cbn [drawSignals flat_map app last default].
    cbn [twoQueuesBegin g_mcubesChunkArray call set_calls]. unfold slotValue.
    destruct (lookup_lt_is_Some_2 (g_mcubesChunkArray st) (Z.to_nat p)) as [v Hv];
      [rewrite (proj1 HCore); unfold MCUBES_CHUNK_COUNT in Hp; lia|].
    rewrite Hv. reflexivity.
  - intros batch loc s loc' s' Hb (Hpos & Hcur & Hups & Hlen & calls & Hcalls & Hbatches
                                     & Hdraws & Harr) E.
    change (batchCountOf paramsList (effectiveBatchSize pGui)) with bc in Hb.
    assert (batch * B < Z.of_nat M) as Hlt.
    { pose proof Hb as Hb'. apply batch_lt_count; unfold bc, batchCountOf in Hb'; unfold M;
        lia. }
    destruct E as (Hci & Hca & Hup1 & _ & _ & _ & _ & _
                   & (allocs & hC & hG & boxes & colors & Hallocs & Hcalls1) & _).
    change (effectiveBatchSize pGui) with B in Hci, Hca, Hcalls1.
    change (length paramsList) with M in Hci, Hca, Hcalls1.
    assert (ring_slots (s_mcubesChunkIndex s) (batchItems B (Z.of_nat M) batch)
            = slotsOfBatch c M B batch) as Hslots.
    { rewrite Hcur, slotsOfBatch_ring_slots by lia. do 2 f_equal. lia. }
    rewrite Hslots in Hca, Hcalls1.
    set (slots := slotsOfBatch c M B batch) in *.
    assert (Forall (fun q => 0 <= q) slots) as Hposs.
    { rewrite <- Hslots. eapply Forall_impl; [apply ring_slots_range|].
      cbv beta. intros; lia. }
    split; [lia|].
    split; [rewrite Hci, Hcur; apply frame_cursor_step; lia|].
    split; [rewrite Hup1, Hups; unfold to_uint64; rewrite Z.mod_small;
            destruct HCore as (_ & ? & _); lia|].
    split; [rewrite Hca, markSlots_length; exact Hlen|].
    eexists.
    split; [rewrite Hcalls1, Hcalls, <- !app_assoc; reflexivity|].
    assert (forall first last,
              flat_map drawnChunks
                (commands (graphicsSubmitInfo (McubesParams := McubesParams)
                             (s_upcomingTimelineValue s) hG first last slots boxes colors))
              = slots) as Hdrawn
      by (intros [] []; cbn; rewrite ?app_nil_r; reflexivity).
    split; [| split].
    + rewrite !batchChunks_app, Hbatches, (batchChunks_allocs _ Hallocs).
      rewrite seqZ_app by lia. rewrite map_app. f_equal.
      replace (seqZ (0 + batch) 1) with [batch] by (cbn; f_equal; lia).
      destruct (batch =? 0), (batch =? to_uint32 _); reflexivity.
    + rewrite !graphicsDraws_app, Hdraws,
        (graphicsDraws_plain _ (isAllocate_plain _ Hallocs)).
      rewrite seqZ_app by lia. rewrite map_app. f_equal.
      replace (seqZ (0 + batch) 1) with [batch] by (cbn; f_equal; lia).
      cbn [app graphicsDraws flat_map computeSubmitInfo signalSemaphore map].
      change (signalSemaphore (graphicsSubmitInfo ?v ?h ?f ?l ?sl ?b ?co))
        with (Some (s_graphicsDoneTimelineSemaphore, v)).
      cbv iota beta. rewrite Hdrawn, Hups. reflexivity.
    + intros p Hp. rewrite !drawSignals_app.
      rewrite (drawSignals_plain p allocs (isAllocate_plain _ Hallocs)).
      match goal with
      | |- context [drawSignals p [?a; ?b]] =>
          assert (drawSignals p [a; b]
                  = if existsb (Z.eqb p) slots then [s_upcomingTimelineValue s] else [])
            as ->
      end.
      { destruct (batch =? 0), (batch =? to_uint32 _); cbn; rewrite ?app_nil_r;
          reflexivity. }
      rewrite Hca.
      destruct (existsb (Z.eqb p) slots) eqn:Ex.
      * apply existsb_eqb_elem_of in Ex.
        cbn [app]. rewrite last_snoc. cbn [default].
        apply markSlots_lookup_in; try assumption; [lia|].
        unfold MCUBES_CHUNK_COUNT in Hp. lia.
      * assert (p ∉ slots) as Hnin.
        { intros Hin. apply existsb_eqb_elem_of in Hin. congruence. }
        rewrite !app_nil_r.
        rewrite markSlots_lookup_notin by (assumption || lia). auto.
  - change (batchCountOf paramsList (effectiveBatchSize pGui)) with bc in HJ, Hup'.
    destruct HJ as (_ & Hcur & _ & _ & calls & Hcalls & Hbatches & Hdraws & Harr).
    exists st', calls. split; [exact Hrun|]. split; [exact HC'|]. split; [exact Hup'|].
    split; [rewrite Hcur; f_equal; lia|]. auto.
Qed.

(** A frame of the single-queue scheduler: its batches. *)
Lemma gctOnlyFrame_batches (pGui : Gui) (paramsList : list McubesParams) (st : State) :
  let B := effectiveBatchSize pGui in
  let bc := batchCountOf paramsList B in
  let c := s_mcubesChunkIndex st in
  let M := length paramsList in
  Z.of_nat (length paramsList) + 6 <= 2 ^ 32 ->
  exists st' calls,
    computeDrawCommandsGctOnly pGui paramsList st = Ok st'
    /\ s_upcomingTimelineValue st' = s_upcomingTimelineValue st
    /\ g_mcubesChunkArray st' = g_mcubesChunkArray st
    /\ s_mcubesChunkIndex st' = ring_cursor c M
    /\ vk_calls st' = vk_calls st ++ calls
    /\ batchChunks calls = map (slotsOfBatch c M B) (seqZ 0 bc)
    /\ graphicsDraws calls = [].
Proof.
  intros B bc c M HM.
  pose proof (effectiveBatchSize_range pGui) as HB. fold B in HB.
  assert (0 <= bc <= Z.of_nat (length paramsList)) as Hbc
    by (apply batchCount_bounds; lia).
  assert (Z.of_nat M <= bc * B) as Hcover.
  { unfold bc, batchCountOf. fold M.
    pose proof (Z.mul_succ_div_gt (Z.of_nat M + B - 1) B ltac:(lia)). lia. }
  destruct (computeDrawCommandsGctOnly_spec
              (fun i s =>
                 0 <= i
                 /\ s_mcubesChunkIndex s
                    = ring_cursor c (Z.to_nat (Z.min (i * B) (Z.of_nat M)))
                 /\ s_upcomingTimelineValue s = s_upcomingTimelineValue st
                 /\ g_mcubesChunkArray s = g_mcubesChunkArray st
                 /\ exists calls,
                      vk_calls s = vk_calls st ++ calls
                      /\ batchChunks calls = map (slotsOfBatch c M B) (seqZ 0 i)
                      /\ graphicsDraws calls = [])
              pGui paramsList st HM)
    as [st' (Hrun & _ & HJ)].
  - split; [lia|].
    split; [rewrite Z.mul_0_l, Z.min_l by lia; reflexivity|].
    split; [reflexivity|]. split; [reflexivity|].
    eexists. split; [unfold gctOnlyBegin; cbn [vk_calls call set_calls];
                     rewrite <- !app_assoc; reflexivity|].
    split; reflexivity.
  - intros batch [[nci fcu] s] [[nci' fcu'] s'] Hb
      (Hpos & Hcur & Hups & Harr & calls & Hcalls & Hbatches & Hdraws) E.
    cbn [fst snd] in *.
    change (batchCountOf paramsList (effectiveBatchSize pGui)) with bc in Hb.
    assert (batch * B < Z.of_nat M) as Hlt.
    { pose proof Hb as Hb'. apply batch_lt_count; unfold bc, batchCountOf in Hb'; unfold M;
        lia. }
    destruct E as (Hci & Hca & Hup1 & _ & _ & _ & _ & _ & _
                   & (allocs & hG & boxes & colors & Hallocs & Hcalls1) & _).
    cbn [fst snd] in *.
    change (effectiveBatchSize pGui) with B in Hci, Hcalls1.
    change (length paramsList) with M in Hci, Hcalls1.
    assert (ring_slots (s_mcubesChunkIndex s) (batchItems B (Z.of_nat M) batch)
            = slotsOfBatch c M B batch) as Hslots.
    { rewrite Hcur, slotsOfBatch_ring_slots by lia. do 2 f_equal. lia. }
    rewrite Hslots in Hcalls1.
    split; [lia|].
    split; [rewrite Hci, Hcur; apply frame_cursor_step; lia|].
    split; [congruence|]. split; [congruence|].
    eexists.
    split; [rewrite Hcalls1, Hcalls, <- !app_assoc; reflexivity|].
    split.
    + rewrite !batchChunks_app, Hbatches, (batchChunks_allocs _ Hallocs).
      rewrite seqZ_app by lia. rewrite map_app. f_equal.
      replace (seqZ (0 + batch) 1) with [batch] by (cbn; f_equal; lia).
      destruct (batch =? 0), (batch =? to_uint32 _); reflexivity.
    + rewrite !graphicsDraws_app, Hdraws,
        (graphicsDraws_plain _ (isAllocate_plain _ Hallocs)).
      reflexivity.
  - change (batchCountOf paramsList (effectiveBatchSize pGui)) with bc in HJ.
    destruct HJ as (_ & Hcur & Hup & Harr & calls & Hcalls & Hbatches & Hdraws).
    exists st', calls. split; [exact Hrun|]. split; [exact Hup|]. split; [exact Harr|].
    split; [rewrite Hcur; f_equal; lia|]. auto.
Qed.

Lemma quietlyAfter_refl (st : State) : quietlyAfter st st.
Proof.
  repeat split. exists []. rewrite app_nil_r. repeat split.
Qed.

Lemma quietlyAfter_Core (st s : State) : quietlyAfter st s -> Core st -> Core s.
Proof.
  intros (Hup & _ & Harr & _) HC. unfold Core. rewrite Hup, Harr. exact HC.
Qed.

(** One turn of the frame loop: the slots it assigns. *)
Lemma mainLoopBody_batches (input : FrameInput McubesParams) (st : State) :
  let c := s_mcubesChunkIndex st in
  let M := length (fi_jobs input) in
  Core st ->
  jobsFit input ->
  s_upcomingTimelineValue st + frameTicks input < 2 ^ 64 ->
  exists pGui st' calls,
    mainLoopBody input st = Ok (pGui, st')
    /\ Core st'
    /\ s_upcomingTimelineValue st' = s_upcomingTimelineValue st + frameTicks input
    /\ s_mcubesChunkIndex st' = ring_cursor c M
    /\ vk_calls st' = vk_calls st ++ calls
    /\ assignedSlots calls = ring_slots c M.
Proof.
  intros c M HCore HM Hwrap. unfold mainLoopBody.
  set (st1 := set_frameNumber _ st).
  assert (quietlyAfter st st1) as H1.
  { repeat split. exists []. cbn. rewrite app_nil_r. repeat split. }
  set (pGui := fi_gui input) in *.
  set (st2 := if negb (Bool.eqb (m_wantComputeQueue pGui) (s_useComputeQueue st1))
              then set_useComputeQueue (m_wantComputeQueue pGui) (call vkDeviceWaitIdle st1)
              else st1).
  assert (quietlyAfter st st2
          /\ s_useComputeQueue st2 = m_wantComputeQueue pGui) as (H2 & Hq2).
  { subst st2.
    destruct (Bool.eqb (m_wantComputeQueue pGui) (s_useComputeQueue st1)) eqn:Eq;
      cbn [negb].
    - apply Bool.eqb_prop in Eq. split; [exact H1 | auto].
    - split; [| reflexivity]. repeat split.
      exists [vkDeviceWaitIdle]. repeat split. }
  clearbody st2. clear H1 st1.
  set (r := if m_wantSetEquation pGui
            then
              let st := call vkDeviceWaitIdle st2 in
              let '(success, st) :=
                computeReplaceEquation (fi_compiler input) (m_equationInput pGui) st in
              (set_equationResult (negb success) pGui, st)
            else (pGui, st2)).
  assert (quietlyAfter st (snd r)
          /\ s_useComputeQueue (snd r) = m_wantComputeQueue pGui
          /\ effectiveBatchSize (fst r) = effectiveBatchSize pGui)
    as (H3 & Hq3 & HB3).
  { subst r. destruct (m_wantSetEquation pGui); [| cbn [fst snd]; auto].
    cbv zeta.
    destruct (computeReplaceEquation_Core (fi_compiler input) (m_equationInput pGui)
                (call vkDeviceWaitIdle st2)) as (_ & _ & Hqr).
    destruct (computeReplaceEquation_effect (fi_compiler input) (m_equationInput pGui)
                (call vkDeviceWaitIdle st2))
      as (Hupr & Hcir & Harr & prepend & rest & Hcallsr & Hrest).
    destruct (computeReplaceEquation (fi_compiler input) (m_equationInput pGui)
                (call vkDeviceWaitIdle st2)) as [success st3].
    cbn [fst snd] in *.
    split; [| split; [rewrite Hqr; exact Hq2 | reflexivity]].
    destruct H2 as (Hup2 & Hci2 & Har2 & calls2 & Hcalls2 & Hb2 & Hd2).
    split; [rewrite Hupr; exact Hup2|]. split; [rewrite Hcir; exact Hci2|].
    split; [rewrite Harr; exact Har2|].
    exists (calls2 ++ vkDeviceWaitIdle :: createShaderModule prepend :: rest).
    split; [rewrite Hcallsr; cbn [call set_calls vk_calls];
            rewrite Hcalls2, <- !app_assoc; reflexivity|].
    change (vkDeviceWaitIdle :: createShaderModule prepend :: rest)
      with ([vkDeviceWaitIdle; createShaderModule prepend] ++ rest).
    rewrite !batchChunks_app, !graphicsDraws_app, Hb2, Hd2.
    rewrite (graphicsDraws_plain rest Hrest).
    rewrite (batchChunks_no_submit rest).
    - split; reflexivity.
    - eapply Forall_impl; [exact Hrest|]. intros x Hx q s f ->. exact Hx. }
  clearbody r. destruct r as [pGui3 st3]. cbn [fst snd] in *.
  pose proof (quietlyAfter_Core _ _ H3 HCore) as HC3.
  destruct H3 as (Hup3 & Hci3 & _ & calls3 & Hcalls3 & Hb3 & _).
  pose proof (effectiveBatchSize_range pGui3) as HB.
  unfold frameTicks in *. fold pGui in Hwrap |- *. unfold jobsFit in HM.
  rewrite Hq3. destruct (m_wantComputeQueue pGui).
  - destruct (twoQueuesFrame_batches pGui3 (fi_jobs input) st3 HC3 HM)
      as (st' & calls & Hrun & HC' & Hup' & Hci' & Hcalls' & Hbatches & _).
    { rewrite HB3, Hup3. exact Hwrap. }
    rewrite Hrun. cbn [bind snd]. exists pGui3, st', (calls3 ++ calls).
    split; [reflexivity|]. split; [exact HC'|].
    split; [rewrite Hup', HB3, Hup3; reflexivity|].
    split; [rewrite Hci', Hci3; reflexivity|].
    split; [rewrite Hcalls', Hcalls3, <- app_assoc; reflexivity|].
    rewrite assignedSlots_batchChunks, batchChunks_app, Hb3, Hbatches, Hci3.
    apply concat_slotsOfBatch. lia.
  - destruct (gctOnlyFrame_batches pGui3 (fi_jobs input) st3 HM)
      as (st' & calls & Hrun & Hup' & Harr' & Hci' & Hcalls' & Hbatches & _).
    rewrite Hrun. cbn [bind snd]. exists pGui3, st', (calls3 ++ calls).
    split; [reflexivity|].
    split; [unfold Core; rewrite Hup', Harr'; exact HC3|].
    split; [rewrite Hup', Hup3; lia|].
    split; [rewrite Hci', Hci3; reflexivity|].
    split; [rewrite Hcalls', Hcalls3, <- app_assoc; reflexivity|].
    rewrite assignedSlots_batchChunks, batchChunks_app, Hb3, Hbatches, Hci3.
    apply concat_slotsOfBatch. lia.
Qed.

(** A run of the frame loop assigns one slot per job of every frame. *)
Lemma runFrames_batches (inputs : list (FrameInput McubesParams)) :
  forall st : State,
    Core st ->
    Forall jobsFit inputs ->
    s_upcomingTimelineValue st + runTicks inputs < 2 ^ 64 ->
    exists st' calls,
      runFrames inputs st = Ok st'
      /\ s_mcubesChunkIndex st'
         = ring_cursor (s_mcubesChunkIndex st) (length (runJobs inputs))
      /\ vk_calls st' = vk_calls st ++ calls
      /\ assignedSlots calls
         = ring_slots (s_mcubesChunkIndex st) (length (runJobs inputs)).
Proof.
  induction inputs as [|input inputs IH]; intros st HCore Hfit Hwrap.
  - exists st, []. cbn. rewrite app_nil_r. repeat split.
  - inversion Hfit as [|? ? Hfit1 Hfit2]; subst.
    cbn [runTicks foldr] in Hwrap. fold (runTicks inputs) in Hwrap.
    pose proof (runTicks_nonneg inputs) as Hpos.
    destruct (mainLoopBody_batches input st HCore Hfit1 ltac:(lia))
      as (pGui & st1 & calls1 & Hrun & HC1 & Hup1 & Hci1 & Hcalls1 & Hslots1).
    destruct (IH st1 HC1 Hfit2 ltac:(lia)) as (st' & calls & Hrun' & Hci' & Hcalls' & Hslots').
    exists st', (calls1 ++ calls). cbn [runFrames]. rewrite Hrun. cbn [bind snd].
    split; [exact Hrun'|].
    unfold runJobs. cbn [flat_map]. fold (runJobs inputs). rewrite length_app.
    split; [rewrite Hci', Hci1, ring_cursor_add; reflexivity|].
    split; [rewrite Hcalls', Hcalls1, <- app_assoc; reflexivity|].
    rewrite assignedSlots_app, Hslots1, Hslots', Hci1, ring_slots_app. reflexivity.
Qed.

End WholeFrameLemmas.


(** ** Claims C8, C6 and C4: whole frames and runs *)

Lemma slotsOfBatch_consecutive (c : Z) (M : nat) (B i : Z) :
  1 <= B <= MCUBES_MAX_CHUNKS_PER_BATCH -> 0 <= i -> (i + 1) * B < Z.of_nat M ->
  NoDup (slotsOfBatch c M B i ++ slotsOfBatch c M B (i + 1)).
Proof.
  unfold MCUBES_MAX_CHUNKS_PER_BATCH. intros HB Hi Hlt.
  rewrite !slotsOfBatch_ring_slots by lia.
  replace (Z.to_nat ((i + 1) * B))
    with (Z.to_nat (i * B) + batchItems B (Z.of_nat M) i)%nat
    by (unfold batchItems; lia).
  rewrite ring_cursor_add, <- ring_slots_app.
  apply ring_slots_NoDup. unfold batchItems. lia.
Qed.

(** C8. In every run from the initial state, across batches, frames and
    queue modes, each ring-buffer slot handed to a job is the successor,
    modulo [MCUBES_CHUNK_COUNT], of the slot handed out before it, and the
    first one is slot 1 (the cursor starts at 0 and is advanced before use).
    The run hands out one slot for each job of each of its frames, whichever
    scheduler runs the frame: slot number i of the run (from 0) is
    (i + 1) mod 12, and the cursor ends on the number of jobs modulo 12.  A
    frame of either scheduler, from any state, hands out the slots that
    follow the cursor, one for each of its jobs, and leaves the cursor on the
    last of them.  For 64 jobs in batches of 6 the slots are
    1, 2, ..., 11, 0, 1, ... *)
Theorem C8_slots_round_robin {McubesParams : Type} (imagePipeline : VkPipeline)
  (inputs : list (FrameInput McubesParams)) :
  Forall jobsFit inputs ->
  1 + runTicks inputs < 2 ^ 64 ->
  (exists st,
      runFrames inputs (initialGlobals imagePipeline) = Ok st
      /\ round_robin (assignedSlots (vk_calls st))
      /\ (forall first, head (assignedSlots (vk_calls st)) = Some first -> first = 1)
      /\ (forall latest, last (assignedSlots (vk_calls st)) = Some latest ->
                         s_mcubesChunkIndex st = latest)
      /\ assignedSlots (vk_calls st)
         = map (fun i => (i + 1) mod MCUBES_CHUNK_COUNT)
               (seqZ 0 (Z.of_nat (length (assignedSlots (vk_calls st)))))
      /\ length (assignedSlots (vk_calls st)) = length (runJobs inputs)
      /\ s_mcubesChunkIndex st = Z.of_nat (length (runJobs inputs)) mod MCUBES_CHUNK_COUNT)
  /\ (forall (pGui : Gui) (paramsList : list McubesParams) (st : Globals McubesParams),
        Z.of_nat (length paramsList) + 6 <= 2 ^ 32 ->
        exists st' calls,
          computeDrawCommandsGctOnly pGui paramsList st = Ok st'
          /\ vk_calls st' = vk_calls st ++ calls
          /\ assignedSlots calls = ring_slots (s_mcubesChunkIndex st) (length paramsList)
          /\ s_mcubesChunkIndex st'
             = ring_cursor (s_mcubesChunkIndex st) (length paramsList))
  /\ (forall (pGui : Gui) (paramsList : list McubesParams) (st : Globals McubesParams),
        Core st ->
        Z.of_nat (length paramsList) + 6 <= 2 ^ 32 ->
        s_upcomingTimelineValue st + batchCountOf paramsList (effectiveBatchSize pGui)
        < 2 ^ 64 ->
        exists st' calls,
          computeDrawCommandsTwoQueues pGui paramsList st = Ok st'
          /\ vk_calls st' = vk_calls st ++ calls
          /\ assignedSlots calls = ring_slots (s_mcubesChunkIndex st) (length paramsList)
          /\ s_mcubesChunkIndex st'
             = ring_cursor (s_mcubesChunkIndex st) (length paramsList)).
Proof.
  intros Hfit Hwrap. split; [| split].
  - destruct (runFrames_batches inputs (initialGlobals imagePipeline)
                (initialGlobals_Core imagePipeline) Hfit Hwrap)
      as (st & calls & Hrun & Hc & Hcalls & Hs).
    exists st. split; [exact Hrun|].
    cbn [vk_calls initialGlobals app] in Hcalls. subst calls.
    change (s_mcubesChunkIndex (initialGlobals imagePipeline)) with 0 in Hc, Hs.
    set (k := length (runJobs inputs)) in *.
    rewrite Hs, Hc. split; [apply ring_slots_round_robin|].
    split; [| split; [| split; [| split]]].
    + destruct k as [|k]; [discriminate|]. cbn. intros first H. inversion H. reflexivity.
    + destruct k as [|k]; [discriminate|]. rewrite ring_slots_S, last_snoc.
      intros latest H. inversion H. reflexivity.
    + rewrite ring_slots_length. apply list_eq. intros i.
      destruct (decide (i < k)%nat) as [Hi | Hi].
      * rewrite ring_slots_lookup by exact Hi.
        change (map ?f ?l) with (f <$> l). rewrite list_lookup_fmap.
        rewrite (lookup_seqZ_lt 0 (Z.of_nat k) i) by lia. cbn [fmap option_fmap option_map].
        rewrite ring_cursor_mod by (unfold MCUBES_CHUNK_COUNT; lia).
        f_equal. f_equal. lia.
      * rewrite !(proj2 (lookup_ge_None _ _)); [reflexivity | |].
        -- rewrite length_map, length_seqZ. lia.
        -- rewrite ring_slots_length. lia.
    + apply ring_slots_length.
    + rewrite ring_cursor_mod by (unfold MCUBES_CHUNK_COUNT; lia). reflexivity.
  - intros pGui paramsList st HM.
    pose proof (effectiveBatchSize_range pGui) as HB.
    destruct (gctOnlyFrame_batches pGui paramsList st HM)
      as (st' & calls & Hrun & _ & _ & Hci & Hcalls & Hbatches & _).
    exists st', calls. split; [exact Hrun|]. split; [exact Hcalls|].
    split; [| exact Hci].
    rewrite assignedSlots_batchChunks, Hbatches. apply concat_slotsOfBatch. lia.
  - intros pGui paramsList st HCore HM Hw.
    pose proof (effectiveBatchSize_range pGui) as HB.
    destruct (twoQueuesFrame_batches pGui paramsList st HCore HM Hw)
      as (st' & calls & Hrun & _ & _ & Hci & Hcalls & Hbatches & _).
    exists st', calls. split; [exact Hrun|]. split; [exact Hcalls|].
    split; [| exact Hci].
    rewrite assignedSlots_batchChunks, Hbatches. apply concat_slotsOfBatch. lia.
Qed.

Lemma C8_slots_round_robin_witness :
  Forall jobsFit [exampleFrame 64 6 true; exampleFrame 7 3 false; exampleFrame 5 6 true]
  /\ 1 + runTicks [exampleFrame 64 6 true; exampleFrame 7 3 false; exampleFrame 5 6 true]
     < 2 ^ 64
  /\ (exists st,
        runFrames [exampleFrame 64 6 true; exampleFrame 7 3 false; exampleFrame 5 6 true]
          (initialGlobals 1) = Ok st
        /\ round_robin (assignedSlots (vk_calls st))
        /\ length (assignedSlots (vk_calls st)) = 76%nat
        /\ s_mcubesChunkIndex st = 4
        /\ assignedSlots (vk_calls st)
           = [1; 2; 3; 4; 5; 6; 7; 8; 9; 10; 11; 0; 1; 2; 3; 4; 5; 6; 7; 8; 9; 10; 11;
             0; 1; 2; 3; 4; 5; 6; 7; 8; 9; 10; 11; 0; 1; 2; 3; 4; 5; 6; 7; 8; 9; 10;
             11; 0; 1; 2; 3; 4; 5; 6; 7; 8; 9; 10; 11; 0; 1; 2; 3; 4; 5; 6; 7; 8; 9;
             10; 11; 0; 1; 2; 3; 4])
  /\ (exists st' calls,
        computeDrawCommandsGctOnly (exampleGui 6 false) (seq 0 64) (initialGlobals 1)
        = Ok st'
        /\ vk_calls st' = calls
        /\ assignedSlots calls = ring_slots 0 64
        /\ s_mcubesChunkIndex st' = 4).
Proof.
  assert (Forall jobsFit
            [exampleFrame 64 6 true; exampleFrame 7 3 false; exampleFrame 5 6 true])
    as Hfit by (repeat constructor; apply exampleFrame_fits; lia).
  assert (1 + runTicks
                [exampleFrame 64 6 true; exampleFrame 7 3 false; exampleFrame 5 6 true]
          < 2 ^ 64) as Hwrap by (vm_compute; reflexivity).
  split; [exact Hfit|]. split; [exact Hwrap|].
  destruct (C8_slots_round_robin 1 _ Hfit Hwrap)
    as ((st & Hrun & Hrr & _ & _ & Hall & Hlen & Hc) & Hgct & _).
  split.
  - exists st. split; [exact Hrun|]. split; [exact Hrr|].
    split; [exact Hlen|]. split; [exact Hc|].
    rewrite Hall, Hlen. reflexivity.
  - destruct (Hgct (exampleGui 6 false) (seq 0 64) (initialGlobals 1))
      as (st' & calls & Hrun' & Hcalls & Hs & Hci).
    { vm_compute. discriminate. }
    exists st', calls. split; [exact Hrun'|]. split; [exact Hcalls|].
    split; [exact Hs | exact Hci].
Defined.

(** C6, amended. In single-queue mode the effective batch size B satisfies
    2 * B <= MCUBES_CHUNK_COUNT for every GUI batch size, so the assertion
    [batchSize <= MCUBES_CHUNK_COUNT / 2] never fails and the frame is
    scheduled; and a slot written by one batch is never reused by the batch
    that immediately follows it: the batches of a single-queue frame take the
    slots that follow the cursor, and two batches submitted one after the
    other, in one frame or in two frames of a run, share no slot.  A GUI
    batch size above 6, such as 7, is not rejected: it is clamped to 6. *)
Theorem C6_gct_batch_size_at_most_half_pool {McubesParams : Type} (pGui : Gui)
  (paramsList : list McubesParams) (st : Globals McubesParams) :
  let B := effectiveBatchSize pGui in
  Z.of_nat (length paramsList) + 6 <= 2 ^ 32 ->
  2 * B <= MCUBES_CHUNK_COUNT
  /\ (exists st' calls,
        computeDrawCommandsGctOnly pGui paramsList st = Ok st'
        /\ vk_calls st' = vk_calls st ++ calls
        /\ batchChunks calls
           = map (slotsOfBatch (s_mcubesChunkIndex st) (length paramsList) B)
                 (seqZ 0 (batchCountOf paramsList B))
        /\ consecutiveBatchesDisjoint calls)
  /\ (MCUBES_MAX_CHUNKS_PER_BATCH <= m_batchSize pGui < 2 ^ 31 ->
      B = MCUBES_MAX_CHUNKS_PER_BATCH)
  /\ (forall (imagePipeline : VkPipeline) (inputs : list (FrameInput McubesParams)),
        Forall jobsFit inputs ->
        1 + runTicks inputs < 2 ^ 64 ->
        exists st_end,
          runFrames inputs (initialGlobals imagePipeline) = Ok st_end
          /\ consecutiveBatchesDisjoint (vk_calls st_end)).
Proof.
  intros B HM. pose proof (effectiveBatchSize_range pGui) as HB. fold B in HB.
  split; [unfold MCUBES_CHUNK_COUNT, MCUBES_MAX_CHUNKS_PER_BATCH in *; lia|].
  split; [| split].
  - destruct (gctOnlyFrame_batches pGui paramsList st HM)
      as (st' & calls & Hrun & _ & _ & _ & Hcalls & Hbatches & _).
    fold B in Hbatches.
    exists st', calls. split; [exact Hrun|]. split; [exact Hcalls|].
    split; [exact Hbatches|].
    intros i a b Ha Hb. rewrite Hbatches in Ha, Hb.
    change (map ?f ?l) with (f <$> l) in Ha, Hb.
    rewrite list_lookup_fmap in Ha, Hb.
    destruct (seqZ 0 (batchCountOf paramsList B) !! i) as [x|] eqn:Ex; [| discriminate Ha].
    destruct (seqZ 0 (batchCountOf paramsList B) !! S i) as [y|] eqn:Ey;
      [| discriminate Hb].
    apply lookup_seqZ in Ex, Ey. injection Ha as <-. injection Hb as <-.
    replace y with (x + 1) by lia.
    apply slotsOfBatch_consecutive; [exact HB | lia |].
    apply batch_lt_count; [lia | lia | lia |]. unfold batchCountOf in Ey. lia.
  - intros Hm. unfold B, effectiveBatchSize, glm_clamp, to_uint32,
      MCUBES_MAX_CHUNKS_PER_BATCH in *.
    rewrite Z.mod_small by lia. lia.
  - intros imagePipeline inputs Hfit Hwrap.
    destruct (runFrames_initial_steps imagePipeline inputs Hfit Hwrap)
      as [st_end (Hrun & Hrtc)].
    exists st_end. split; [exact Hrun|].
    assert (BatchInv st_end) as (_ & Hcons & _); [| exact Hcons].
    apply (frame_invariant BatchInv BatchInv_step _ _ Hrtc).
    split; [constructor|]. split.
    + intros i a b Hi. cbn in Hi. discriminate Hi.
    + intros a Ha. cbn in Ha. discriminate Ha.
Qed.

Lemma C6_gct_batch_size_at_most_half_pool_witness :
  Z.of_nat (length (seq 0 13)) + 6 <= 2 ^ 32
  /\ 2 * effectiveBatchSize (exampleGui 7 false) <= MCUBES_CHUNK_COUNT
  /\ (exists st' calls,
        computeDrawCommandsGctOnly (exampleGui 7 false) (seq 0 13) (initialGlobals 1)
        = Ok st'
        /\ vk_calls st' = calls
        /\ batchChunks calls = [[1; 2; 3; 4; 5; 6]; [7; 8; 9; 10; 11; 0]; [1]]
        /\ consecutiveBatchesDisjoint calls).
Proof.
  assert (Z.of_nat (length (seq 0 13)) + 6 <= 2 ^ 32) as HM by (vm_compute; discriminate).
  split; [exact HM|].
  destruct (C6_gct_batch_size_at_most_half_pool (exampleGui 7 false) (seq 0 13)
              (initialGlobals 1) HM)
    as (H2B & (st' & calls & Hrun & Hcalls & Hbatches & Hdisj) & _).
  split; [exact H2B|].
  exists st', calls. split; [exact Hrun|]. split; [exact Hcalls|].
  split; [exact Hbatches | exact Hdisj].
Defined.

(** C4. A batch of the two-queue scheduler, started in a state that
    satisfies the clock invariant, ends with the submission to the graphics
    queue, which signals the current [s_upcomingTimelineValue] and draws the
    chunks selected for the batch; each of these chunks then has that value
    as its [timelineValue], and no other chunk is changed.  A frame of the
    two-queue scheduler runs one such batch for each batch of its jobs:
    batch number k draws the slots of batch k and signals the clock of the
    start of the frame plus k, and at the end of the frame each chunk's
    [timelineValue] is the value signalled by the last batch of the frame
    that drew it, and the value it had before for a chunk that no batch of
    the frame drew.  Consequently, at the end of every run from the initial
    state, each chunk's [timelineValue] is the value signalled by the last
    two-queue batch that drew it (and 0 for a chunk that no two-queue batch
    has drawn), the two-queue batches of the run having signalled 1, 2, ...
    in this order. *)
Theorem C4_chunk_timeline_value_is_batch_signal {McubesParams : Type}
  (imagePipeline : VkPipeline) (inputs : list (FrameInput McubesParams))
  (pGui : Gui) (paramsList : list McubesParams) (batch : Z) (loc : TwoQueuesLocals)
  (st : Globals McubesParams) :
  let B := effectiveBatchSize pGui in
  let bc := batchCountOf paramsList B in
  Forall jobsFit inputs ->
  1 + runTicks inputs < 2 ^ 64 ->
  Core st ->
  Z.of_nat (length paramsList) + 6 <= 2 ^ 32 ->
  0 <= batch < bc ->
  0 <= computeWaitTimelineValue loc < s_upcomingTimelineValue st ->
  batch = 0 \/ is_Some (firstChunkUsed loc) ->
  (exists loc' st' submit,
      twoQueuesBatch pGui paramsList B bc batch (loc, st) = Ok (loc', st')
      /\ last (vk_calls st') = Some (vkQueueSubmit g_gctQueue submit None)
      /\ signalSemaphore submit
         = Some (s_graphicsDoneTimelineSemaphore, s_upcomingTimelineValue st)
      /\ flat_map drawnChunks (commands submit)
         = ring_slots (s_mcubesChunkIndex st)
             (batchItems B (Z.of_nat (length paramsList)) batch)
      /\ (forall p, p ∈ flat_map drawnChunks (commands submit) ->
            g_mcubesChunkArray st' !! Z.to_nat p = Some (s_upcomingTimelineValue st))
      /\ (forall p, 0 <= p -> p ∉ flat_map drawnChunks (commands submit) ->
            g_mcubesChunkArray st' !! Z.to_nat p = g_mcubesChunkArray st !! Z.to_nat p))
  /\ (exists st_end,
        runFrames inputs (initialGlobals imagePipeline) = Ok st_end
        /\ (forall p, 0 <= p < MCUBES_CHUNK_COUNT ->
              g_mcubesChunkArray st_end !! Z.to_nat p
              = Some (default 0 (last (drawSignals p (vk_calls st_end)))))
        /\ map fst (graphicsDraws (vk_calls st_end)) = seqZ 1 (runTicks inputs))
  /\ (s_upcomingTimelineValue st + bc < 2 ^ 64 ->
      exists st' calls,
        computeDrawCommandsTwoQueues pGui paramsList st = Ok st'
        /\ vk_calls st' = vk_calls st ++ calls
        /\ graphicsDraws calls
           = map (fun k => (s_upcomingTimelineValue st + k,
                            slotsOfBatch (s_mcubesChunkIndex st) (length paramsList) B k))
                 (seqZ 0 bc)
        /\ (forall p, 0 <= p < MCUBES_CHUNK_COUNT ->
              g_mcubesChunkArray st' !! Z.to_nat p
              = Some (default (slotValue (g_mcubesChunkArray st) p)
                        (last (drawSignals p calls))))).
Proof.
  intros B bc Hfit Hwrap HCore HM Hb Hw Hfirst.
  pose proof (effectiveBatchSize_range pGui) as HB. fold B in HB.
  split; [| split].
  2: { destruct (chunk_timeline_values_after_run imagePipeline inputs Hfit Hwrap)
         as (st_end & Hrun & Hvalues).
       exists st_end. split; [exact Hrun|]. split; [exact Hvalues|].
       destruct (runFrames_initial imagePipeline inputs Hfit Hwrap)
         as [st2 (Hrun2 & Hrtc & _ & Hup)].
       rewrite Hrun in Hrun2. injection Hrun2 as <-.
       assert (ClockInv st_end) as (_ & _ & Hg).
       { apply (sched_invariant ClockInv ClockInv_step _ _ Hrtc).
         unfold ClockInv. cbn. split; [lia|]. split; reflexivity. }
       rewrite graphicsDraws_signalValues, Hg, Hup. f_equal. lia. }
  2: { intros Hnowrap.
       destruct (twoQueuesFrame_batches pGui paramsList st HCore HM Hnowrap)
         as (st' & calls & Hrun & _ & _ & _ & Hcalls & _ & Hdraws & Hvalues).
       exists st', calls. auto. }
  assert (batch * B < Z.of_nat (length paramsList)) as Hlt
    by (apply batch_lt_count; unfold bc, batchCountOf in Hb; lia).
  destruct HCore as (Hlen & Hup & Hall).
  assert (maxTimelineValue (computeWaitTimelineValue loc) (g_mcubesChunkArray st)
            (ring_slots (s_mcubesChunkIndex st)
               (batchItems B (Z.of_nat (length paramsList)) batch))
          < s_upcomingTimelineValue st) as Hwait
    by (apply maxTimelineValue_bound; [lia | exact Hall | exact Hw]).
  destruct (twoQueuesBatch_spec pGui paramsList B bc batch loc st HB HM ltac:(lia) Hlt
              Hlen Hfirst Hwait) as [loc' [st' [Hrun E]]].
  destruct E as (_ & Hca & _ & _ & _ & _ & _ & _
                 & (allocs & hC & hG & boxes & colors & _ & Hcalls) & _).
  set (slots := ring_slots (s_mcubesChunkIndex st)
                  (batchItems B (Z.of_nat (length paramsList)) batch)) in *.
  assert (Forall (fun q => 0 <= q) slots) as Hpos.
  { eapply Forall_impl; [apply ring_slots_range|]. cbv beta. intros; lia. }
  assert (Forall (fun q => 0 <= q < MCUBES_CHUNK_COUNT) slots) as Hrange
    by apply ring_slots_range.
  eexists loc', st', _. split; [exact Hrun|].
  split.
  { rewrite Hcalls, app_assoc.
    match goal with
    | |- last (?l ++ [?a; ?b]) = _ =>
        change (l ++ [a; b]) with (l ++ [a] ++ [b]); rewrite (app_assoc l [a] [b])
    end.
    apply last_snoc. }
  split; [reflexivity|].
  assert (flat_map drawnChunks
            (commands (graphicsSubmitInfo (s_upcomingTimelineValue st) hG (batch =? 0)
                         (batch =? to_uint32 (bc - 1)) slots boxes colors)) = slots)
    as Hdrawn.
  { destruct (batch =? 0), (batch =? to_uint32 (bc - 1)); cbn; rewrite ?app_nil_r;
      reflexivity. }
  split; [exact Hdrawn|]. rewrite Hdrawn, Hca. split.
  - intros p Hp. apply markSlots_lookup_in; try assumption.
    + exact (proj1 (Forall_forall _ _) Hpos p Hp).
    + pose proof (proj1 (Forall_forall _ _) Hrange p Hp) as Hpr.
      unfold MCUBES_CHUNK_COUNT in Hpr. lia.
  - intros p Hp Hnin. apply markSlots_lookup_notin; assumption.
Qed.

Lemma C4_chunk_timeline_value_is_batch_signal_witness :
  (exists loc' st' submit,
      twoQueuesBatch (exampleGui 6 true) (seq 0 64) 6 11 0
        ({| nextCmdBufIndex := 0;
            computeWaitTimelineValue := 0;
            computeSignalTimelineValue := 0;
            graphicsWaitTimelineValue := 0;
            graphicsSignalTimelineValue := 0;
            firstChunkUsed := None |}, initialGlobals 1) = Ok (loc', st')
      /\ last (vk_calls st') = Some (vkQueueSubmit g_gctQueue submit None)
      /\ signalSemaphore submit = Some (s_graphicsDoneTimelineSemaphore, 1)
      /\ flat_map drawnChunks (commands submit) = [1; 2; 3; 4; 5; 6]
      /\ forall p, p ∈ flat_map drawnChunks (commands submit) ->
           g_mcubesChunkArray st' !! Z.to_nat p = Some 1)
  /\ (exists st_end,
        runFrames [exampleFrame 64 6 true; exampleFrame 64 6 false; exampleFrame 64 3 true]
          (initialGlobals 1) = Ok st_end
        /\ (forall p, 0 <= p < MCUBES_CHUNK_COUNT ->
              g_mcubesChunkArray st_end !! Z.to_nat p
              = Some (default 0 (last (drawSignals p (vk_calls st_end)))))
        /\ length (graphicsDraws (vk_calls st_end)) = 33%nat)
  /\ (exists st' calls,
        computeDrawCommandsTwoQueues (exampleGui 6 true) (seq 0 64) (initialGlobals 1)
        = Ok st'
        /\ vk_calls st' = calls
        /\ graphicsDraws calls
           = [(1, [1; 2; 3; 4; 5; 6]); (2, [7; 8; 9; 10; 11; 0]);
              (3, [1; 2; 3; 4; 5; 6]); (4, [7; 8; 9; 10; 11; 0]);
              (5, [1; 2; 3; 4; 5; 6]); (6, [7; 8; 9; 10; 11; 0]);
              (7, [1; 2; 3; 4; 5; 6]); (8, [7; 8; 9; 10; 11; 0]);
              (9, [1; 2; 3; 4; 5; 6]); (10, [7; 8; 9; 10; 11; 0]);
              (11, [1; 2; 3; 4])]
        /\ g_mcubesChunkArray st' = [10; 11; 11; 11; 11; 9; 9; 10; 10; 10; 10; 10]).
Proof.
  assert (Forall jobsFit
            [exampleFrame 64 6 true; exampleFrame 64 6 false; exampleFrame 64 3 true])
    as Hfit by (repeat constructor; apply exampleFrame_fits; lia).
  assert (1 + runTicks
                [exampleFrame 64 6 true; exampleFrame 64 6 false; exampleFrame 64 3 true]
          < 2 ^ 64) as Hwrap by (vm_compute; reflexivity).
  assert (Z.of_nat (length (seq 0 64)) + 6 <= 2 ^ 32) as HM by (vm_compute; discriminate).
  assert (0 <= 0 < batchCountOf (seq 0 64) (effectiveBatchSize (exampleGui 6 true)))
    as Hb by (vm_compute; split; [discriminate | reflexivity]).
  destruct (C4_chunk_timeline_value_is_batch_signal 1 _ (exampleGui 6 true) (seq 0 64) 0
              {| nextCmdBufIndex := 0;
                 computeWaitTimelineValue := 0;
                 computeSignalTimelineValue := 0;
                 graphicsWaitTimelineValue := 0;
                 graphicsSignalTimelineValue := 0;
                 firstChunkUsed := None |}
              (initialGlobals 1) Hfit Hwrap (initialGlobals_Core 1) HM Hb
              ltac:(cbn; lia) (or_introl eq_refl))
    as ((loc' & st' & submit & Hrun & Hlast & Hsig & Hdrawn & Hin & _) & Hend & Hframe).
  split; [| split].
  - exists loc', st', submit.
    split; [exact Hrun|]. split; [exact Hlast|]. split; [exact Hsig|].
    split; [exact Hdrawn | exact Hin].
  - destruct Hend as (st_end & Hrun_end & Hvalues & Hsignals).
    exists st_end. split; [exact Hrun_end|]. split; [exact Hvalues|].
    rewrite <- (length_map fst), Hsignals. reflexivity.
  - destruct Hframe as (st2 & calls & Hrun2 & Hcalls & Hdraws & Hvalues).
    { vm_compute. reflexivity. }
    exists st2, calls. split; [exact Hrun2|]. split; [exact Hcalls|].
    split; [exact Hdraws|].
    vm_compute in Hrun2. injection Hrun2 as <-. reflexivity.
Defined.
